(** * wedevctl: address pool, storage layer, topology manager and
      configuration generator, embedded from the Go sources.

    - [Util]  : package util (IP pool, validator, endpoint formatting)
    - [Wedev] : package wedev (storage.go, the virtual network manager and
                the WireGuard configuration generator)

    Go values are embedded as follows.  A [string] is a Rocq [string]; an
    [int] is a [Z], and where a 64-bit [int] can wrap (the shift in
    [NewIPPool], the version counter of [SaveConfigVersion]) the wrap is
    written out; a [time.Time] is a [Z]; a [net.IP] is the list of its
    bytes, [nil] being the empty list; a [map[string]T] is a
    [gmap string T]; a bbolt bucket is a [gmap] from keys to the decoded
    records, visited in ascending key order; an [error] is a constructor
    of [error] naming the [fmt.Errorf] site.  What a function draws from
    outside the program (a fresh UUID, the clock, generated keys) is an
    argument of its embedding. *)

From Stdlib Require Import ZArith Lia List String Ascii DecimalString.
From stdpp Require Import gmap strings list fin_maps sorting.

Local Open Scope string_scope.
Local Open Scope list_scope.
Local Open Scope Z_scope.

(** ** Errors and results *)

(** One constructor per [fmt.Errorf] site of the modelled functions. *)
Inductive error : Type :=
| ErrInvalidCIDR            (* "invalid CIDR: ..." *)
| ErrOnlyIPv4               (* "only IPv4 subnets are supported" *)
| ErrTooSmall               (* "network must have at least 3 usable IPs" *)
| ErrNoAvailableIPs         (* "no available IPs in pool ..." *)
| ErrEmptyIP                (* "IP cannot be empty" *)
| ErrAlreadyAllocated       (* "IP %s is already allocated" *)
| ErrReleaseServerIP        (* "cannot release server IP" *)
| ErrNotAllocated           (* "IP %s is not allocated" *)
| ErrInvalidNetworkName     (* validator: network name *)
| ErrInvalidPublicAddress   (* validator: public address *)
| ErrPeerNeedsAddress       (* "peer type nodes require a public address" *)
| ErrKeyGeneration          (* util.GenerateWireGuardKeys failed *)
| ErrNetworkNameExists      (* "network name %q already exists" *)
| ErrNetworkNotFound        (* "network %q not found" *)
| ErrNetworkDataNotFound    (* "network data not found" *)
| ErrServerAlreadyExists    (* "server already exists for network %q" *)
| ErrServerNameExists       (* "server name %q already exists" *)
| ErrServerNotFound         (* "server %q not found" / "server not found ..." *)
| ErrServerDataNotFound     (* "server data not found" *)
| ErrNoServerForNetwork     (* "no server found for network %q" *)
| ErrNoServerInNetwork      (* "no server found in network" *)
| ErrNodeNameExists         (* "node name %q already exists" *)
| ErrNodeNotFound           (* "node %q not found" *)
| ErrNodeDataNotFound       (* "node data not found" *)
| ErrNoConfigVersion        (* "no config version found for network %q" *)
| ErrPoolStateNotFound      (* "IP pool state not found for network %s" *)
| ErrKeyRequired.           (* bbolt: Put with an empty key *)

Inductive result (A : Type) : Type :=
| Ok (a : A)
| Err (e : error).
Arguments Ok {A} a.
Arguments Err {A} e.

#[global] Instance result_ret : MRet result := fun A a => Ok a.
#[global] Instance result_bind : MBind result := fun A B k r =>
  match r with
  | Ok a => k a
  | Err e => Err e
  end.

Definition is_ok {A : Type} (r : result A) : bool :=
  match r with Ok _ => true | Err _ => false end.

(** [fmt.Sprintf("%d", n)]. *)
Definition itoa (n : Z) : string := NilZero.string_of_int (Z.to_int n).

(** ** Package util *)
Module Util.

(** *** net.IP: byte slices and their text form *)

Definition IP : Type := list Z.

Definition v4InV6Prefix : list Z := [0; 0; 0; 0; 0; 0; 0; 0; 0; 0; 255; 255].

(** [IP.To4]: the 4-byte form, or nil. *)
Definition To4 (ip : IP) : IP :=
  if (length ip =? 4)%nat then ip
  else if ((length ip =? 16)%nat
           && bool_decide (take 12 ip = v4InV6Prefix))%bool
       then drop 12 ip
       else [].

Definition digit (d : Z) : ascii := ascii_of_N (Z.to_N (48 + d)).

(** [ubtoa]: decimal text of one byte. *)
Definition ubtoa (b : Z) : string :=
  if b <? 10 then String (digit b) ""
  else if b <? 100 then String (digit (b / 10)) (String (digit (b mod 10)) "")
  else String (digit (b / 100))
         (String (digit (b / 10 mod 10)) (String (digit (b mod 10)) "")).

Definition dotted (a b c d : Z) : string :=
  ubtoa a +:+ "." +:+ ubtoa b +:+ "." +:+ ubtoa c +:+ "." +:+ ubtoa d.

(** [IP.String] on nil and on addresses with a 4-byte form, the only ones
    the pool prints.  The IPv6 text form is not modelled; it is rendered
    as "?" here and never reached by the pool, which prints an address
    only after the [To4] test of [NewIPPool]. *)
Definition IPString (ip : IP) : string :=
  match ip with
  | [] => "<nil>"
  | _ => match To4 ip with
         | [a; b; c; d] => dotted a b c d
         | _ => "?"
         end
  end.

(** Splitting at every occurrence of a separator byte. *)
Fixpoint splitOn (sep : ascii) (s : string) : list string :=
  match s with
  | EmptyString => [EmptyString]
  | String c r =>
      if Ascii.eqb c sep then EmptyString :: splitOn sep r
      else match splitOn sep r with
           | f :: fs => String c f :: fs
           | [] => [String c EmptyString]
           end
  end.

Definition digit_val (c : ascii) : option Z :=
  let n := Z.of_N (N_of_ascii c) in
  if (48 <=? n) && (n <=? 57) then Some (n - 48) else None.

Fixpoint digits_val (s : string) (acc : Z) : option Z :=
  match s with
  | EmptyString => Some acc
  | String c r =>
      match digit_val c with
      | Some d => digits_val r (acc * 10 + d)
      | None => None
      end
  end.

(** A non-empty run of decimal digits and its value. *)
Definition dtoi (s : string) : option Z :=
  match s with
  | EmptyString => None
  | _ => digits_val s 0
  end.

(** One field of a dotted-decimal address: digits only, no leading zero,
    at most 255. *)
Definition parseOctet (s : string) : option Z :=
  match dtoi s with
  | Some v =>
      let leading0 :=
        match s with
        | String "0"%char (String _ _) => true
        | _ => false
        end in
      if (v <=? 255) && negb leading0 then Some v else None
  | None => None
  end.

Definition parseIPv4 (s : string) : option (list Z) :=
  match splitOn "."%char s with
  | [fa; fb; fc; fd] =>
      match parseOctet fa, parseOctet fb, parseOctet fc, parseOctet fd with
      | Some a, Some b, Some c, Some d => Some [a; b; c; d]
      | _, _, _, _ => None
      end
  | _ => None
  end.

(** [net.ParseIP] on dotted-decimal text: the 16-byte form of the address,
    nil when the text does not parse.  IPv6 text is outside this fragment
    of the library; the pool only ever parses text it printed itself. *)
Definition ParseIP (s : string) : IP :=
  match parseIPv4 s with
  | Some b4 => v4InV6Prefix ++ b4
  | None => []
  end.

(** [net.IPNet]; the mask is kept as the pair returned by [Mask.Size]. *)
Record IPNet : Type := mkIPNet {
  netIP : IP;
  maskOnes : Z;
  maskBits : Z
}.

(** [net.CIDRMask]: [l] mask bytes with [n] leading one bits. *)
Fixpoint CIDRMask (l : nat) (n : Z) : list Z :=
  match l with
  | O => []
  | S l' =>
      if 8 <=? n then 255 :: CIDRMask l' (n - 8)
      else Z.lxor 255 (Z.shiftr 255 n) :: CIDRMask l' 0
  end.

(** [IP.Mask] for an address and a mask of equal length. *)
Fixpoint maskBytes (ip mask : list Z) : list Z :=
  match ip, mask with
  | b :: ip', m :: mask' => Z.land b m :: maskBytes ip' mask'
  | _, _ => []
  end.

(** Cutting a string at the first occurrence of a separator byte
    ([strings.Cut]). *)
Fixpoint cut (sep : ascii) (s : string) : option (string * string) :=
  match s with
  | EmptyString => None
  | String c r =>
      if Ascii.eqb c sep then Some (EmptyString, r)
      else match cut sep r with
           | Some (a, b) => Some (String c a, b)
           | None => None
           end
  end.

(** [net.ParseCIDR] on "a.b.c.d/n" text: the address is cut from the mask
    at the first slash, the mask is a run of digits of value at most 32,
    and the result is the masked 4-byte network address with the mask size.
    Text with an IPv6 address part is outside this fragment of the library
    and reported as unparsable. *)
Definition ParseCIDR (s : string) : option IPNet :=
  match cut "/"%char s with
  | None => None
  | Some (addr, mask) =>
      match parseIPv4 addr, dtoi mask with
      | Some b4, Some n =>
          if n <=? 32
          then Some (mkIPNet (maskBytes b4 (CIDRMask 4 n)) n 32)
          else None
      | _, _ => None
      end
  end.

(** *** ippool.go *)

(** [increment]: add one to a 4-byte address, with carry, in place. *)
Fixpoint incr_from_last (rev_bytes : list Z) : list Z :=
  match rev_bytes with
  | [] => []
  | b :: rest =>
      let b' := (b + 1) mod 256 in
      if 0 <? b' then b' :: rest else b' :: incr_from_last rest
  end.

Definition increment (ip : IP) : IP :=
  match To4 ip with
  | [] => []
  | ip4 => rev (incr_from_last (rev ip4))
  end.

(** [nextIndex] and [totalUsable] are [int]s that stay far inside the
    64-bit range: at most 2^32 + 1. *)
Record IPPool : Type := mkIPPool {
  networkCIDR : string;
  serverIP : string;
  allocated : gmap string bool;
  recycled : list string;
  nextIndex : Z;
  firstUsable : string;
  lastUsable : string;
  totalUsable : Z
}.

(** [int64(1) << shift]: zero once the shift count reaches the width, and
    wrapped to the signed 64-bit range below it. *)
Definition wrap_int64 (z : Z) : Z := (z + 2 ^ 63) mod 2 ^ 64 - 2 ^ 63.

Definition shl1_int64 (shift : Z) : Z :=
  if (0 <=? shift) && (shift <? 64) then wrap_int64 (Z.shiftl 1 shift) else 0.

(** The body of [NewIPPool] after the call of [net.ParseCIDR]. *)
Definition NewIPPoolFrom (networkCIDR : string) (parsed : option IPNet)
  : result IPPool :=
  match parsed with
  | None => Err ErrInvalidCIDR
  | Some ipnet =>
      match To4 (netIP ipnet) with
      | [] => Err ErrOnlyIPv4
      | _ =>
          let shift := maskBits ipnet - maskOnes ipnet in
          let totalIPsInt := shl1_int64 shift in
          if 2 <? totalIPsInt then
            let firstIP := increment (ParseIP (IPString (netIP ipnet))) in
            let firstUsable := IPString firstIP in
            let lastIP :=
              Nat.iter (Z.to_nat (totalIPsInt - 1)) increment
                       (ParseIP (IPString (netIP ipnet))) in
            let lastUsable := IPString lastIP in
            Ok {| networkCIDR := networkCIDR;
                  serverIP := firstUsable;
                  allocated := ∅;
                  recycled := [];
                  nextIndex := 1;
                  firstUsable := firstUsable;
                  lastUsable := lastUsable;
                  totalUsable := totalIPsInt - 2 |}
          else Err ErrTooSmall
      end
  end.

Definition NewIPPool (networkCIDR : string) : result IPPool :=
  NewIPPoolFrom networkCIDR (ParseCIDR networkCIDR).

Definition GetServerIP (p : IPPool) : string := serverIP p.

(** [p.allocated[ip]]: false for a missing key. *)
Definition is_allocated (p : IPPool) (ip : string) : bool :=
  default false (allocated p !! ip).

(** The address [AllocateNodeIP] computes for cursor value [i]. *)
Definition addrAt (p : IPPool) (i : Z) : string :=
  IPString (Nat.iter (Z.to_nat i) increment (ParseIP (firstUsable p))).

Definition AllocateNodeIP (p : IPPool) : result (string * IPPool) :=
  match recycled p with
  | ip :: rest =>
      Ok (ip, {| networkCIDR := networkCIDR p; serverIP := serverIP p;
                 allocated := <[ip := true]> (allocated p);
                 recycled := rest;
                 nextIndex := nextIndex p;
                 firstUsable := firstUsable p; lastUsable := lastUsable p;
                 totalUsable := totalUsable p |})
  | [] =>
      if totalUsable p <=? nextIndex p then Err ErrNoAvailableIPs
      else
        let ip := addrAt p (nextIndex p) in
        Ok (ip, {| networkCIDR := networkCIDR p; serverIP := serverIP p;
                   allocated := <[ip := true]> (allocated p);
                   recycled := [];
                   nextIndex := nextIndex p + 1;
                   firstUsable := firstUsable p; lastUsable := lastUsable p;
                   totalUsable := totalUsable p |})
  end.

Definition MarkIPAllocated (p : IPPool) (ip : string) : result IPPool :=
  if bool_decide (ip = "") then Err ErrEmptyIP
  else if is_allocated p ip then Err ErrAlreadyAllocated
  else Ok {| networkCIDR := networkCIDR p; serverIP := serverIP p;
             allocated := <[ip := true]> (allocated p);
             recycled := recycled p;
             nextIndex := nextIndex p;
             firstUsable := firstUsable p; lastUsable := lastUsable p;
             totalUsable := totalUsable p |}.

(** The inner loop of [SyncNextIndex]: walk from [currentIP] while its text
    differs from [allocatedIP] and [index < totalUsable]. *)
Fixpoint scanIndex (fuel : nat) (total : Z) (allocatedIP : string)
                   (currentIP : IP) (index : Z) : Z :=
  match fuel with
  | O => index
  | S fuel' =>
      if negb (bool_decide (IPString currentIP = allocatedIP))
         && (index <? total)
      then scanIndex fuel' total allocatedIP (increment currentIP) (index + 1)
      else index
  end.

Definition indexOf (p : IPPool) (allocatedIP : string) : Z :=
  scanIndex (S (Z.to_nat (totalUsable p))) (totalUsable p) allocatedIP
            (ParseIP (firstUsable p)) 0.

(** [SyncNextIndex].  Go ranges over the map in an unspecified order; the
    loop computes a maximum, here folded over the map's entry list. *)
Definition syncStep (p : IPPool) (maxIndex : Z) (entry : string * bool) : Z :=
  if bool_decide (entry.1 = serverIP p) then maxIndex
  else
    let index := indexOf p entry.1 in
    if maxIndex <? index then index else maxIndex.

Definition SyncNextIndex (p : IPPool) : IPPool :=
  let maxIndex := fold_left (syncStep p) (map_to_list (allocated p)) 0 in
  {| networkCIDR := networkCIDR p; serverIP := serverIP p;
     allocated := allocated p;
     recycled := recycled p;
     nextIndex := maxIndex + 1;
     firstUsable := firstUsable p; lastUsable := lastUsable p;
     totalUsable := totalUsable p |}.

Definition ReleaseNodeIP (p : IPPool) (ip : string) : result IPPool :=
  if bool_decide (ip = serverIP p) then Err ErrReleaseServerIP
  else if negb (is_allocated p ip) then Err ErrNotAllocated
  else Ok {| networkCIDR := networkCIDR p; serverIP := serverIP p;
             allocated := delete ip (allocated p);
             recycled := recycled p ++ [ip];
             nextIndex := nextIndex p;
             firstUsable := firstUsable p; lastUsable := lastUsable p;
             totalUsable := totalUsable p |}.

(** [GetAllocatedIPs]: a new map holding [true] under every key of
    [p.allocated]. *)
Definition GetAllocatedIPs (p : IPPool) : gmap string bool :=
  (fun _ : bool => true) <$> allocated p.

Record IPPoolState : Type := mkIPPoolState {
  stNetworkCIDR : string;
  stServerIP : string;
  stAllocated : list string;
  stRecycled : list string;
  stNextIndex : Z
}.

Definition GetState (p : IPPool) : IPPoolState :=
  {| stNetworkCIDR := networkCIDR p;
     stServerIP := serverIP p;
     stAllocated :=
       filter (fun ip => ip ≠ serverIP p) (map fst (map_to_list (allocated p)));
     stRecycled := recycled p;
     stNextIndex := nextIndex p |}.

Definition RestoreIPPool (state : IPPoolState) : result IPPool :=
  pool ← NewIPPool (stNetworkCIDR state);
  let allocated1 := <[stServerIP state := true]> (allocated pool) in
  let allocated2 :=
    fold_left (fun m ip => <[ip := true]> m) (stAllocated state) allocated1 in
  Ok {| networkCIDR := networkCIDR pool; serverIP := serverIP pool;
        allocated := allocated2;
        recycled := stRecycled state;
        nextIndex := stNextIndex state;
        firstUsable := firstUsable pool; lastUsable := lastUsable pool;
        totalUsable := totalUsable pool |}.

(** [FormatEndpoint]: "address:port". *)
Definition FormatEndpoint (address : string) (port : Z) : string :=
  address +:+ ":" +:+ itoa port.

(** The [IPValidator] interface. *)
Class IPValidator : Type := {
  IsValidNetworkName : string -> result unit;
  IsValidCIDR : string -> result unit;
  IsValidPublicAddress : string -> result unit
}.

Definition is_letter (c : ascii) : bool :=
  let n := Z.of_N (N_of_ascii c) in
  ((65 <=? n) && (n <=? 90)) || ((97 <=? n) && (n <=? 122)).

Definition is_alnum (c : ascii) : bool :=
  let n := Z.of_N (N_of_ascii c) in
  is_letter c || ((48 <=? n) && (n <=? 57)).

Fixpoint all_chars (f : ascii -> bool) (s : string) : bool :=
  match s with
  | EmptyString => true
  | String c r => f c && all_chars f r
  end.

(** [DefaultIPValidator.IsValidNetworkName]: the name is not empty and
    matches [^[a-zA-Z][a-zA-Z0-9]*$]. *)
Definition defaultIsValidNetworkName (name : string) : result unit :=
  match name with
  | EmptyString => Err ErrInvalidNetworkName
  | String c r =>
      if is_letter c && all_chars is_alnum r then Ok tt
      else Err ErrInvalidNetworkName
  end.

(** [DefaultIPValidator.IsValidCIDR]. *)
Definition defaultIsValidCIDR (cidr : string) : result unit :=
  match ParseCIDR cidr with
  | None => Err ErrInvalidCIDR
  | Some _ => Ok tt
  end.

(** [DefaultIPValidator.IsValidPublicAddress], with [net.ParseIP] restricted
    to dotted-decimal text as above. *)
Fixpoint contains_char (c : ascii) (s : string) : bool :=
  match s with
  | EmptyString => false
  | String c' r => Ascii.eqb c' c || contains_char c r
  end.

Definition defaultIsValidPublicAddress (addr : string) : result unit :=
  if bool_decide (addr = "") then Err ErrInvalidPublicAddress
  else match ParseIP addr with
       | _ :: _ => Ok tt
       | [] =>
           if contains_char " "%char addr then Err ErrInvalidPublicAddress
           else if negb (contains_char "."%char addr)
                   && negb (bool_decide (addr = "localhost"))
                then Err ErrInvalidPublicAddress
                else Ok tt
       end.

#[global] Instance DefaultIPValidator : IPValidator := {
  IsValidNetworkName := defaultIsValidNetworkName;
  IsValidCIDR := defaultIsValidCIDR;
  IsValidPublicAddress := defaultIsValidPublicAddress
}.

(** [WireGuardKeyPair]; [GenerateWireGuardKeys] draws it from the system's
    random source, so the callers below take its outcome as an argument. *)
Record WireGuardKeyPair : Type := mkKeys {
  PrivateKey : string;
  PublicKey : string
}.

End Util.

(** ** Package wedev *)
Module Wedev.
Import Util.

(** *** storage.go: records *)

Module VirtualNetwork.
Record t : Type := mk {
  ID : string;
  Name : string;
  CIDR : string;
  CreatedAt : Z
}.
End VirtualNetwork.

Module Server.
Record t : Type := mk {
  ID : string;
  NetworkID : string;
  Name : string;
  PublicAddress : string;
  Port : Z;
  VirtualIP : string;
  PrivateKey : string;
  PublicKey : string;
  CreatedAt : Z;
  UpdatedAt : Z
}.
End Server.

Definition NodeType : Type := string.
Definition NodeTypePeer : NodeType := "peer".
Definition NodeTypeRoute : NodeType := "route".

(** The field [Type] of the source is [Type_] here. *)
Module Node.
Record t : Type := mk {
  ID : string;
  NetworkID : string;
  Name : string;
  PublicAddress : string;
  Port : Z;
  VirtualIP : string;
  Type_ : NodeType;
  PrivateKey : string;
  PublicKey : string;
  CreatedAt : Z;
  UpdatedAt : Z
}.
End Node.

Module ConfigVersion.
Record t : Type := mk {
  ID : string;
  NetworkID : string;
  Version : Z;
  ContentHash : string;
  Configs : gmap string string;
  CreatedAt : Z
}.
End ConfigVersion.

Module StorageManager.

(** *** Limits of the store

    [bbolt.MaxKeySize], the longest key [Bucket.Put] accepts, in bytes. *)
Definition MaxKeySize : Z := 32768.

(** The bytes of a text. *)
Definition bytesOfString (s : string) : list Z :=
  map (fun c => Z.of_N (N_of_ascii c)) (list_ascii_of_string s).

Definition inRange (b lo hi : Z) : bool := (lo <=? b) && (b <=? hi).

(** [utf8.Valid]: the bytes are a sequence of well-formed UTF-8 encodings
    (one byte below 0x80; a lead byte 0xC2..0xF4 followed by one, two or
    three continuation bytes, the first of them in the range that excludes
    overlong forms, surrogates and values above U+10FFFF). *)
Fixpoint validUTF8 (l : list Z) : bool :=
  match l with
  | [] => true
  | b0 :: r0 =>
      if b0 <? 128 then validUTF8 r0
      else if b0 <? 194 then false
      else if b0 <=? 223 then
        match r0 with
        | b1 :: r1 => inRange b1 128 191 && validUTF8 r1
        | _ => false
        end
      else if b0 <=? 239 then
        match r0 with
        | b1 :: b2 :: r2 =>
            inRange b1 (if b0 =? 224 then 160 else 128)
                       (if b0 =? 237 then 159 else 191)
            && inRange b2 128 191 && validUTF8 r2
        | _ => false
        end
      else if b0 <=? 244 then
        match r0 with
        | b1 :: b2 :: b3 :: r3 =>
            inRange b1 (if b0 =? 240 then 144 else 128)
                       (if b0 =? 244 then 143 else 191)
            && inRange b2 128 191 && inRange b3 128 191 && validUTF8 r3
        | _ => false
        end
      else false
  end.

(** [utf8.ValidString]: [json.Marshal] keeps exactly these texts as they
    are. *)
Definition ValidString (s : string) : bool := validUTF8 (bytesOfString s).

(** *** storage.go: the database

    One field per bbolt bucket.  A bucket holds the records as they were
    written.  In the program a record is stored as the text [json.Marshal]
    gives and read back with [json.Unmarshal]; the encoder writes U+FFFD
    for every byte of a text that is not part of a valid UTF-8 sequence, so
    the record read back is the record written exactly when its texts are
    valid UTF-8 ([ValidString] below).  The buckets here do not rewrite
    texts: what is stated about a record read back after a write is stated
    for valid texts.  Every exported operation of the storage manager runs
    in one transaction: it yields the new database, or an error and no
    change. *)
Record DB : Type := mkDB {
  networks : gmap string VirtualNetwork.t;
  networks_by_name : gmap string string;
  servers : gmap string Server.t;
  servers_by_name : gmap string string;
  nodes : gmap string Node.t;
  nodes_by_name : gmap string string;
  configs : gmap string ConfigVersion.t;
  configs_by_version : gmap string string;
  ip_pools : gmap string IPPoolState
}.

(** [NewStorageManager] on a new file: every bucket exists and is empty. *)
Definition emptyDB : DB := mkDB ∅ ∅ ∅ ∅ ∅ ∅ ∅ ∅ ∅.

Definition key_le {V : Type} (x y : string * V) : Prop :=
  Is_true (String.leb x.1 y.1).

#[global] Instance key_le_dec {V : Type} (x y : string * V) :
  Decision (key_le x y) := _.

(** [Bucket.ForEach] visits the entries in ascending byte order of keys. *)
Definition bucket_items {V : Type} (b : gmap string V) : list (string * V) :=
  merge_sort key_le (map_to_list b).

(** [Bucket.Put]: an empty key is refused.  bbolt refuses as well a key of
    more than [MaxKeySize] bytes and a value of more than [2^31 - 2] bytes;
    these two checks are not part of this function: what is stated about a
    write that succeeds is stated for keys within [MaxKeySize] and for
    records whose texts are within it, which encode to far fewer bytes
    than the limit on values. *)
Definition Put {V : Type} (b : gmap string V) (key : string) (v : V)
  : result (gmap string V) :=
  if bool_decide (key = "") then Err ErrKeyRequired else Ok (<[key := v]> b).

(** The composite key of the per-network name indices. *)
Definition nameKey (networkID name : string) : string :=
  networkID +:+ ":" +:+ name.

Definition CreateNetwork (db : DB) (name cidr : string) (newID : string)
                         (now : Z) : result (DB * VirtualNetwork.t) :=
  if bool_decide (is_Some (networks_by_name db !! name))
  then Err ErrNetworkNameExists
  else
    let network := VirtualNetwork.mk newID name cidr now in
    networks' ← Put (networks db) (VirtualNetwork.ID network) network;
    nameIdx' ← Put (networks_by_name db) name (VirtualNetwork.ID network);
    Ok (mkDB networks' nameIdx' (servers db) (servers_by_name db)
             (nodes db) (nodes_by_name db) (configs db)
             (configs_by_version db) (ip_pools db), network).

Definition GetNetworkByName (db : DB) (name : string)
  : result VirtualNetwork.t :=
  match networks_by_name db !! name with
  | None => Err ErrNetworkNotFound
  | Some id =>
      match networks db !! id with
      | None => Err ErrNetworkDataNotFound
      | Some network => Ok network
      end
  end.

Definition GetNetworkByID (db : DB) (id : string) : result VirtualNetwork.t :=
  match networks db !! id with
  | None => Err ErrNetworkNotFound
  | Some network => Ok network
  end.

Definition ListNetworks (db : DB) : list VirtualNetwork.t :=
  fold_left
    (fun networks (kv : string * VirtualNetwork.t) => networks ++ [kv.2])
    (bucket_items (networks db)) [].

(** [DeleteNetwork].  Each scan visits the entries its bucket held when the
    scan began and deletes, as it goes, the entries of the network from the
    bucket and from the bucket's index; the keys deleted from an index are
    built from the network ID and the name stored in the record. *)
Definition deleteServersOf (idStr : string)
    (buckets : gmap string Server.t * gmap string string)
    (kv : string * Server.t) : gmap string Server.t * gmap string string :=
  if bool_decide (Server.NetworkID kv.2 = idStr)
  then (delete kv.1 buckets.1,
        delete (nameKey idStr (Server.Name kv.2)) buckets.2)
  else buckets.

Definition deleteNodesOf (idStr : string)
    (buckets : gmap string Node.t * gmap string string)
    (kv : string * Node.t) : gmap string Node.t * gmap string string :=
  if bool_decide (Node.NetworkID kv.2 = idStr)
  then (delete kv.1 buckets.1,
        delete (nameKey idStr (Node.Name kv.2)) buckets.2)
  else buckets.

(** The inner scan over the version index: every entry whose value is the
    network ID goes. *)
Definition deleteVersionIndexOf (idStr : string)
    (byVer : gmap string string) : gmap string string :=
  fold_left
    (fun (byVer : gmap string string) (kv2 : string * string) =>
       if bool_decide (kv2.2 = idStr) then delete kv2.1 byVer else byVer)
    (bucket_items byVer) byVer.

Definition deleteConfigsOf (idStr : string)
    (buckets : gmap string ConfigVersion.t * gmap string string)
    (kv : string * ConfigVersion.t)
  : gmap string ConfigVersion.t * gmap string string :=
  if bool_decide (ConfigVersion.NetworkID kv.2 = idStr)
  then (delete kv.1 buckets.1, deleteVersionIndexOf idStr buckets.2)
  else buckets.

Definition DeleteNetwork (db : DB) (name : string) : result DB :=
  match networks_by_name db !! name with
  | None => Err ErrNetworkNotFound
  | Some idStr =>
      let '(servers', serversByName') :=
        fold_left (deleteServersOf idStr) (bucket_items (servers db))
                  (servers db, servers_by_name db) in
      let '(nodes', nodesByName') :=
        fold_left (deleteNodesOf idStr) (bucket_items (nodes db))
                  (nodes db, nodes_by_name db) in
      let '(configs', configsByVer') :=
        fold_left (deleteConfigsOf idStr) (bucket_items (configs db))
                  (configs db, configs_by_version db) in
      Ok (mkDB (delete idStr (networks db)) (delete name (networks_by_name db))
               servers' serversByName' nodes' nodesByName'
               configs' configsByVer' (delete idStr (ip_pools db)))
  end.

(** The scan of [CreateServer]: is there a server of this network? *)
Definition serverExistsFor (db : DB) (networkID : string) : bool :=
  fold_left
    (fun found (kv : string * Server.t) =>
       if bool_decide (Server.NetworkID kv.2 = networkID) then true else found)
    (bucket_items (servers db)) false.

Definition CreateServer (db : DB) (networkID name publicAddress : string)
    (port : Z) (virtualIP privateKey publicKey : string)
    (newID : string) (now : Z) : result (DB * Server.t) :=
  if bool_decide (networks db !! networkID = None)
  then Err ErrNetworkNotFound
  else if serverExistsFor db networkID then Err ErrServerAlreadyExists
  else
    let nameKey := nameKey networkID name in
    if bool_decide (is_Some (servers_by_name db !! nameKey))
    then Err ErrServerNameExists
    else
      let server :=
        Server.mk newID networkID name publicAddress port virtualIP
                  privateKey publicKey now now in
      servers' ← Put (servers db) (Server.ID server) server;
      byName' ← Put (servers_by_name db) nameKey (Server.ID server);
      Ok (mkDB (networks db) (networks_by_name db) servers' byName'
               (nodes db) (nodes_by_name db) (configs db)
               (configs_by_version db) (ip_pools db), server).

Definition GetServerByName (db : DB) (networkID name : string)
  : result Server.t :=
  match servers_by_name db !! nameKey networkID name with
  | None => Err ErrServerNotFound
  | Some id =>
      match servers db !! id with
      | None => Err ErrServerDataNotFound
      | Some server => Ok server
      end
  end.

(** The scan keeps the last matching server in key order. *)
Definition GetServerByNetworkID (db : DB) (networkID : string)
  : result Server.t :=
  match fold_left
          (fun found (kv : string * Server.t) =>
             if bool_decide (Server.NetworkID kv.2 = networkID)
             then Some kv.2 else found)
          (bucket_items (servers db)) None with
  | None => Err ErrNoServerForNetwork
  | Some server => Ok server
  end.

(** [UpdateServer]: the record under [id] gets the new address, port and
    update time; its error "server not found" is [ErrServerNotFound]. *)
Definition UpdateServer (db : DB) (id publicAddress : string) (port : Z)
    (now : Z) : result DB :=
  match servers db !! id with
  | None => Err ErrServerNotFound
  | Some server =>
      let server :=
        Server.mk (Server.ID server) (Server.NetworkID server)
                  (Server.Name server) publicAddress port
                  (Server.VirtualIP server) (Server.PrivateKey server)
                  (Server.PublicKey server) (Server.CreatedAt server) now in
      servers' ← Put (servers db) id server;
      Ok (mkDB (networks db) (networks_by_name db) servers'
               (servers_by_name db) (nodes db) (nodes_by_name db) (configs db)
               (configs_by_version db) (ip_pools db))
  end.

(** [DeleteServer]: the scan yields the key and the name of the network's
    server; the primary entry is deleted under that key and the name index
    is asked to delete the key [serverName]. *)
Definition DeleteServer (db : DB) (networkID : string) : result DB :=
  let '(serverID, serverName) :=
    fold_left
      (fun acc (kv : string * Server.t) =>
         if bool_decide (Server.NetworkID kv.2 = networkID)
         then (kv.1, Server.Name kv.2) else acc)
      (bucket_items (servers db)) ("", "") in
  if bool_decide (serverID = "") then Err ErrServerNotFound
  else
    Ok (mkDB (networks db) (networks_by_name db)
             (delete serverID (servers db))
             (delete serverName (servers_by_name db))
             (nodes db) (nodes_by_name db) (configs db)
             (configs_by_version db) (ip_pools db)).

Definition CreateNode (db : DB) (networkID name publicAddress : string)
    (port : Z) (virtualIP : string) (nodeType : NodeType)
    (privateKey publicKey : string) (newID : string) (now : Z)
  : result (DB * Node.t) :=
  if bool_decide (networks db !! networkID = None)
  then Err ErrNetworkNotFound
  else
    let nameKey := nameKey networkID name in
    if bool_decide (is_Some (nodes_by_name db !! nameKey))
    then Err ErrNodeNameExists
    else
      let node :=
        Node.mk newID networkID name publicAddress port virtualIP nodeType
                privateKey publicKey now now in
      nodes' ← Put (nodes db) (Node.ID node) node;
      byName' ← Put (nodes_by_name db) nameKey (Node.ID node);
      Ok (mkDB (networks db) (networks_by_name db) (servers db)
               (servers_by_name db) nodes' byName' (configs db)
               (configs_by_version db) (ip_pools db), node).

Definition GetNodeByName (db : DB) (networkID name : string)
  : result Node.t :=
  match nodes_by_name db !! nameKey networkID name with
  | None => Err ErrNodeNotFound
  | Some id =>
      match nodes db !! id with
      | None => Err ErrNodeDataNotFound
      | Some node => Ok node
      end
  end.

Definition ListNodesByNetworkID (db : DB) (networkID : string)
  : list Node.t :=
  fold_left
    (fun nodes (kv : string * Node.t) =>
       if bool_decide (Node.NetworkID kv.2 = networkID)
       then nodes ++ [kv.2] else nodes)
    (bucket_items (nodes db)) [].

(** [UpdateNode]: the record under [id] gets the new address, port, type
    and update time; its error "node not found" is [ErrNodeNotFound]. *)
Definition UpdateNode (db : DB) (id publicAddress : string) (port : Z)
    (nodeType : NodeType) (now : Z) : result DB :=
  match nodes db !! id with
  | None => Err ErrNodeNotFound
  | Some node =>
      let node :=
        Node.mk (Node.ID node) (Node.NetworkID node) (Node.Name node)
                publicAddress port (Node.VirtualIP node) nodeType
                (Node.PrivateKey node) (Node.PublicKey node)
                (Node.CreatedAt node) now in
      nodes' ← Put (nodes db) id node;
      Ok (mkDB (networks db) (networks_by_name db) (servers db)
               (servers_by_name db) nodes' (nodes_by_name db) (configs db)
               (configs_by_version db) (ip_pools db))
  end.

Definition DeleteNode (db : DB) (networkID name : string) : result DB :=
  let nameKey := nameKey networkID name in
  match nodes_by_name db !! nameKey with
  | None => Err ErrNodeNotFound
  | Some id =>
      Ok (mkDB (networks db) (networks_by_name db) (servers db)
               (servers_by_name db)
               (delete id (nodes db)) (delete nameKey (nodes_by_name db))
               (configs db) (configs_by_version db) (ip_pools db))
  end.

(** The scan of storage [SaveConfigVersion] for the next version number;
    [c.Version + 1] is 64-bit addition. *)
Definition nextVersion (db : DB) (networkID : string) : Z :=
  fold_left
    (fun nextVer (kv : string * ConfigVersion.t) =>
       if bool_decide (ConfigVersion.NetworkID kv.2 = networkID)
          && (nextVer <=? ConfigVersion.Version kv.2)
       then wrap_int64 (ConfigVersion.Version kv.2 + 1) else nextVer)
    (bucket_items (configs db)) 1.

Definition SaveConfigVersion (db : DB) (networkID contentHash : string)
    (cfgs : gmap string string) (newID : string) (now : Z)
  : result (DB * ConfigVersion.t) :=
  let nextVer := nextVersion db networkID in
  let config :=
    ConfigVersion.mk newID networkID nextVer contentHash cfgs now in
  configs' ← Put (configs db) (ConfigVersion.ID config) config;
  Ok (mkDB (networks db) (networks_by_name db) (servers db)
           (servers_by_name db) (nodes db) (nodes_by_name db) configs'
           (configs_by_version db) (ip_pools db), config).

Definition GetLatestConfigVersion (db : DB) (networkID : string)
  : result ConfigVersion.t :=
  match fold_left
          (fun (latestConfig : option ConfigVersion.t)
               (kv : string * ConfigVersion.t) =>
             if bool_decide (ConfigVersion.NetworkID kv.2 = networkID) then
               match latestConfig with
               | None => Some kv.2
               | Some l =>
                   if ConfigVersion.Version l <? ConfigVersion.Version kv.2
                   then Some kv.2 else latestConfig
               end
             else latestConfig)
          (bucket_items (configs db)) None with
  | None => Err ErrNoConfigVersion
  | Some c => Ok c
  end.

(** [GetConfigVersion]: the scan keeps the last record of the network with
    this version number.  The function has one error, "config version %d
    not found for network %q"; it is [None] here. *)
Definition GetConfigVersion (db : DB) (networkID : string) (version : Z)
  : option ConfigVersion.t :=
  fold_left
    (fun (config : option ConfigVersion.t) (kv : string * ConfigVersion.t) =>
       if bool_decide (ConfigVersion.NetworkID kv.2 = networkID)
          && (ConfigVersion.Version kv.2 =? version)
       then Some kv.2 else config)
    (bucket_items (configs db)) None.

Definition version_le (a b : ConfigVersion.t) : Prop :=
  ConfigVersion.Version a <= ConfigVersion.Version b.

#[global] Instance version_le_dec (a b : ConfigVersion.t) :
  Decision (version_le a b) :=
  decide (ConfigVersion.Version a <= ConfigVersion.Version b).

(** [ListConfigVersions]: the records of the network, sorted by version
    number.  [slices.SortFunc] leaves the order of records with equal
    version numbers open; here they stay in bucket order. *)
Definition ListConfigVersions (db : DB) (networkID : string)
  : list ConfigVersion.t :=
  let versions :=
    fold_left
      (fun versions (kv : string * ConfigVersion.t) =>
         if bool_decide (ConfigVersion.NetworkID kv.2 = networkID)
         then versions ++ [kv.2] else versions)
      (bucket_items (configs db)) [] in
  merge_sort version_le versions.

(** [GetConfigHashByVersion]; [None] is the error of [GetConfigVersion]. *)
Definition GetConfigHashByVersion (db : DB) (networkID : string)
    (version : Z) : option string :=
  match GetConfigVersion db networkID version with
  | None => None
  | Some config => Some (ConfigVersion.ContentHash config)
  end.

Definition SaveIPPoolState (db : DB) (networkID : string)
    (state : IPPoolState) : result DB :=
  pools' ← Put (ip_pools db) networkID state;
  Ok (mkDB (networks db) (networks_by_name db) (servers db)
           (servers_by_name db) (nodes db) (nodes_by_name db) (configs db)
           (configs_by_version db) pools').

Definition GetIPPoolState (db : DB) (networkID : string)
  : result IPPoolState :=
  match ip_pools db !! networkID with
  | None => Err ErrPoolStateNotFound
  | Some state => Ok state
  end.

End StorageManager.

(** *** The virtual network manager

    The manager holds the storage manager and the in-memory pools.  A call
    returns the manager state it leaves behind together with its result:
    the pools are updated in place, also on paths that end in an error.
    Fresh identifiers ([uuid.New]), the clock ([time.Now]) and generated
    keys are arguments. *)
Module VirtualNetworkManager.

Abbreviation DB := StorageManager.DB.

Record t : Type := mkVNM {
  storage : DB;
  ipPools : gmap string IPPool
}.

Definition NewVirtualNetworkManager (storage : DB) : t :=
  mkVNM storage ∅.

Definition setPool (vnm : t) (networkID : string)
    (pool : IPPool) : t :=
  mkVNM (storage vnm) (<[networkID := pool]> (ipPools vnm)).

Definition setStorage (vnm : t) (db : DB)
  : t :=
  mkVNM db (ipPools vnm).

(** The loop of [ensureIPPool] over the nodes: a failed mark is logged and
    skipped. *)
Definition markNodes (pool : IPPool) (nodes : list Node.t) : IPPool :=
  fold_left
    (fun p node =>
       match MarkIPAllocated p (Node.VirtualIP node) with
       | Ok p' => p'
       | Err _ => p
       end)
    nodes pool.

(** The reconstruction branch of [ensureIPPool]. *)
Definition reconstructIPPool (vnm : t)
    (networkID networkCIDR : string) : t * result unit :=
  match NewIPPool networkCIDR with
  | Err e => (vnm, Err e)
  | Ok ipPool =>
      let marked :=
        match StorageManager.GetServerByNetworkID (storage vnm) networkID with
        | Ok server => MarkIPAllocated ipPool (Server.VirtualIP server)
        | Err _ => Ok ipPool
        end in
      match marked with
      | Err e => (vnm, Err e)
      | Ok ipPool =>
          let nodes := StorageManager.ListNodesByNetworkID (storage vnm) networkID in
          let ipPool := SyncNextIndex (markNodes ipPool nodes) in
          let vnm := setPool vnm networkID ipPool in
          match StorageManager.GetIPPoolState (storage vnm) networkID with
          | Ok _ => (vnm, Ok tt)
          | Err _ =>
              match StorageManager.SaveIPPoolState (storage vnm) networkID
                                    (GetState ipPool) with
              | Ok db => (setStorage vnm db, Ok tt)
              | Err e => (vnm, Err e)
              end
          end
      end
  end.

Definition ensureIPPool (vnm : t)
    (networkID networkCIDR : string) : t * result unit :=
  match ipPools vnm !! networkID with
  | Some _ => (vnm, Ok tt)
  | None =>
      match StorageManager.GetIPPoolState (storage vnm) networkID with
      | Ok state =>
          match RestoreIPPool state with
          | Ok ipPool => (setPool vnm networkID ipPool, Ok tt)
          | Err _ => reconstructIPPool vnm networkID networkCIDR
          end
      | Err _ => reconstructIPPool vnm networkID networkCIDR
      end
  end.

Definition GetVirtualNetwork (vnm : t) (name : string)
  : result VirtualNetwork.t :=
  StorageManager.GetNetworkByName (storage vnm) name.

Definition ListVirtualNetworks (vnm : t) : list VirtualNetwork.t :=
  StorageManager.ListNetworks (storage vnm).

(** [DeleteVirtualNetwork]: the pool goes first, also when the storage call
    then fails. *)
Definition DeleteVirtualNetwork (vnm : t) (name : string) : t * result unit :=
  match StorageManager.GetNetworkByName (storage vnm) name with
  | Err e => (vnm, Err e)
  | Ok network =>
      let vnm :=
        mkVNM (storage vnm) (delete (VirtualNetwork.ID network) (ipPools vnm)) in
      match StorageManager.DeleteNetwork (storage vnm) name with
      | Err e => (vnm, Err e)
      | Ok db => (setStorage vnm db, Ok tt)
      end
  end.

Definition GetServer (vnm : t) (networkName : string) : result Server.t :=
  network ← StorageManager.GetNetworkByName (storage vnm) networkName;
  StorageManager.GetServerByNetworkID (storage vnm) (VirtualNetwork.ID network).

Definition GetNode (vnm : t) (networkName nodeName : string)
  : result Node.t :=
  network ← StorageManager.GetNetworkByName (storage vnm) networkName;
  StorageManager.GetNodeByName (storage vnm) (VirtualNetwork.ID network)
    nodeName.

Definition ListNodes (vnm : t) (networkName : string)
  : result (list Node.t) :=
  network ← StorageManager.GetNetworkByName (storage vnm) networkName;
  Ok (StorageManager.ListNodesByNetworkID (storage vnm)
        (VirtualNetwork.ID network)).

(** [DeleteNode]: the pool is looked up under the network ID stored in the
    node; a failed release is logged and the pool state is saved all the
    same. *)
Definition DeleteNode (vnm : t) (networkName nodeName : string)
  : t * result unit :=
  match StorageManager.GetNetworkByName (storage vnm) networkName with
  | Err e => (vnm, Err e)
  | Ok network =>
  match StorageManager.GetNodeByName (storage vnm) (VirtualNetwork.ID network)
          nodeName with
  | Err e => (vnm, Err e)
  | Ok node =>
  match ensureIPPool vnm (VirtualNetwork.ID network)
                     (VirtualNetwork.CIDR network) with
  | (vnm, Err e) => (vnm, Err e)
  | (vnm, Ok _) =>
  let released : t * result unit :=
    match ipPools vnm !! Node.NetworkID node with
    | None => (vnm, Ok tt)
    | Some ipPool =>
        let '(vnm, ipPool) :=
          match ReleaseNodeIP ipPool (Node.VirtualIP node) with
          | Ok ipPool' => (setPool vnm (Node.NetworkID node) ipPool', ipPool')
          | Err _ => (vnm, ipPool)
          end in
        match StorageManager.SaveIPPoolState (storage vnm)
                (VirtualNetwork.ID network) (GetState ipPool) with
        | Err e => (vnm, Err e)
        | Ok db => (setStorage vnm db, Ok tt)
        end
    end in
  match released with
  | (vnm, Err e) => (vnm, Err e)
  | (vnm, Ok _) =>
      match StorageManager.DeleteNode (storage vnm) (VirtualNetwork.ID network)
              nodeName with
      | Err e => (vnm, Err e)
      | Ok db => (setStorage vnm db, Ok tt)
      end
  end end end end.

Section Manager.
Context `{validator : IPValidator}.

Definition CreateVirtualNetwork (vnm : t)
    (name cidr : string) (newID : string) (now : Z)
  : t * result VirtualNetwork.t :=
  match IsValidNetworkName name with
  | Err e => (vnm, Err e)
  | Ok _ =>
  match IsValidCIDR cidr with
  | Err e => (vnm, Err e)
  | Ok _ =>
  match NewIPPool cidr with
  | Err e => (vnm, Err e)
  | Ok ipPool =>
  match StorageManager.CreateNetwork (storage vnm) name cidr newID now with
  | Err e => (vnm, Err e)
  | Ok (db, network) =>
      (setPool (setStorage vnm db) (VirtualNetwork.ID network) ipPool,
       Ok network)
  end end end end.

(** [vnm.ipPools[id]] after a successful [ensureIPPool]; the entry is
    always present there (see [ensureIPPool_present]). *)
Definition poolOf (vnm : t) (networkID : string)
  : result IPPool :=
  match ipPools vnm !! networkID with
  | Some p => Ok p
  | None => Err ErrPoolStateNotFound
  end.

Definition CreateServer (vnm : t)
    (networkName serverName publicAddress : string) (port : Z)
    (keys : result WireGuardKeyPair) (newID : string) (now : Z)
  : t * result Server.t :=
  match StorageManager.GetNetworkByName (storage vnm) networkName with
  | Err e => (vnm, Err e)
  | Ok network =>
  match IsValidPublicAddress publicAddress with
  | Err e => (vnm, Err e)
  | Ok _ =>
  match ensureIPPool vnm (VirtualNetwork.ID network)
                     (VirtualNetwork.CIDR network) with
  | (vnm, Err e) => (vnm, Err e)
  | (vnm, Ok _) =>
  match poolOf vnm (VirtualNetwork.ID network) with
  | Err e => (vnm, Err e)
  | Ok pool =>
  let serverIP := GetServerIP pool in
  match keys with
  | Err e => (vnm, Err e)
  | Ok keys =>
  let port := if port =? 0 then 51820 else port in
  match StorageManager.CreateServer (storage vnm) (VirtualNetwork.ID network) serverName
          publicAddress port serverIP (PrivateKey keys) (PublicKey keys)
          newID now with
  | Err e => (vnm, Err e)
  | Ok (db, server) =>
  let vnm := setStorage vnm db in
  match StorageManager.SaveIPPoolState (storage vnm) (VirtualNetwork.ID network)
                        (GetState pool) with
  | Err e => (vnm, Err e)
  | Ok db => (setStorage vnm db, Ok server)
  end end end end end end end.

Definition DeleteServer (vnm : t)
    (networkName : string) : t * result unit :=
  match StorageManager.GetNetworkByName (storage vnm) networkName with
  | Err e => (vnm, Err e)
  | Ok network =>
      match StorageManager.DeleteServer (storage vnm) (VirtualNetwork.ID network) with
      | Err e => (vnm, Err e)
      | Ok db => (setStorage vnm db, Ok tt)
      end
  end.

(** The cleanup call [_ = pool.ReleaseNodeIP(nodeIP)]: its error is
    dropped. *)
Definition releaseQuietly (vnm : t)
    (networkID : string) (pool : IPPool) (ip : string)
  : t :=
  match ReleaseNodeIP pool ip with
  | Ok pool' => setPool vnm networkID pool'
  | Err _ => vnm
  end.

Definition CreateNode (vnm : t)
    (networkName nodeName publicAddress : string) (port : Z)
    (nodeType : NodeType)
    (keys : result WireGuardKeyPair) (newID : string) (now : Z)
  : t * result Node.t :=
  match StorageManager.GetNetworkByName (storage vnm) networkName with
  | Err e => (vnm, Err e)
  | Ok network =>
  if bool_decide (nodeType = NodeTypePeer) && bool_decide (publicAddress = "")
  then (vnm, Err ErrPeerNeedsAddress)
  else
  match (if bool_decide (publicAddress = "") then Ok tt
         else IsValidPublicAddress publicAddress) with
  | Err e => (vnm, Err e)
  | Ok _ =>
  match ensureIPPool vnm (VirtualNetwork.ID network)
                     (VirtualNetwork.CIDR network) with
  | (vnm, Err e) => (vnm, Err e)
  | (vnm, Ok _) =>
  match poolOf vnm (VirtualNetwork.ID network) with
  | Err e => (vnm, Err e)
  | Ok pool =>
  match AllocateNodeIP pool with
  | Err e => (vnm, Err e)
  | Ok (nodeIP, pool) =>
  let vnm := setPool vnm (VirtualNetwork.ID network) pool in
  match keys with
  | Err e =>
      (releaseQuietly vnm (VirtualNetwork.ID network) pool nodeIP, Err e)
  | Ok keys =>
  let port := if port =? 0 then 51820 else port in
  let nodeType :=
    if bool_decide (nodeType = "") then NodeTypePeer else nodeType in
  match StorageManager.CreateNode (storage vnm) (VirtualNetwork.ID network) nodeName
          publicAddress port nodeIP nodeType (PrivateKey keys)
          (PublicKey keys) newID now with
  | Err e =>
      (releaseQuietly vnm (VirtualNetwork.ID network) pool nodeIP, Err e)
  | Ok (db, node) =>
  let vnm := setStorage vnm db in
  match StorageManager.SaveIPPoolState (storage vnm) (VirtualNetwork.ID network)
                        (GetState pool) with
  | Err e => (vnm, Err e)
  | Ok db => (setStorage vnm db, Ok node)
  end end end end end end end end.

Definition UpdateServer (vnm : t) (networkName publicAddress : string)
    (port : Z) (now : Z) : t * result Server.t :=
  match StorageManager.GetNetworkByName (storage vnm) networkName with
  | Err e => (vnm, Err e)
  | Ok network =>
  match StorageManager.GetServerByNetworkID (storage vnm)
          (VirtualNetwork.ID network) with
  | Err e => (vnm, Err e)
  | Ok server =>
  match IsValidPublicAddress publicAddress with
  | Err e => (vnm, Err e)
  | Ok _ =>
  match StorageManager.UpdateServer (storage vnm) (Server.ID server)
          publicAddress port now with
  | Err e => (vnm, Err e)
  | Ok db =>
  let vnm := setStorage vnm db in
  (vnm, StorageManager.GetServerByName (storage vnm) (Server.NetworkID server)
          (Server.Name server))
  end end end end.

Definition UpdateNode (vnm : t) (networkName nodeName publicAddress : string)
    (port : Z) (nodeType : NodeType) (now : Z) : t * result Node.t :=
  match StorageManager.GetNetworkByName (storage vnm) networkName with
  | Err e => (vnm, Err e)
  | Ok network =>
  match StorageManager.GetNodeByName (storage vnm) (VirtualNetwork.ID network)
          nodeName with
  | Err e => (vnm, Err e)
  | Ok node =>
  if bool_decide (nodeType = NodeTypePeer) && bool_decide (publicAddress = "")
  then (vnm, Err ErrPeerNeedsAddress)
  else
  match (if bool_decide (publicAddress = "") then Ok tt
         else IsValidPublicAddress publicAddress) with
  | Err e => (vnm, Err e)
  | Ok _ =>
  match StorageManager.UpdateNode (storage vnm) (Node.ID node) publicAddress
          port nodeType now with
  | Err e => (vnm, Err e)
  | Ok db =>
  let vnm := setStorage vnm db in
  (vnm, StorageManager.GetNodeByName (storage vnm) (VirtualNetwork.ID network)
          nodeName)
  end end end end.

End Manager.

End VirtualNetworkManager.

(** *** The WireGuard configuration generator *)
Module WireGuardConfigGenerator.

Abbreviation DB := StorageManager.DB.

(** [hex.EncodeToString(sha256.Sum256(text))], the digest of the standard
    library, as an interface. *)
Class Sha256 : Type := sha256_hex : string -> string.

Definition LF : string := String "010"%char EmptyString.

(** [strings.Builder.WriteString]. *)
Definition WriteString (config text : string) : string := config +:+ text.

Definition generateServerConfig (server : Server.t) (nodes : list Node.t)
  : string :=
  let config := "" in
  let config := WriteString config ("[Interface]" +:+ LF) in
  let config :=
    WriteString config ("PrivateKey = " +:+ Server.PrivateKey server +:+ LF) in
  let config :=
    WriteString config
      ("Address = " +:+ Server.VirtualIP server +:+ "/32" +:+ LF) in
  let config :=
    WriteString config ("ListenPort = " +:+ itoa (Server.Port server) +:+ LF) in
  let config :=
    WriteString config ("PostUp = sysctl -w net.ipv4.ip_forward=1" +:+ LF) in
  let config :=
    WriteString config ("PostDown = sysctl -w net.ipv4.ip_forward=0" +:+ LF) in
  fold_left
    (fun config node =>
       let config := WriteString config (LF +:+ "[Peer]" +:+ LF) in
       let config :=
         WriteString config
           ("PublicKey = " +:+ Node.PublicKey node +:+ LF) in
       let config :=
         WriteString config
           ("AllowedIPs = " +:+ Node.VirtualIP node +:+ "/32" +:+ LF) in
       if bool_decide (Node.Type_ node = NodeTypePeer)
          && negb (bool_decide (Node.PublicAddress node = ""))
       then
         let endpoint :=
           FormatEndpoint (Node.PublicAddress node) (Node.Port node) in
         WriteString config ("Endpoint = " +:+ endpoint +:+ LF)
       else config)
    nodes config.

(** The body shared by the two loops of [generateNodeConfig] once their
    guard holds: one [Peer] section for [otherNode]. *)
Definition writeOtherNode (config : string) (otherNode : Node.t) : string :=
  let config := WriteString config (LF +:+ "[Peer]" +:+ LF) in
  let config :=
    WriteString config ("PublicKey = " +:+ Node.PublicKey otherNode +:+ LF) in
  let config :=
    WriteString config
      ("AllowedIPs = " +:+ Node.VirtualIP otherNode +:+ "/32" +:+ LF) in
  if negb (bool_decide (Node.PublicAddress otherNode = "")) then
    let endpoint :=
      FormatEndpoint (Node.PublicAddress otherNode) (Node.Port otherNode) in
    WriteString config ("Endpoint = " +:+ endpoint +:+ LF)
  else config.

Definition generateNodeConfig (network : VirtualNetwork.t) (server : Server.t)
    (node : Node.t) (allNodes : list Node.t) : string :=
  let config := "" in
  let config := WriteString config ("[Interface]" +:+ LF) in
  let config :=
    WriteString config ("PrivateKey = " +:+ Node.PrivateKey node +:+ LF) in
  let config :=
    WriteString config
      ("Address = " +:+ Node.VirtualIP node +:+ "/32" +:+ LF) in
  let config :=
    WriteString config ("ListenPort = " +:+ itoa (Node.Port node) +:+ LF) in
  (* the server peer *)
  let config := WriteString config (LF +:+ "[Peer]" +:+ LF) in
  let config :=
    WriteString config ("PublicKey = " +:+ Server.PublicKey server +:+ LF) in
  let config :=
    WriteString config
      ("AllowedIPs = " +:+ VirtualNetwork.CIDR network +:+ LF) in
  let config :=
    if negb (bool_decide (Server.PublicAddress server = "")) then
      let endpoint :=
        FormatEndpoint (Server.PublicAddress server) (Server.Port server) in
      WriteString config ("Endpoint = " +:+ endpoint +:+ LF)
    else config in
  (* peer type: the other peer nodes *)
  let config :=
    if bool_decide (Node.Type_ node = NodeTypePeer) then
      fold_left
        (fun config otherNode =>
           if negb (bool_decide (Node.ID otherNode = Node.ID node))
              && bool_decide (Node.Type_ otherNode = NodeTypePeer)
           then writeOtherNode config otherNode
           else config)
        allNodes config
    else config in
  (* route type: all peer nodes *)
  let config :=
    if bool_decide (Node.Type_ node = NodeTypeRoute) then
      fold_left
        (fun config otherNode =>
           if bool_decide (Node.Type_ otherNode = NodeTypePeer)
           then writeOtherNode config otherNode
           else config)
        allNodes config
    else config in
  config.

Definition GetConfigHistory (storage : DB) (networkName : string)
  : result (list ConfigVersion.t) :=
  network ← StorageManager.GetNetworkByName storage networkName;
  Ok (StorageManager.ListConfigVersions storage (VirtualNetwork.ID network)).

(** [GetConfig]: [Err] is the error of the network lookup, [Ok None] the
    error of [GetConfigVersion]. *)
Definition GetConfig (storage : DB) (networkName : string) (version : Z)
  : result (option ConfigVersion.t) :=
  network ← StorageManager.GetNetworkByName storage networkName;
  Ok (StorageManager.GetConfigVersion storage (VirtualNetwork.ID network)
        version).

Definition str_le (a b : string) : Prop := Is_true (String.leb a b).

#[global] Instance str_le_dec (a b : string) : Decision (str_le a b) := _.

Section Hashing.
Context `{hasher : Sha256}.

Definition calculateConfigHash (configs : gmap string string) : string :=
  let names := merge_sort str_le (map fst (map_to_list configs)) in
  let combined :=
    fold_left
      (fun combined name =>
         let combined := WriteString combined name in
         let combined := WriteString combined ":" in
         WriteString combined (default "" (configs !! name)))
      names "" in
  sha256_hex combined.

Definition GenerateConfigs (storage : DB) (networkName : string)
  : result (gmap string string * string) :=
  network ← StorageManager.GetNetworkByName storage networkName;
  match StorageManager.GetServerByNetworkID storage
          (VirtualNetwork.ID network) with
  | Err _ => Err ErrNoServerInNetwork
  | Ok server =>
      let nodes :=
        StorageManager.ListNodesByNetworkID storage
          (VirtualNetwork.ID network) in
      let serverConfig := generateServerConfig server nodes in
      let nodeConfigs :=
        fold_left
          (fun (m : gmap string string) node =>
             <[Node.Name node := generateNodeConfig network server node nodes]>
               m)
          nodes ∅ in
      let allConfigs : gmap string string :=
        <[Server.Name server := serverConfig]> ∅ in
      let allConfigs :=
        fold_left
          (fun (m : gmap string string) (kv : string * string) =>
             <[kv.1 := kv.2]> m)
          (map_to_list nodeConfigs) allConfigs in
      let contentHash := calculateConfigHash allConfigs in
      Ok (allConfigs, contentHash)
  end.

(** [SaveConfigVersion]: the stored version and whether it was created by
    this call. *)
Definition SaveConfigVersion (storage : DB) (networkName : string)
    (newID : string) (now : Z) : result (DB * ConfigVersion.t * bool) :=
  '(configs, currentHash) ← GenerateConfigs storage networkName;
  network ← StorageManager.GetNetworkByName storage networkName;
  let fresh :=
    '(db, version) ←
      StorageManager.SaveConfigVersion storage (VirtualNetwork.ID network)
        currentHash configs newID now;
    Ok (db, version, true) in
  match StorageManager.GetLatestConfigVersion storage
          (VirtualNetwork.ID network) with
  | Ok latest =>
      if bool_decide (ConfigVersion.ContentHash latest = currentHash)
      then Ok (storage, latest, false)
      else fresh
  | Err _ => fresh
  end.

End Hashing.

End WireGuardConfigGenerator.

End Wedev.

(** * Vocabulary of the statements

    Predicates, runs of operations and the specification-side definitions
    the theorems below are stated with, and the concrete inputs of the
    closed examples. *)

Import Util Wedev.

Module SM := Wedev.StorageManager.
Module VNM := Wedev.VirtualNetworkManager.
Module WCG := Wedev.WireGuardConfigGenerator.

(** ** Bytes, addresses and their text *)

Definition byte (b : Z) : Prop := 0 <= b < 256.

Definition wf4 (ip : IP) : Prop :=
  exists a b c d, ip = [a; b; c; d] /\ byte a /\ byte b /\ byte c /\ byte d.

(** The big-endian value of an address. *)
Definition ipVal (ip : IP) : Z := fold_left (fun acc b => acc * 256 + b) ip 0.

Definition octet_ok (b : Z) : bool :=
  bool_decide (parseOctet (ubtoa b) = Some b)
  && negb (contains_char "."%char (ubtoa b)).

(** The fields of a pool that no operation changes, read against the
    4-byte first usable address [f]. *)
Record Static (p : IPPool) (f : IP) : Prop := mkStatic {
  st_wf : wf4 f;
  st_first : firstUsable p = IPString f;
  st_server : serverIP p = IPString f;
  st_total : 1 <= totalUsable p <= 2 ^ 32 - 2
}.

Definition same_static (p q : IPPool) : Prop :=
  networkCIDR q = networkCIDR p /\ serverIP q = serverIP p /\
  firstUsable q = firstUsable p /\ lastUsable q = lastUsable p /\
  totalUsable q = totalUsable p.

(** ** Runs of pool operations *)

Inductive poolOp : Type :=
| OpAllocate
| OpRelease (ip : string)
| OpMark (ip : string)
| OpSync
| OpReload.

(** One call on the pool: the pool it leaves and, for a successful
    [AllocateNodeIP], the address returned.  A failing call leaves the pool
    as it was.  [OpReload] is a restart: [RestoreIPPool] of [GetState]. *)
Definition stepPool (p : IPPool) (o : poolOp) : IPPool * option string :=
  match o with
  | OpAllocate =>
      match AllocateNodeIP p with
      | Ok (ip, p') => (p', Some ip)
      | Err _ => (p, None)
      end
  | OpRelease ip =>
      match ReleaseNodeIP p ip with
      | Ok p' => (p', None)
      | Err _ => (p, None)
      end
  | OpMark ip =>
      match MarkIPAllocated p ip with
      | Ok p' => (p', None)
      | Err _ => (p, None)
      end
  | OpSync => (SyncNextIndex p, None)
  | OpReload =>
      match RestoreIPPool (GetState p) with
      | Ok p' => (p', None)
      | Err _ => (p, None)
      end
  end.

Definition runPool (p : IPPool) (ops : list poolOp) : IPPool :=
  fold_left (fun p o => (stepPool p o).1) ops p.

Definition allocRelease (o : poolOp) : Prop :=
  match o with
  | OpAllocate | OpRelease _ => True
  | _ => False
  end.

(** [n] successive calls of [AllocateNodeIP], all of which must succeed. *)
Fixpoint allocMany (n : nat) (p : IPPool) : result (list string * IPPool) :=
  match n with
  | O => Ok ([], p)
  | S n' =>
      '(ip, p1) ← AllocateNodeIP p;
      '(ips, p2) ← allocMany n' p1;
      Ok (ip :: ips, p2)
  end.

(** Successive calls of [ReleaseNodeIP], all of which must succeed. *)
Fixpoint releaseMany (ips : list string) (p : IPPool) : result IPPool :=
  match ips with
  | [] => Ok p
  | ip :: rest => p1 ← ReleaseNodeIP p ip; releaseMany rest p1
  end.

(** Marking a list of addresses, in order; a failed mark is skipped. *)
Definition markAll (p : IPPool) (ms : list string) : IPPool :=
  fold_left (fun p ip => (stepPool p (OpMark ip)).1) ms p.

(** An address handed out by the cursor before its current position. *)
Definition owned (p : IPPool) (ip : string) : Prop :=
  exists i, 1 <= i < nextIndex p /\ ip = addrAt p i.

(** The invariant of a pool driven by allocate and release only. *)
Record PoolInv (p : IPPool) (f : IP) : Prop := mkPoolInv {
  inv_static : Static p f;
  inv_cursor : 1 <= nextIndex p <= totalUsable p;
  inv_alloc : forall ip, is_allocated p ip = true -> owned p ip;
  inv_recycled : forall ip, In ip (recycled p) -> owned p ip;
  inv_disjoint : forall ip, In ip (recycled p) -> is_allocated p ip = false;
  inv_nodup : NoDup (recycled p)
}.

(** ** The hub address (C5) *)

(** The four bytes of a 32-bit value. *)
Definition bytesOf (v : Z) : IP :=
  [v / 2 ^ 24 mod 256; v / 2 ^ 16 mod 256; v / 2 ^ 8 mod 256; v mod 256].

(** What every pool reachable from [p0] keeps. *)
Record HubInv (p0 p : IPPool) : Prop := mkHubInv {
  hub_static : same_static p0 p;
  hub_cursor : 1 <= nextIndex p;
  hub_recycled : ~ In (serverIP p0) (recycled p)
}.

Definition last_byte_ok (n : nat) : bool :=
  forallb (fun d => Z.land (Z.of_nat d) (nth 3 (CIDRMask 4 (Z.of_nat n)) 0) <=? 252)
          (seq 0 256).

(** The table behind [land_mask_byte]: masking a byte with a byte of a
    CIDR mask clears its low bits. *)
Definition mask_byte_ok (m : Z) : bool :=
  forallb (fun x : nat =>
             Z.land (Z.of_nat x) m
             =? Z.of_nat x - Z.of_nat x mod (256 - m))
          (seq 0 256).

(** ** Reconstruction (C7) *)

(** What a pool keeps, after marking [ms] and resyncing, while none of the
    marked addresses is released: every marked address the cursor can
    reach lies behind the cursor, and none is in the recycle queue. *)
Record MarkInv (ms : list string) (p0 p : IPPool) : Prop := mkMarkInv {
  mark_static : same_static p0 p;
  mark_behind : forall m i, In m ms -> 0 <= i < totalUsable p ->
                            m = addrAt p i -> i < nextIndex p;
  mark_recycled : forall m, In m ms -> ~ In m (recycled p)
}.

(** ** Concrete inputs used by the witnesses *)

(** The pool [NewIPPool] builds for 10.0.0.0/24. *)
Definition pool24 : IPPool :=
  {| networkCIDR := "10.0.0.0/24"; serverIP := "10.0.0.1"; allocated := ∅;
     recycled := []; nextIndex := 1; firstUsable := "10.0.0.1";
     lastUsable := "10.0.0.255"; totalUsable := 254 |}.

Definition net24 : IPNet := mkIPNet [10; 0; 0; 0] 24 32.

(** ** The visibility rules, as the specification words them *)

(** One peer section of a document: key, allowed range and, when present,
    the reachability hint. *)
Definition peerSection (publicKey allowedIPs : string)
    (hint : option string) : string :=
  WCG.LF +:+ "[Peer]" +:+ WCG.LF +:+
  "PublicKey = " +:+ publicKey +:+ WCG.LF +:+
  "AllowedIPs = " +:+ allowedIPs +:+ WCG.LF +:+
  match hint with
  | Some endpoint => "Endpoint = " +:+ endpoint +:+ WCG.LF
  | None => ""
  end.

Fixpoint concatText (l : list string) : string :=
  match l with
  | [] => ""
  | s :: l' => s +:+ concatText l'
  end.

Definition hubInterface (server : Server.t) : string :=
  "[Interface]" +:+ WCG.LF +:+
  "PrivateKey = " +:+ Server.PrivateKey server +:+ WCG.LF +:+
  "Address = " +:+ Server.VirtualIP server +:+ "/32" +:+ WCG.LF +:+
  "ListenPort = " +:+ itoa (Server.Port server) +:+ WCG.LF +:+
  "PostUp = sysctl -w net.ipv4.ip_forward=1" +:+ WCG.LF +:+
  "PostDown = sysctl -w net.ipv4.ip_forward=0" +:+ WCG.LF.

Definition memberInterface (node : Node.t) : string :=
  "[Interface]" +:+ WCG.LF +:+
  "PrivateKey = " +:+ Node.PrivateKey node +:+ WCG.LF +:+
  "Address = " +:+ Node.VirtualIP node +:+ "/32" +:+ WCG.LF +:+
  "ListenPort = " +:+ itoa (Node.Port node) +:+ WCG.LF.

(** The hint the hub's document carries for a member. *)
Definition hubHintFor (m : Node.t) : option string :=
  if bool_decide (Node.Type_ m = NodeTypePeer)
     && negb (bool_decide (Node.PublicAddress m = ""))
  then Some (FormatEndpoint (Node.PublicAddress m) (Node.Port m))
  else None.

(** The hint a member's document carries for another member. *)
Definition memberHintFor (m : Node.t) : option string :=
  if bool_decide (Node.PublicAddress m = "") then None
  else Some (FormatEndpoint (Node.PublicAddress m) (Node.Port m)).

(** The hint a member's document carries for the hub. *)
Definition hintForHub (server : Server.t) : option string :=
  if bool_decide (Server.PublicAddress server = "") then None
  else Some (FormatEndpoint (Server.PublicAddress server) (Server.Port server)).

(** The members that get an entry in the document of [node]. *)
Definition visibleTo (node : Node.t) (allNodes : list Node.t) : list Node.t :=
  if bool_decide (Node.Type_ node = NodeTypePeer) then
    filter (fun o => Node.ID o <> Node.ID node /\ Node.Type_ o = NodeTypePeer)
           allNodes
  else if bool_decide (Node.Type_ node = NodeTypeRoute) then
    filter (fun o => Node.Type_ o = NodeTypePeer) allNodes
  else [].

(** The hub's document: one entry per member. *)
Definition hubDocument (server : Server.t) (members : list Node.t) : string :=
  hubInterface server +:+
  concatText
    (map (fun m => peerSection (Node.PublicKey m)
                     (Node.VirtualIP m +:+ "/32") (hubHintFor m))
         members).

(** A member's document: the hub's entry, then one entry per visible
    member. *)
Definition memberDocument (network : VirtualNetwork.t) (server : Server.t)
    (node : Node.t) (allNodes : list Node.t) : string :=
  memberInterface node +:+
  peerSection (Server.PublicKey server) (VirtualNetwork.CIDR network)
    (hintForHub server) +:+
  concatText
    (map (fun m => peerSection (Node.PublicKey m)
                     (Node.VirtualIP m +:+ "/32") (memberHintFor m))
         (visibleTo node allNodes)).

(** ** Stored versions *)

(** Every stored version number is at least 1 and below the largest
    64-bit integer. *)
Definition versions_ok (db : SM.DB) : Prop :=
  forall key c, SM.configs db !! key = Some c ->
                1 <= ConfigVersion.Version c < 2 ^ 63 - 1.

(** Two databases with the same networks, hubs and members. *)
Definition same_entities (db db' : SM.DB) : Prop :=
  SM.networks db' = SM.networks db /\
  SM.networks_by_name db' = SM.networks_by_name db /\
  SM.servers db' = SM.servers db /\
  SM.nodes db' = SM.nodes db.

(** The step of the scan in [GetLatestConfigVersion]. *)
Definition latestStep (networkID : string)
    (latestConfig : option ConfigVersion.t) (kv : string * ConfigVersion.t)
  : option ConfigVersion.t :=
  if bool_decide (ConfigVersion.NetworkID kv.2 = networkID) then
    match latestConfig with
    | None => Some kv.2
    | Some l =>
        if ConfigVersion.Version l <? ConfigVersion.Version kv.2
        then Some kv.2 else latestConfig
    end
  else latestConfig.

(** The step of the scan in storage [SaveConfigVersion]. *)
Definition nextStep (networkID : string) (nextVer : Z)
    (kv : string * ConfigVersion.t) : Z :=
  if bool_decide (ConfigVersion.NetworkID kv.2 = networkID)
     && (nextVer <=? ConfigVersion.Version kv.2)
  then wrap_int64 (ConfigVersion.Version kv.2 + 1) else nextVer.

(** The database a successful storage call leaves behind. *)
Definition dbAfter {A : Type} (r : result (SM.DB * A)) : SM.DB :=
  match r with
  | Ok (db, _) => db
  | Err _ => SM.emptyDB
  end.

(** A network with a hub named "srv", and the same after [DeleteServer]. *)
Definition demo_db_net : SM.DB :=
  dbAfter (SM.CreateNetwork SM.emptyDB "net1" "10.0.0.0/24" "N1" 0).

Definition demo_db_hub : SM.DB :=
  dbAfter (SM.CreateServer demo_db_net "N1" "srv" "vpn.example.com" 51820
             "10.0.0.1" "hubpriv" "hubpub" "S1" 1).

Definition demo_db_nohub : SM.DB :=
  match SM.DeleteServer demo_db_hub "N1" with
  | Ok db => db
  | Err _ => SM.emptyDB
  end.

(** A manager with a network and its hub; the node that [CreateNode]
    stores when called without a type and without a public address. *)
Definition demo_vnm_net : VNM.t :=
  (VNM.CreateVirtualNetwork (VNM.NewVirtualNetworkManager SM.emptyDB)
     "testnet" "10.0.0.0/24" "N1" 0).1.

Definition demo_vnm_hub : VNM.t :=
  (VNM.CreateServer demo_vnm_net "testnet" "server1" "192.168.1.1" 51820
     (Ok (mkKeys "hubpriv" "hubpub")) "S1" 1).1.

Definition demo_node : Node.t :=
  Node.mk "M1" "N1" "node1" "" 51820 "10.0.0.2" "peer" "priv" "pub" 2 2.

(** The example topology: hub H, peers P1 and P2, routes R1 and R2. *)
Definition demo_net : VirtualNetwork.t :=
  VirtualNetwork.mk "N1" "net1" "10.0.0.0/24" 0.

Definition demo_H : Server.t :=
  Server.mk "S1" "N1" "H" "vpn.example.com" 51820 "10.0.0.1"
            "privH" "pubH" 1 1.

Definition demo_P1 : Node.t :=
  Node.mk "M1" "N1" "P1" "p1.example.com" 51821 "10.0.0.2" NodeTypePeer
          "privP1" "pubP1" 2 2.

Definition demo_P2 : Node.t :=
  Node.mk "M2" "N1" "P2" "p2.example.com" 51822 "10.0.0.3" NodeTypePeer
          "privP2" "pubP2" 3 3.

Definition demo_R1 : Node.t :=
  Node.mk "M3" "N1" "R1" "" 51820 "10.0.0.4" NodeTypeRoute
          "privR1" "pubR1" 4 4.

Definition demo_R2 : Node.t :=
  Node.mk "M4" "N1" "R2" "" 51820 "10.0.0.5" NodeTypeRoute
          "privR2" "pubR2" 5 5.

Definition demo_members : list Node.t := [demo_P1; demo_P2; demo_R1; demo_R2].

(** A stand-in for the digest in the closed examples: the text itself. *)
Definition textDigest : WCG.Sha256 := fun text => text.

(** A database with hub and one member; the same after a first save; and
    after one more member has joined. *)
Definition demo_db_member : SM.DB :=
  dbAfter (SM.CreateNode demo_db_hub "N1" "P1" "p1.example.com" 51821
             "10.0.0.2" NodeTypePeer "privP1" "pubP1" "M1" 2).

Definition demo_db_saved : SM.DB :=
  match WCG.SaveConfigVersion (hasher := textDigest)
          demo_db_member "net1" "C1" 3 with
  | Ok (db, _, _) => db
  | Err _ => SM.emptyDB
  end.

Definition demo_v1 : ConfigVersion.t :=
  match SM.GetLatestConfigVersion demo_db_saved "N1" with
  | Ok v => v
  | Err _ => ConfigVersion.mk "" "" 0 "" ∅ 0
  end.

Definition demo_db_grown : SM.DB :=
  dbAfter (SM.CreateNode demo_db_saved "N1" "R1" "" 51820
             "10.0.0.3" NodeTypeRoute "privR1" "pubR1" "M2" 4).

(** ** Alignment of the network address *)

(** The table behind [ParseCIDR_aligned]: a byte masked with byte [i] of
    the [n]-bit mask, at its place in the address, is a multiple of the
    block size. *)
Definition mask_aligned_ok (n : nat) : bool :=
  forallb
    (fun i : nat =>
       forallb
         (fun x : nat =>
            (Z.land (Z.of_nat x) (nth i (CIDRMask 4 (Z.of_nat n)) 0)
             * 2 ^ (8 * (3 - Z.of_nat i))) mod 2 ^ (32 - Z.of_nat n) =? 0)
         (seq 0 256))
    (seq 0 4).

(** ** Databases built through the storage manager *)

(** Every server record is stored under its own ID, which is not empty,
    and no network has two servers. *)
Definition servers_ok (db : SM.DB) : Prop :=
  (forall k s, SM.servers db !! k = Some s -> Server.ID s = k /\ k <> "") /\
  (forall k1 s1 k2 s2,
     SM.servers db !! k1 = Some s1 -> SM.servers db !! k2 = Some s2 ->
     Server.NetworkID s1 = Server.NetworkID s2 -> k1 = k2).

(** Every node record is stored under its own ID, which is not empty, and
    is indexed under its network and name. *)
Definition nodes_ok (db : SM.DB) : Prop :=
  forall k n, SM.nodes db !! k = Some n ->
    Node.ID n = k /\ k <> "" /\
    SM.nodes_by_name db !! SM.nameKey (Node.NetworkID n) (Node.Name n)
    = Some k.

(** The calls of the storage manager that write, apart from
    [DeleteNetwork]. *)
Inductive storageOp : Type :=
| DbCreateNetwork (name cidr newID : string) (now : Z)
| DbCreateServer (networkID name publicAddress : string) (port : Z)
                 (virtualIP privateKey publicKey newID : string) (now : Z)
| DbUpdateServer (id publicAddress : string) (port now : Z)
| DbDeleteServer (networkID : string)
| DbCreateNode (networkID name publicAddress : string) (port : Z)
               (virtualIP : string) (nodeType : NodeType)
               (privateKey publicKey newID : string) (now : Z)
| DbUpdateNode (id publicAddress : string) (port : Z) (nodeType : NodeType)
               (now : Z)
| DbDeleteNode (networkID name : string)
| DbSaveConfigVersion (networkID contentHash : string)
                      (cfgs : gmap string string) (newID : string) (now : Z)
| DbSaveIPPoolState (networkID : string) (state : IPPoolState).

(** One call: the database it leaves; a failing call leaves the database
    as it was. *)
Definition stepStorage (db : SM.DB) (o : storageOp) : SM.DB :=
  match o with
  | DbCreateNetwork name cidr newID now =>
      match SM.CreateNetwork db name cidr newID now with
      | Ok (db', _) => db'
      | Err _ => db
      end
  | DbCreateServer networkID name publicAddress port virtualIP privateKey
                   publicKey newID now =>
      match SM.CreateServer db networkID name publicAddress port virtualIP
              privateKey publicKey newID now with
      | Ok (db', _) => db'
      | Err _ => db
      end
  | DbUpdateServer id publicAddress port now =>
      match SM.UpdateServer db id publicAddress port now with
      | Ok db' => db'
      | Err _ => db
      end
  | DbDeleteServer networkID =>
      match SM.DeleteServer db networkID with
      | Ok db' => db'
      | Err _ => db
      end
  | DbCreateNode networkID name publicAddress port virtualIP nodeType
                 privateKey publicKey newID now =>
      match SM.CreateNode db networkID name publicAddress port virtualIP
              nodeType privateKey publicKey newID now with
      | Ok (db', _) => db'
      | Err _ => db
      end
  | DbUpdateNode id publicAddress port nodeType now =>
      match SM.UpdateNode db id publicAddress port nodeType now with
      | Ok db' => db'
      | Err _ => db
      end
  | DbDeleteNode networkID name =>
      match SM.DeleteNode db networkID name with
      | Ok db' => db'
      | Err _ => db
      end
  | DbSaveConfigVersion networkID contentHash cfgs newID now =>
      match SM.SaveConfigVersion db networkID contentHash cfgs newID now with
      | Ok (db', _) => db'
      | Err _ => db
      end
  | DbSaveIPPoolState networkID state =>
      match SM.SaveIPPoolState db networkID state with
      | Ok db' => db'
      | Err _ => db
      end
  end.

Definition runStorage (db : SM.DB) (ops : list storageOp) : SM.DB :=
  fold_left stepStorage ops db.

(** ** Version numbers *)

(** The version numbers stored for a network, in bucket order. *)
Definition versionsOf (db : SM.DB) (networkID : string) : list Z :=
  map (fun kv : string * ConfigVersion.t => ConfigVersion.Version kv.2)
      (filter (fun kv : string * ConfigVersion.t =>
                 ConfigVersion.NetworkID kv.2 = networkID)
              (SM.bucket_items (SM.configs db))).

(** The versions stored for a network are numbered from 1 to [k], each
    number once. *)
Definition numbered (db : SM.DB) (networkID : string) (k : Z) : Prop :=
  0 <= k /\ versionsOf db networkID ≡ₚ seqZ 1 k.

(** ** Concrete inputs for the closed examples of this part *)

(** A manager with a network, its hub and one member. *)
Definition demo_vnm_member : VNM.t :=
  (VNM.CreateNode demo_vnm_hub "testnet" "node1" "" 0 ""
     (Ok (mkKeys "priv" "pub")) "M1" 2).1.

Definition demo_testnet : VirtualNetwork.t :=
  VirtualNetwork.mk "N1" "testnet" "10.0.0.0/24" 0.

Definition demo_server1 : Server.t :=
  Server.mk "S1" "N1" "server1" "192.168.1.1" 51820 "10.0.0.1"
            "hubpriv" "hubpub" 1 1.

Definition demo_srv : Server.t :=
  Server.mk "S1" "N1" "srv" "vpn.example.com" 51820 "10.0.0.1"
            "hubpriv" "hubpub" 1 1.

(** The storage calls that build [demo_db_member], and those behind the
    storage of [demo_vnm_member]. *)
Definition demo_member_ops : list storageOp :=
  [DbCreateNetwork "net1" "10.0.0.0/24" "N1" 0;
   DbCreateServer "N1" "srv" "vpn.example.com" 51820 "10.0.0.1" "hubpriv"
     "hubpub" "S1" 1;
   DbCreateNode "N1" "P1" "p1.example.com" 51821 "10.0.0.2" NodeTypePeer
     "privP1" "pubP1" "M1" 2].

Definition demo_vnm_member_ops : list storageOp :=
  [DbCreateNetwork "testnet" "10.0.0.0/24" "N1" 0;
   DbCreateServer "N1" "server1" "192.168.1.1" 51820 "10.0.0.1" "hubpriv"
     "hubpub" "S1" 1;
   DbSaveIPPoolState "N1" (GetState pool24);
   DbCreateNode "N1" "node1" "" 51820 "10.0.0.2" NodeTypePeer
     "priv" "pub" "M1" 2;
   DbSaveIPPoolState "N1" (GetState (runPool pool24 [OpAllocate]))].

(** A database whose saved pool state is that of a pool with one address
    handed out. *)
Definition demo_db_pool_saved : SM.DB :=
  runStorage SM.emptyDB
    [DbCreateNetwork "net1" "10.0.0.0/24" "N1" 0;
     DbSaveIPPoolState "N1" (GetState (runPool pool24 [OpAllocate]))].

(** ** Keys and texts the store takes as they are *)

(** The storage model has neither bbolt's limit on the length of a key nor
    the encoder's replacement of bytes that are not valid UTF-8 (see [Put]
    and [DB]).  The statements that conclude that a write succeeds, or that
    say which record is read back after a write, are made for the calls on
    which the program and the model agree: the keys written are within
    [MaxKeySize], and the texts written are valid UTF-8 and within
    [MaxKeySize] as well, so that the encoded record is far below the limit
    on values. *)
Definition key_ok (k : string) : bool :=
  Z.of_nat (String.length k) <=? SM.MaxKeySize.

Definition text_ok (s : string) : bool := SM.ValidString s && key_ok s.

Definition texts_ok (l : list string) : bool := forallb text_ok l.

(** The calls of [storageOp] whose new texts and keys are of this kind.
    The calls that delete write no text, and the last two write to the
    version and pool-state buckets only, which no server or node operation
    reads. *)
Definition op_ok (o : storageOp) : bool :=
  match o with
  | DbCreateNetwork name cidr newID _ => texts_ok [name; cidr; newID]
  | DbCreateServer networkID name publicAddress _ virtualIP privateKey
                   publicKey newID _ =>
      texts_ok [networkID; name; publicAddress; virtualIP; privateKey;
                publicKey; newID]
      && key_ok (SM.nameKey networkID name)
  | DbUpdateServer _ publicAddress _ _ => text_ok publicAddress
  | DbDeleteServer _ => true
  | DbCreateNode networkID name publicAddress _ virtualIP nodeType
                 privateKey publicKey newID _ =>
      texts_ok [networkID; name; publicAddress; virtualIP; nodeType;
                privateKey; publicKey; newID]
      && key_ok (SM.nameKey networkID name)
  | DbUpdateNode _ publicAddress _ nodeType _ =>
      texts_ok [publicAddress; nodeType]
  | DbDeleteNode _ _ => true
  | DbSaveConfigVersion _ _ _ _ _ => true
  | DbSaveIPPoolState _ _ => true
  end.

(** * Theorems *)

Lemma To4_wf4 ip : wf4 ip -> To4 ip = ip.
Proof. intros (a & b & c & d & -> & _). reflexivity. Qed.

Lemma To4_cases ip : length (To4 ip) = 4%nat \/ To4 ip = [].
Proof.
  unfold To4.
  destruct (length ip =? 4)%nat eqn:E4.
  - left. now apply Nat.eqb_eq.
  - destruct ((length ip =? 16)%nat && _)%bool eqn:E16; [|now right].
    apply andb_prop in E16 as [E16 _]. apply Nat.eqb_eq in E16.
    left. rewrite length_drop, E16. reflexivity.
Qed.

Lemma To4_idem ip : To4 (To4 ip) = To4 ip.
Proof.
  destruct (To4_cases ip) as [H | H].
  - unfold To4 at 1. now rewrite H.
  - now rewrite H.
Qed.

Lemma To4_v4InV6 f : wf4 f -> To4 (v4InV6Prefix ++ f) = f.
Proof. intros (a & b & c & d & -> & _). reflexivity. Qed.

Lemma increment_To4 ip : increment (To4 ip) = increment ip.
Proof. unfold increment. now rewrite To4_idem. Qed.

Lemma increment_wf4 ip :
  wf4 ip ->
  wf4 (increment ip) /\ ipVal (increment ip) = (ipVal ip + 1) mod 2 ^ 32.
Proof.
  intros (a & b & c & d & -> & Ha & Hb & Hc & Hd). unfold byte in *.
  unfold increment, To4, ipVal, wf4, byte. cbn [length Nat.eqb rev app incr_from_last fold_left].
  destruct (0 <? (d + 1) mod 256) eqn:Ed;
    [|destruct (0 <? (c + 1) mod 256) eqn:Ec;
      [|destruct (0 <? (b + 1) mod 256) eqn:Eb;
        [|destruct (0 <? (a + 1) mod 256) eqn:Ea]]];
    cbn [rev app fold_left incr_from_last];
    repeat match goal with H : (_ <? _) = _ |- _ => first [apply Z.ltb_lt in H | apply Z.ltb_ge in H] end;
    (split; [eexists _, _, _, _; split; [reflexivity|] |]);
    try (repeat split; Z.div_mod_to_equations; lia).
Qed.

Lemma iter_increment_wf4 ip (n : nat) :
  wf4 ip ->
  wf4 (Nat.iter n increment ip) /\
  ipVal (Nat.iter n increment ip) = (ipVal ip + Z.of_nat n) mod 2 ^ 32.
Proof.
  intros Hip. induction n as [|n [IHw IHv]].
  - split; [exact Hip|]. cbn [Nat.iter nat_rect]. 
    destruct Hip as (a & b & c & d & -> & Ha & Hb & Hc & Hd). unfold byte in *.
    unfold ipVal; cbn [fold_left]. rewrite Z.mod_small; lia.
  - cbn [Nat.iter nat_rect]. destruct (increment_wf4 _ IHw) as [Hw Hv].
    split; [exact Hw|]. fold (Nat.iter n increment ip) in *. rewrite Hv, IHv.
    rewrite Zplus_mod_idemp_l. f_equal. lia.
Qed.

Lemma ipVal_inj x y : wf4 x -> wf4 y -> ipVal x = ipVal y -> x = y.
Proof.
  intros (a & b & c & d & -> & Ha & Hb & Hc & Hd)
         (a' & b' & c' & d' & -> & Ha' & Hb' & Hc' & Hd').
  unfold byte, ipVal in *. cbn [fold_left]. intros H.
  assert (d = d') by lia. assert (c = c') by lia. assert (b = b') by lia.
  assert (a = a') by lia. now subst.
Qed.

Lemma ipVal_range x : wf4 x -> 0 <= ipVal x < 2 ^ 32.
Proof.
  intros (a & b & c & d & -> & Ha & Hb & Hc & Hd).
  unfold byte, ipVal in *. cbn [fold_left]. lia.
Qed.

Lemma octets_ok : forallb octet_ok (map Z.of_nat (seq 0 256)) = true.
Proof. vm_compute. reflexivity. Qed.

Lemma octet_roundtrip b :
  byte b ->
  parseOctet (ubtoa b) = Some b /\ contains_char "."%char (ubtoa b) = false.
Proof.
  intros Hb. pose proof octets_ok as H.
  rewrite forallb_forall in H. specialize (H b).
  assert (Hin : In b (map Z.of_nat (seq 0 256))).
  { apply in_map_iff. exists (Z.to_nat b). unfold byte in Hb.
    split; [lia|]. apply in_seq. lia. }
  apply H in Hin. unfold octet_ok in Hin.
  apply andb_prop in Hin as [H1 H2].
  apply bool_decide_eq_true in H1. apply negb_true_iff in H2. now split.
Qed.

Lemma splitOn_no_sep sep s :
  contains_char sep s = false -> splitOn sep s = [s].
Proof.
  induction s as [|c s IH]; [reflexivity|]. cbn [contains_char splitOn].
  intros H. apply orb_false_elim in H as [Hc Hs].
  rewrite Hc, (IH Hs). reflexivity.
Qed.

Lemma splitOn_app sep s r :
  contains_char sep s = false ->
  splitOn sep (s +:+ String sep r) = s :: splitOn sep r.
Proof.
  induction s as [|c s IH]; simpl.
  - intros _. now rewrite Ascii.eqb_refl.
  - intros H. apply orb_false_elim in H as [Hc Hs].
    rewrite Hc, (IH Hs). reflexivity.
Qed.

Lemma parseIPv4_dotted a b c d :
  byte a -> byte b -> byte c -> byte d ->
  parseIPv4 (dotted a b c d) = Some [a; b; c; d].
Proof.
  intros Ha Hb Hc Hd.
  destruct (octet_roundtrip a Ha) as [Pa Na].
  destruct (octet_roundtrip b Hb) as [Pb Nb].
  destruct (octet_roundtrip c Hc) as [Pc Nc].
  destruct (octet_roundtrip d Hd) as [Pd Nd].
  unfold parseIPv4.
  change (dotted a b c d) with
    (ubtoa a +:+ String "."%char
       (ubtoa b +:+ String "."%char (ubtoa c +:+ String "."%char (ubtoa d)))).
  rewrite (splitOn_app _ (ubtoa a)) by assumption.
  rewrite (splitOn_app _ (ubtoa b)) by assumption.
  rewrite (splitOn_app _ (ubtoa c)) by assumption.
  rewrite splitOn_no_sep by assumption.
  now rewrite Pa, Pb, Pc, Pd.
Qed.

Lemma IPString_wf4 f :
  wf4 f -> exists a b c d, f = [a; b; c; d] /\ IPString f = dotted a b c d.
Proof. intros (a & b & c & d & -> & _). now exists a, b, c, d. Qed.

Lemma ParseIP_IPString f : wf4 f -> ParseIP (IPString f) = v4InV6Prefix ++ f.
Proof.
  intros (a & b & c & d & -> & Ha & Hb & Hc & Hd).
  unfold ParseIP. change (IPString [a; b; c; d]) with (dotted a b c d).
  now rewrite parseIPv4_dotted.
Qed.

Lemma IPString_inj x y : wf4 x -> wf4 y -> IPString x = IPString y -> x = y.
Proof.
  intros Hx Hy H.
  assert (E : ParseIP (IPString x) = ParseIP (IPString y)) by now rewrite H.
  rewrite !ParseIP_IPString in E by assumption.
  now apply app_inv_head in E.
Qed.

Lemma IPString_To4 ip : wf4 (To4 ip) -> IPString ip = IPString (To4 ip).
Proof.
  intros (a & b & c & d & E & _). unfold IPString at 1. rewrite E.
  destruct ip; [discriminate E|]. reflexivity.
Qed.

Lemma IPString_nonempty f : wf4 f -> IPString f <> "".
Proof.
  intros (a & b & c & d & -> & _). change (IPString [a; b; c; d]) with (dotted a b c d).
  unfold dotted. destruct (ubtoa a); discriminate.
Qed.

(** The address the cursor walk reaches, for a pool whose first usable
    address is the text of [f]. *)
Lemma iter_from_parsed f (n : nat) :
  wf4 f ->
  To4 (Nat.iter n increment (v4InV6Prefix ++ f)) = Nat.iter n increment f.
Proof.
  intros Hf. induction n as [|n IH].
  - cbn [Nat.iter nat_rect]. now apply To4_v4InV6.
  - cbn [Nat.iter nat_rect]. fold (Nat.iter n increment (v4InV6Prefix ++ f)).
    fold (Nat.iter n increment f).
    rewrite <- increment_To4, IH.
    apply To4_wf4. apply increment_wf4. now apply iter_increment_wf4.
Qed.

Lemma IPString_iter_parsed f (n : nat) :
  wf4 f ->
  IPString (Nat.iter n increment (ParseIP (IPString f)))
  = IPString (Nat.iter n increment f).
Proof.
  intros Hf. rewrite ParseIP_IPString by assumption.
  rewrite IPString_To4; rewrite iter_from_parsed by assumption;
    [reflexivity | now apply iter_increment_wf4].
Qed.

(** ** What [ParseCIDR] and [NewIPPool] return *)

Lemma digit_val_range c d : digit_val c = Some d -> 0 <= d <= 9.
Proof.
  unfold digit_val. destruct (_ && _)%bool eqn:E; [|discriminate].
  intros [= <-]. apply andb_prop in E as [E1 E2]. lia.
Qed.

Lemma digits_val_nonneg s acc v : digits_val s acc = Some v -> 0 <= acc -> 0 <= v.
Proof.
  revert acc. induction s as [|c s IH]; cbn [digits_val]; intros acc H Hacc.
  - now injection H as <-.
  - destruct (digit_val c) as [d|] eqn:Ed; [|discriminate].
    apply digit_val_range in Ed. apply (IH _ H). lia.
Qed.

Lemma dtoi_nonneg s v : dtoi s = Some v -> 0 <= v.
Proof.
  unfold dtoi. destruct s; [discriminate|]. intros H.
  now apply (digits_val_nonneg _ _ _ H).
Qed.

Lemma parseOctet_byte s v : parseOctet s = Some v -> byte v.
Proof.
  unfold parseOctet. destruct (dtoi s) as [w|] eqn:E; [|discriminate].
  destruct (_ && _)%bool eqn:E2; [|discriminate]. intros [= <-].
  apply andb_prop in E2 as [E2 _]. apply dtoi_nonneg in E. unfold byte. lia.
Qed.

Lemma parseIPv4_wf4 s b4 : parseIPv4 s = Some b4 -> wf4 b4.
Proof.
  unfold parseIPv4.
  destruct (splitOn "." s) as [|fa [|fb [|fc [|fd [|]]]]]; try discriminate.
  destruct (parseOctet fa) as [a|] eqn:Ea; [|discriminate].
  destruct (parseOctet fb) as [b|] eqn:Eb; [|discriminate].
  destruct (parseOctet fc) as [c|] eqn:Ec; [|discriminate].
  destruct (parseOctet fd) as [d|] eqn:Ed; [|discriminate].
  intros [= <-]. exists a, b, c, d.
  repeat split; eauto using parseOctet_byte; eapply parseOctet_byte; eauto.
Qed.

Lemma land_byte b m : byte b -> byte (Z.land b m).
Proof.
  unfold byte. intros Hb.
  assert (E : Z.land b m = Z.land b m mod 2 ^ 8).
  { rewrite <- (Z.land_ones (Z.land b m)) by lia.
    rewrite <- Z.land_assoc, (Z.land_comm m), Z.land_assoc.
    rewrite (Z.land_ones b) by lia. rewrite (Z.mod_small b); [reflexivity|].
    change (2 ^ 8) with 256. lia. }
  rewrite E. change 256 with (2 ^ 8). apply Z.mod_pos_bound. lia.
Qed.

Lemma ParseCIDR_wf cidr net :
  ParseCIDR cidr = Some net ->
  wf4 (netIP net) /\ 0 <= maskOnes net <= 32 /\ maskBits net = 32.
Proof.
  unfold ParseCIDR. destruct (cut "/" cidr) as [[addr mask]|]; [|discriminate].
  destruct (parseIPv4 addr) as [b4|] eqn:E4; [|discriminate].
  destruct (dtoi mask) as [n|] eqn:En; [|discriminate].
  destruct (n <=? 32) eqn:Le; [|discriminate]. intros [= <-].
  cbn [netIP maskOnes maskBits]. apply dtoi_nonneg in En.
  split; [|lia].
  apply parseIPv4_wf4 in E4 as (a & b & c & d & -> & Ha & Hb & Hc & Hd).
  cbn [CIDRMask maskBytes].
  repeat match goal with
         | |- context [if ?c then _ else _] => destruct c
         end; cbn [maskBytes];
    eexists _, _, _, _; (split; [reflexivity|]); auto using land_byte.
Qed.

Lemma shl1_int64_small shift :
  0 <= shift <= 32 -> shl1_int64 shift = 2 ^ shift.
Proof.
  intros H. unfold shl1_int64, wrap_int64.
  destruct ((0 <=? shift) && (shift <? 64))%bool eqn:E.
  - rewrite Z.shiftl_1_l.
    assert (0 < 2 ^ shift <= 2 ^ 32).
    { split; [apply Z.pow_pos_nonneg; lia | apply Z.pow_le_mono_r; lia]. }
    rewrite Z.mod_small; lia.
  - apply andb_false_iff in E as [E | E]; lia.
Qed.

Lemma Static_same p q f : Static p f -> same_static p q -> Static q f.
Proof.
  intros [ ] (_ & E1 & E2 & _ & E3). constructor; congruence.
Qed.

Lemma NewIPPool_inv cidr p :
  NewIPPool cidr = Ok p ->
  exists net f,
    ParseCIDR cidr = Some net /\
    wf4 (netIP net) /\ 0 <= maskOnes net <= 30 /\ maskBits net = 32 /\
    wf4 f /\ ipVal f = (ipVal (netIP net) + 1) mod 2 ^ 32 /\
    p = {| networkCIDR := cidr; serverIP := IPString f; allocated := ∅;
           recycled := []; nextIndex := 1; firstUsable := IPString f;
           lastUsable := lastUsable p;
           totalUsable := 2 ^ (32 - maskOnes net) - 2 |}.
Proof.
  unfold NewIPPool, NewIPPoolFrom.
  destruct (ParseCIDR cidr) as [net|] eqn:Ep; [|discriminate].
  destruct (ParseCIDR_wf _ _ Ep) as (Hw & Hones & Hbits).
  rewrite (To4_wf4 _ Hw).
  destruct (netIP net) as [|b0 rest] eqn:Enet.
  { destruct Hw as (? & ? & ? & ? & ? & _); discriminate. }
  rewrite <- Enet in *. clear Enet b0 rest.
  rewrite Hbits. rewrite shl1_int64_small by lia.
  destruct (2 <? 2 ^ (32 - maskOnes net)) eqn:Lt; [|discriminate].
  apply Z.ltb_lt in Lt. intros [= <-].
  assert (maskOnes net <= 30).
  { destruct (Z.le_gt_cases (maskOnes net) 30) as [|G]; [assumption|].
    assert (2 ^ (32 - maskOnes net) <= 2 ^ 1)
      by (apply Z.pow_le_mono_r; lia). lia. }
  rewrite ParseIP_IPString by assumption.
  rewrite <- increment_To4, To4_v4InV6 by assumption.
  destruct (increment_wf4 _ Hw) as [Hf Hv].
  exists net, (increment (netIP net)). cbn [lastUsable].
  repeat split; auto; lia.
Qed.

Lemma NewIPPool_Static cidr p :
  NewIPPool cidr = Ok p -> exists f, Static p f.
Proof.
  intros H. destruct (NewIPPool_inv _ _ H)
    as (net & f & _ & _ & Hones & _ & Hf & _ & ->).
  exists f. constructor; cbn; auto.
  assert (2 ^ 2 <= 2 ^ (32 - maskOnes net) <= 2 ^ 32)
    by (split; apply Z.pow_le_mono_r; lia).
  lia.
Qed.

Lemma addrAt_Static p f i :
  Static p f -> addrAt p i = IPString (Nat.iter (Z.to_nat i) increment f).
Proof.
  intros [Hw Hfirst _ _]. unfold addrAt. rewrite Hfirst.
  now apply IPString_iter_parsed.
Qed.

Lemma addrAt_inj p f i j :
  Static p f -> 0 <= i < 2 ^ 32 -> 0 <= j < 2 ^ 32 ->
  addrAt p i = addrAt p j -> i = j.
Proof.
  intros Hs Hi Hj. rewrite !(addrAt_Static p f) by assumption.
  destruct Hs as [Hw _ _ _]. intros E.
  destruct (iter_increment_wf4 f (Z.to_nat i) Hw) as [Wi Vi].
  destruct (iter_increment_wf4 f (Z.to_nat j) Hw) as [Wj Vj].
  apply IPString_inj in E; [|assumption..].
  rewrite E in Vi. rewrite Vi in Vj.
  rewrite !Z2Nat.id in Vj by lia.
  pose proof (ipVal_range f Hw).
  assert (forall k, 0 <= k < 2 ^ 32 ->
            (ipVal f + k) mod 2 ^ 32
            = if ipVal f + k <? 2 ^ 32 then ipVal f + k
              else ipVal f + k - 2 ^ 32) as M.
  { intros k Hk. destruct (Z.ltb_spec (ipVal f + k) (2 ^ 32)).
    - apply Z.mod_small. lia.
    - symmetry. apply (Z.mod_unique _ _ 1); lia. }
  rewrite (M i Hi), (M j Hj) in Vj.
  destruct (Z.ltb_spec (ipVal f + i) (2 ^ 32));
    destruct (Z.ltb_spec (ipVal f + j) (2 ^ 32)); lia.
Qed.

Lemma addrAt_0 p f : Static p f -> addrAt p 0 = serverIP p.
Proof.
  intros Hs. rewrite (addrAt_Static p f) by assumption.
  destruct Hs as [_ _ -> _]. reflexivity.
Qed.

Lemma addrAt_same p q i : same_static p q -> addrAt q i = addrAt p i.
Proof. intros (_ & _ & E & _). unfold addrAt. now rewrite E. Qed.

Lemma is_allocated_insert p p' ip k :
  allocated p' = <[ip := true]> (allocated p) ->
  is_allocated p' k = true <-> k = ip \/ is_allocated p k = true.
Proof.
  intros E. unfold is_allocated. rewrite E, lookup_insert.
  case_decide as Hd; subst; cbn; split; auto.
  intros [-> | Hk]; [congruence | assumption].
Qed.

Lemma AllocateNodeIP_inv p ip p' :
  AllocateNodeIP p = Ok (ip, p') ->
  same_static p p' /\
  allocated p' = <[ip := true]> (allocated p) /\
  ((exists rest, recycled p = ip :: rest /\ recycled p' = rest /\
                 nextIndex p' = nextIndex p) \/
   (recycled p = [] /\ recycled p' = [] /\ nextIndex p < totalUsable p /\
    ip = addrAt p (nextIndex p) /\ nextIndex p' = nextIndex p + 1)).
Proof.
  unfold AllocateNodeIP. destruct (recycled p) as [|r rest] eqn:Er.
  - destruct (totalUsable p <=? nextIndex p) eqn:E; [discriminate|].
    apply Z.leb_gt in E. intros [= <- <-]. cbn.
    split; [repeat split|]. split; [reflexivity|]. right. auto.
  - intros [= <- <-]. cbn. split; [repeat split|]. split; [reflexivity|].
    left. eauto.
Qed.

Lemma ReleaseNodeIP_inv p ip p' :
  ReleaseNodeIP p ip = Ok p' ->
  same_static p p' /\ ip <> serverIP p /\ is_allocated p ip = true /\
  allocated p' = delete ip (allocated p) /\
  recycled p' = recycled p ++ [ip] /\ nextIndex p' = nextIndex p.
Proof.
  unfold ReleaseNodeIP. case_bool_decide; [discriminate|].
  destruct (is_allocated p ip) eqn:E; [|discriminate]. cbn.
  intros [= <-]. cbn. repeat split; auto.
Qed.

Lemma is_allocated_delete p p' ip k :
  allocated p' = delete ip (allocated p) ->
  is_allocated p' k = true <-> k <> ip /\ is_allocated p k = true.
Proof.
  intros E. unfold is_allocated. rewrite E, lookup_delete.
  case_decide as Hd; subst; cbn; split; try tauto; try congruence.
  all: try (intros [? ?]; congruence).
  intros Hk. split; [congruence | assumption].
Qed.

Lemma owned_mono p q ip :
  same_static p q -> nextIndex p <= nextIndex q -> owned p ip -> owned q ip.
Proof.
  intros Hs Hn (i & Hi & ->). exists i. split; [lia|].
  symmetry. now apply addrAt_same.
Qed.

Lemma same_static_refl p : same_static p p.
Proof. repeat split. Qed.

Lemma same_static_trans p q r :
  same_static p q -> same_static q r -> same_static p r.
Proof.
  intros (A1&A2&A3&A4&A5) (B1&B2&B3&B4&B5). repeat split; congruence.
Qed.

Lemma owned_not_allocated_at_cursor p f :
  PoolInv p f -> nextIndex p < totalUsable p ->
  is_allocated p (addrAt p (nextIndex p)) = false.
Proof.
  intros I Hlt. destruct (is_allocated p _) eqn:E; [|reflexivity].
  apply (inv_alloc _ _ I) in E as (i & Hi & E).
  pose proof (st_total _ _ (inv_static _ _ I)).
  apply (addrAt_inj p f) in E; [lia | apply I | lia | lia].
Qed.

Lemma NewIPPool_PoolInv cidr p :
  NewIPPool cidr = Ok p -> exists f, PoolInv p f.
Proof.
  intros H. destruct (NewIPPool_Static _ _ H) as [f Hs]. exists f.
  destruct (NewIPPool_inv _ _ H) as (net & f' & _ & _ & _ & _ & _ & _ & E).
  pose proof (st_total _ _ Hs) as Ht.
  rewrite E in Ht |- *. cbn in Ht. rewrite E in Hs.
  constructor; cbn; auto; try lia; try contradiction.
  - unfold is_allocated. cbn. intros ip. rewrite lookup_empty. discriminate.
  - constructor.
Qed.

(** A successful allocate returns an address that was not allocated, and
    keeps the invariant. *)
Lemma AllocateNodeIP_PoolInv p f ip p' :
  PoolInv p f -> AllocateNodeIP p = Ok (ip, p') ->
  is_allocated p ip = false /\ is_allocated p' ip = true /\ PoolInv p' f.
Proof.
  intros I H. apply AllocateNodeIP_inv in H as (Hs & Ha & Hcase).
  assert (Hin : is_allocated p' ip = true).
  { unfold is_allocated. rewrite Ha, lookup_insert_eq. reflexivity. }
  destruct Hcase as [(rest & Er & Er' & En) | (Er & Er' & Hlt & Eip & En)].
  - pose proof (inv_nodup _ _ I) as Nd. rewrite Er in Nd.
    apply NoDup_cons in Nd as [Nin Nd].
    split; [apply (inv_disjoint _ _ I); rewrite Er; now left|].
    split; [assumption|]. constructor.
    + eapply Static_same; [apply I | assumption].
    + destruct Hs as (_ & _ & _ & _ & Et). rewrite En, Et. apply I.
    + intros k Hk. apply (is_allocated_insert p p' ip k Ha) in Hk.
      apply (owned_mono p); [assumption | lia |].
      destruct Hk as [-> | Hk]; [|now apply (inv_alloc _ _ I)].
      apply (inv_recycled _ _ I). rewrite Er. now left.
    + intros k Hk. rewrite Er' in Hk. apply (owned_mono p); [assumption | lia |].
      apply (inv_recycled _ _ I). rewrite Er. now right.
    + intros k Hk. rewrite Er' in Hk.
      destruct (is_allocated p' k) eqn:E; [|reflexivity].
      apply (is_allocated_insert p p' ip k Ha) in E.
      destruct E as [-> | E].
      * exfalso. apply Nin. now apply list_elem_of_In.
      * rewrite (inv_disjoint _ _ I) in E; [discriminate|]. rewrite Er. now right.
    + now rewrite Er'.
  - split; [subst ip; now apply (owned_not_allocated_at_cursor p f)|].
    split; [assumption|]. pose proof (inv_cursor _ _ I). constructor.
    + eapply Static_same; [apply I | assumption].
    + destruct Hs as (_ & _ & _ & _ & Et). rewrite En, Et. lia.
    + intros k Hk. apply (is_allocated_insert p p' ip k Ha) in Hk.
      destruct Hk as [-> | Hk].
      * exists (nextIndex p). split; [lia|]. subst ip. symmetry.
        now apply addrAt_same.
      * apply (owned_mono p); [assumption | lia |]. now apply (inv_alloc _ _ I).
    + rewrite Er'. contradiction.
    + rewrite Er'. contradiction.
    + rewrite Er'. constructor.
Qed.

Lemma ReleaseNodeIP_PoolInv p f ip p' :
  PoolInv p f -> ReleaseNodeIP p ip = Ok p' -> PoolInv p' f.
Proof.
  intros I H. apply ReleaseNodeIP_inv in H as (Hs & Hne & Hal & Ea & Er & En).
  constructor.
  - eapply Static_same; [apply I | assumption].
  - destruct Hs as (_ & _ & _ & _ & Et). rewrite En, Et. apply I.
  - intros k Hk. apply (is_allocated_delete p p' ip k Ea) in Hk as [_ Hk].
    apply (owned_mono p); [assumption | lia |]. now apply (inv_alloc _ _ I).
  - intros k Hk. rewrite Er in Hk. apply (owned_mono p); [assumption | lia |].
    apply in_app_or in Hk as [Hk | [<- | []]].
    + now apply (inv_recycled _ _ I).
    + now apply (inv_alloc _ _ I).
  - intros k Hk. rewrite Er in Hk.
    destruct (is_allocated p' k) eqn:E; [|reflexivity].
    apply (is_allocated_delete p p' ip k Ea) in E as [Hkne E].
    apply in_app_or in Hk as [Hk | [<- | []]]; [|congruence].
    rewrite (inv_disjoint _ _ I k Hk) in E. discriminate.
  - rewrite Er. apply NoDup_app. split; [apply I|]. split; [|apply NoDup_singleton].
    intros k Hk Hk'. apply list_elem_of_In in Hk. apply list_elem_of_singleton in Hk'. subst k.
    rewrite (inv_disjoint _ _ I ip Hk) in Hal. discriminate.
Qed.

Lemma runPool_app p ops1 ops2 :
  runPool p (ops1 ++ ops2) = runPool (runPool p ops1) ops2.
Proof. unfold runPool. apply fold_left_app. Qed.

Lemma stepPool_PoolInv p f o :
  PoolInv p f -> allocRelease o -> PoolInv (stepPool p o).1 f.
Proof.
  intros I Ho. destruct o; try contradiction; cbn [stepPool].
  - destruct (AllocateNodeIP p) as [[ip p']|] eqn:E; [|exact I].
    now apply (AllocateNodeIP_PoolInv p f ip p').
  - destruct (ReleaseNodeIP p ip) as [p'|] eqn:E; [|exact I].
    now apply (ReleaseNodeIP_PoolInv p f ip p').
Qed.

Lemma runPool_PoolInv ops : forall p f,
  PoolInv p f -> Forall allocRelease ops -> PoolInv (runPool p ops) f.
Proof.
  induction ops as [|o ops IH]; intros p f I Hops; [exact I|].
  inversion Hops; subst. cbn. apply IH; [|assumption].
  now apply stepPool_PoolInv.
Qed.

(** An allocated address stays allocated as long as it is not released. *)
Lemma stepPool_keeps p o a :
  allocRelease o -> o <> OpRelease a ->
  is_allocated p a = true -> is_allocated (stepPool p o).1 a = true.
Proof.
  intros Ho Hne Ha. destruct o; try contradiction; cbn [stepPool].
  - destruct (AllocateNodeIP p) as [[ip p']|] eqn:E; [|exact Ha].
    apply AllocateNodeIP_inv in E as (_ & Ea & _). cbn.
    apply (is_allocated_insert p p' ip a Ea); auto.
  - destruct (ReleaseNodeIP p ip) as [p'|] eqn:E; [|exact Ha].
    apply ReleaseNodeIP_inv in E as (_ & _ & _ & Ea & _). cbn.
    apply (is_allocated_delete p p' ip a Ea). split; [congruence | assumption].
Qed.

Lemma runPool_keeps ops : forall p a,
  Forall allocRelease ops -> ~ In (OpRelease a) ops ->
  is_allocated p a = true -> is_allocated (runPool p ops) a = true.
Proof.
  induction ops as [|o ops IH]; intros p a Hops Hnot Ha; [exact Ha|].
  inversion Hops; subst. cbn. apply IH; [assumption | |].
  - intros Hin. apply Hnot. now right.
  - apply stepPool_keeps; [assumption | | assumption].
    intros ->. apply Hnot. now left.
Qed.

(** C4.  On a freshly constructed pool driven by any sequence of allocate
    and release calls, two successful allocate calls return distinct
    addresses unless the first result was released in between. *)
Theorem C4_live_allocations_distinct
    (cidr : string) (p0 p1 p2 : IPPool) (ops1 ops2 : list poolOp)
    (a b : string) :
  NewIPPool cidr = Ok p0 ->
  Forall allocRelease ops1 -> Forall allocRelease ops2 ->
  AllocateNodeIP (runPool p0 ops1) = Ok (a, p1) ->
  ~ In (OpRelease a) ops2 ->
  AllocateNodeIP (runPool p1 ops2) = Ok (b, p2) ->
  a <> b.
Proof.
  intros Hnew H1 H2 Ha Hnot Hb.
  destruct (NewIPPool_PoolInv _ _ Hnew) as [f I0].
  pose proof (runPool_PoolInv ops1 p0 f I0 H1) as I1.
  destruct (AllocateNodeIP_PoolInv _ _ _ _ I1 Ha) as (_ & Hin & I2).
  pose proof (runPool_PoolInv ops2 p1 f I2 H2) as I3.
  destruct (AllocateNodeIP_PoolInv _ _ _ _ I3 Hb) as (Hfree & _ & _).
  pose proof (runPool_keeps ops2 p1 a H2 Hnot Hin) as Hlive.
  intros ->. congruence.
Qed.

(** ** Exhaustion (C8) *)

Lemma allocMany_cursor (k : nat) : forall p f,
  Static p f -> recycled p = [] -> 1 <= nextIndex p ->
  nextIndex p + Z.of_nat k <= totalUsable p ->
  exists p',
    allocMany k p
    = Ok (map (fun i => addrAt p (nextIndex p + Z.of_nat i)) (seq 0 k), p') /\
    recycled p' = [] /\ nextIndex p' = nextIndex p + Z.of_nat k /\
    same_static p p'.
Proof.
  induction k as [|k IH]; intros p f Hs Hr Hn Hle.
  - exists p. cbn. rewrite Z.add_0_r. auto using same_static_refl.
  - cbn [allocMany].
    destruct (AllocateNodeIP p) as [[ip p1]|e] eqn:E.
    2:{ unfold AllocateNodeIP in E. rewrite Hr in E.
        destruct (totalUsable p <=? nextIndex p) eqn:El; [|discriminate].
        apply Z.leb_le in El. lia. }
    apply AllocateNodeIP_inv in E
      as (Hss & _ & [(rest & Er & _) | (_ & Er1 & _ & Eip & En)]);
      [congruence|].
    destruct (IH p1 f) as (p' & Em & Hr' & Hn' & Hss');
      [eapply Static_same; eauto | assumption | lia | |].
    { destruct Hss as (_ & _ & _ & _ & Et). rewrite Et. lia. }
    exists p'. cbn. rewrite Em. cbn.
    split; [|split; [assumption | split; [lia | eapply same_static_trans; eauto]]].
    cbn [seq map]. change (Z.of_nat 0) with 0. rewrite Z.add_0_r, <- Eip.
    do 3 f_equal.
    rewrite <- seq_shift, map_map. apply map_ext. intros i.
    rewrite (addrAt_same p p1) by assumption. f_equal. lia.
Qed.

Lemma NoDup_cursor_addresses p f (k : nat) :
  Static p f -> 0 <= nextIndex p -> nextIndex p + Z.of_nat k <= 2 ^ 32 ->
  NoDup (map (fun i => addrAt p (nextIndex p + Z.of_nat i)) (seq 0 k)).
Proof.
  intros Hs Hn Hle. apply NoDup_fmap_2_strong; [|apply NoDup_seq].
  intros i j Hi Hj E. apply elem_of_seq in Hi, Hj.
  apply (addrAt_inj p f) in E; [lia | assumption | lia | lia].
Qed.

(** Once an allocation fails, every longer run of allocations fails. *)
Lemma allocMany_past_failure (m : nat) : forall q ips q' (j : nat),
  allocMany m q = Ok (ips, q') ->
  AllocateNodeIP q' = Err ErrNoAvailableIPs ->
  is_ok (allocMany (m + S j) q) = false.
Proof.
  induction m as [|m IH]; intros q ips q' j Hm He.
  - cbn in Hm. injection Hm as <- <-. cbn. now rewrite He.
  - cbn [allocMany Nat.add] in *.
    destruct (AllocateNodeIP q) as [[ip q1]|]; [|reflexivity]. cbn in *.
    destruct (allocMany m q1) as [[ips1 q2]|] eqn:E1; [|discriminate].
    cbn in Hm. injection Hm as <- <-.
    specialize (IH q1 ips1 q2 j E1 He).
    destruct (allocMany (m + S j) q1) as [[? ?]|]; [discriminate|reflexivity].
Qed.

(** C8.  A pool over a block of [N] addresses hands out exactly [N - 3]
    member addresses (the block less its network, broadcast and hub
    addresses) when nothing is released: that many successive allocations
    succeed with pairwise distinct results, and the next one fails with the
    exhaustion error. *)
Theorem C8_member_capacity (cidr : string) (net : IPNet) (p : IPPool) :
  ParseCIDR cidr = Some net ->
  NewIPPool cidr = Ok p ->
  let N := 2 ^ (maskBits net - maskOnes net) in
  (exists ips p',
      allocMany (Z.to_nat (N - 3)) p = Ok (ips, p') /\
      Z.of_nat (length ips) = N - 3 /\ NoDup ips /\
      AllocateNodeIP p' = Err ErrNoAvailableIPs) /\
  (forall k : nat, N - 3 < Z.of_nat k -> is_ok (allocMany k p) = false).
Proof.
  intros Hparse Hnew N.
  destruct (NewIPPool_Static _ _ Hnew) as [f Hs].
  destruct (NewIPPool_inv _ _ Hnew)
    as (net' & f' & Hparse' & _ & Hones & Hbits & _ & _ & E).
  rewrite Hparse in Hparse'. injection Hparse' as <-.
  assert (EN : totalUsable p = N - 2).
  { rewrite E. cbn. subst N. now rewrite Hbits. }
  clearbody N.
  assert (Hr : recycled p = []) by now rewrite E.
  assert (Hn : nextIndex p = 1) by now rewrite E.
  pose proof (st_total _ _ Hs) as Ht.
  destruct (allocMany_cursor (Z.to_nat (N - 3)) p f)
    as (p' & Em & Hr' & Hn' & Hss); auto; try lia.
  assert (Hexh : AllocateNodeIP p' = Err ErrNoAvailableIPs).
  { unfold AllocateNodeIP. rewrite Hr'.
    destruct Hss as (_ & _ & _ & _ & Et).
    assert (Hle : totalUsable p' <= nextIndex p') by lia.
    apply Z.leb_le in Hle. now rewrite Hle. }
  split.
  - eexists _, p'. split; [exact Em|].
    rewrite length_map, length_seq. split; [lia|]. split; [|assumption].
    apply (NoDup_cursor_addresses p f); [assumption | lia | lia].
  - intros k Hk.
    assert (Hk' : (Z.to_nat (N - 3) < k)%nat) by lia.
    assert (Ek : k = (Z.to_nat (N - 3) + S (k - S (Z.to_nat (N - 3))))%nat)
      by (clear - Hk'; lia).
    rewrite Ek. eapply allocMany_past_failure; eassumption.
Qed.

(** ** Recycling order (C6) *)

Lemma allocMany_recycled (q : list string) : forall p rest,
  recycled p = q ++ rest ->
  exists p', allocMany (length q) p = Ok (q, p') /\
             recycled p' = rest /\ nextIndex p' = nextIndex p.
Proof.
  induction q as [|ip q IH]; intros p rest Hr.
  - exists p. cbn. auto.
  - cbn [allocMany length].
    destruct (AllocateNodeIP p) as [[ip' p1]|e] eqn:E.
    2:{ unfold AllocateNodeIP in E. rewrite Hr in E. discriminate. }
    apply AllocateNodeIP_inv in E
      as (_ & _ & [(rest' & Er & Er' & En) | (Er & _)]);
      [|rewrite Hr in Er; discriminate].
    rewrite Hr in Er. injection Er as <- <-.
    destruct (IH p1 rest Er') as (p' & Em & Hr' & Hn').
    exists p'. cbn. rewrite Em. cbn. split; [reflexivity|]. split; [assumption|lia].
Qed.

Lemma releaseMany_recycled (ips : list string) : forall p p',
  releaseMany ips p = Ok p' ->
  recycled p' = recycled p ++ ips /\ nextIndex p' = nextIndex p.
Proof.
  induction ips as [|ip ips IH]; intros p p' H.
  - cbn in H. injection H as <-. now rewrite app_nil_r.
  - cbn [releaseMany] in H.
    destruct (ReleaseNodeIP p ip) as [p1|] eqn:E; [|discriminate].
    apply ReleaseNodeIP_inv in E as (_ & _ & _ & _ & Er & En).
    destruct (IH p1 p' H) as [Hr Hn]. rewrite Hr, Er, <- app_assoc.
    split; [reflexivity | lia].
Qed.

(** C6 (amended).  When the recycle queue is empty, releasing an address
    and then allocating returns that address.  In general released
    addresses join the tail of the queue and allocations take its head:
    after a run of releases the next allocations return the queued
    addresses first-freed first, and the cursor does not move until the
    queue is empty. *)
Theorem C6_release_then_allocate_fifo (p : IPPool) :
  (forall ip p',
      recycled p = [] -> ReleaseNodeIP p ip = Ok p' ->
      exists p'', AllocateNodeIP p' = Ok (ip, p'')) /\
  (forall ips p',
      releaseMany ips p = Ok p' ->
      recycled p' = recycled p ++ ips /\
      exists p'',
        allocMany (length (recycled p ++ ips)) p' = Ok (recycled p ++ ips, p'')
        /\ recycled p'' = [] /\ nextIndex p'' = nextIndex p).
Proof.
  split.
  - intros ip p' Hr H. apply ReleaseNodeIP_inv in H as (_ & _ & _ & _ & Er & _).
    rewrite Hr in Er. cbn in Er. unfold AllocateNodeIP. rewrite Er. eauto.
  - intros ips p' H. apply releaseMany_recycled in H as [Hr Hn].
    split; [assumption|].
    destruct (allocMany_recycled (recycled p ++ ips) p' [])
      as (p'' & Em & Hr'' & Hn''); [now rewrite app_nil_r|].
    exists p''. split; [assumption|]. split; [assumption | lia].
Qed.

(** The claim as stated fails: with 10.0.0.2 already in the queue, the
    release of 10.0.0.3 followed at once by an allocation returns
    10.0.0.2. *)
Lemma C6_counterexample :
  exists p0 p1 p2 p3 p4 p5,
    NewIPPool "10.0.0.0/24" = Ok p0 /\
    AllocateNodeIP p0 = Ok ("10.0.0.2", p1) /\
    AllocateNodeIP p1 = Ok ("10.0.0.3", p2) /\
    ReleaseNodeIP p2 "10.0.0.2" = Ok p3 /\
    ReleaseNodeIP p3 "10.0.0.3" = Ok p4 /\
    AllocateNodeIP p4 = Ok ("10.0.0.2", p5) /\
    "10.0.0.2" <> "10.0.0.3".
Proof.
  do 6 eexists.
  split; [vm_compute; reflexivity|].
  split; [vm_compute; reflexivity|].
  split; [vm_compute; reflexivity|].
  split; [vm_compute; reflexivity|].
  split; [vm_compute; reflexivity|].
  split; [vm_compute; reflexivity|].
  discriminate.
Qed.

Lemma bytesOf_ipVal f : wf4 f -> bytesOf (ipVal f) = f.
Proof.
  intros (a & b & c & d & -> & Ha & Hb & Hc & Hd). unfold byte in *.
  unfold bytesOf, ipVal. cbn [fold_left].
  change (2 ^ 24) with 16777216. change (2 ^ 16) with 65536.
  change (2 ^ 8) with 256.
  f_equal; [|f_equal; [|f_equal; [|f_equal]]];
    Z.div_mod_to_equations; lia.
Qed.

Lemma last_bytes_ok : forallb last_byte_ok (seq 0 31) = true.
Proof. vm_compute. reflexivity. Qed.

Lemma masked_last_byte n d :
  0 <= n <= 30 -> byte d -> Z.land d (nth 3 (CIDRMask 4 n) 0) <= 252.
Proof.
  intros Hn Hd. unfold byte in Hd. pose proof last_bytes_ok as H.
  rewrite forallb_forall in H. specialize (H (Z.to_nat n)).
  rewrite in_seq in H. specialize (H ltac:(lia)).
  unfold last_byte_ok in H. rewrite forallb_forall in H.
  specialize (H (Z.to_nat d)). rewrite in_seq in H. specialize (H ltac:(lia)).
  rewrite !Z2Nat.id in H by lia. now apply Z.leb_le.
Qed.

Lemma CIDRMask_4 n : exists m1 m2 m3 m4, CIDRMask 4 n = [m1; m2; m3; m4].
Proof.
  cbn [CIDRMask].
  repeat match goal with
         | |- context [if ?c then _ else _] => destruct c
         end; eauto.
Qed.

(** The network address of a block with at least four addresses is not the
    last address of the 32-bit space. *)
Lemma ParseCIDR_network_below_top cidr net :
  ParseCIDR cidr = Some net -> maskOnes net <= 30 ->
  ipVal (netIP net) + 1 < 2 ^ 32.
Proof.
  unfold ParseCIDR. destruct (cut "/" cidr) as [[addr mask]|]; [|discriminate].
  destruct (parseIPv4 addr) as [b4|] eqn:E4; [|discriminate].
  destruct (dtoi mask) as [n|] eqn:En; [|discriminate].
  destruct (n <=? 32) eqn:Le; [|discriminate].
  apply dtoi_nonneg in En.
  apply parseIPv4_wf4 in E4 as (a & b & c & d & -> & Ha & Hb & Hc & Hd).
  destruct (Z.le_gt_cases n 30) as [Hn | Hn];
    [|intros [= <-]; cbn [maskOnes]; lia].
  pose proof (masked_last_byte n d ltac:(lia) Hd) as Hlast.
  destruct (CIDRMask_4 n) as (m1 & m2 & m3 & m4 & Em). rewrite Em in *.
  intros [= <-] _. cbn [nth] in Hlast. cbn [netIP maskBytes].
  unfold ipVal. cbn [fold_left].
  pose proof (land_byte a m1 Ha). pose proof (land_byte b m2 Hb).
  pose proof (land_byte c m3 Hc). unfold byte in *. lia.
Qed.

Lemma NewIPPool_succeeds cidr net :
  ParseCIDR cidr = Some net ->
  3 <= 2 ^ (maskBits net - maskOnes net) - 2 ->
  is_ok (NewIPPool cidr) = true.
Proof.
  intros Hp Hu. unfold NewIPPool, NewIPPoolFrom. rewrite Hp.
  destruct (ParseCIDR_wf _ _ Hp) as (Hw & Hones & Hbits).
  rewrite (To4_wf4 _ Hw).
  destruct Hw as (a & b & c & d & -> & _).
  rewrite shl1_int64_small by lia.
  destruct (2 <? 2 ^ (maskBits net - maskOnes net)) eqn:E; [reflexivity|].
  apply Z.ltb_ge in E. lia.
Qed.

Lemma sync_fold_ge p l : forall acc,
  acc <= fold_left (syncStep p) l acc /\
  forall k v, In (k, v) l -> k <> serverIP p ->
              indexOf p k <= fold_left (syncStep p) l acc.
Proof.
  induction l as [|[k0 v0] l IH]; intros acc; cbn [fold_left].
  - split; [lia | contradiction].
  - destruct (IH (syncStep p acc (k0, v0))) as [IH1 IH2].
    assert (Hstep : acc <= syncStep p acc (k0, v0) /\
                    (k0 <> serverIP p -> indexOf p k0 <= syncStep p acc (k0, v0))).
    { unfold syncStep. cbn [fst]. case_bool_decide as Hd.
      - split; [lia | contradiction].
      - destruct (acc <? indexOf p k0) eqn:E;
          [apply Z.ltb_lt in E | apply Z.ltb_ge in E]; split; intros; lia. }
    split; [lia|]. intros k v [[= <- <-] | Hin] Hne.
    + destruct Hstep as [_ Hs]. specialize (Hs Hne). lia.
    + now apply (IH2 k v).
Qed.

Lemma SyncNextIndex_inv p :
  same_static p (SyncNextIndex p) /\
  allocated (SyncNextIndex p) = allocated p /\
  recycled (SyncNextIndex p) = recycled p /\
  1 <= nextIndex (SyncNextIndex p) /\
  forall k, is_allocated p k = true -> k <> serverIP p ->
            indexOf p k < nextIndex (SyncNextIndex p).
Proof.
  unfold SyncNextIndex, same_static.
  cbn [networkCIDR serverIP allocated recycled nextIndex firstUsable
       lastUsable totalUsable].
  destruct (sync_fold_ge p (map_to_list (allocated p)) 0) as [H0 Hk].
  split; [repeat split|]. split; [reflexivity|]. split; [reflexivity|].
  split; [lia|]. intros k Ha Hne. unfold is_allocated in Ha.
  destruct (allocated p !! k) as [v|] eqn:E; [|discriminate].
  apply elem_of_map_to_list, list_elem_of_In in E.
  specialize (Hk k v E Hne). lia.
Qed.

Lemma MarkIPAllocated_inv p ip p' :
  MarkIPAllocated p ip = Ok p' ->
  same_static p p' /\ allocated p' = <[ip := true]> (allocated p) /\
  recycled p' = recycled p /\ nextIndex p' = nextIndex p.
Proof.
  unfold MarkIPAllocated. case_bool_decide; [discriminate|].
  destruct (is_allocated p ip); [discriminate|]. intros [= <-]. cbn.
  repeat split.
Qed.

Lemma Reload_inv cidr p0 p p' :
  NewIPPool cidr = Ok p0 -> same_static p0 p ->
  RestoreIPPool (GetState p) = Ok p' ->
  same_static p0 p' /\ recycled p' = recycled p /\ nextIndex p' = nextIndex p.
Proof.
  intros Hnew (Ec & _) H. unfold RestoreIPPool in H. cbn in H.
  destruct (NewIPPool_inv _ _ Hnew) as (net & f & _ & _ & _ & _ & _ & _ & E0).
  assert (Ecidr : networkCIDR p0 = cidr) by (rewrite E0; reflexivity).
  rewrite Ec, Ecidr, Hnew in H. cbn in H. injection H as H.
  rewrite <- H. cbn. repeat split.
Qed.

Lemma stepPool_HubInv cidr p0 p o :
  NewIPPool cidr = Ok p0 -> HubInv p0 p -> HubInv p0 (stepPool p o).1.
Proof.
  intros Hnew [Hs Hc Hr]. destruct o; cbn [stepPool].
  - destruct (AllocateNodeIP p) as [[ip p']|] eqn:E; [|now constructor].
    apply AllocateNodeIP_inv in E
      as (Hss & _ & [(rest & Er & Er' & En) | (_ & Er' & _ & _ & En)]); cbn.
    + constructor; [eapply same_static_trans; eauto | lia |].
      rewrite Er'. intros Hin. apply Hr. rewrite Er. now right.
    + constructor; [eapply same_static_trans; eauto | lia |].
      rewrite Er'. intros [].
  - destruct (ReleaseNodeIP p ip) as [p'|] eqn:E; [|now constructor].
    apply ReleaseNodeIP_inv in E as (Hss & Hne & _ & _ & Er & En). cbn.
    constructor; [eapply same_static_trans; eauto | lia |].
    rewrite Er. intros Hin. apply in_app_or in Hin as [Hin | [Hin | []]]; [auto|].
    apply Hne. destruct Hs as (_ & Es & _). congruence.
  - destruct (MarkIPAllocated p ip) as [p'|] eqn:E; [|now constructor].
    apply MarkIPAllocated_inv in E as (Hss & _ & Er & En). cbn.
    constructor; [eapply same_static_trans; eauto | lia | now rewrite Er].
  - destruct (SyncNextIndex_inv p) as (Hss & _ & Er & Hn & _). cbn [fst].
    constructor; [eapply same_static_trans; eauto | lia | now rewrite Er].
  - destruct (RestoreIPPool (GetState p)) as [p'|] eqn:E; [|now constructor].
    destruct (Reload_inv _ _ _ _ Hnew Hs E) as (Hss & Er & En). cbn.
    constructor; [assumption | lia | now rewrite Er].
Qed.

Lemma runPool_HubInv cidr p0 ops :
  NewIPPool cidr = Ok p0 -> forall p, HubInv p0 p -> HubInv p0 (runPool p ops).
Proof.
  intros Hnew. induction ops as [|o ops IH]; intros p I; [exact I|].
  cbn. apply IH. now apply (stepPool_HubInv cidr).
Qed.

Lemma mask_bytes_ok :
  forallb mask_byte_ok [0; 128; 192; 224; 240; 248; 252; 254; 255] = true.
Proof. vm_compute. reflexivity. Qed.

Lemma land_mask_byte x m :
  byte x -> In m [0; 128; 192; 224; 240; 248; 252; 254; 255] ->
  Z.land x m = x - x mod (256 - m).
Proof.
  intros Hx Hm. unfold byte in Hx. pose proof mask_bytes_ok as H.
  rewrite forallb_forall in H. specialize (H m Hm).
  unfold mask_byte_ok in H. rewrite forallb_forall in H.
  specialize (H (Z.to_nat x)). rewrite in_seq in H. specialize (H ltac:(lia)).
  rewrite Z2Nat.id in H by lia. now apply Z.eqb_eq.
Qed.

(** [IP.Mask] with the mask of [n] leading ones clears the [32 - n] host
    bits of the address: the result is the largest multiple of the block
    size that is not above the address. *)
Lemma maskBytes_clears_host_bits a b c d n :
  byte a -> byte b -> byte c -> byte d -> 0 <= n <= 32 ->
  ipVal (maskBytes [a; b; c; d] (CIDRMask 4 n))
  = ipVal [a; b; c; d] - ipVal [a; b; c; d] mod 2 ^ (32 - n).
Proof.
  intros Ha Hb Hc Hd Hn.
  assert (exists k, (k < 33)%nat /\ n = Z.of_nat k) as (k & Hk & ->)
    by (exists (Z.to_nat n); lia).
  clear Hn. unfold byte in *.
  do 33 (destruct k as [|k];
         [ match goal with
           | |- context [CIDRMask 4 ?z] =>
               let m := eval vm_compute in (CIDRMask 4 z) in
               change (CIDRMask 4 z) with m
           end;
           match goal with
           | |- context [2 ^ ?e] =>
               let v := eval vm_compute in (2 ^ e) in change (2 ^ e) with v
           end;
           cbn [maskBytes]; unfold ipVal; cbn [fold_left];
           rewrite !land_mask_byte by (unfold byte; cbn; tauto || lia);
           cbn [Z.sub Z.opp Z.add Z.pos_sub Pos.pred_double Z.succ_double
                Z.pred_double Z.double];
           Z.to_euclidean_division_equations; lia
         | ]).
  lia.
Qed.

(** The network address [ParseCIDR] returns is the address written in the
    text with its host bits cleared. *)
Lemma ParseCIDR_network_address cidr net :
  ParseCIDR cidr = Some net ->
  exists addr mask b4,
    cut "/" cidr = Some (addr, mask) /\ parseIPv4 addr = Some b4 /\
    dtoi mask = Some (maskOnes net) /\
    ipVal (netIP net)
    = ipVal b4 - ipVal b4 mod 2 ^ (maskBits net - maskOnes net).
Proof.
  unfold ParseCIDR. destruct (cut "/" cidr) as [[addr mask]|]; [|discriminate].
  destruct (parseIPv4 addr) as [b4|] eqn:E4; [|discriminate].
  destruct (dtoi mask) as [n|] eqn:En; [|discriminate].
  destruct (n <=? 32) eqn:Le; [|discriminate]. intros [= <-].
  cbn [netIP maskOnes maskBits]. exists addr, mask, b4.
  split; [reflexivity|]. split; [assumption|]. split; [assumption|].
  apply dtoi_nonneg in En. apply Z.leb_le in Le.
  apply parseIPv4_wf4 in E4 as (a & b & c & d & -> & Ha & Hb & Hc & Hd).
  now apply maskBytes_clears_host_bits.
Qed.

(** C5.  For a block that [ParseCIDR] accepts: the network address of the
    block is the address written in the text with its host bits cleared,
    that is, the largest multiple of the block size not above it; with at
    least three usable addresses the pool is constructed; the hub address
    of a constructed pool is the text of the network address plus one, the
    first address of the block after the network address; and in every
    state reached by allocate, release, mark, resync and reload calls the
    hub address is unchanged, its release fails with the hub-address error,
    and no successful allocate returns it. *)
Theorem C5_hub_address_reserved (cidr : string) (net : IPNet) :
  ParseCIDR cidr = Some net ->
  (exists addr mask b4,
      cut "/" cidr = Some (addr, mask) /\ parseIPv4 addr = Some b4 /\
      dtoi mask = Some (maskOnes net) /\
      ipVal (netIP net)
      = ipVal b4 - ipVal b4 mod 2 ^ (maskBits net - maskOnes net)) /\
  (3 <= 2 ^ (maskBits net - maskOnes net) - 2 ->
   is_ok (NewIPPool cidr) = true) /\
  forall p0, NewIPPool cidr = Ok p0 ->
    GetServerIP p0 = IPString (bytesOf (ipVal (netIP net) + 1)) /\
    forall ops,
      GetServerIP (runPool p0 ops) = GetServerIP p0 /\
      ReleaseNodeIP (runPool p0 ops) (GetServerIP p0)
      = Err ErrReleaseServerIP /\
      forall ip p', AllocateNodeIP (runPool p0 ops) = Ok (ip, p') ->
                    ip <> GetServerIP p0.
Proof.
  intros Hparse. split; [now apply ParseCIDR_network_address|].
  split; [now apply NewIPPool_succeeds|].
  intros p0 Hnew.
  destruct (NewIPPool_Static _ _ Hnew) as [f Hs].
  destruct (NewIPPool_inv _ _ Hnew)
    as (net' & f' & Hparse' & _ & Hones & _ & Hf' & Hv & E).
  rewrite Hparse in Hparse'. injection Hparse' as <-.
  unfold GetServerIP. split.
  - rewrite E. cbn [serverIP]. f_equal.
    rewrite <- (bytesOf_ipVal f' Hf'), Hv. f_equal.
    apply Z.mod_small. pose proof (ParseCIDR_network_below_top _ _ Hparse).
    pose proof (ipVal_range (netIP net)).
    destruct (ParseCIDR_wf _ _ Hparse) as (Hw & _). specialize (H0 Hw). lia.
  - intros ops.
    assert (I0 : HubInv p0 p0).
    { constructor; [apply same_static_refl | rewrite E; cbn; lia
                    | rewrite E; cbn; tauto]. }
    pose proof (runPool_HubInv cidr p0 ops Hnew p0 I0) as [Hss Hc Hr].
    set (p := runPool p0 ops) in *.
    assert (Es : serverIP p = serverIP p0) by apply Hss.
    split; [assumption|]. split.
    + unfold ReleaseNodeIP. rewrite Es. now rewrite bool_decide_eq_true_2.
    + intros ip p' Ha.
      apply AllocateNodeIP_inv in Ha
        as (_ & _ & [(rest & Er & _) | (_ & _ & Hlt & Eip & _)]).
      * intros ->. apply Hr. rewrite Er. now left.
      * pose proof (Static_same _ _ _ Hs Hss) as Hsp.
        pose proof (st_total _ _ Hsp).
        rewrite <- Es, <- (addrAt_0 p f Hsp), Eip. intros Heq.
        apply (addrAt_inj p f) in Heq; [lia | assumption | lia | lia].
Qed.

Lemma scanIndex_found p f k (fuel : nat) : forall idx i,
  Static p f ->
  0 <= idx <= i -> i < totalUsable p ->
  (Z.to_nat (i - idx) < fuel)%nat ->
  addrAt p i = k ->
  scanIndex fuel (totalUsable p) k
            (Nat.iter (Z.to_nat idx) increment (ParseIP (firstUsable p))) idx
  = i.
Proof.
  induction fuel as [|fuel IH]; intros idx i Hs Hidx Hi Hfuel Hk; [lia|].
  cbn [scanIndex].
  change (IPString (Nat.iter (Z.to_nat idx) increment (ParseIP (firstUsable p))))
    with (addrAt p idx).
  pose proof (st_total _ _ Hs) as Ht.
  destruct (bool_decide (addrAt p idx = k)) eqn:Ed.
  - apply bool_decide_eq_true in Ed. cbn [negb andb]. rewrite <- Hk in Ed.
    apply (addrAt_inj p f) in Ed; [assumption | assumption | lia | lia].
  - apply bool_decide_eq_false in Ed. cbn [negb andb].
    assert (idx <> i) by (intros ->; contradiction).
    destruct (idx <? totalUsable p) eqn:El; [|apply Z.ltb_ge in El; lia].
    replace (increment (Nat.iter (Z.to_nat idx) increment (ParseIP (firstUsable p))))
      with (Nat.iter (Z.to_nat (idx + 1)) increment (ParseIP (firstUsable p))).
    + apply IH; auto; lia.
    + replace (Z.to_nat (idx + 1)) with (S (Z.to_nat idx)) by lia. reflexivity.
Qed.

Lemma indexOf_addrAt p f i :
  Static p f -> 0 <= i < totalUsable p -> indexOf p (addrAt p i) = i.
Proof.
  intros Hs Hi. unfold indexOf.
  apply (scanIndex_found p f _ _ 0 i); auto; lia.
Qed.

Lemma stepMark_inv p ip :
  let p' := (stepPool p (OpMark ip)).1 in
  same_static p p' /\ recycled p' = recycled p /\ nextIndex p' = nextIndex p /\
  (forall k, is_allocated p k = true -> is_allocated p' k = true) /\
  (ip <> "" -> is_allocated p' ip = true).
Proof.
  cbn [stepPool]. unfold MarkIPAllocated.
  case_bool_decide as Hd; cbn [fst].
  - repeat split; auto; contradiction.
  - destruct (is_allocated p ip) eqn:Ea; cbn [fst].
    + repeat split; auto.
    + repeat split; auto.
      * intros k Hk. unfold is_allocated in *. cbn [allocated].
        rewrite lookup_insert. case_decide; [reflexivity | assumption].
      * intros _. unfold is_allocated. cbn [allocated].
        now rewrite lookup_insert_eq.
Qed.

Lemma markAll_inv ms : forall p,
  same_static p (markAll p ms) /\
  recycled (markAll p ms) = recycled p /\
  nextIndex (markAll p ms) = nextIndex p /\
  (forall k, is_allocated p k = true -> is_allocated (markAll p ms) k = true) /\
  (forall m, In m ms -> m <> "" -> is_allocated (markAll p ms) m = true).
Proof.
  induction ms as [|m ms IH]; intros p.
  - cbn. repeat split; auto; contradiction.
  - cbn [markAll fold_left].
    destruct (stepMark_inv p m) as (S1 & R1 & N1 & A1 & M1).
    destruct (IH (stepPool p (OpMark m)).1) as (S2 & R2 & N2 & A2 & M2).
    fold (markAll (stepPool p (OpMark m)).1 ms).
    split; [eapply same_static_trans; eauto|].
    split; [congruence|]. split; [congruence|].
    split; [auto|]. intros k [<- | Hin] Hne; auto.
Qed.

Lemma stepPool_MarkInv ms p0 p o :
  MarkInv ms p0 p -> allocRelease o ->
  (forall m, In m ms -> o <> OpRelease m) ->
  MarkInv ms p0 (stepPool p o).1.
Proof.
  intros [Hs Hb Hr] Ho Hnot. destruct o; try contradiction; cbn [stepPool].
  - destruct (AllocateNodeIP p) as [[ip p']|] eqn:E; [|now constructor].
    apply AllocateNodeIP_inv in E
      as (Hss & _ & [(rest & Er & Er' & En) | (_ & Er' & _ & _ & En)]); cbn;
      (constructor; [eapply same_static_trans; eauto | |]).
    + intros m i Hm Hi Hmi. rewrite (addrAt_same p p' i Hss) in Hmi.
      destruct Hss as (_ & _ & _ & _ & Et). rewrite Et in Hi. rewrite En.
      specialize (Hb m i Hm Hi Hmi). lia.
    + intros m Hm Hin. rewrite Er' in Hin. apply (Hr m Hm). rewrite Er. now right.
    + intros m i Hm Hi Hmi. rewrite (addrAt_same p p' i Hss) in Hmi.
      destruct Hss as (_ & _ & _ & _ & Et). rewrite Et in Hi. rewrite En.
      specialize (Hb m i Hm Hi Hmi). lia.
    + intros m Hm. rewrite Er'. intros [].
  - destruct (ReleaseNodeIP p ip) as [p'|] eqn:E; [|now constructor].
    apply ReleaseNodeIP_inv in E as (Hss & _ & _ & _ & Er & En). cbn.
    constructor; [eapply same_static_trans; eauto | |].
    + intros m i Hm Hi Hmi. rewrite (addrAt_same p p' i Hss) in Hmi.
      destruct Hss as (_ & _ & _ & _ & Et). rewrite Et in Hi. rewrite En.
      specialize (Hb m i Hm Hi Hmi). lia.
    + intros m Hm Hin. rewrite Er in Hin.
      apply in_app_or in Hin as [Hin | [Hin | []]]; [now apply (Hr m) |].
      apply (Hnot m Hm). congruence.
Qed.

Lemma runPool_MarkInv ms p0 ops : forall p,
  MarkInv ms p0 p -> Forall allocRelease ops ->
  (forall m, In m ms -> ~ In (OpRelease m) ops) ->
  MarkInv ms p0 (runPool p ops).
Proof.
  induction ops as [|o ops IH]; intros p I Hops Hnot; [exact I|].
  inversion Hops; subst. cbn. apply IH; [|assumption|].
  - apply stepPool_MarkInv; [assumption.. |].
    intros m Hm ->. apply (Hnot m Hm). now left.
  - intros m Hm Hin. apply (Hnot m Hm). now right.
Qed.

Lemma resync_MarkInv cidr p0 ms :
  NewIPPool cidr = Ok p0 ->
  MarkInv ms p0 (SyncNextIndex (markAll p0 ms)).
Proof.
  intros Hnew. destruct (NewIPPool_Static _ _ Hnew) as [f Hs].
  destruct (NewIPPool_inv _ _ Hnew) as (net & f' & _ & _ & _ & _ & _ & _ & E).
  destruct (markAll_inv ms p0) as (S1 & R1 & N1 & _ & M1).
  set (p1 := markAll p0 ms) in *.
  destruct (SyncNextIndex_inv p1) as (S2 & _ & R2 & N2 & I2).
  pose proof (Static_same _ _ _ Hs S1) as Hs1.
  pose proof (same_static_trans _ _ _ S1 S2) as S12.
  constructor; [assumption | |].
  - intros m i Hm Hi Hmi.
    rewrite (addrAt_same p1 (SyncNextIndex p1) i S2) in Hmi.
    destruct S2 as (_ & _ & _ & _ & Et). rewrite Et in Hi.
    destruct (Z.eq_dec i 0) as [-> | Hi0]; [lia|].
    assert (Hne : m <> "").
    { rewrite Hmi, (addrAt_Static p1 f) by assumption.
      apply IPString_nonempty. apply iter_increment_wf4. apply Hs1. }
    assert (Hns : m <> serverIP p1).
    { rewrite <- (addrAt_0 p1 f Hs1), Hmi. intros Heq.
      pose proof (st_total _ _ Hs1).
      apply (addrAt_inj p1 f) in Heq; [lia | assumption | lia | lia]. }
    specialize (I2 m (M1 m Hm Hne) Hns).
    rewrite Hmi, (indexOf_addrAt p1 f) in I2 by assumption. exact I2.
  - intros m Hm. rewrite R2, R1, E. cbn. tauto.
Qed.









(** ** Witnesses for the pool theorems *)

Lemma NewIPPool_pool24 : NewIPPool "10.0.0.0/24" = Ok pool24.
Proof. vm_compute. reflexivity. Qed.

Lemma ParseCIDR_net24 : ParseCIDR "10.0.0.0/24" = Some net24.
Proof. vm_compute. reflexivity. Qed.

Lemma C4_witness :
  NewIPPool "10.0.0.0/24" = Ok pool24 /\
  AllocateNodeIP (runPool pool24 [OpAllocate; OpRelease "10.0.0.2"])
  = Ok ("10.0.0.2",
        runPool pool24 [OpAllocate; OpRelease "10.0.0.2"; OpAllocate]) /\
  "10.0.0.2" <> "10.0.0.3".
Proof.
  split; [vm_compute; reflexivity|]. split; [vm_compute; reflexivity|].
  apply (C4_live_allocations_distinct "10.0.0.0/24" pool24
           (runPool pool24 [OpAllocate; OpRelease "10.0.0.2"; OpAllocate])
           (runPool pool24 [OpAllocate; OpRelease "10.0.0.2"; OpAllocate;
                            OpRelease "10.0.0.9"; OpAllocate])
           [OpAllocate; OpRelease "10.0.0.2"] [OpRelease "10.0.0.9"]).
  - vm_compute. reflexivity.
  - repeat constructor.
  - repeat constructor.
  - vm_compute. reflexivity.
  - cbn. intros [H | []]. discriminate H.
  - vm_compute. reflexivity.
Defined.

Lemma C5_witness :
  ParseCIDR "10.0.0.77/24" = Some net24 /\
  exists p0,
    NewIPPool "10.0.0.77/24" = Ok p0 /\
    ipVal (netIP net24) = ipVal [10; 0; 0; 77] - 77 /\
    GetServerIP p0 = "10.0.0.1" /\
    ReleaseNodeIP
      (runPool p0 [OpAllocate; OpMark "10.0.0.1"; OpSync; OpReload])
      "10.0.0.1"
    = Err ErrReleaseServerIP /\
    AllocateNodeIP p0 = Ok ("10.0.0.2", runPool p0 [OpAllocate]) /\
    "10.0.0.2" <> GetServerIP p0.
Proof.
  split; [vm_compute; reflexivity|].
  destruct (C5_hub_address_reserved "10.0.0.77/24" net24)
    as ((addr & mask & b4 & Hcut & Hip & _ & Hnet) & H1 & H2);
    [vm_compute; reflexivity|].
  assert (Hok : is_ok (NewIPPool "10.0.0.77/24") = true)
    by (apply H1; vm_compute; discriminate).
  destruct (NewIPPool "10.0.0.77/24") as [p0|] eqn:Hnew; [|discriminate].
  exists p0. split; [reflexivity|].
  destruct (H2 p0 eq_refl) as [H3 H4].
  split.
  { vm_compute in Hcut. injection Hcut as <- <-.
    vm_compute in Hip. injection Hip as <-.
    rewrite Hnet. vm_compute. reflexivity. }
  split; [rewrite H3; vm_compute; reflexivity|].
  replace "10.0.0.1" with (GetServerIP p0)
    by (rewrite H3; vm_compute; reflexivity).
  split; [apply (H4 [OpAllocate; OpMark (GetServerIP p0); OpSync; OpReload])|].
  assert (Ha : AllocateNodeIP p0 = Ok ("10.0.0.2", runPool p0 [OpAllocate])).
  { vm_compute in Hnew. injection Hnew as <-. vm_compute. reflexivity. }
  split; [exact Ha|].
  apply (proj2 (proj2 (H4 [])) "10.0.0.2" (runPool p0 [OpAllocate])).
  exact Ha.
Defined.

Lemma C6_witness :
  recycled (runPool pool24 [OpAllocate; OpAllocate]) = [] /\
  exists p'',
    AllocateNodeIP
      (runPool pool24 [OpAllocate; OpAllocate; OpRelease "10.0.0.2"])
    = Ok ("10.0.0.2", p'').
Proof.
  split; [vm_compute; reflexivity|].
  apply (proj1 (C6_release_then_allocate_fifo
                  (runPool pool24 [OpAllocate; OpAllocate])) "10.0.0.2").
  - vm_compute. reflexivity.
  - vm_compute. reflexivity.
Defined.


(** Concretely: a 10.0.0.0/24 pool yields exactly 253 member addresses. *)
Lemma C8_witness :
  NewIPPool "10.0.0.0/24" = Ok pool24 /\
  exists ips p',
    allocMany 253 pool24 = Ok (ips, p') /\
    Z.of_nat (length ips) = 253 /\ NoDup ips /\
    AllocateNodeIP p' = Err ErrNoAvailableIPs.
Proof.
  split; [vm_compute; reflexivity|].
  refine (proj1 (C8_member_capacity "10.0.0.0/24" net24 pool24 _ _));
    vm_compute; reflexivity.
Defined.

(** The worked example: in 10.0.0.0/24 the hub has 10.0.0.1, the first two
    members get 10.0.0.2 and 10.0.0.3, and once the first member is gone
    the next member gets 10.0.0.2 again. *)
Example pool_example_24 :
  exists p1 p2 p3 p4,
    GetServerIP pool24 = "10.0.0.1" /\
    AllocateNodeIP pool24 = Ok ("10.0.0.2", p1) /\
    AllocateNodeIP p1 = Ok ("10.0.0.3", p2) /\
    ReleaseNodeIP p2 "10.0.0.2" = Ok p3 /\
    AllocateNodeIP p3 = Ok ("10.0.0.2", p4).
Proof.
  do 4 eexists.
  split; [reflexivity|].
  split; [vm_compute; reflexivity|].
  split; [vm_compute; reflexivity|].
  split; [vm_compute; reflexivity|].
  vm_compute. reflexivity.
Qed.

(** ** Strings *)

Lemma append_assoc (a b c : string) : (a +:+ b) +:+ c = a +:+ (b +:+ c).
Proof.
  induction a as [|x a IH]; [reflexivity|].
  change (String x ((a +:+ b) +:+ c) = String x (a +:+ (b +:+ c))).
  now rewrite IH.
Qed.

Lemma append_nil_r (a : string) : a +:+ "" = a.
Proof.
  induction a as [|x a IH]; [reflexivity|].
  change (String x (a +:+ "") = String x a). now rewrite IH.
Qed.

Lemma length_append (a b : string) :
  String.length (a +:+ b) = (String.length a + String.length b)%nat.
Proof.
  induction a as [|x a IH]; [reflexivity|].
  change (S (String.length (a +:+ b))
          = S (String.length a + String.length b)).
  now rewrite IH.
Qed.

(** ** Buckets *)

Lemma elem_of_bucket_items {V : Type} (b : gmap string V) k v :
  In (k, v) (SM.bucket_items b) <-> b !! k = Some v.
Proof.
  unfold SM.bucket_items. rewrite <- list_elem_of_In.
  rewrite merge_sort_Permutation. apply elem_of_map_to_list.
Qed.

(** ** Deleting the hub (C1) *)

Lemma nameKey_neq networkID name : SM.nameKey networkID name <> name.
Proof.
  intros E. apply (f_equal String.length) in E. unfold SM.nameKey in E.
  rewrite !length_append in E. cbn in E. lia.
Qed.

Lemma delete_scan networkID (l : list (string * Server.t)) : forall acc,
  let scan :=
    fold_left
      (fun acc (kv : string * Server.t) =>
         if bool_decide (Server.NetworkID kv.2 = networkID)
         then (kv.1, Server.Name kv.2) else acc) l acc in
  scan = acc \/
  exists k v, In (k, v) l /\ Server.NetworkID v = networkID /\
              scan = (k, Server.Name v).
Proof.
  induction l as [|[k v] l IH]; intros acc; cbn [fold_left]; [now left|].
  cbn [fst snd]. case_bool_decide as Hd.
  - destruct (IH (k, Server.Name v)) as [E | (k' & v' & Hin & Hn & E)].
    + right. exists k, v. split; [now left|]. split; assumption.
    + right. exists k', v'. split; [now right|]. split; assumption.
  - destruct (IH acc) as [E | (k' & v' & Hin & Hn & E)]; [now left|].
    right. exists k', v'. split; [now right|]. split; assumption.
Qed.

(** C1 (the code departs from the claim).  A successful [DeleteServer]
    removes the hub's primary record but leaves its entry in the name
    index, so creating a hub of the same name in the same network
    afterwards fails. *)
Theorem C1_delete_server_keeps_name_index
    (db db' : SM.DB) (networkID : string) :
  SM.DeleteServer db networkID = Ok db' ->
  exists key server,
    SM.servers db !! key = Some server /\
    Server.NetworkID server = networkID /\
    SM.servers db' = delete key (SM.servers db) /\
    SM.servers_by_name db' !! SM.nameKey networkID (Server.Name server)
    = SM.servers_by_name db !! SM.nameKey networkID (Server.Name server) /\
    (is_Some (SM.servers_by_name db
                !! SM.nameKey networkID (Server.Name server)) ->
     forall publicAddress port virtualIP privateKey publicKey newID now,
       is_ok (SM.CreateServer db' networkID (Server.Name server) publicAddress
                port virtualIP privateKey publicKey newID now) = false).
Proof.
  unfold SM.DeleteServer.
  destruct (delete_scan networkID (SM.bucket_items (SM.servers db)) ("", ""))
    as [E | (k & v & Hin & Hn & E)]; cbn zeta in E; rewrite E.
  - rewrite bool_decide_eq_true_2 by reflexivity. discriminate.
  - case_bool_decide as Hk; [discriminate|]. intros [= <-].
    cbn [SM.servers SM.servers_by_name SM.networks].
    exists k, v. apply elem_of_bucket_items in Hin.
    assert (Hkeep : delete (Server.Name v) (SM.servers_by_name db)
                      !! SM.nameKey networkID (Server.Name v)
                    = SM.servers_by_name db !! SM.nameKey networkID (Server.Name v)).
    { apply lookup_delete_ne. intros Heq. symmetry in Heq.
      now apply nameKey_neq in Heq. }
    repeat (split; [assumption || reflexivity|]).
    intros Hidx publicAddress port virtualIP privateKey publicKey newID now.
    unfold SM.CreateServer. cbn [SM.servers SM.servers_by_name SM.networks].
    case_bool_decide; [reflexivity|].
    destruct (SM.serverExistsFor _ networkID); [reflexivity|].
    rewrite Hkeep. rewrite bool_decide_eq_true_2 by assumption. reflexivity.
Qed.

(** ** Creating a member without a type (C2) *)

Lemma SaveIPPoolState_nodes db networkID state db' :
  SM.SaveIPPoolState db networkID state = Ok db' -> SM.nodes db' = SM.nodes db.
Proof.
  unfold SM.SaveIPPoolState, SM.Put. case_bool_decide; [discriminate|].
  cbn. intros [= <-]. reflexivity.
Qed.

Lemma CreateNode_stored db networkID name publicAddress port virtualIP
      nodeType privateKey publicKey newID now db' node :
  SM.CreateNode db networkID name publicAddress port virtualIP
    nodeType privateKey publicKey newID now = Ok (db', node) ->
  Node.Type_ node = nodeType /\ Node.PublicAddress node = publicAddress /\
  SM.nodes db' !! newID = Some node.
Proof.
  unfold SM.CreateNode, SM.Put.
  repeat (case_bool_decide; cbn; try discriminate).
  intros [= <- <-]. cbn. rewrite lookup_insert_eq. auto.
Qed.

(** C2 (the code departs from the claim).  [CreateNode] with type peer and
    an empty public address fails and changes nothing; but with the type
    left unspecified and an empty public address, a successful call stores
    a member of type peer whose public address is empty: the address check
    runs before the type is defaulted. *)
Theorem C2_unspecified_type_stores_peer_without_address
    `{validator : IPValidator} (vnm : VNM.t)
    (networkName nodeName : string) (port : Z)
    (keys : result WireGuardKeyPair) (newID : string) (now : Z) :
  (forall network,
      SM.GetNetworkByName (VNM.storage vnm) networkName = Ok network ->
      VNM.CreateNode vnm networkName nodeName "" port NodeTypePeer keys
        newID now
      = (vnm, Err ErrPeerNeedsAddress)) /\
  (forall vnm' node,
      VNM.CreateNode vnm networkName nodeName "" port "" keys newID now
      = (vnm', Ok node) ->
      Node.Type_ node = NodeTypePeer /\ Node.PublicAddress node = "" /\
      SM.nodes (VNM.storage vnm') !! newID = Some node).
Proof.
  split.
  - intros network Hn. unfold VNM.CreateNode. rewrite Hn. reflexivity.
  - intros vnm' node. unfold VNM.CreateNode.
    destruct (SM.GetNetworkByName (VNM.storage vnm) networkName) as [network|];
      [|discriminate].
    cbn [andb bool_decide]. rewrite (bool_decide_eq_false_2 ("" = NodeTypePeer))
      by discriminate.
    cbn [andb]. rewrite (bool_decide_eq_true_2 ("" = "")) by reflexivity.
    destruct (VNM.ensureIPPool vnm _ _) as [vnm1 [[]|]]; [|discriminate].
    destruct (VNM.poolOf vnm1 _) as [pool|]; [|discriminate].
    destruct (AllocateNodeIP pool) as [[nodeIP pool1]|]; [|discriminate].
    destruct keys as [keys|]; [|discriminate].
    destruct (SM.CreateNode _ _ _ _ _ _ _ _ _ _ _)
      as [[db1 node1]|] eqn:Ec; [|discriminate].
    destruct (SM.SaveIPPoolState _ _ _) as [db2|] eqn:Es; [|discriminate].
    intros [= <- <-]. cbn [VNM.storage VNM.setStorage].
    apply CreateNode_stored in Ec as (Ht & Ha & Hs).
    apply SaveIPPoolState_nodes in Es. cbn [VNM.storage VNM.setStorage] in Es.
    rewrite Es. auto.
Qed.

(** ** Constructing the pool (C3) *)

Lemma NewIPPool_accepts_iff cidr :
  is_ok (NewIPPool cidr) = true <->
  exists net, ParseCIDR cidr = Some net /\
              2 <= 2 ^ (maskBits net - maskOnes net) - 2.
Proof.
  split.
  - destruct (NewIPPool cidr) as [p|] eqn:E; [|discriminate]. intros _.
    destruct (NewIPPool_inv _ _ E)
      as (net & f & Hp & _ & Hones & Hbits & _ & _ & _).
    exists net. split; [assumption|]. rewrite Hbits.
    assert (2 ^ 2 <= 2 ^ (32 - maskOnes net))
      by (apply Z.pow_le_mono_r; lia). lia.
  - intros (net & Hp & Hu). unfold NewIPPool, NewIPPoolFrom. rewrite Hp.
    destruct (ParseCIDR_wf _ _ Hp) as (Hw & Hones & Hbits).
    rewrite (To4_wf4 _ Hw).
    destruct Hw as (a & b & c & d & -> & _).
    rewrite shl1_int64_small by lia.
    destruct (2 <? 2 ^ (maskBits net - maskOnes net)) eqn:E; [reflexivity|].
    apply Z.ltb_ge in E. lia.
Qed.

(** C3 (the code departs from the claim).  [NewIPPool] fails exactly on
    text that does not parse as an IPv4 block and on blocks with fewer than
    two usable addresses.  A block with exactly two usable addresses is
    accepted, by the pool and by [CreateVirtualNetwork]: 10.0.0.0/30. *)
Theorem C3_two_usable_addresses_accepted :
  (forall cidr,
      is_ok (NewIPPool cidr) = true <->
      exists net, ParseCIDR cidr = Some net /\
                  2 <= 2 ^ (maskBits net - maskOnes net) - 2) /\
  (exists p, NewIPPool "10.0.0.0/30" = Ok p /\ totalUsable p = 2) /\
  is_ok (VNM.CreateVirtualNetwork (VNM.NewVirtualNetworkManager SM.emptyDB)
           "net1" "10.0.0.0/30" "N1" 0).2 = true.
Proof.
  split; [exact NewIPPool_accepts_iff|]. split.
  - eexists. split; [vm_compute; reflexivity | reflexivity].
  - vm_compute. reflexivity.
Qed.

(** ** The configuration documents (C9) *)

Lemma fold_left_sections {A : Type} (f : string -> A -> string)
      (g : A -> bool) (sec : A -> string) (l : list A) :
  (forall config a, f config a = if g a then config +:+ sec a else config) ->
  forall config,
    fold_left f l config = config +:+ concatText (map sec (List.filter g l)).
Proof.
  intros Hf. induction l as [|a l IH]; intros config;
    cbn [fold_left List.filter map].
  - cbn [concatText]. now rewrite append_nil_r.
  - rewrite IH, Hf. destruct (g a); [|reflexivity].
    cbn [map concatText]. now rewrite append_assoc.
Qed.

Lemma filter_true {A : Type} (l : list A) : List.filter (fun _ => true) l = l.
Proof. induction l as [|a l IH]; cbn; [reflexivity | now rewrite IH]. Qed.

Lemma List_filter_stdpp {A : Type} (P : A -> Prop) `{forall a, Decision (P a)}
      (l : list A) :
  List.filter (fun a => bool_decide (P a)) l = filter P l.
Proof.
  induction l as [|a l IH]; [reflexivity|]. cbn [List.filter].
  rewrite filter_cons. rewrite IH. case_bool_decide; case_decide; tauto.
Qed.

Lemma writeOtherNode_section config o :
  WCG.writeOtherNode config o
  = config +:+ peerSection (Node.PublicKey o) (Node.VirtualIP o +:+ "/32")
                 (memberHintFor o).
Proof.
  unfold WCG.writeOtherNode, WCG.WriteString, peerSection, memberHintFor.
  destruct (bool_decide (Node.PublicAddress o = "")); cbn [negb];
    rewrite ?append_assoc, ?append_nil_r; reflexivity.
Qed.

Lemma generateServerConfig_hubDocument server nodes :
  WCG.generateServerConfig server nodes = hubDocument server nodes.
Proof.
  unfold WCG.generateServerConfig, hubDocument.
  rewrite (fold_left_sections _ (fun _ => true)
             (fun m => peerSection (Node.PublicKey m)
                         (Node.VirtualIP m +:+ "/32") (hubHintFor m))).
  - rewrite filter_true. f_equal.
    unfold WCG.WriteString, hubInterface.
    rewrite ?append_assoc. reflexivity.
  - intros config m. unfold WCG.WriteString, peerSection, hubHintFor.
    destruct (bool_decide (Node.Type_ m = NodeTypePeer)
              && negb (bool_decide (Node.PublicAddress m = "")))%bool;
      rewrite ?append_assoc, ?append_nil_r; reflexivity.
Qed.

Lemma generateNodeConfig_memberDocument network server node allNodes :
  WCG.generateNodeConfig network server node allNodes
  = memberDocument network server node allNodes.
Proof.
  unfold WCG.generateNodeConfig, memberDocument, visibleTo.
  set (sec := fun m => peerSection (Node.PublicKey m)
                         (Node.VirtualIP m +:+ "/32") (memberHintFor m)).
  assert (Hhead :
    (let config := WCG.WriteString "" ("[Interface]" +:+ WCG.LF) in
     let config := WCG.WriteString config
                     ("PrivateKey = " +:+ Node.PrivateKey node +:+ WCG.LF) in
     let config := WCG.WriteString config
                     ("Address = " +:+ Node.VirtualIP node +:+ "/32" +:+ WCG.LF) in
     let config := WCG.WriteString config
                     ("ListenPort = " +:+ itoa (Node.Port node) +:+ WCG.LF) in
     let config := WCG.WriteString config (WCG.LF +:+ "[Peer]" +:+ WCG.LF) in
     let config := WCG.WriteString config
                     ("PublicKey = " +:+ Server.PublicKey server +:+ WCG.LF) in
     let config := WCG.WriteString config
                     ("AllowedIPs = " +:+ VirtualNetwork.CIDR network +:+ WCG.LF) in
     if negb (bool_decide (Server.PublicAddress server = "")) then
       WCG.WriteString config
         ("Endpoint = " +:+ FormatEndpoint (Server.PublicAddress server)
                              (Server.Port server) +:+ WCG.LF)
     else config)
    = memberInterface node +:+
      peerSection (Server.PublicKey server) (VirtualNetwork.CIDR network)
        (hintForHub server)).
  { unfold WCG.WriteString, memberInterface, peerSection, hintForHub. cbn zeta.
    destruct (bool_decide (Server.PublicAddress server = "")); cbn [negb];
      rewrite ?append_assoc, ?append_nil_r; reflexivity. }
  cbn zeta in Hhead |- *. rewrite Hhead. clear Hhead.
  destruct (bool_decide (Node.Type_ node = NodeTypePeer)) eqn:Ep.
  - apply bool_decide_eq_true in Ep.
    rewrite (bool_decide_eq_false_2 (Node.Type_ node = NodeTypeRoute))
      by (rewrite Ep; discriminate).
    rewrite (fold_left_sections _
               (fun o => bool_decide (Node.ID o <> Node.ID node
                                      /\ Node.Type_ o = NodeTypePeer)) sec).
    + rewrite List_filter_stdpp, append_assoc. reflexivity.
    + intros config o. rewrite writeOtherNode_section. fold (sec o).
      repeat case_bool_decide; cbn [negb andb]; try reflexivity; tauto.
  - destruct (bool_decide (Node.Type_ node = NodeTypeRoute)) eqn:Er.
    + rewrite (fold_left_sections _
                 (fun o => bool_decide (Node.Type_ o = NodeTypePeer)) sec).
      * rewrite List_filter_stdpp, append_assoc. reflexivity.
      * intros config o. now rewrite writeOtherNode_section.
    + cbn [map concatText]. now rewrite append_nil_r.
Qed.

Lemma visibleTo_spec node allNodes o :
  In o (visibleTo node allNodes) <->
  In o allNodes /\ Node.Type_ o = NodeTypePeer /\
  ((Node.Type_ node = NodeTypePeer /\ Node.ID o <> Node.ID node) \/
   Node.Type_ node = NodeTypeRoute).
Proof.
  unfold visibleTo. rewrite <- !list_elem_of_In.
  destruct (bool_decide (Node.Type_ node = NodeTypePeer)) eqn:Ep.
  - apply bool_decide_eq_true in Ep. rewrite list_elem_of_filter.
    split; [tauto|]. intros (Hin & Ht & [[_ Hid] | Hr]); [tauto|].
    rewrite Ep in Hr. discriminate.
  - apply bool_decide_eq_false in Ep.
    destruct (bool_decide (Node.Type_ node = NodeTypeRoute)) eqn:Er.
    + apply bool_decide_eq_true in Er. rewrite list_elem_of_filter.
      split; [tauto|]. intros (Hin & Ht & _). tauto.
    + apply bool_decide_eq_false in Er. rewrite elem_of_nil. tauto.
Qed.

(** C9.  The hub's document is its identity section followed by one peer
    entry per member, and an entry carries a reachability hint only for a
    peer-type member.  A member's document is its identity section, the
    hub's entry, and one entry per visible member, where the members
    visible to a peer-type member are the other peer-type members, those
    visible to a route-type member are all peer-type members, and a
    route-type member is visible to no member. *)
Theorem C9_visibility_rules
    (network : VirtualNetwork.t) (server : Server.t)
    (node : Node.t) (allNodes : list Node.t) :
  WCG.generateServerConfig server allNodes = hubDocument server allNodes /\
  (forall m, is_Some (hubHintFor m) -> Node.Type_ m = NodeTypePeer) /\
  WCG.generateNodeConfig network server node allNodes
  = memberDocument network server node allNodes /\
  (forall o, In o (visibleTo node allNodes) ->
             In o allNodes /\ Node.Type_ o = NodeTypePeer /\
             Node.Type_ o <> NodeTypeRoute) /\
  (Node.Type_ node = NodeTypePeer ->
   forall o, In o allNodes -> Node.Type_ o = NodeTypePeer ->
             Node.ID o <> Node.ID node -> In o (visibleTo node allNodes)) /\
  (Node.Type_ node = NodeTypeRoute ->
   forall o, In o allNodes -> Node.Type_ o = NodeTypePeer ->
             In o (visibleTo node allNodes)).
Proof.
  split; [apply generateServerConfig_hubDocument|].
  split.
  { intros m [e He]. unfold hubHintFor in He.
    destruct (bool_decide (Node.Type_ m = NodeTypePeer)) eqn:E;
      [now apply bool_decide_eq_true in E | discriminate]. }
  split; [apply generateNodeConfig_memberDocument|].
  split.
  { intros o Ho. apply visibleTo_spec in Ho as (Hin & Ht & _).
    split; [assumption|]. split; [assumption|]. rewrite Ht. discriminate. }
  split.
  - intros Hp o Hin Ht Hid. apply visibleTo_spec. tauto.
  - intros Hr o Hin Ht. apply visibleTo_spec. tauto.
Qed.

(** ** Saving versions (C10) *)

Lemma latest_fold networkID (l : list (string * ConfigVersion.t)) :
  forall acc,
    (forall a, acc = Some a -> ConfigVersion.NetworkID a = networkID) ->
    let r := fold_left (latestStep networkID) l acc in
    (forall a, acc = Some a ->
       exists c, r = Some c /\
                 ConfigVersion.Version a <= ConfigVersion.Version c) /\
    (forall k c', In (k, c') l -> ConfigVersion.NetworkID c' = networkID ->
       exists c, r = Some c /\
                 ConfigVersion.Version c' <= ConfigVersion.Version c) /\
    (forall c, r = Some c ->
       ConfigVersion.NetworkID c = networkID /\
       (acc = Some c \/ exists k, In (k, c) l)).
Proof.
  induction l as [|[k0 c0] l IH]; intros acc Hacc; cbn [fold_left].
  - split; [|split].
    + intros a ->. exists a. split; [reflexivity | lia].
    + intros k c' [].
    + intros c ->. split; [now apply Hacc | now left].
  - set (acc' := latestStep networkID acc (k0, c0)).
    assert (Hacc' : forall a, acc' = Some a ->
                      ConfigVersion.NetworkID a = networkID).
    { subst acc'. unfold latestStep. cbn [snd]. intros a.
      case_bool_decide as Hd; [|apply Hacc].
      destruct acc as [l0|]; [|now intros [= <-]].
      destruct (_ <? _); [now intros [= <-] | apply Hacc]. }
    destruct (IH acc' Hacc') as (I1 & I2 & I3). cbn zeta in *.
    assert (Hstep1 : forall a, acc = Some a ->
              exists b, acc' = Some b /\
                        ConfigVersion.Version a <= ConfigVersion.Version b).
    { intros a ->. subst acc'. unfold latestStep. cbn [snd].
      case_bool_decide; [|exists a; split; [reflexivity | lia]].
      destruct (ConfigVersion.Version a <? ConfigVersion.Version c0) eqn:E;
        [apply Z.ltb_lt in E; exists c0 | exists a];
        (split; [reflexivity | lia]). }
    assert (Hstep2 : ConfigVersion.NetworkID c0 = networkID ->
              exists b, acc' = Some b /\
                        ConfigVersion.Version c0 <= ConfigVersion.Version b).
    { intros Hn. subst acc'. unfold latestStep. cbn [snd].
      rewrite bool_decide_eq_true_2 by assumption.
      destruct acc as [l0|]; [|exists c0; split; [reflexivity | lia]].
      destruct (ConfigVersion.Version l0 <? ConfigVersion.Version c0) eqn:E;
        [apply Z.ltb_lt in E; exists c0 | apply Z.ltb_ge in E; exists l0];
        (split; [reflexivity | lia]). }
    assert (Hstep3 : forall b, acc' = Some b -> acc = Some b \/ b = c0).
    { intros b. subst acc'. unfold latestStep. cbn [snd].
      case_bool_decide; [|now left].
      destruct acc as [l0|]; [|intros [= <-]; now right].
      destruct (_ <? _); [intros [= <-]; now right | now left]. }
    split; [|split].
    + intros a Ha. destruct (Hstep1 a Ha) as (b & Hb & Hle).
      destruct (I1 b Hb) as (c & Hc & Hle'). exists c. split; [assumption|lia].
    + intros k c' [[= <- <-] | Hin] Hn.
      * destruct (Hstep2 Hn) as (b & Hb & Hle).
        destruct (I1 b Hb) as (c & Hc & Hle'). exists c. split; [assumption|lia].
      * now apply (I2 k c').
    + intros c Hc. destruct (I3 c Hc) as (Hn & [Hacc2 | (k & Hin)]).
      * split; [assumption|]. destruct (Hstep3 c Hacc2) as [Hs3 | ->];
          [now left | right; exists k0; now left].
      * split; [assumption|]. right. exists k. now right.
Qed.

Lemma GetLatestConfigVersion_fold db networkID :
  SM.GetLatestConfigVersion db networkID
  = match fold_left (latestStep networkID)
                    (SM.bucket_items (SM.configs db)) None with
    | None => Err ErrNoConfigVersion
    | Some c => Ok c
    end.
Proof. reflexivity. Qed.

(** The latest version is a stored version of the network with the
    greatest number. *)
Lemma GetLatestConfigVersion_Ok db networkID c :
  SM.GetLatestConfigVersion db networkID = Ok c ->
  ConfigVersion.NetworkID c = networkID /\
  (exists key, SM.configs db !! key = Some c) /\
  forall key c', SM.configs db !! key = Some c' ->
                 ConfigVersion.NetworkID c' = networkID ->
                 ConfigVersion.Version c' <= ConfigVersion.Version c.
Proof.
  rewrite GetLatestConfigVersion_fold.
  destruct (latest_fold networkID (SM.bucket_items (SM.configs db)) None)
    as (_ & I2 & I3); [discriminate|]. cbn zeta in *.
  destruct (fold_left _ _ None) as [r|]; [|discriminate]. intros [= ->].
  destruct (I3 c eq_refl) as (Hn & [Hnone | (k & Hin)]); [discriminate|].
  split; [assumption|]. split.
  - exists k. now apply elem_of_bucket_items.
  - intros key c' Hc' Hn'. apply elem_of_bucket_items in Hc'.
    destruct (I2 key c' Hc' Hn') as (c2 & E2 & Hle).
    injection E2 as <-. exact Hle.
Qed.

Lemma GetLatestConfigVersion_is_max db networkID key c :
  SM.configs db !! key = Some c ->
  ConfigVersion.NetworkID c = networkID ->
  (forall key' c', SM.configs db !! key' = Some c' ->
                   ConfigVersion.NetworkID c' = networkID ->
                   c' = c \/ ConfigVersion.Version c' < ConfigVersion.Version c) ->
  SM.GetLatestConfigVersion db networkID = Ok c.
Proof.
  intros Hc Hn Hmax.
  destruct (SM.GetLatestConfigVersion db networkID) as [l|e] eqn:E.
  - apply GetLatestConfigVersion_Ok in E as (Hln & (kl & Hl) & Hle).
    specialize (Hle key c Hc Hn).
    destruct (Hmax kl l Hl Hln) as [-> | Hlt]; [reflexivity | lia].
  - rewrite GetLatestConfigVersion_fold in E.
    destruct (latest_fold networkID (SM.bucket_items (SM.configs db)) None)
      as (_ & I2 & _); [discriminate|]. cbn zeta in *.
    apply elem_of_bucket_items in Hc.
    destruct (I2 key c Hc Hn) as (c2 & Hc2 & _). rewrite Hc2 in E. discriminate.
Qed.

Lemma wrap_int64_small z : - 2 ^ 63 <= z < 2 ^ 63 -> wrap_int64 z = z.
Proof. intros H. unfold wrap_int64. rewrite Z.mod_small; lia. Qed.

Lemma next_fold networkID (l : list (string * ConfigVersion.t)) :
  (forall k c, In (k, c) l ->
               1 <= ConfigVersion.Version c < 2 ^ 63 - 1) ->
  forall acc, 1 <= acc ->
    let r := fold_left (nextStep networkID) l acc in
    acc <= r /\
    (forall k c, In (k, c) l -> ConfigVersion.NetworkID c = networkID ->
                 ConfigVersion.Version c < r) /\
    (r = acc \/
     exists k c, In (k, c) l /\ ConfigVersion.NetworkID c = networkID /\
                 r = ConfigVersion.Version c + 1).
Proof.
  induction l as [|[k0 c0] l IH]; intros Hok acc Hacc; cbn [fold_left].
  - split; [lia|]. split; [intros k c [] | now left].
  - assert (Hok0 : 1 <= ConfigVersion.Version c0 < 2 ^ 63 - 1)
      by (apply (Hok k0); now left).
    assert (Hok' : forall k c, In (k, c) l ->
                     1 <= ConfigVersion.Version c < 2 ^ 63 - 1)
      by (intros k c Hin; apply (Hok k); now right).
    set (acc' := nextStep networkID acc (k0, c0)).
    assert (Hstep : acc <= acc' /\
              (ConfigVersion.NetworkID c0 = networkID ->
               ConfigVersion.Version c0 < acc') /\
              (acc' = acc \/
               (ConfigVersion.NetworkID c0 = networkID /\
                acc' = ConfigVersion.Version c0 + 1))).
    { subst acc'. unfold nextStep. cbn [snd].
      rewrite wrap_int64_small by lia.
      case_bool_decide as Hd; cbn [andb].
      - destruct (acc <=? ConfigVersion.Version c0) eqn:E;
          [apply Z.leb_le in E | apply Z.leb_gt in E].
        + split; [lia|]. split; [lia|]. right. split; [assumption | reflexivity].
        + split; [lia|]. split; [lia|]. now left.
      - split; [lia|]. split; [contradiction | now left]. }
    destruct Hstep as (S1 & S2 & S3).
    destruct (IH Hok' acc' ltac:(lia)) as (I1 & I2 & I3). cbn zeta in *.
    split; [lia|]. split.
    + intros k c [[= <- <-] | Hin] Hn; [specialize (S2 Hn); lia | eauto].
    + destruct I3 as [-> | (k & c & Hin & Hn & ->)].
      * destruct S3 as [-> | [Hn ->]]; [now left|].
        right. exists k0, c0. split; [now left|]. split; [assumption|reflexivity].
      * right. exists k, c. split; [now right|]. split; [assumption|reflexivity].
Qed.

Lemma nextVersion_spec db networkID :
  versions_ok db ->
  let r := SM.nextVersion db networkID in
  1 <= r /\
  (forall key c, SM.configs db !! key = Some c ->
                 ConfigVersion.NetworkID c = networkID ->
                 ConfigVersion.Version c < r) /\
  (r = 1 \/
   exists key c, SM.configs db !! key = Some c /\
                 ConfigVersion.NetworkID c = networkID /\
                 r = ConfigVersion.Version c + 1).
Proof.
  intros Hok.
  destruct (next_fold networkID (SM.bucket_items (SM.configs db)))
    with (acc := 1) as (N1 & N2 & N3); [|lia|].
  { intros k c Hin. apply elem_of_bucket_items in Hin. eauto. }
  cbn zeta in *. change (fold_left (nextStep networkID) _ 1)
    with (SM.nextVersion db networkID) in *.
  split; [lia|]. split.
  - intros key c Hc. apply elem_of_bucket_items in Hc. eauto.
  - destruct N3 as [-> | (k & c & Hin & Hn & E)]; [now left|].
    right. exists k, c. apply elem_of_bucket_items in Hin. auto.
Qed.

(** After a latest version [l], the next version number is one more. *)
Lemma nextVersion_after_latest db networkID l :
  versions_ok db ->
  SM.GetLatestConfigVersion db networkID = Ok l ->
  SM.nextVersion db networkID = ConfigVersion.Version l + 1.
Proof.
  intros Hok Hl.
  apply GetLatestConfigVersion_Ok in Hl as (Hn & (kl & Hkl) & Hmax).
  destruct (nextVersion_spec db networkID Hok) as (N1 & N2 & N3).
  cbn zeta in *. specialize (N2 kl l Hkl Hn).
  destruct N3 as [E | (k & c & Hc & Hcn & E)].
  - pose proof (Hok kl l Hkl). lia.
  - specialize (Hmax k c Hc Hcn). lia.
Qed.

Section GeneratorFacts.
Context `{hasher : WCG.Sha256}.

Lemma GenerateConfigs_same_entities db db' networkName :
  same_entities db db' ->
  WCG.GenerateConfigs db' networkName = WCG.GenerateConfigs db networkName.
Proof.
  intros (E1 & E2 & E3 & E4).
  unfold WCG.GenerateConfigs, SM.GetNetworkByName, SM.GetServerByNetworkID,
    SM.ListNodesByNetworkID.
  now rewrite E1, E2, E3, E4.
Qed.

Lemma GetNetworkByName_same_entities db db' networkName :
  same_entities db db' ->
  SM.GetNetworkByName db' networkName = SM.GetNetworkByName db networkName.
Proof.
  intros (E1 & E2 & _). unfold SM.GetNetworkByName. now rewrite E1, E2.
Qed.

Lemma GetLatestConfigVersion_same_configs db db' networkID :
  SM.configs db' = SM.configs db ->
  SM.GetLatestConfigVersion db' networkID
  = SM.GetLatestConfigVersion db networkID.
Proof. intros E. unfold SM.GetLatestConfigVersion. now rewrite E. Qed.

Lemma nextVersion_same_configs db db' networkID :
  SM.configs db' = SM.configs db ->
  SM.nextVersion db' networkID = SM.nextVersion db networkID.
Proof. intros E. unfold SM.nextVersion. now rewrite E. Qed.

(** What a successful save leaves behind: the returned version is the
    latest stored version of the network, it carries the hash of the
    current documents, and the networks, hubs and members are untouched. *)
Lemma SaveConfigVersion_post db networkName newID now db1 v created :
  versions_ok db ->
  WCG.SaveConfigVersion db networkName newID now = Ok (db1, v, created) ->
  exists network cfgs,
    SM.GetNetworkByName db networkName = Ok network /\
    WCG.GenerateConfigs db networkName
    = Ok (cfgs, ConfigVersion.ContentHash v) /\
    same_entities db db1 /\
    SM.GetLatestConfigVersion db1 (VirtualNetwork.ID network) = Ok v /\
    1 <= ConfigVersion.Version v /\
    (created = false -> db1 = db) /\
    (created = true ->
     SM.configs db1 = <[newID := v]> (SM.configs db) /\
     ConfigVersion.Version v = SM.nextVersion db (VirtualNetwork.ID network)).
Proof.
  intros Hok. unfold WCG.SaveConfigVersion.
  destruct (WCG.GenerateConfigs db networkName) as [[cfgs h]|] eqn:Eg;
    [|discriminate]. cbn [mbind result_bind].
  destruct (SM.GetNetworkByName db networkName) as [network|] eqn:En;
    [|discriminate]. cbn [mbind result_bind].
  set (nid := VirtualNetwork.ID network).
  assert (Hfresh :
    forall db1 v created,
      ('(db0, version) ← SM.SaveConfigVersion db nid h cfgs newID now;
       Ok (db0, version, true)) = Ok (db1, v, created) ->
      created = true /\ ConfigVersion.ContentHash v = h /\
      same_entities db db1 /\
      SM.configs db1 = <[newID := v]> (SM.configs db) /\
      ConfigVersion.Version v = SM.nextVersion db nid /\
      ConfigVersion.NetworkID v = nid).
  { clear. intros db1 v created. unfold SM.SaveConfigVersion, SM.Put.
    cbn [ConfigVersion.ID]. case_bool_decide; [discriminate|].
    cbn. intros [= <- <- <-]. cbn. repeat split. }
  assert (Hcreated :
    forall db1 v created,
      ('(db0, version) ← SM.SaveConfigVersion db nid h cfgs newID now;
       Ok (db0, version, true)) = Ok (db1, v, created) ->
      ConfigVersion.ContentHash v = h /\
      same_entities db db1 /\
      SM.GetLatestConfigVersion db1 nid = Ok v /\
      1 <= ConfigVersion.Version v /\
      (created = false -> db1 = db) /\
      (created = true ->
       SM.configs db1 = <[newID := v]> (SM.configs db) /\
       ConfigVersion.Version v = SM.nextVersion db nid)).
  { intros db1' v' created' H.
    destruct (Hfresh _ _ _ H) as (-> & Hh & Hse & Hc & Hv & Hvn).
    destruct (nextVersion_spec db nid Hok) as (N1 & N2 & _). cbn zeta in *.
    split; [assumption|]. split; [assumption|]. split.
    - apply (GetLatestConfigVersion_is_max db1' nid newID v');
        [rewrite Hc; apply lookup_insert_eq | assumption |].
      intros key' c' Hc' Hn'. rewrite Hc, lookup_insert in Hc'.
      case_decide; [left; congruence|]. right. rewrite Hv. eauto.
    - split; [lia|]. split; [discriminate | auto]. }
  destruct (SM.GetLatestConfigVersion db nid) as [latest|] eqn:El.
  - case_bool_decide as Hh.
    + intros [= <- <- <-]. exists network, cfgs. split; [reflexivity|].
      split; [now rewrite Hh|].
      split; [repeat split|]. split; [assumption|].
      apply GetLatestConfigVersion_Ok in El as (_ & (k & Hk) & _).
      split; [apply (Hok k latest Hk)|]. split; [reflexivity | discriminate].
    + intros H. destruct (Hcreated _ _ _ H) as (E & R).
      exists network, cfgs. split; [reflexivity|]. rewrite E. auto.
  - intros H. destruct (Hcreated _ _ _ H) as (E & R).
    exists network, cfgs. split; [reflexivity|]. rewrite E. auto.
Qed.

(** C10.  After a successful save, a second save with no change in
    between writes nothing and returns the same version as unchanged;
    and once the networks, hubs or members have changed so that the
    documents hash differently, the next save appends exactly one record,
    numbered one more than the previous latest version. *)
Theorem C10_save_version_on_change_only
    (db db1 : SM.DB) (networkName newID : string) (now : Z)
    (v1 : ConfigVersion.t) (created : bool) :
  versions_ok db ->
  WCG.SaveConfigVersion db networkName newID now = Ok (db1, v1, created) ->
  (forall newID2 now2,
      WCG.SaveConfigVersion db1 networkName newID2 now2
      = Ok (db1, v1, false)) /\
  (forall db2 network1 network2 cfgs2 hash2 newID2 now2,
      SM.configs db2 = SM.configs db1 ->
      SM.GetNetworkByName db1 networkName = Ok network1 ->
      SM.GetNetworkByName db2 networkName = Ok network2 ->
      VirtualNetwork.ID network2 = VirtualNetwork.ID network1 ->
      WCG.GenerateConfigs db2 networkName = Ok (cfgs2, hash2) ->
      hash2 <> ConfigVersion.ContentHash v1 ->
      ConfigVersion.Version v1 < 2 ^ 63 - 1 ->
      newID2 <> "" -> SM.configs db2 !! newID2 = None ->
      exists db3 v2,
        WCG.SaveConfigVersion db2 networkName newID2 now2
        = Ok (db3, v2, true) /\
        ConfigVersion.Version v2 = ConfigVersion.Version v1 + 1 /\
        ConfigVersion.ContentHash v2 = hash2 /\
        SM.configs db3 = <[newID2 := v2]> (SM.configs db2) /\
        size (SM.configs db3) = S (size (SM.configs db2)) /\
        same_entities db2 db3).
Proof.
  intros Hok Hsave.
  destruct (SaveConfigVersion_post _ _ _ _ _ _ _ Hok Hsave)
    as (network & cfgs & Hn & Hg & Hse & Hl & Hv & Hunch & Hcr).
  split.
  - intros newID2 now2. unfold WCG.SaveConfigVersion.
    rewrite (GenerateConfigs_same_entities db db1), Hg by assumption.
    cbn [mbind result_bind].
    rewrite (GetNetworkByName_same_entities db db1), Hn by assumption.
    cbn [mbind result_bind]. rewrite Hl.
    now rewrite bool_decide_eq_true_2 by reflexivity.
  - intros db2 network1 network2 cfgs2 hash2 newID2 now2
           Hc Hn1 Hn2 Hid Hg2 Hne Hmax Hid2 Hfresh.
    rewrite (GetNetworkByName_same_entities db db1) in Hn1 by assumption.
    rewrite Hn in Hn1. injection Hn1 as <-.
    assert (Hok1 : versions_ok db2).
    { intros key c Hkc. rewrite Hc in Hkc.
      destruct created.
      - destruct (Hcr eq_refl) as [Ec _]. rewrite Ec, lookup_insert in Hkc.
        case_decide; [injection Hkc as <-; lia | eauto].
      - rewrite (Hunch eq_refl) in Hkc. eauto. }
    assert (Hl2 : SM.GetLatestConfigVersion db2 (VirtualNetwork.ID network2)
                  = Ok v1).
    { rewrite Hid, (GetLatestConfigVersion_same_configs db1 db2) by assumption.
      exact Hl. }
    pose proof (nextVersion_after_latest _ _ _ Hok1 Hl2) as Hnext.
    unfold WCG.SaveConfigVersion. rewrite Hg2. cbn [mbind result_bind].
    rewrite Hn2. cbn [mbind result_bind]. rewrite Hl2.
    rewrite bool_decide_eq_false_2 by congruence.
    unfold SM.SaveConfigVersion, SM.Put. cbn [ConfigVersion.ID].
    rewrite bool_decide_eq_false_2 by assumption. cbn [mbind result_bind].
    eexists _, _. split; [reflexivity|]. cbn.
    split; [assumption|]. split; [reflexivity|]. split; [reflexivity|].
    split; [now apply map_size_insert_None | repeat split].
Qed.

End GeneratorFacts.

(** ** Witnesses for the storage, manager and generator theorems *)

Lemma C1_witness :
  SM.DeleteServer demo_db_hub "N1" = Ok demo_db_nohub /\
  SM.servers demo_db_nohub = ∅ /\
  SM.servers_by_name demo_db_nohub !! "N1:srv" = Some "S1" /\
  exists server,
    Server.NetworkID server = "N1" /\
    (is_Some (SM.servers_by_name demo_db_hub
                !! SM.nameKey "N1" (Server.Name server)) ->
     is_ok (SM.CreateServer demo_db_nohub "N1" (Server.Name server)
              "vpn.example.com" 51820 "10.0.0.1" "hubpriv" "hubpub" "S2" 2)
     = false).
Proof.
  split; [vm_compute; reflexivity|].
  split; [vm_compute; reflexivity|].
  split; [vm_compute; reflexivity|].
  destruct (C1_delete_server_keeps_name_index demo_db_hub demo_db_nohub "N1")
    as (key & server & _ & Hn & _ & _ & Hfail); [vm_compute; reflexivity|].
  exists server. split; [exact Hn|]. intros Hidx. now apply Hfail.
Defined.

(** The failing input of C1, evaluated: the hub's name cannot be reused. *)
Example C1_name_not_reusable :
  SM.CreateServer demo_db_nohub "N1" "srv" "vpn.example.com" 51820
    "10.0.0.1" "hubpriv" "hubpub" "S2" 2 = Err ErrServerNameExists.
Proof. vm_compute. reflexivity. Qed.

Lemma C2_witness :
  VNM.CreateNode demo_vnm_hub "testnet" "node1" "" 0 ""
    (Ok (mkKeys "priv" "pub")) "M1" 2
  = ((VNM.CreateNode demo_vnm_hub "testnet" "node1" "" 0 ""
        (Ok (mkKeys "priv" "pub")) "M1" 2).1,
     Ok demo_node) /\
  Node.Type_ demo_node = NodeTypePeer /\
  Node.PublicAddress demo_node = "" /\
  SM.nodes (VNM.storage
              (VNM.CreateNode demo_vnm_hub "testnet" "node1" "" 0 ""
                 (Ok (mkKeys "priv" "pub")) "M1" 2).1) !! "M1"
  = Some demo_node.
Proof.
  split; [vm_compute; reflexivity|].
  apply (proj2 (C2_unspecified_type_stores_peer_without_address
                  demo_vnm_hub "testnet" "node1" 0
                  (Ok (mkKeys "priv" "pub")) "M1" 2)).
  vm_compute. reflexivity.
Defined.

Lemma C9_witness :
  visibleTo demo_P1 demo_members = [demo_P2] /\
  visibleTo demo_R1 demo_members = [demo_P1; demo_P2] /\
  map hubHintFor demo_members
  = [Some "p1.example.com:51821"; Some "p2.example.com:51822"; None; None] /\
  In demo_P2 (visibleTo demo_P1 demo_members) /\
  In demo_P1 (visibleTo demo_R1 demo_members).
Proof.
  split; [vm_compute; reflexivity|].
  split; [vm_compute; reflexivity|].
  split; [vm_compute; reflexivity|].
  destruct (C9_visibility_rules demo_net demo_H demo_P1 demo_members)
    as (_ & _ & _ & _ & Hpeer & _).
  destruct (C9_visibility_rules demo_net demo_H demo_R1 demo_members)
    as (_ & _ & _ & _ & _ & Hroute).
  split.
  - apply Hpeer; [reflexivity | cbn; tauto | reflexivity | discriminate].
  - apply Hroute; [reflexivity | cbn; tauto | reflexivity].
Defined.

Lemma versions_ok_demo : versions_ok demo_db_member.
Proof. intros key c H. vm_compute in H. discriminate H. Qed.

Lemma C10_witness :
  WCG.SaveConfigVersion (hasher := textDigest) demo_db_member "net1" "C1" 3
  = Ok (demo_db_saved, demo_v1, true) /\
  ConfigVersion.Version demo_v1 = 1 /\
  WCG.SaveConfigVersion (hasher := textDigest) demo_db_saved "net1" "C2" 5
  = Ok (demo_db_saved, demo_v1, false) /\
  exists db3 v2,
    WCG.SaveConfigVersion (hasher := textDigest) demo_db_grown "net1" "C2" 5
    = Ok (db3, v2, true) /\
    ConfigVersion.Version v2 = ConfigVersion.Version demo_v1 + 1.
Proof.
  assert (Hsave :
    WCG.SaveConfigVersion (hasher := textDigest) demo_db_member "net1" "C1" 3
    = Ok (demo_db_saved, demo_v1, true)) by (vm_compute; reflexivity).
  destruct (C10_save_version_on_change_only (hasher := textDigest)
              demo_db_member demo_db_saved "net1" "C1" 3 demo_v1 true
              versions_ok_demo Hsave) as [Hsame Hchange].
  split; [exact Hsave|]. split; [vm_compute; reflexivity|].
  split; [apply Hsame|].
  destruct (Hchange demo_db_grown demo_net demo_net
              (match WCG.GenerateConfigs (hasher := textDigest)
                       demo_db_grown "net1" with
               | Ok (cfgs, _) => cfgs
               | Err _ => ∅
               end)
              (match WCG.GenerateConfigs (hasher := textDigest)
                       demo_db_grown "net1" with
               | Ok (_, h) => h
               | Err _ => ""
               end)
              "C2" 5)
    as (db3 & v2 & H3 & Hv & _).
  - vm_compute. reflexivity.
  - vm_compute. reflexivity.
  - vm_compute. reflexivity.
  - vm_compute. reflexivity.
  - vm_compute. reflexivity.
  - vm_compute. discriminate.
  - vm_compute. reflexivity.
  - discriminate.
  - vm_compute. reflexivity.
  -   exists db3, v2. split; assumption.
Defined.

(** ** Saving and restoring a pool *)

Lemma insert_all_lookup (l : list string) : forall (m : gmap string bool) k,
  fold_left (fun m ip => <[ip := true]> m) l m !! k
  = if bool_decide (k ∈ l) then Some true else m !! k.
Proof.
  induction l as [|a l IH]; intros m k; cbn [fold_left].
  - rewrite bool_decide_eq_false_2; [reflexivity | apply not_elem_of_nil].
  - rewrite IH. destruct (decide (k ∈ l)) as [Hin | Hin].
    + rewrite !bool_decide_eq_true_2; [reflexivity | now right | assumption].
    + rewrite (bool_decide_eq_false_2 _ Hin).
      destruct (decide (k = a)) as [-> | Hne].
      * rewrite lookup_insert_eq, bool_decide_eq_true_2; [reflexivity | left].
      * rewrite lookup_insert_ne by congruence.
        rewrite bool_decide_eq_false_2; [reflexivity|].
        intros Hin'. apply elem_of_cons in Hin' as [? | ?]; auto.
Qed.

Lemma HubInv_init cidr p0 : NewIPPool cidr = Ok p0 -> HubInv p0 p0.
Proof.
  intros Hnew.
  destruct (NewIPPool_inv _ _ Hnew) as (net & f & _ & _ & _ & _ & _ & _ & E).
  constructor; [apply same_static_refl | rewrite E; cbn; lia
                | rewrite E; cbn; tauto].
Qed.

Lemma NewIPPool_fresh cidr p0 :
  NewIPPool cidr = Ok p0 ->
  networkCIDR p0 = cidr /\ allocated p0 = ∅ /\ recycled p0 = [] /\
  nextIndex p0 = 1.
Proof.
  intros Hnew.
  destruct (NewIPPool_inv _ _ Hnew) as (net & f & _ & _ & _ & _ & _ & _ & E).
  rewrite E. cbn. repeat split.
Qed.

Lemma stepPool_values_true p o :
  (forall k v, allocated p !! k = Some v -> v = true) ->
  forall k v, allocated (stepPool p o).1 !! k = Some v -> v = true.
Proof.
  intros Hp k v. destruct o; cbn [stepPool].
  - destruct (AllocateNodeIP p) as [[ip p']|] eqn:E; [|apply Hp].
    apply AllocateNodeIP_inv in E as (_ & Ea & _). cbn [fst]. rewrite Ea.
    destruct (decide (k = ip)) as [-> | Hne].
    + rewrite lookup_insert_eq. congruence.
    + rewrite lookup_insert_ne by congruence. apply Hp.
  - destruct (ReleaseNodeIP p ip) as [p'|] eqn:E; [|apply Hp].
    apply ReleaseNodeIP_inv in E as (_ & _ & _ & Ea & _). cbn [fst]. rewrite Ea.
    intros H. apply lookup_delete_Some in H as [_ H]. now apply (Hp k).
  - destruct (MarkIPAllocated p ip) as [p'|] eqn:E; [|apply Hp].
    apply MarkIPAllocated_inv in E as (_ & Ea & _). cbn [fst]. rewrite Ea.
    destruct (decide (k = ip)) as [-> | Hne].
    + rewrite lookup_insert_eq. congruence.
    + rewrite lookup_insert_ne by congruence. apply Hp.
  - cbn [fst SyncNextIndex allocated]. apply Hp.
  - destruct (RestoreIPPool (GetState p)) as [p'|] eqn:E; [|apply Hp].
    unfold RestoreIPPool in E.
    destruct (NewIPPool (stNetworkCIDR (GetState p))) as [q|] eqn:Eq;
      [|discriminate].
    apply NewIPPool_fresh in Eq as (_ & Ea & _).
    cbn in E. injection E as <-. cbn [fst allocated].
    rewrite insert_all_lookup, Ea. case_bool_decide; [congruence|].
    destruct (decide (k = serverIP p)) as [-> | Hne].
    + rewrite lookup_insert_eq. congruence.
    + rewrite lookup_insert_ne by congruence. rewrite lookup_empty. discriminate.
Qed.

Lemma runPool_values_true ops : forall p,
  (forall k v, allocated p !! k = Some v -> v = true) ->
  forall k v, allocated (runPool p ops) !! k = Some v -> v = true.
Proof.
  induction ops as [|o ops IH]; intros p Hp; [exact Hp|].
  cbn. apply IH. now apply stepPool_values_true.
Qed.

Lemma GetState_allocated p k :
  k ∈ stAllocated (GetState p) <-> k <> serverIP p /\ is_Some (allocated p !! k).
Proof.
  cbn [GetState stAllocated]. rewrite list_elem_of_filter, list_elem_of_In.
  rewrite in_map_iff.
  split; intros [H1 H2]; (split; [exact H1|]).
  - destruct H2 as ([k' v] & <- & Hin). apply list_elem_of_In in Hin.
    apply elem_of_map_to_list in Hin. now exists v.
  - destruct H2 as [v Hv]. exists (k, v).
    split; [reflexivity|]. apply list_elem_of_In. now apply elem_of_map_to_list.
Qed.

Lemma RestoreIPPool_GetState cidr p0 p :
  NewIPPool cidr = Ok p0 -> same_static p0 p ->
  (forall k v, allocated p !! k = Some v -> v = true) ->
  RestoreIPPool (GetState p)
  = Ok {| networkCIDR := networkCIDR p; serverIP := serverIP p;
          allocated := <[serverIP p := true]> (allocated p);
          recycled := recycled p; nextIndex := nextIndex p;
          firstUsable := firstUsable p; lastUsable := lastUsable p;
          totalUsable := totalUsable p |}.
Proof.
  intros Hnew (Ec & Es & Ef & El & Et) Hv.
  destruct (NewIPPool_fresh _ _ Hnew) as (Ecidr & Ea & _).
  unfold RestoreIPPool. cbn [GetState stNetworkCIDR].
  replace (NewIPPool (networkCIDR p)) with (Ok p0) by congruence.
  cbn. f_equal. rewrite <- Ec, <- Es, <- Ef, <- El, <- Et. f_equal.
  apply map_eq. intros k. rewrite insert_all_lookup, Ea.
  pose proof (GetState_allocated p k) as Hk. cbn [GetState stAllocated] in Hk.
  case_bool_decide as Hin.
  - apply Hk in Hin as [Hne [v Hl]]. rewrite lookup_insert_ne by congruence.
    rewrite Hl. f_equal. symmetry. now apply (Hv k).
  - destruct (decide (k = serverIP p)) as [-> | Hne].
    + now rewrite !lookup_insert_eq.
    + rewrite !lookup_insert_ne by congruence. rewrite lookup_empty.
      destruct (allocated p !! k) eqn:El'; [|reflexivity].
      exfalso. apply Hin, Hk. split; [congruence | eauto].
Qed.

(** X1.  Saving and restoring. For every pool reached from a new pool by
    allocate, release, mark, resync and reload calls, [RestoreIPPool] of
    [GetState] succeeds; the restored pool has the same block, hub
    address, cursor and recycle queue; its allocated set is the old one
    with the hub address added; and the next [AllocateNodeIP] returns the
    same address, or fails with the same error, as on the pool that was
    saved. *)
Theorem restore_of_saved_state (cidr : string) (p0 : IPPool)
    (ops : list poolOp) :
  NewIPPool cidr = Ok p0 ->
  exists p',
    RestoreIPPool (GetState (runPool p0 ops)) = Ok p' /\
    same_static (runPool p0 ops) p' /\
    recycled p' = recycled (runPool p0 ops) /\
    nextIndex p' = nextIndex (runPool p0 ops) /\
    allocated p'
    = <[serverIP (runPool p0 ops) := true]> (allocated (runPool p0 ops)) /\
    (forall ip q, AllocateNodeIP (runPool p0 ops) = Ok (ip, q) ->
                  exists q', AllocateNodeIP p' = Ok (ip, q')) /\
    (forall e, AllocateNodeIP (runPool p0 ops) = Err e ->
               AllocateNodeIP p' = Err e).
Proof.
  intros Hnew.
  pose proof (runPool_HubInv cidr p0 ops Hnew p0 (HubInv_init _ _ Hnew))
    as [Hss _ _].
  assert (Hv : forall k v, allocated (runPool p0 ops) !! k = Some v -> v = true).
  { apply runPool_values_true. destruct (NewIPPool_fresh _ _ Hnew) as (_ & -> & _).
    intros k v H. rewrite lookup_empty in H. discriminate. }
  set (p := runPool p0 ops) in *.
  eexists. split; [apply (RestoreIPPool_GetState cidr p0 p Hnew Hss Hv)|].
  cbn. split; [repeat split|]. split; [reflexivity|]. split; [reflexivity|].
  split; [reflexivity|]. unfold AllocateNodeIP, addrAt. cbn.
  split.
  - intros ip q H. destruct (recycled p) as [|r rest].
    + destruct (totalUsable p <=? nextIndex p); [discriminate|].
      injection H as <- _. eauto.
    + injection H as <- _. eauto.
  - intros e H. destruct (recycled p) as [|r rest]; [|discriminate].
    destruct (totalUsable p <=? nextIndex p); [assumption | discriminate].
Qed.

(** ** Accounting of addresses *)

Lemma not_allocated_None p ip :
  (forall k v, allocated p !! k = Some v -> v = true) ->
  is_allocated p ip = false -> allocated p !! ip = None.
Proof.
  intros Hv. unfold is_allocated.
  destruct (allocated p !! ip) as [v|] eqn:E; [|reflexivity].
  rewrite (Hv _ _ E). discriminate.
Qed.

Lemma is_allocated_Some p ip :
  is_allocated p ip = true -> allocated p !! ip = Some true.
Proof.
  unfold is_allocated. destruct (allocated p !! ip) as [[|]|]; cbn; congruence.
Qed.

Lemma stepPool_count p f o :
  PoolInv p f -> allocRelease o ->
  (forall k v, allocated p !! k = Some v -> v = true) ->
  Z.of_nat (size (allocated p)) + Z.of_nat (length (recycled p))
  = nextIndex p - 1 ->
  Z.of_nat (size (allocated (stepPool p o).1))
  + Z.of_nat (length (recycled (stepPool p o).1))
  = nextIndex (stepPool p o).1 - 1.
Proof.
  intros I Ho Hv Hc. destruct o; try contradiction; cbn [stepPool].
  - destruct (AllocateNodeIP p) as [[ip p']|] eqn:E; [|exact Hc].
    destruct (AllocateNodeIP_PoolInv _ _ _ _ I E) as (Hfree & _ & _).
    apply (not_allocated_None _ _ Hv) in Hfree.
    apply AllocateNodeIP_inv in E
      as (_ & Ea & [(rest & Er & Er' & En) | (Er & Er' & _ & _ & En)]);
      cbn [fst]; rewrite Ea, Er', En, (map_size_insert_None _ _ _ Hfree);
      rewrite Er in Hc; cbn [length] in *; lia.
  - destruct (ReleaseNodeIP p ip) as [p'|] eqn:E; [|exact Hc].
    apply ReleaseNodeIP_inv in E as (_ & _ & Hal & Ea & Er & En).
    apply is_allocated_Some in Hal. cbn [fst].
    pose proof (map_size_delete_Some _ _ (mk_is_Some _ _ Hal)) as Hsz.
    assert (Hpos : size (allocated p) <> 0%nat).
    { apply map_size_ne_0_lookup. exists ip. now rewrite Hal. }
    rewrite Ea, Er, En, length_app, Hsz. cbn [length]. lia.
Qed.

Lemma runPool_count ops : forall p f,
  PoolInv p f -> Forall allocRelease ops ->
  (forall k v, allocated p !! k = Some v -> v = true) ->
  Z.of_nat (size (allocated p)) + Z.of_nat (length (recycled p))
  = nextIndex p - 1 ->
  Z.of_nat (size (allocated (runPool p ops)))
  + Z.of_nat (length (recycled (runPool p ops)))
  = nextIndex (runPool p ops) - 1.
Proof.
  induction ops as [|o ops IH]; intros p f I Hops Hv Hc; [exact Hc|].
  apply Forall_cons in Hops as [Ho Hops]. cbn.
  apply (IH _ f); [now apply stepPool_PoolInv | assumption
                   | now apply stepPool_values_true
                   | now apply (stepPool_count p f)].
Qed.

(** X2.  Accounting. In every pool reached from a new pool by allocate and
    release calls, the addresses in use and the addresses in the recycle
    queue together number exactly what the cursor has handed out; the
    cursor stays within the usable range; the queue has no duplicates and
    holds no address that is in use; every address in use or queued is one
    the cursor has passed; and [GetAllocatedIPs] is the allocated set. *)
Theorem pool_accounting (cidr : string) (p0 : IPPool) (ops : list poolOp) :
  NewIPPool cidr = Ok p0 -> Forall allocRelease ops ->
  Z.of_nat (size (allocated (runPool p0 ops)))
  + Z.of_nat (length (recycled (runPool p0 ops)))
  = nextIndex (runPool p0 ops) - 1 /\
  1 <= nextIndex (runPool p0 ops) <= totalUsable p0 /\
  NoDup (recycled (runPool p0 ops)) /\
  (forall ip, In ip (recycled (runPool p0 ops)) ->
              allocated (runPool p0 ops) !! ip = None) /\
  (forall ip,
      In ip (recycled (runPool p0 ops)) \/
      is_Some (allocated (runPool p0 ops) !! ip) ->
      exists i, 1 <= i < nextIndex (runPool p0 ops) /\ ip = addrAt p0 i) /\
  GetAllocatedIPs (runPool p0 ops) = allocated (runPool p0 ops).
Proof.
  intros Hnew Hops.
  destruct (NewIPPool_PoolInv _ _ Hnew) as [f I0].
  destruct (NewIPPool_fresh _ _ Hnew) as (_ & Ea & Er & En).
  assert (Hv0 : forall k v, allocated p0 !! k = Some v -> v = true).
  { intros k v H. rewrite Ea, lookup_empty in H. discriminate. }
  pose proof (runPool_values_true ops p0 Hv0) as Hv.
  pose proof (runPool_PoolInv ops p0 f I0 Hops) as [Hs Hcur Hal Hre Hdis Hnd].
  pose proof (runPool_HubInv cidr p0 ops Hnew p0 (HubInv_init _ _ Hnew))
    as [Hss _ _].
  assert (Hc : Z.of_nat (size (allocated (runPool p0 ops)))
               + Z.of_nat (length (recycled (runPool p0 ops)))
               = nextIndex (runPool p0 ops) - 1).
  { apply (runPool_count ops p0 f I0 Hops Hv0).
    rewrite Ea, Er, En, map_size_empty. reflexivity. }
  set (p := runPool p0 ops) in *.
  assert (Et : totalUsable p = totalUsable p0) by apply Hss.
  split; [exact Hc|]. split; [lia|]. split; [exact Hnd|]. split.
  { intros ip Hin. apply (not_allocated_None _ _ Hv). now apply Hdis. }
  split.
  { intros ip [Hin | [v Hl]].
    - destruct (Hre ip Hin) as (i & Hi & ->). exists i. split; [exact Hi|].
      now apply addrAt_same.
    - assert (Ht : is_allocated p ip = true).
      { unfold is_allocated. rewrite Hl, (Hv _ _ Hl). reflexivity. }
      destruct (Hal ip Ht) as (i & Hi & ->). exists i. split; [exact Hi|].
      now apply addrAt_same. }
  apply map_eq. intros k. unfold GetAllocatedIPs. rewrite lookup_fmap.
  destruct (allocated p !! k) as [v|] eqn:El; [|reflexivity].
  cbn. now rewrite (Hv _ _ El).
Qed.

(** ** Where the allocated addresses lie *)

Lemma masks_aligned : forallb mask_aligned_ok (seq 0 33) = true.
Proof. vm_compute. reflexivity. Qed.

Lemma masked_byte_aligned n (i : nat) x :
  0 <= n <= 32 -> (i < 4)%nat -> byte x ->
  (Z.land x (nth i (CIDRMask 4 n) 0) * 2 ^ (8 * (3 - Z.of_nat i)))
  mod 2 ^ (32 - n) = 0.
Proof.
  intros Hn Hi Hx. unfold byte in Hx. pose proof masks_aligned as H.
  rewrite forallb_forall in H. specialize (H (Z.to_nat n)).
  rewrite in_seq in H. specialize (H ltac:(lia)).
  unfold mask_aligned_ok in H. rewrite forallb_forall in H.
  specialize (H i). rewrite in_seq in H. specialize (H ltac:(lia)).
  rewrite forallb_forall in H. specialize (H (Z.to_nat x)).
  rewrite in_seq in H. specialize (H ltac:(lia)).
  rewrite !Z2Nat.id in H by lia. now apply Z.eqb_eq.
Qed.

(** The network address [ParseCIDR] returns is a multiple of the block
    size. *)
Lemma ParseCIDR_aligned cidr net :
  ParseCIDR cidr = Some net ->
  ipVal (netIP net) mod 2 ^ (32 - maskOnes net) = 0.
Proof.
  unfold ParseCIDR. destruct (cut "/" cidr) as [[addr mask]|]; [|discriminate].
  destruct (parseIPv4 addr) as [b4|] eqn:E4; [|discriminate].
  destruct (dtoi mask) as [n|] eqn:En; [|discriminate].
  destruct (n <=? 32) eqn:Le; [|discriminate].
  apply dtoi_nonneg in En. apply Z.leb_le in Le.
  apply parseIPv4_wf4 in E4 as (a & b & c & d & -> & Ha & Hb & Hc & Hd).
  pose proof (masked_byte_aligned n 0 a ltac:(lia) ltac:(lia) Ha) as H0.
  pose proof (masked_byte_aligned n 1 b ltac:(lia) ltac:(lia) Hb) as H1.
  pose proof (masked_byte_aligned n 2 c ltac:(lia) ltac:(lia) Hc) as H2.
  pose proof (masked_byte_aligned n 3 d ltac:(lia) ltac:(lia) Hd) as H3.
  destruct (CIDRMask_4 n) as (m1 & m2 & m3 & m4 & Em). rewrite Em in *.
  intros [= <-]. cbn [netIP maskOnes maskBytes]. cbn [nth] in *.
  unfold ipVal. cbn [fold_left].
  change (8 * (3 - Z.of_nat 0)) with 24 in H0.
  change (8 * (3 - Z.of_nat 1)) with 16 in H1.
  change (8 * (3 - Z.of_nat 2)) with 8 in H2.
  change (8 * (3 - Z.of_nat 3)) with 0 in H3.
  assert (Hpos : 0 < 2 ^ (32 - n)) by (apply Z.pow_pos_nonneg; lia).
  apply Z.mod_divide in H0, H1, H2, H3; try lia.
  apply Z.mod_divide; [lia|].
  replace ((((0 * 256 + Z.land a m1) * 256 + Z.land b m2) * 256
            + Z.land c m3) * 256 + Z.land d m4)
    with (Z.land a m1 * 2 ^ 24 + (Z.land b m2 * 2 ^ 16
          + (Z.land c m3 * 2 ^ 8 + Z.land d m4 * 2 ^ 0))) by lia.
  repeat apply Z.divide_add_r; assumption.
Qed.

Lemma block_fits cidr net :
  ParseCIDR cidr = Some net ->
  ipVal (netIP net) + 2 ^ (32 - maskOnes net) <= 2 ^ 32.
Proof.
  intros Hp. pose proof (ParseCIDR_aligned _ _ Hp) as Hal.
  destruct (ParseCIDR_wf _ _ Hp) as (Hw & Hones & _).
  pose proof (ipVal_range _ Hw) as Hr.
  assert (Hpos : 0 < 2 ^ (32 - maskOnes net)) by (apply Z.pow_pos_nonneg; lia).
  assert (Hpos' : 0 < 2 ^ maskOnes net) by (apply Z.pow_pos_nonneg; lia).
  assert (E32 : 2 ^ 32 = 2 ^ (32 - maskOnes net) * 2 ^ maskOnes net).
  { rewrite <- Z.pow_add_r by lia. f_equal. lia. }
  apply Z.mod_divide in Hal; [|lia]. destruct Hal as [q Hq].
  rewrite E32 in *. rewrite Hq in *.
  set (N := 2 ^ (32 - maskOnes net)) in *. set (M := 2 ^ maskOnes net) in *.
  assert (q < M) by nia. nia.
Qed.

(** X3.  Where allocated addresses lie. The network address of a parsed
    block is a multiple of the block size [N], so the block is the range
    from the network address to the network address plus [N - 1]. Every
    address returned by [AllocateNodeIP], in any pool reached from the new
    pool by allocate and release calls, is the network address plus some
    [i] with [2 <= i <= N - 2]: it lies in the block and is neither the
    network address, nor the hub address (plus 1), nor the last address of
    the block (plus [N - 1]). *)
Theorem allocated_inside_block (cidr : string) (net : IPNet) (p0 : IPPool)
    (ops : list poolOp) (ip : string) (p' : IPPool) :
  ParseCIDR cidr = Some net ->
  NewIPPool cidr = Ok p0 ->
  Forall allocRelease ops ->
  AllocateNodeIP (runPool p0 ops) = Ok (ip, p') ->
  ipVal (netIP net) mod 2 ^ (32 - maskOnes net) = 0 /\
  ipVal (netIP net) + 2 ^ (32 - maskOnes net) <= 2 ^ 32 /\
  exists i, 2 <= i <= 2 ^ (32 - maskOnes net) - 2 /\
            ip = IPString (bytesOf (ipVal (netIP net) + i)).
Proof.
  intros Hp Hnew Hops Ha.
  split; [now apply (ParseCIDR_aligned cidr)|].
  pose proof (block_fits _ _ Hp) as Hfit. split; [exact Hfit|].
  destruct (NewIPPool_PoolInv _ _ Hnew) as [f I0].
  destruct (NewIPPool_inv _ _ Hnew)
    as (net' & f' & Hp' & Hw & Hones & _ & Hf' & Hv & E).
  rewrite Hp in Hp'. injection Hp' as <-.
  assert (Ef : f = f').
  { apply IPString_inj; [apply I0 | assumption|].
    rewrite <- (st_first _ _ (inv_static _ _ I0)), E. reflexivity. }
  subst f'.
  assert (Et0 : totalUsable p0 = 2 ^ (32 - maskOnes net) - 2)
    by (rewrite E; reflexivity).
  pose proof (runPool_PoolInv ops p0 f I0 Hops) as I.
  destruct (AllocateNodeIP_PoolInv _ _ _ _ I Ha) as (_ & Hin & I').
  destruct I' as [Hs' Hcur' Hal' _ _ _].
  destruct (Hal' ip Hin) as (j & Hj & ->).
  pose proof (runPool_HubInv cidr p0 ops Hnew p0 (HubInv_init _ _ Hnew))
    as [Hss _ _].
  apply AllocateNodeIP_inv in Ha as (Hss' & _).
  assert (Et : totalUsable p' = totalUsable p0).
  { destruct Hss as (_ & _ & _ & _ & Et1).
    destruct Hss' as (_ & _ & _ & _ & Et2). congruence. }
  exists (j + 1). split; [lia|].
  rewrite (addrAt_Static _ _ _ Hs'). f_equal.
  destruct (iter_increment_wf4 f (Z.to_nat j) (st_wf _ _ Hs')) as [Hwj Hvj].
  rewrite <- (bytesOf_ipVal _ Hwj), Hvj, Hv. f_equal.
  pose proof (ipVal_range _ Hw).
  rewrite (Z.mod_small (ipVal (netIP net) + 1)) by lia.
  rewrite Z.mod_small by lia. lia.
Qed.

(** ** Buckets in key order *)

Lemma compare_le_trans (a : string) : forall b c,
  (a ?= b)%string <> Gt -> (b ?= c)%string <> Gt -> (a ?= c)%string <> Gt.
Proof.
  induction a as [|x a IH]; intros [|y b] [|z c]; cbn; try congruence.
  unfold Ascii.compare.
  destruct (N.compare_spec (N_of_ascii x) (N_of_ascii y)) as [E1|L1|G1];
    destruct (N.compare_spec (N_of_ascii y) (N_of_ascii z)) as [E2|L2|G2];
    destruct (N.compare_spec (N_of_ascii x) (N_of_ascii z)) as [E3|L3|G3];
    try congruence; try lia.
  apply IH.
Qed.

Lemma leb_trans (a b c : string) :
  String.leb a b = true -> String.leb b c = true -> String.leb a c = true.
Proof.
  unfold String.leb. intros H1 H2.
  pose proof (compare_le_trans a b c) as H.
  destruct (a ?= b)%string, (b ?= c)%string, (a ?= c)%string;
    try reflexivity; try discriminate; exfalso; apply H; congruence.
Qed.

Lemma key_le_trans {V : Type} : Transitive (@SM.key_le V).
Proof.
  intros x y z. unfold SM.key_le. rewrite !Is_true_true. apply leb_trans.
Qed.

Lemma key_le_total {V : Type} : Total (@SM.key_le V).
Proof.
  intros x y. unfold SM.key_le. rewrite !Is_true_true. apply String.leb_total.
Qed.

Lemma bucket_items_sorted {V : Type} (b : gmap string V) :
  StronglySorted SM.key_le (SM.bucket_items b).
Proof.
  apply StronglySorted_merge_sort; [apply key_le_trans | apply key_le_total].
Qed.

Lemma bucket_items_Permutation {V : Type} (b : gmap string V) :
  SM.bucket_items b ≡ₚ map_to_list b.
Proof. apply merge_sort_Permutation. Qed.

Lemma bucket_items_NoDup {V : Type} (b : gmap string V) :
  NoDup (SM.bucket_items b).
Proof. rewrite bucket_items_Permutation. apply NoDup_map_to_list. Qed.

Lemma bucket_items_length {V : Type} (b : gmap string V) :
  length (SM.bucket_items b) = size b.
Proof.
  rewrite bucket_items_Permutation. apply length_map_to_list.
Qed.

Lemma elem_of_bucket_items' {V : Type} (b : gmap string V) kv :
  kv ∈ SM.bucket_items b <-> b !! kv.1 = Some kv.2.
Proof.
  destruct kv as [k v]. rewrite list_elem_of_In. apply elem_of_bucket_items.
Qed.

(** Two key-sorted lists with the same entries, taken from buckets, are the
    same list. *)
Lemma sorted_items_unique {V : Type} (b1 b2 : gmap string V)
      (l1 l2 : list (string * V)) :
  (forall kv, kv ∈ l1 -> b1 !! kv.1 = Some kv.2) ->
  (forall kv, kv ∈ l2 -> b2 !! kv.1 = Some kv.2) ->
  (forall k v1 v2, (k, v1) ∈ l1 -> (k, v2) ∈ l2 -> v1 = v2) ->
  StronglySorted SM.key_le l1 -> StronglySorted SM.key_le l2 ->
  l1 ≡ₚ l2 -> l1 = l2.
Proof.
  intros H1 H2 H12 S1 S2 Hp. apply (StronglySorted_unique_strong SM.key_le);
    try assumption.
  intros [k1 v1] [k2 v2] Hin1 Hin2 Hle Hge. unfold SM.key_le in *. cbn in *.
  apply Is_true_true in Hle, Hge.
  pose proof (String.leb_antisym _ _ Hle Hge) as ->.
  f_equal. eapply H12; eassumption.
Qed.

Lemma StronglySorted_filter {A : Type} (R : relation A) (P : A -> Prop)
      `{forall a, Decision (P a)} (l : list A) :
  StronglySorted R l -> StronglySorted R (filter P l).
Proof.
  induction 1 as [|a l Hs IH Hall]; [constructor|].
  rewrite filter_cons. destruct (decide (P a)); [|exact IH].
  constructor; [exact IH|]. apply Forall_forall. intros x Hx.
  apply list_elem_of_filter in Hx as [_ Hx].
  eapply Forall_forall in Hall; eauto.
Qed.

(** The entries of a bucket that satisfy [P], in key order, do not change
    when an entry that does not satisfy [P] is put under a new key. *)
Lemma filter_items_insert {V : Type} (P : string * V -> Prop)
      `{forall kv, Decision (P kv)} (b : gmap string V) k v :
  b !! k = None -> ~ P (k, v) ->
  filter P (SM.bucket_items (<[k := v]> b)) = filter P (SM.bucket_items b).
Proof.
  intros Hk Hn.
  apply (sorted_items_unique (<[k := v]> b) b).
  - intros kv Hin. apply list_elem_of_filter in Hin as [_ Hin].
    now apply elem_of_bucket_items'.
  - intros kv Hin. apply list_elem_of_filter in Hin as [_ Hin].
    now apply elem_of_bucket_items'.
  - intros k' v1 v2 H1 H2.
    apply list_elem_of_filter in H1 as [HP1 H1], H2 as [_ H2].
    apply elem_of_bucket_items' in H1, H2. cbn in *.
    destruct (decide (k' = k)) as [-> | Hne]; [congruence|].
    rewrite lookup_insert_ne in H1 by congruence. congruence.
  - apply StronglySorted_filter, bucket_items_sorted.
  - apply StronglySorted_filter, bucket_items_sorted.
  - rewrite !bucket_items_Permutation, (map_to_list_insert b k v Hk).
    rewrite filter_cons. destruct (decide (P (k, v))); [contradiction|].
    reflexivity.
Qed.

Lemma bucket_items_insert {V : Type} (b : gmap string V) k v :
  b !! k = None -> SM.bucket_items (<[k := v]> b) ≡ₚ (k, v) :: SM.bucket_items b.
Proof.
  intros Hk. rewrite !bucket_items_Permutation. now apply map_to_list_insert.
Qed.

(** ** Scans of a bucket *)

Lemma fold_append_all {A B : Type} (g : A -> B) (l : list A) : forall acc,
  fold_left (fun acc a => acc ++ [g a]) l acc = acc ++ map g l.
Proof.
  induction l as [|a l IH]; intros acc; cbn [fold_left map].
  - now rewrite app_nil_r.
  - rewrite IH, <- app_assoc. reflexivity.
Qed.

Lemma fold_append_filter {A B : Type} (P : A -> Prop)
      `{forall a, Decision (P a)} (g : A -> B) (l : list A) : forall acc,
  fold_left (fun acc a => if bool_decide (P a) then acc ++ [g a] else acc) l acc
  = acc ++ map g (filter P l).
Proof.
  induction l as [|a l IH]; intros acc; cbn [fold_left].
  - now rewrite app_nil_r.
  - rewrite IH, filter_cons. case_bool_decide as Hd.
    + rewrite decide_True by assumption. cbn [map].
      rewrite <- app_assoc. reflexivity.
    + rewrite decide_False by assumption. reflexivity.
Qed.

(** A scan that keeps the last entry satisfying [P]. *)
Lemma fold_last_match {A B : Type} (P : A -> Prop)
      `{forall a, Decision (P a)} (g : A -> B) (l : list A) : forall acc,
  let r := fold_left (fun found a => if bool_decide (P a) then g a else found)
                     l acc in
  (r = acc /\ forall a, In a l -> ~ P a) \/
  (exists a, In a l /\ P a /\ r = g a).
Proof.
  induction l as [|a l IH]; intros acc; cbn [fold_left].
  - left. split; [reflexivity | intros a []].
  - case_bool_decide as Hd.
    + right. destruct (IH (g a)) as [[E Hno] | (a' & Hin & HP & E)].
      * exists a. split; [now left|]. split; assumption.
      * exists a'. split; [now right|]. split; assumption.
    + destruct (IH acc) as [[E Hno] | (a' & Hin & HP & E)].
      * left. split; [exact E|]. intros a' [<- | Hin]; auto.
      * right. exists a'. split; [now right|]. split; assumption.
Qed.

Lemma ListNetworks_items db :
  SM.ListNetworks db = map snd (SM.bucket_items (SM.networks db)).
Proof. unfold SM.ListNetworks. exact (fold_append_all snd _ []). Qed.

Lemma ListNodesByNetworkID_filter db networkID :
  SM.ListNodesByNetworkID db networkID
  = map snd (filter (fun kv : string * Node.t => Node.NetworkID kv.2 = networkID)
                    (SM.bucket_items (SM.nodes db))).
Proof.
  unfold SM.ListNodesByNetworkID.
  exact (fold_append_filter
           (fun kv : string * Node.t => Node.NetworkID kv.2 = networkID) snd
           _ []).
Qed.

Lemma serverExistsFor_spec db networkID :
  SM.serverExistsFor db networkID = true <->
  exists k s, SM.servers db !! k = Some s /\ Server.NetworkID s = networkID.
Proof.
  unfold SM.serverExistsFor.
  pose proof (fold_last_match
                (fun kv : string * Server.t => Server.NetworkID kv.2 = networkID)
                (fun _ => true) (SM.bucket_items (SM.servers db)) false) as H.
  cbn zeta in H. split.
  - intros E. destruct H as [[E' _] | ([k s] & Hin & HP & _)]; [congruence|].
    exists k, s. split; [now apply elem_of_bucket_items | exact HP].
  - intros (k & s & Hl & Hn).
    destruct H as [[_ Hno] | (_ & _ & _ & E)]; [|exact E].
    exfalso. apply (Hno (k, s)); [now apply elem_of_bucket_items | exact Hn].
Qed.

Lemma GetServerByNetworkID_cases db networkID :
  (SM.GetServerByNetworkID db networkID = Err ErrNoServerForNetwork /\
   forall k s, SM.servers db !! k = Some s -> Server.NetworkID s <> networkID) \/
  (exists k s, SM.servers db !! k = Some s /\ Server.NetworkID s = networkID /\
               SM.GetServerByNetworkID db networkID = Ok s).
Proof.
  unfold SM.GetServerByNetworkID.
  pose proof (fold_last_match
                (fun kv : string * Server.t => Server.NetworkID kv.2 = networkID)
                (fun kv => Some kv.2) (SM.bucket_items (SM.servers db)) None)
    as H.
  cbn zeta in H. destruct H as [[E Hno] | ([k s] & Hin & HP & E)].
  - left. rewrite E. split; [reflexivity|]. intros k s Hl.
    apply (Hno (k, s)). now apply elem_of_bucket_items.
  - right. exists k, s. rewrite E. split; [now apply elem_of_bucket_items|].
    split; [exact HP | reflexivity].
Qed.

(** With one server of the network in the bucket, that server is found. *)
Lemma GetServerByNetworkID_unique db networkID k s :
  SM.servers db !! k = Some s -> Server.NetworkID s = networkID ->
  (forall k' s', SM.servers db !! k' = Some s' ->
                 Server.NetworkID s' = networkID -> s' = s) ->
  SM.GetServerByNetworkID db networkID = Ok s.
Proof.
  intros Hl Hn Hu.
  destruct (GetServerByNetworkID_cases db networkID)
    as [[_ Hno] | (k' & s' & Hl' & Hn' & E)].
  - exfalso. exact (Hno _ _ Hl Hn).
  - rewrite E. f_equal. now apply (Hu k').
Qed.

(** ** Keys of the name indices *)

Lemma append_cancel_r (a b s : string) : a +:+ s = b +:+ s -> a = b.
Proof.
  revert b. induction a as [|x a IH]; intros [|y b] E.
  - reflexivity.
  - apply (f_equal String.length) in E. rewrite !length_append in E.
    cbn in E. lia.
  - apply (f_equal String.length) in E. rewrite !length_append in E.
    cbn in E. lia.
  - simpl in E. injection E as -> E. f_equal. now apply IH.
Qed.

Lemma nameKey_inj_name networkID name name' :
  SM.nameKey networkID name = SM.nameKey networkID name' -> name = name'.
Proof.
  unfold SM.nameKey. intros E. apply String.app_inj in E.
  simpl in E. now injection E.
Qed.

Lemma nameKey_inj_network networkID networkID' name :
  SM.nameKey networkID name = SM.nameKey networkID' name ->
  networkID = networkID'.
Proof.
  unfold SM.nameKey. apply append_cancel_r.
Qed.

(** Keys built from network IDs without a colon, as UUIDs are, determine
    the network and the name. *)
Lemma nameKey_inj networkID networkID' name name' :
  contains_char ":"%char networkID = false ->
  contains_char ":"%char networkID' = false ->
  SM.nameKey networkID name = SM.nameKey networkID' name' ->
  networkID = networkID' /\ name = name'.
Proof.
  revert networkID'.
  induction networkID as [|x a IH]; intros [|y b] Ha Hb E.
  - change (String ":" name = String ":" name') in E.
    injection E as ->. now split.
  - change (String ":" name = String y (SM.nameKey b name')) in E.
    injection E as <- _. discriminate Hb.
  - change (String x (SM.nameKey a name) = String ":" name') in E.
    injection E as -> _. discriminate Ha.
  - change (String x (SM.nameKey a name) = String y (SM.nameKey b name')) in E.
    injection E as -> E. cbn in Ha, Hb.
    apply orb_false_elim in Ha as [_ Ha], Hb as [_ Hb].
    destruct (IH b Ha Hb E) as [-> ->]. now split.
Qed.

(** ** Networks in the storage layer *)

Lemma Put_Ok {V : Type} (b b' : gmap string V) key v :
  SM.Put b key v = Ok b' <-> key <> "" /\ b' = <[key := v]> b.
Proof.
  unfold SM.Put. case_bool_decide as Hd; split.
  - discriminate.
  - intros [Hne _]. contradiction.
  - intros [= <-]. now split.
  - intros [_ ->]. reflexivity.
Qed.

Lemma CreateNetwork_Ok db name cidr newID now db' network :
  SM.CreateNetwork db name cidr newID now = Ok (db', network) <->
  SM.networks_by_name db !! name = None /\ newID <> "" /\ name <> "" /\
  network = VirtualNetwork.mk newID name cidr now /\
  db' = SM.mkDB (<[newID := network]> (SM.networks db))
                (<[name := newID]> (SM.networks_by_name db))
                (SM.servers db) (SM.servers_by_name db) (SM.nodes db)
                (SM.nodes_by_name db) (SM.configs db)
                (SM.configs_by_version db) (SM.ip_pools db).
Proof.
  unfold SM.CreateNetwork. cbn [VirtualNetwork.ID]. unfold SM.Put.
  destruct (SM.networks_by_name db !! name) as [id|] eqn:El.
  - rewrite bool_decide_eq_true_2 by eauto.
    split; [discriminate | intros [? _]; discriminate].
  - rewrite bool_decide_eq_false_2 by (intros [? ?]; discriminate).
    destruct (decide (newID = "")) as [-> | Hid].
    { cbn. split; [discriminate | intros (_ & ? & _); contradiction]. }
    rewrite (bool_decide_eq_false_2 _ Hid). cbn.
    destruct (decide (name = "")) as [-> | Hname].
    { cbn. split; [discriminate | intros (_ & _ & ? & _); contradiction]. }
    rewrite (bool_decide_eq_false_2 _ Hname). cbn. split.
    + intros [= <- <-]. repeat split; assumption.
    + intros (_ & _ & _ & -> & ->). reflexivity.
Qed.

(** X4. Creating a network. For a name, a block and a new ID that are
    valid UTF-8 and within [MaxKeySize]: [CreateNetwork] succeeds exactly
    when the name is not yet in the name index and neither the name nor
    the new ID is empty. After a success the network is found under its
    name and under its ID, a second network of that name is refused, every
    other bucket is unchanged, and, when no name led to the new ID before,
    the other names still lead to the networks they led to. *)
Theorem created_network_is_found (db db' : SM.DB) (name cidr newID : string)
    (now : Z) (network : VirtualNetwork.t) :
  texts_ok [name; cidr; newID] = true ->
  (is_ok (SM.CreateNetwork db name cidr newID now) = true <->
   SM.networks_by_name db !! name = None /\ newID <> "" /\ name <> "") /\
  (SM.CreateNetwork db name cidr newID now = Ok (db', network) ->
   network = VirtualNetwork.mk newID name cidr now /\
   SM.GetNetworkByName db' name = Ok network /\
   SM.GetNetworkByID db' newID = Ok network /\
   (forall cidr2 newID2 now2,
       SM.CreateNetwork db' name cidr2 newID2 now2 = Err ErrNetworkNameExists) /\
   SM.servers db' = SM.servers db /\
   SM.servers_by_name db' = SM.servers_by_name db /\
   SM.nodes db' = SM.nodes db /\
   SM.nodes_by_name db' = SM.nodes_by_name db /\
   SM.configs db' = SM.configs db /\
   SM.ip_pools db' = SM.ip_pools db /\
   ((forall name', SM.networks_by_name db !! name' <> Some newID) ->
    forall name', name' <> name ->
      SM.GetNetworkByName db' name' = SM.GetNetworkByName db name')).
Proof.
  intros _. split.
  - destruct (SM.CreateNetwork db name cidr newID now) as [[d n]|e] eqn:E.
    + apply CreateNetwork_Ok in E as (H1 & H2 & H3 & _). cbn. tauto.
    + cbn. split; [discriminate|]. intros (H1 & H2 & H3). exfalso.
      assert (E' : SM.CreateNetwork db name cidr newID now
                   = Ok (SM.mkDB (<[newID := VirtualNetwork.mk newID name cidr now]>
                                    (SM.networks db))
                                 (<[name := newID]> (SM.networks_by_name db))
                                 (SM.servers db) (SM.servers_by_name db)
                                 (SM.nodes db) (SM.nodes_by_name db)
                                 (SM.configs db) (SM.configs_by_version db)
                                 (SM.ip_pools db),
                         VirtualNetwork.mk newID name cidr now)).
      { apply CreateNetwork_Ok. repeat split; assumption. }
      congruence.
  - intros E. apply CreateNetwork_Ok in E as (Hfree & Hid & Hname & -> & ->).
    split; [reflexivity|].
    unfold SM.GetNetworkByName, SM.GetNetworkByID, SM.CreateNetwork.
    cbn [SM.networks SM.networks_by_name SM.servers SM.servers_by_name
         SM.nodes SM.nodes_by_name SM.configs SM.ip_pools].
    rewrite !lookup_insert_eq.
    split; [reflexivity|]. split; [reflexivity|].
    split.
    { intros. rewrite bool_decide_eq_true_2; [reflexivity | eauto]. }
    repeat (split; [reflexivity|]).
    intros Hnew name' Hne. rewrite lookup_insert_ne by congruence.
    destruct (SM.networks_by_name db !! name') as [id|] eqn:El; [|reflexivity].
    rewrite lookup_insert_ne; [reflexivity|].
    intros <-. exact (Hnew _ El).
Qed.

(** X5.  Listing networks. [ListNetworks] returns the networks of the
    primary bucket, each entry once; a network created under a new ID is
    added to the listing and nothing else in it changes. *)
Theorem networks_are_listed (db : SM.DB) :
  (forall n, In n (SM.ListNetworks db) <->
             exists id, SM.networks db !! id = Some n) /\
  length (SM.ListNetworks db) = size (SM.networks db) /\
  (forall name cidr newID now db' network,
      SM.CreateNetwork db name cidr newID now = Ok (db', network) ->
      SM.networks db !! newID = None ->
      SM.ListNetworks db' ≡ₚ network :: SM.ListNetworks db).
Proof.
  rewrite ListNetworks_items. split; [|split].
  - intros n. rewrite in_map_iff. split.
    + intros ([id n'] & <- & Hin). exists id. now apply elem_of_bucket_items.
    + intros [id Hl]. exists (id, n). split; [reflexivity|].
      now apply elem_of_bucket_items.
  - rewrite length_map. apply bucket_items_length.
  - intros name cidr newID now db' network E Hnew.
    apply CreateNetwork_Ok in E as (_ & _ & _ & _ & ->).
    rewrite ListNetworks_items. cbn [SM.networks].
    change (network :: map snd (SM.bucket_items (SM.networks db)))
      with (map snd ((newID, network) :: SM.bucket_items (SM.networks db))).
    apply Permutation_map. now apply bucket_items_insert.
Qed.

(** ** Servers in the storage layer *)

Lemma nameKey_nonempty networkID name : SM.nameKey networkID name <> "".
Proof.
  intros E. apply (f_equal String.length) in E. unfold SM.nameKey in E.
  rewrite !length_append in E. cbn in E. lia.
Qed.

Lemma CreateServer_Ok db networkID name publicAddress port virtualIP
      privateKey publicKey newID now db' server :
  SM.CreateServer db networkID name publicAddress port virtualIP privateKey
    publicKey newID now = Ok (db', server) <->
  is_Some (SM.networks db !! networkID) /\
  SM.serverExistsFor db networkID = false /\
  SM.servers_by_name db !! SM.nameKey networkID name = None /\
  newID <> "" /\
  server = Server.mk newID networkID name publicAddress port virtualIP
             privateKey publicKey now now /\
  db' = SM.mkDB (SM.networks db) (SM.networks_by_name db)
                (<[newID := server]> (SM.servers db))
                (<[SM.nameKey networkID name := newID]> (SM.servers_by_name db))
                (SM.nodes db) (SM.nodes_by_name db) (SM.configs db)
                (SM.configs_by_version db) (SM.ip_pools db).
Proof.
  unfold SM.CreateServer. cbn [Server.ID]. unfold SM.Put.
  destruct (SM.networks db !! networkID) as [n|] eqn:En.
  2:{ rewrite bool_decide_eq_true_2 by reflexivity.
      split; [discriminate | intros [[? ?] _]; discriminate]. }
  rewrite bool_decide_eq_false_2 by discriminate.
  destruct (SM.serverExistsFor db networkID).
  { split; [discriminate | intros (_ & ? & _); discriminate]. }
  destruct (SM.servers_by_name db !! SM.nameKey networkID name) as [id|] eqn:El.
  { rewrite bool_decide_eq_true_2 by eauto.
    split; [discriminate | intros (_ & _ & ? & _); discriminate]. }
  rewrite bool_decide_eq_false_2 by (intros [? ?]; discriminate).
  destruct (decide (newID = "")) as [-> | Hid].
  { cbn. split; [discriminate | intros (_ & _ & _ & ? & _); contradiction]. }
  rewrite (bool_decide_eq_false_2 _ Hid). cbn.
  rewrite (bool_decide_eq_false_2 _ (nameKey_nonempty networkID name)). cbn.
  split.
  - intros [= <- <-]. repeat split; eauto.
  - intros (_ & _ & _ & _ & -> & ->). reflexivity.
Qed.

(** A scan that keeps the last entry satisfying [P] only looks at the
    entries satisfying [P]. *)
Lemma fold_match_filter {A B : Type} (P : A -> Prop)
      `{forall a, Decision (P a)} (g : A -> B) (l : list A) : forall acc,
  fold_left (fun found a => if bool_decide (P a) then g a else found) l acc
  = fold_left (fun _ a => g a) (filter P l) acc.
Proof.
  induction l as [|a l IH]; intros acc; cbn [fold_left]; [reflexivity|].
  rewrite IH, filter_cons. case_bool_decide as Hd.
  - rewrite decide_True by assumption. reflexivity.
  - rewrite decide_False by assumption. reflexivity.
Qed.

Lemma GetServerByNetworkID_insert_other db db' networkID key server :
  SM.servers db' = <[key := server]> (SM.servers db) ->
  SM.servers db !! key = None ->
  Server.NetworkID server <> networkID ->
  SM.GetServerByNetworkID db' networkID = SM.GetServerByNetworkID db networkID.
Proof.
  intros E Hk Hn. unfold SM.GetServerByNetworkID. rewrite E.
  rewrite !(fold_match_filter
              (fun kv : string * Server.t => Server.NetworkID kv.2 = networkID)
              (fun kv => Some kv.2)).
  rewrite (filter_items_insert _ _ _ _ Hk); [reflexivity | exact Hn].
Qed.

(** X6. One server per network. Let the texts of the new server (network
    ID, name, address, virtual address, keys, ID) be valid UTF-8 and
    within [MaxKeySize], so that the record is stored as it is written. A
    successful [CreateServer] means the network had no server; afterwards
    the new server is the network's server, it is found under its name,
    every further [CreateServer] for the network is refused, whatever the
    name, and, the ID being new, the servers of the other networks are
    found as before. *)
Theorem one_server_per_network (db db' : SM.DB)
    (networkID name publicAddress : string) (port : Z)
    (virtualIP privateKey publicKey newID : string) (now : Z)
    (server : Server.t) :
  texts_ok [networkID; name; publicAddress; virtualIP; privateKey; publicKey;
            newID] = true ->
  SM.CreateServer db networkID name publicAddress port virtualIP privateKey
    publicKey newID now = Ok (db', server) ->
  server = Server.mk newID networkID name publicAddress port virtualIP
             privateKey publicKey now now /\
  SM.GetServerByNetworkID db networkID = Err ErrNoServerForNetwork /\
  SM.GetServerByNetworkID db' networkID = Ok server /\
  SM.GetServerByName db' networkID name = Ok server /\
  (forall name2 publicAddress2 port2 virtualIP2 privateKey2 publicKey2
          newID2 now2,
      SM.CreateServer db' networkID name2 publicAddress2 port2 virtualIP2
        privateKey2 publicKey2 newID2 now2 = Err ErrServerAlreadyExists) /\
  (SM.servers db !! newID = None ->
   forall networkID', networkID' <> networkID ->
     SM.GetServerByNetworkID db' networkID'
     = SM.GetServerByNetworkID db networkID').
Proof.
  intros _ E.
  apply CreateServer_Ok in E as (Hnet & Hex & Hname & Hid & -> & ->).
  set (server := Server.mk newID networkID name publicAddress port virtualIP
                   privateKey publicKey now now).
  set (db' := SM.mkDB _ _ _ _ _ _ _ _ _).
  assert (Hnone : forall k s, SM.servers db !! k = Some s ->
                              Server.NetworkID s <> networkID).
  { intros k s Hl Hn.
    assert (SM.serverExistsFor db networkID = true)
      by (apply serverExistsFor_spec; eauto).
    congruence. }
  assert (Hnew : SM.servers db' !! newID = Some server)
    by apply lookup_insert_eq.
  split; [reflexivity|]. split; [|split; [|split; [|split]]].
  - destruct (GetServerByNetworkID_cases db networkID)
      as [[E _] | (k & s & Hl & Hn & _)]; [exact E|].
    exfalso. exact (Hnone _ _ Hl Hn).
  - apply (GetServerByNetworkID_unique db' networkID newID);
      [exact Hnew | reflexivity|].
    intros k' s' Hl' Hn'. subst db'. cbn [SM.servers] in Hl'.
    destruct (decide (k' = newID)) as [-> | Hne].
    + rewrite lookup_insert_eq in Hl'. congruence.
    + rewrite lookup_insert_ne in Hl' by congruence.
      exfalso. exact (Hnone _ _ Hl' Hn').
  - unfold SM.GetServerByName. subst db'. cbn [SM.servers_by_name SM.servers].
    now rewrite !lookup_insert_eq.
  - intros. unfold SM.CreateServer.
    destruct Hnet as [n Hn]. cbn [SM.networks db'].
    rewrite bool_decide_eq_false_2 by (rewrite Hn; discriminate).
    assert (Hex' : SM.serverExistsFor db' networkID = true).
    { apply serverExistsFor_spec. exists newID, server. now split. }
    now rewrite Hex'.
  - intros Hfresh networkID' Hne.
    apply (GetServerByNetworkID_insert_other db db' networkID' newID server);
      [reflexivity | exact Hfresh | cbn; congruence].
Qed.

(** ** Nodes in the storage layer *)

Lemma CreateNode_Ok db networkID name publicAddress port virtualIP nodeType
      privateKey publicKey newID now db' node :
  SM.CreateNode db networkID name publicAddress port virtualIP nodeType
    privateKey publicKey newID now = Ok (db', node) <->
  is_Some (SM.networks db !! networkID) /\
  SM.nodes_by_name db !! SM.nameKey networkID name = None /\
  newID <> "" /\
  node = Node.mk newID networkID name publicAddress port virtualIP nodeType
           privateKey publicKey now now /\
  db' = SM.mkDB (SM.networks db) (SM.networks_by_name db) (SM.servers db)
                (SM.servers_by_name db)
                (<[newID := node]> (SM.nodes db))
                (<[SM.nameKey networkID name := newID]> (SM.nodes_by_name db))
                (SM.configs db) (SM.configs_by_version db) (SM.ip_pools db).
Proof.
  unfold SM.CreateNode. cbn [Node.ID]. unfold SM.Put.
  destruct (SM.networks db !! networkID) as [n|] eqn:En.
  2:{ rewrite bool_decide_eq_true_2 by reflexivity.
      split; [discriminate | intros [[? ?] _]; discriminate]. }
  rewrite bool_decide_eq_false_2 by discriminate.
  destruct (SM.nodes_by_name db !! SM.nameKey networkID name) as [id|] eqn:El.
  { rewrite bool_decide_eq_true_2 by eauto.
    split; [discriminate | intros (_ & ? & _); discriminate]. }
  rewrite bool_decide_eq_false_2 by (intros [? ?]; discriminate).
  destruct (decide (newID = "")) as [-> | Hid].
  { cbn. split; [discriminate | intros (_ & _ & ? & _); contradiction]. }
  rewrite (bool_decide_eq_false_2 _ Hid). cbn.
  rewrite (bool_decide_eq_false_2 _ (nameKey_nonempty networkID name)). cbn.
  split.
  - intros [= <- <-]. repeat split; eauto.
  - intros (_ & _ & _ & -> & ->). reflexivity.
Qed.

Lemma CreateNode_succeeds db networkID name publicAddress port virtualIP
      nodeType privateKey publicKey newID now :
  is_Some (SM.networks db !! networkID) ->
  SM.nodes_by_name db !! SM.nameKey networkID name = None ->
  newID <> "" ->
  is_ok (SM.CreateNode db networkID name publicAddress port virtualIP nodeType
           privateKey publicKey newID now) = true.
Proof.
  intros H1 H2 H3.
  destruct (SM.CreateNode db networkID name publicAddress port virtualIP
              nodeType privateKey publicKey newID now) as [[d n]|e] eqn:E;
    [reflexivity|].
  exfalso.
  pose proof (proj2 (CreateNode_Ok db networkID name publicAddress port
                       virtualIP nodeType privateKey publicKey newID now
                       _ _)
                (conj H1 (conj H2 (conj H3 (conj eq_refl eq_refl))))) as E'.
  congruence.
Qed.

(** X7. Node names belong to a network. Let the texts of the new node
    (network ID, name, address, virtual address, type, keys, ID) be valid
    UTF-8 and within [MaxKeySize], so that the record is stored as it is
    written. A successful [CreateNode] makes the node findable under its
    name in its network and blocks that name for further nodes of the
    network; the same name stays as free or taken in every other network
    as it was, so a network in which it is free still accepts it in a node
    whose texts and index key are of this kind. For network IDs without a
    colon, as UUIDs are, and a new ID that no index entry led to, every
    other pair of network and name is looked up as before. *)
Theorem node_names_are_per_network (db db' : SM.DB)
    (networkID name publicAddress : string) (port : Z) (virtualIP : string)
    (nodeType : NodeType) (privateKey publicKey newID : string) (now : Z)
    (node : Node.t) :
  texts_ok [networkID; name; publicAddress; virtualIP; nodeType; privateKey;
            publicKey; newID] = true ->
  SM.CreateNode db networkID name publicAddress port virtualIP nodeType
    privateKey publicKey newID now = Ok (db', node) ->
  node = Node.mk newID networkID name publicAddress port virtualIP nodeType
           privateKey publicKey now now /\
  SM.GetNodeByName db' networkID name = Ok node /\
  (forall publicAddress2 port2 virtualIP2 nodeType2 privateKey2 publicKey2
          newID2 now2,
      SM.CreateNode db' networkID name publicAddress2 port2 virtualIP2
        nodeType2 privateKey2 publicKey2 newID2 now2 = Err ErrNodeNameExists) /\
  (forall networkID', networkID' <> networkID ->
     SM.nodes_by_name db' !! SM.nameKey networkID' name
     = SM.nodes_by_name db !! SM.nameKey networkID' name /\
     (is_Some (SM.networks db !! networkID') ->
      SM.nodes_by_name db !! SM.nameKey networkID' name = None ->
      forall publicAddress2 port2 virtualIP2 nodeType2 privateKey2 publicKey2
             newID2 now2,
        newID2 <> "" ->
        texts_ok [networkID'; publicAddress2; virtualIP2; nodeType2;
                  privateKey2; publicKey2; newID2] = true ->
        key_ok (SM.nameKey networkID' name) = true ->
        is_ok (SM.CreateNode db' networkID' name publicAddress2 port2
                 virtualIP2 nodeType2 privateKey2 publicKey2 newID2 now2)
        = true)) /\
  (contains_char ":"%char networkID = false ->
   (forall key, SM.nodes_by_name db !! key <> Some newID) ->
   forall networkID' name',
     contains_char ":"%char networkID' = false ->
     (networkID', name') <> (networkID, name) ->
     SM.GetNodeByName db' networkID' name' = SM.GetNodeByName db networkID' name').
Proof.
  intros _ E. apply CreateNode_Ok in E as (Hnet & Hname & Hid & -> & ->).
  set (node := Node.mk newID networkID name publicAddress port virtualIP
                 nodeType privateKey publicKey now now).
  split; [reflexivity|]. split; [|split; [|split]].
  - unfold SM.GetNodeByName. cbn [SM.nodes_by_name SM.nodes].
    now rewrite !lookup_insert_eq.
  - intros. unfold SM.CreateNode. cbn [SM.networks SM.nodes_by_name].
    destruct Hnet as [n Hn].
    rewrite bool_decide_eq_false_2 by (rewrite Hn; discriminate).
    rewrite bool_decide_eq_true_2; [reflexivity|].
    rewrite lookup_insert_eq. eauto.
  - intros networkID' Hne.
    assert (Hk : SM.nameKey networkID name <> SM.nameKey networkID' name).
    { intros Ek. apply nameKey_inj_network in Ek. congruence. }
    cbn [SM.nodes_by_name]. rewrite lookup_insert_ne by exact Hk.
    split; [reflexivity|].
    intros Hnet' Hfree publicAddress2 port2 virtualIP2 nodeType2 privateKey2
           publicKey2 newID2 now2 Hid2 _ _.
    apply CreateNode_succeeds; cbn [SM.networks SM.nodes_by_name];
      [assumption | now rewrite lookup_insert_ne by exact Hk | assumption].
  - intros Hc Hfresh networkID' name' Hc' Hne.
    assert (Hk : SM.nameKey networkID name <> SM.nameKey networkID' name').
    { intros Ek. apply nameKey_inj in Ek as [-> ->]; [|assumption..].
      now apply Hne. }
    unfold SM.GetNodeByName. cbn [SM.nodes_by_name SM.nodes].
    rewrite lookup_insert_ne by exact Hk.
    destruct (SM.nodes_by_name db !! SM.nameKey networkID' name')
      as [id|] eqn:El; [|reflexivity].
    rewrite lookup_insert_ne; [reflexivity|].
    intros <-. exact (Hfresh _ El).
Qed.

Lemma DeleteNode_Ok db networkID name db' :
  SM.DeleteNode db networkID name = Ok db' <->
  exists id,
    SM.nodes_by_name db !! SM.nameKey networkID name = Some id /\
    db' = SM.mkDB (SM.networks db) (SM.networks_by_name db) (SM.servers db)
                  (SM.servers_by_name db) (delete id (SM.nodes db))
                  (delete (SM.nameKey networkID name) (SM.nodes_by_name db))
                  (SM.configs db) (SM.configs_by_version db) (SM.ip_pools db).
Proof.
  unfold SM.DeleteNode.
  destruct (SM.nodes_by_name db !! SM.nameKey networkID name) as [id|].
  - split.
    + intros [= <-]. now exists id.
    + intros (id' & [= <-] & ->). reflexivity.
  - split; [discriminate | intros (? & ? & _); discriminate].
Qed.

(** X8.  Deleting a node. [DeleteNode] fails with the not-found error
    exactly when the name is not in the network's index. After a success
    the name is not found any more, a second delete fails, the record is
    gone from the listing of every network, no other record is touched,
    the other names of the index are kept, and the name can be given to a
    new node of the network. *)
Theorem deleted_node_frees_its_name (db db' : SM.DB)
    (networkID name : string) :
  (SM.DeleteNode db networkID name = Err ErrNodeNotFound <->
   SM.nodes_by_name db !! SM.nameKey networkID name = None) /\
  (SM.DeleteNode db networkID name = Ok db' ->
   SM.GetNodeByName db' networkID name = Err ErrNodeNotFound /\
   SM.DeleteNode db' networkID name = Err ErrNodeNotFound /\
   (exists id,
       SM.nodes_by_name db !! SM.nameKey networkID name = Some id /\
       SM.nodes db' = delete id (SM.nodes db) /\
       forall networkID' n,
         In n (SM.ListNodesByNetworkID db' networkID') <->
         exists key, key <> id /\ SM.nodes db !! key = Some n /\
                     Node.NetworkID n = networkID') /\
   (forall key, key <> SM.nameKey networkID name ->
                SM.nodes_by_name db' !! key = SM.nodes_by_name db !! key) /\
   (is_Some (SM.networks db !! networkID) ->
    forall publicAddress port virtualIP nodeType privateKey publicKey
           newID now,
      newID <> "" ->
      is_ok (SM.CreateNode db' networkID name publicAddress port virtualIP
               nodeType privateKey publicKey newID now) = true)).
Proof.
  split.
  - unfold SM.DeleteNode.
    destruct (SM.nodes_by_name db !! SM.nameKey networkID name);
      split; congruence.
  - intros E. apply DeleteNode_Ok in E as (id & Hl & ->).
    split; [|split; [|split; [|split]]].
    + unfold SM.GetNodeByName. cbn [SM.nodes_by_name].
      now rewrite lookup_delete_eq.
    + unfold SM.DeleteNode. cbn [SM.nodes_by_name].
      now rewrite lookup_delete_eq.
    + exists id. split; [exact Hl|]. split; [reflexivity|].
      intros networkID' n. rewrite ListNodesByNetworkID_filter, in_map_iff.
      cbn [SM.nodes]. split.
      * intros ([k n'] & <- & Hin). apply list_elem_of_In in Hin.
        apply list_elem_of_filter in Hin as [HP Hin].
        apply elem_of_bucket_items' in Hin. cbn in *.
        apply lookup_delete_Some in Hin as [Hne Hin]. exists k. auto.
      * intros (k & Hne & Hk & HP). exists (k, n). split; [reflexivity|].
        apply list_elem_of_In, list_elem_of_filter. split; [exact HP|].
        apply elem_of_bucket_items'. cbn.
        apply lookup_delete_Some. auto.
    + intros key Hne. cbn [SM.nodes_by_name].
      now rewrite lookup_delete_ne by congruence.
    + intros Hnet **. apply CreateNode_succeeds; cbn [SM.networks SM.nodes_by_name];
        [assumption | apply lookup_delete_eq | assumption].
Qed.

(** X9. Listing nodes. [ListNodesByNetworkID] returns the records of the
    primary bucket whose network ID is the one asked for, each entry once;
    a node created under a new ID, with texts that are valid UTF-8 and
    within [MaxKeySize], is added to the listing of its network as it was
    written, and the listings of the other networks are the same lists as
    before. *)
Theorem nodes_are_listed (db : SM.DB) (networkID : string) :
  (forall n, In n (SM.ListNodesByNetworkID db networkID) <->
             exists key, SM.nodes db !! key = Some n /\
                         Node.NetworkID n = networkID) /\
  (length (SM.ListNodesByNetworkID db networkID) <= size (SM.nodes db))%nat /\
  (forall name publicAddress port virtualIP nodeType privateKey publicKey
          newID now db' node,
      texts_ok [networkID; name; publicAddress; virtualIP; nodeType;
                privateKey; publicKey; newID] = true ->
      SM.CreateNode db networkID name publicAddress port virtualIP nodeType
        privateKey publicKey newID now = Ok (db', node) ->
      SM.nodes db !! newID = None ->
      SM.ListNodesByNetworkID db' networkID
      ≡ₚ node :: SM.ListNodesByNetworkID db networkID /\
      forall networkID', networkID' <> networkID ->
        SM.ListNodesByNetworkID db' networkID'
        = SM.ListNodesByNetworkID db networkID').
Proof.
  split; [|split].
  - intros n. rewrite ListNodesByNetworkID_filter, in_map_iff. split.
    + intros ([k n'] & <- & Hin). apply list_elem_of_In in Hin.
      apply list_elem_of_filter in Hin as [HP Hin].
      apply elem_of_bucket_items' in Hin. exists k. auto.
    + intros (k & Hk & HP). exists (k, n). split; [reflexivity|].
      apply list_elem_of_In, list_elem_of_filter. split; [exact HP|].
      now apply elem_of_bucket_items'.
  - rewrite ListNodesByNetworkID_filter, length_map, <- bucket_items_length.
    apply length_filter.
  - intros name publicAddress port virtualIP nodeType privateKey publicKey
           newID now db' node _ E Hnew.
    apply CreateNode_Ok in E as (_ & _ & _ & -> & ->).
    set (node := Node.mk newID networkID name publicAddress port virtualIP
                   nodeType privateKey publicKey now now).
    split.
    + rewrite !ListNodesByNetworkID_filter. cbn [SM.nodes].
      change (node :: map snd ?l) with (map snd ((newID, node) :: l)).
      apply Permutation_map.
      rewrite (bucket_items_insert _ _ _ Hnew), filter_cons.
      rewrite decide_True by reflexivity. reflexivity.
    + intros networkID' Hne. rewrite !ListNodesByNetworkID_filter.
      cbn [SM.nodes]. f_equal.
      apply filter_items_insert; [exact Hnew | cbn; congruence].
Qed.

(** ** What every database built through the storage manager keeps *)

Lemma UpdateServer_Ok db id publicAddress port now db' :
  SM.UpdateServer db id publicAddress port now = Ok db' <->
  exists s,
    SM.servers db !! id = Some s /\ id <> "" /\
    db' = SM.mkDB (SM.networks db) (SM.networks_by_name db)
            (<[id := Server.mk (Server.ID s) (Server.NetworkID s)
                       (Server.Name s) publicAddress port (Server.VirtualIP s)
                       (Server.PrivateKey s) (Server.PublicKey s)
                       (Server.CreatedAt s) now]> (SM.servers db))
            (SM.servers_by_name db) (SM.nodes db) (SM.nodes_by_name db)
            (SM.configs db) (SM.configs_by_version db) (SM.ip_pools db).
Proof.
  unfold SM.UpdateServer, SM.Put.
  destruct (SM.servers db !! id) as [s|].
  2:{ split; [discriminate | intros (? & ? & _); discriminate]. }
  destruct (decide (id = "")) as [-> | Hid].
  - cbn. split; [discriminate | intros (? & _ & ? & _); contradiction].
  - rewrite (bool_decide_eq_false_2 _ Hid). cbn. split.
    + intros [= <-]. exists s. repeat split; assumption.
    + intros (s' & [= <-] & _ & ->). reflexivity.
Qed.

Lemma UpdateNode_Ok db id publicAddress port nodeType now db' :
  SM.UpdateNode db id publicAddress port nodeType now = Ok db' <->
  exists n,
    SM.nodes db !! id = Some n /\ id <> "" /\
    db' = SM.mkDB (SM.networks db) (SM.networks_by_name db) (SM.servers db)
            (SM.servers_by_name db)
            (<[id := Node.mk (Node.ID n) (Node.NetworkID n) (Node.Name n)
                       publicAddress port (Node.VirtualIP n) nodeType
                       (Node.PrivateKey n) (Node.PublicKey n)
                       (Node.CreatedAt n) now]> (SM.nodes db))
            (SM.nodes_by_name db) (SM.configs db) (SM.configs_by_version db)
            (SM.ip_pools db).
Proof.
  unfold SM.UpdateNode, SM.Put.
  destruct (SM.nodes db !! id) as [n|].
  2:{ split; [discriminate | intros (? & ? & _); discriminate]. }
  destruct (decide (id = "")) as [-> | Hid].
  - cbn. split; [discriminate | intros (? & _ & ? & _); contradiction].
  - rewrite (bool_decide_eq_false_2 _ Hid). cbn. split.
    + intros [= <-]. exists n. repeat split; assumption.
    + intros (n' & [= <-] & _ & ->). reflexivity.
Qed.

Lemma DeleteServer_Ok db networkID db' :
  SM.DeleteServer db networkID = Ok db' ->
  exists key server,
    SM.servers db !! key = Some server /\
    Server.NetworkID server = networkID /\
    db' = SM.mkDB (SM.networks db) (SM.networks_by_name db)
            (delete key (SM.servers db))
            (delete (Server.Name server) (SM.servers_by_name db))
            (SM.nodes db) (SM.nodes_by_name db) (SM.configs db)
            (SM.configs_by_version db) (SM.ip_pools db).
Proof.
  unfold SM.DeleteServer.
  pose proof (delete_scan networkID (SM.bucket_items (SM.servers db)) ("", ""))
    as H. cbn zeta in H.
  destruct (fold_left _ _ _) as [serverID serverName].
  destruct H as [[= -> ->] | (k & v & Hin & Hn & [= -> ->])].
  - rewrite bool_decide_eq_true_2 by reflexivity. discriminate.
  - case_bool_decide; [discriminate|]. intros [= <-].
    exists k, v. split; [now apply elem_of_bucket_items|]. now split.
Qed.

Lemma SaveConfigVersion_Ok db networkID contentHash cfgs newID now db' c :
  SM.SaveConfigVersion db networkID contentHash cfgs newID now = Ok (db', c) <->
  newID <> "" /\
  c = ConfigVersion.mk newID networkID (SM.nextVersion db networkID)
        contentHash cfgs now /\
  db' = SM.mkDB (SM.networks db) (SM.networks_by_name db) (SM.servers db)
          (SM.servers_by_name db) (SM.nodes db) (SM.nodes_by_name db)
          (<[newID := c]> (SM.configs db)) (SM.configs_by_version db)
          (SM.ip_pools db).
Proof.
  unfold SM.SaveConfigVersion, SM.Put. cbn [ConfigVersion.ID].
  destruct (decide (newID = "")) as [-> | Hid].
  - cbn. split; [discriminate | intros [? _]; contradiction].
  - rewrite (bool_decide_eq_false_2 _ Hid). cbn. split.
    + intros [= <- <-]. now repeat split.
    + intros (_ & -> & ->). reflexivity.
Qed.

Lemma SaveIPPoolState_Ok db networkID state db' :
  SM.SaveIPPoolState db networkID state = Ok db' <->
  networkID <> "" /\
  db' = SM.mkDB (SM.networks db) (SM.networks_by_name db) (SM.servers db)
          (SM.servers_by_name db) (SM.nodes db) (SM.nodes_by_name db)
          (SM.configs db) (SM.configs_by_version db)
          (<[networkID := state]> (SM.ip_pools db)).
Proof.
  unfold SM.SaveIPPoolState, SM.Put.
  destruct (decide (networkID = "")) as [-> | Hid].
  - cbn. split; [discriminate | intros [? _]; contradiction].
  - rewrite (bool_decide_eq_false_2 _ Hid). cbn. split.
    + intros [= <-]. now split.
    + intros (_ & ->). reflexivity.
Qed.

Lemma stepStorage_servers_ok db o :
  servers_ok db -> servers_ok (stepStorage db o).
Proof.
  intros [Hid Hone]. destruct o; cbn [stepStorage].
  - destruct (SM.CreateNetwork _ _ _ _ _) as [[d n]|] eqn:E; [|now split].
    apply CreateNetwork_Ok in E as (_ & _ & _ & _ & ->). now split.
  - destruct (SM.CreateServer _ _ _ _ _ _ _ _ _ _) as [[d s]|] eqn:E;
      [|now split].
    apply CreateServer_Ok in E as (_ & Hex & _ & Hnew & -> & ->).
    assert (Hnone : forall k s, SM.servers db !! k = Some s ->
                                Server.NetworkID s <> networkID).
    { intros k s Hl Hn.
      assert (SM.serverExistsFor db networkID = true)
        by (apply serverExistsFor_spec; eauto).
      congruence. }
    split; cbn [SM.servers].
    + intros k s Hl. destruct (decide (k = newID)) as [-> | Hne].
      * rewrite lookup_insert_eq in Hl. injection Hl as <-. now split.
      * rewrite lookup_insert_ne in Hl by congruence. eauto.
    + intros k1 s1 k2 s2 H1 H2 Hn.
      destruct (decide (k1 = newID)) as [-> | Hne1];
        destruct (decide (k2 = newID)) as [-> | Hne2]; [reflexivity|..].
      * rewrite lookup_insert_eq in H1. injection H1 as <-.
        rewrite lookup_insert_ne in H2 by congruence.
        exfalso. apply (Hnone _ _ H2). now rewrite <- Hn.
      * rewrite lookup_insert_eq in H2. injection H2 as <-.
        rewrite lookup_insert_ne in H1 by congruence.
        exfalso. apply (Hnone _ _ H1). now rewrite Hn.
      * rewrite lookup_insert_ne in H1, H2 by congruence. eauto.
  - destruct (SM.UpdateServer _ _ _ _ _) as [d|] eqn:E; [|now split].
    apply UpdateServer_Ok in E as (s & Hs & _ & ->).
    split; cbn [SM.servers].
    + intros k s1 Hl. destruct (decide (k = id)) as [-> | Hne].
      * rewrite lookup_insert_eq in Hl. injection Hl as <-. cbn.
        exact (Hid _ _ Hs).
      * rewrite lookup_insert_ne in Hl by congruence. eauto.
    + assert (Hsame : forall k s1,
                 <[id := Server.mk (Server.ID s) (Server.NetworkID s)
                           (Server.Name s) publicAddress port
                           (Server.VirtualIP s) (Server.PrivateKey s)
                           (Server.PublicKey s) (Server.CreatedAt s) now]>
                   (SM.servers db) !! k = Some s1 ->
                 exists s0, SM.servers db !! k = Some s0 /\
                            Server.NetworkID s0 = Server.NetworkID s1).
      { intros k s1 Hl. destruct (decide (k = id)) as [-> | Hne].
        - rewrite lookup_insert_eq in Hl. injection Hl as <-. eauto.
        - rewrite lookup_insert_ne in Hl by congruence. eauto. }
      intros k1 s1 k2 s2 H1 H2 Hn.
      apply Hsame in H1 as (t1 & H1 & E1), H2 as (t2 & H2 & E2).
      apply (Hone k1 t1 k2 t2); congruence.
  - destruct (SM.DeleteServer db networkID) as [d|] eqn:E; [|now split].
    apply DeleteServer_Ok in E as (key & server & _ & _ & ->).
    split; cbn [SM.servers].
    + intros k s Hl. apply lookup_delete_Some in Hl as [_ Hl]. eauto.
    + intros k1 s1 k2 s2 H1 H2.
      apply lookup_delete_Some in H1 as [_ H1], H2 as [_ H2]. eauto.
  - destruct (SM.CreateNode _ _ _ _ _ _ _ _ _ _ _) as [[d n]|] eqn:E;
      [|now split].
    apply CreateNode_Ok in E as (_ & _ & _ & _ & ->). now split.
  - destruct (SM.UpdateNode _ _ _ _ _ _) as [d|] eqn:E; [|now split].
    apply UpdateNode_Ok in E as (n & _ & _ & ->). now split.
  - destruct (SM.DeleteNode db networkID name) as [d|] eqn:E; [|now split].
    apply DeleteNode_Ok in E as (id & _ & ->). now split.
  - destruct (SM.SaveConfigVersion _ _ _ _ _ _) as [[d c]|] eqn:E; [|now split].
    apply SaveConfigVersion_Ok in E as (_ & _ & ->). now split.
  - destruct (SM.SaveIPPoolState _ _ _) as [d|] eqn:E; [|now split].
    apply SaveIPPoolState_Ok in E as (_ & ->). now split.
Qed.

Lemma stepStorage_nodes_ok db o : nodes_ok db -> nodes_ok (stepStorage db o).
Proof.
  intros Hok. destruct o; cbn [stepStorage].
  - destruct (SM.CreateNetwork _ _ _ _ _) as [[d n]|] eqn:E; [|exact Hok].
    apply CreateNetwork_Ok in E as (_ & _ & _ & _ & ->). exact Hok.
  - destruct (SM.CreateServer _ _ _ _ _ _ _ _ _ _) as [[d s]|] eqn:E;
      [|exact Hok].
    apply CreateServer_Ok in E as (_ & _ & _ & _ & _ & ->). exact Hok.
  - destruct (SM.UpdateServer _ _ _ _ _) as [d|] eqn:E; [|exact Hok].
    apply UpdateServer_Ok in E as (s & _ & _ & ->). exact Hok.
  - destruct (SM.DeleteServer db networkID) as [d|] eqn:E; [|exact Hok].
    apply DeleteServer_Ok in E as (key & server & _ & _ & ->). exact Hok.
  - destruct (SM.CreateNode _ _ _ _ _ _ _ _ _ _ _) as [[d n]|] eqn:E;
      [|exact Hok].
    apply CreateNode_Ok in E as (_ & Hfree & Hnew & -> & ->).
    intros k n. cbn [SM.nodes SM.nodes_by_name].
    destruct (decide (k = newID)) as [-> | Hne].
    + rewrite lookup_insert_eq. intros [= <-]. cbn.
      now rewrite lookup_insert_eq.
    + rewrite lookup_insert_ne by congruence. intros Hl.
      destruct (Hok _ _ Hl) as (Hid & Hk & Hidx).
      split; [exact Hid|]. split; [exact Hk|].
      rewrite lookup_insert_ne; [exact Hidx | congruence].
  - destruct (SM.UpdateNode _ _ _ _ _ _) as [d|] eqn:E; [|exact Hok].
    apply UpdateNode_Ok in E as (n0 & Hn0 & _ & ->).
    intros k n. cbn [SM.nodes SM.nodes_by_name].
    destruct (decide (k = id)) as [-> | Hne].
    + rewrite lookup_insert_eq. intros [= <-]. cbn. exact (Hok _ _ Hn0).
    + rewrite lookup_insert_ne by congruence. eauto.
  - destruct (SM.DeleteNode db networkID name) as [d|] eqn:E; [|exact Hok].
    apply DeleteNode_Ok in E as (id & Hidx & ->).
    intros k n. cbn [SM.nodes SM.nodes_by_name]. intros Hl.
    apply lookup_delete_Some in Hl as [Hne Hl].
    destruct (Hok _ _ Hl) as (Hid & Hk0 & Hk).
    split; [exact Hid|]. split; [exact Hk0|].
    rewrite lookup_delete_ne; [exact Hk|]. congruence.
  - destruct (SM.SaveConfigVersion _ _ _ _ _ _) as [[d c]|] eqn:E; [|exact Hok].
    apply SaveConfigVersion_Ok in E as (_ & _ & ->). exact Hok.
  - destruct (SM.SaveIPPoolState _ _ _) as [d|] eqn:E; [|exact Hok].
    apply SaveIPPoolState_Ok in E as (_ & ->). exact Hok.
Qed.

Lemma runStorage_ok ops : forall db,
  servers_ok db -> nodes_ok db ->
  servers_ok (runStorage db ops) /\ nodes_ok (runStorage db ops).
Proof.
  induction ops as [|o ops IH]; intros db Hs Hn; [now split|].
  cbn. apply IH; [now apply stepStorage_servers_ok
                  | now apply stepStorage_nodes_ok].
Qed.

Lemma emptyDB_ok : servers_ok SM.emptyDB /\ nodes_ok SM.emptyDB.
Proof.
  split; [split|].
  - intros k s H. cbn in H. rewrite lookup_empty in H. discriminate.
  - intros k1 s1 k2 s2 H. cbn in H. rewrite lookup_empty in H. discriminate.
  - intros k n H. cbn in H. rewrite lookup_empty in H. discriminate.
Qed.

(** X10. Records and the index. Take any sequence of creating, updating
    and deleting calls on the storage manager, starting from a new
    database, in which the new texts are valid UTF-8 and the texts and
    index keys are within [MaxKeySize] ([op_ok]). In the database it leads
    to, every server and every node is stored under its own ID, which is
    not empty, no network has two servers, and every stored node is
    indexed under its network and name; and one more such call keeps these
    properties. *)
Theorem storage_keeps_records_consistent (ops : list storageOp) :
  Forall (fun o => op_ok o = true) ops ->
  servers_ok (runStorage SM.emptyDB ops) /\
  nodes_ok (runStorage SM.emptyDB ops) /\
  forall o,
    op_ok o = true ->
    servers_ok (stepStorage (runStorage SM.emptyDB ops) o) /\
    nodes_ok (stepStorage (runStorage SM.emptyDB ops) o).
Proof.
  intros _.
  destruct (runStorage_ok ops SM.emptyDB (proj1 emptyDB_ok) (proj2 emptyDB_ok))
    as [Hs Hn].
  split; [exact Hs|]. split; [exact Hn|]. intros o _.
  split; [now apply stepStorage_servers_ok | now apply stepStorage_nodes_ok].
Qed.

(** ** Updating and deleting through the manager *)

Lemma GetServerByNetworkID_key db networkID server :
  servers_ok db ->
  SM.GetServerByNetworkID db networkID = Ok server ->
  SM.servers db !! Server.ID server = Some server /\
  Server.NetworkID server = networkID /\ Server.ID server <> "".
Proof.
  intros [Hid _] E.
  destruct (GetServerByNetworkID_cases db networkID)
    as [[E' _] | (k & s & Hl & Hn & E')]; [congruence|].
  assert (s = server) as -> by congruence.
  destruct (Hid _ _ Hl) as [Ek Hk]. rewrite Ek. auto.
Qed.

Lemma GetNodeByName_key db networkID name node :
  nodes_ok db ->
  SM.GetNodeByName db networkID name = Ok node ->
  SM.nodes_by_name db !! SM.nameKey networkID name = Some (Node.ID node) /\
  SM.nodes db !! Node.ID node = Some node /\ Node.ID node <> "".
Proof.
  intros Hok. unfold SM.GetNodeByName.
  destruct (SM.nodes_by_name db !! SM.nameKey networkID name) as [id|];
    [|discriminate].
  destruct (SM.nodes db !! id) as [n|] eqn:El; [|discriminate].
  intros [= ->]. destruct (Hok _ _ El) as (Ek & Hk & _). rewrite Ek. auto.
Qed.

Section ManagerFacts.
Context `{validator : IPValidator}.

(** X11. Updating the server. In a manager whose database keeps its server
    records consistent, for a network with a server that is indexed under
    its network and name: [UpdateServer] passes on the validator's error
    and changes nothing when the address is refused; for an accepted
    address that is valid UTF-8 and within [MaxKeySize] it succeeds and
    returns the stored server with the new address, the port as given
    (zero is kept, no default is applied) and the new update time, and
    with its ID, network, name, virtual address, keys and creation time
    unchanged. Afterwards this is the network's server; only the server's
    record has been written; the pools are untouched. *)
Theorem update_server_changes_endpoint_only (vnm : VNM.t)
    (networkName publicAddress : string) (port now : Z)
    (network : VirtualNetwork.t) (server : Server.t) :
  servers_ok (VNM.storage vnm) ->
  SM.GetNetworkByName (VNM.storage vnm) networkName = Ok network ->
  SM.GetServerByNetworkID (VNM.storage vnm) (VirtualNetwork.ID network)
  = Ok server ->
  SM.servers_by_name (VNM.storage vnm)
    !! SM.nameKey (Server.NetworkID server) (Server.Name server)
  = Some (Server.ID server) ->
  (forall e, IsValidPublicAddress publicAddress = Err e ->
             VNM.UpdateServer vnm networkName publicAddress port now
             = (vnm, Err e)) /\
  (is_ok (IsValidPublicAddress publicAddress) = true ->
   text_ok publicAddress = true ->
   let server' :=
     Server.mk (Server.ID server) (Server.NetworkID server)
       (Server.Name server) publicAddress port (Server.VirtualIP server)
       (Server.PrivateKey server) (Server.PublicKey server)
       (Server.CreatedAt server) now in
   exists vnm',
     VNM.UpdateServer vnm networkName publicAddress port now
     = (vnm', Ok server') /\
     VNM.GetServer vnm' networkName = Ok server' /\
     VNM.ipPools vnm' = VNM.ipPools vnm /\
     SM.servers (VNM.storage vnm')
     = <[Server.ID server := server']> (SM.servers (VNM.storage vnm)) /\
     SM.servers_by_name (VNM.storage vnm')
     = SM.servers_by_name (VNM.storage vnm) /\
     SM.networks (VNM.storage vnm') = SM.networks (VNM.storage vnm) /\
     SM.nodes (VNM.storage vnm') = SM.nodes (VNM.storage vnm) /\
     SM.configs (VNM.storage vnm') = SM.configs (VNM.storage vnm) /\
     SM.ip_pools (VNM.storage vnm') = SM.ip_pools (VNM.storage vnm)).
Proof.
  intros Hok Hnet Hsrv Hidx.
  destruct (GetServerByNetworkID_key _ _ _ Hok Hsrv) as (Hrec & Hnid & Hne).
  unfold VNM.UpdateServer. rewrite Hnet, Hsrv. split.
  - intros e He. now rewrite He.
  - intros Hv _. destruct (IsValidPublicAddress publicAddress) as [u|];
      [|discriminate]. cbn zeta.
    set (server' := Server.mk _ _ _ _ _ _ _ _ _ _).
    set (db' := SM.mkDB (SM.networks (VNM.storage vnm))
                  (SM.networks_by_name (VNM.storage vnm))
                  (<[Server.ID server := server']> (SM.servers (VNM.storage vnm)))
                  (SM.servers_by_name (VNM.storage vnm))
                  (SM.nodes (VNM.storage vnm))
                  (SM.nodes_by_name (VNM.storage vnm))
                  (SM.configs (VNM.storage vnm))
                  (SM.configs_by_version (VNM.storage vnm))
                  (SM.ip_pools (VNM.storage vnm))).
    assert (Eu : SM.UpdateServer (VNM.storage vnm) (Server.ID server)
                   publicAddress port now = Ok db').
    { apply UpdateServer_Ok. exists server. repeat split; assumption. }
    rewrite Eu. cbn [VNM.setStorage VNM.storage].
    assert (Eg : SM.GetServerByName db' (Server.NetworkID server)
                   (Server.Name server) = Ok server').
    { unfold SM.GetServerByName. cbn [db' SM.servers_by_name SM.servers].
      now rewrite Hidx, lookup_insert_eq. }
    rewrite Eg. eexists. split; [reflexivity|].
    split; [|repeat split].
    unfold VNM.GetServer. cbn [VNM.storage VNM.setStorage].
    assert (Hnet' : SM.GetNetworkByName db' networkName = Ok network)
      by exact Hnet.
    rewrite Hnet'. cbn.
    apply (GetServerByNetworkID_unique db' _ (Server.ID server));
      [apply lookup_insert_eq | exact Hnid|].
    intros k' s' Hl' Hn'. cbn [db' SM.servers] in Hl'.
    destruct (decide (k' = Server.ID server)) as [-> | Hk].
    + rewrite lookup_insert_eq in Hl'. congruence.
    + rewrite lookup_insert_ne in Hl' by congruence. exfalso. apply Hk.
      destruct Hok as [_ Hone].
      apply (Hone k' s' (Server.ID server) server Hl' Hrec). congruence.
Qed.

(** X12. Updating a node. In a manager whose database keeps its node
    records consistent, for a node found under its name: [UpdateNode]
    refuses the type peer with an empty address, passes on the validator's
    error for a non-empty address it refuses, and changes nothing in both
    cases; otherwise, for an address and a type that are valid UTF-8 and
    within [MaxKeySize], it succeeds and returns the stored node with the
    new address, the port as given, the type as given (an empty type is
    stored as it is) and the new update time, and with its ID, network,
    name, virtual address, keys and creation time unchanged. Afterwards
    the node is found under its name with these values; only the node's
    record has been written; the pools are untouched. *)
Theorem update_node_keeps_identity (vnm : VNM.t)
    (networkName nodeName publicAddress : string) (port : Z)
    (nodeType : NodeType) (now : Z)
    (network : VirtualNetwork.t) (node : Node.t) :
  nodes_ok (VNM.storage vnm) ->
  SM.GetNetworkByName (VNM.storage vnm) networkName = Ok network ->
  SM.GetNodeByName (VNM.storage vnm) (VirtualNetwork.ID network) nodeName
  = Ok node ->
  (nodeType = NodeTypePeer -> publicAddress = "" ->
   VNM.UpdateNode vnm networkName nodeName publicAddress port nodeType now
   = (vnm, Err ErrPeerNeedsAddress)) /\
  (forall e, publicAddress <> "" ->
             IsValidPublicAddress publicAddress = Err e ->
             VNM.UpdateNode vnm networkName nodeName publicAddress port
               nodeType now = (vnm, Err e)) /\
  ((nodeType <> NodeTypePeer /\ publicAddress = "") \/
   (publicAddress <> "" /\
    is_ok (IsValidPublicAddress publicAddress) = true) ->
   texts_ok [publicAddress; nodeType] = true ->
   let node' :=
     Node.mk (Node.ID node) (Node.NetworkID node) (Node.Name node)
       publicAddress port (Node.VirtualIP node) nodeType
       (Node.PrivateKey node) (Node.PublicKey node) (Node.CreatedAt node)
       now in
   exists vnm',
     VNM.UpdateNode vnm networkName nodeName publicAddress port nodeType now
     = (vnm', Ok node') /\
     VNM.GetNode vnm' networkName nodeName = Ok node' /\
     VNM.ipPools vnm' = VNM.ipPools vnm /\
     SM.nodes (VNM.storage vnm')
     = <[Node.ID node := node']> (SM.nodes (VNM.storage vnm)) /\
     SM.nodes_by_name (VNM.storage vnm') = SM.nodes_by_name (VNM.storage vnm) /\
     SM.networks (VNM.storage vnm') = SM.networks (VNM.storage vnm) /\
     SM.servers (VNM.storage vnm') = SM.servers (VNM.storage vnm) /\
     SM.configs (VNM.storage vnm') = SM.configs (VNM.storage vnm) /\
     SM.ip_pools (VNM.storage vnm') = SM.ip_pools (VNM.storage vnm)).
Proof.
  intros Hok Hnet Hnode.
  destruct (GetNodeByName_key _ _ _ _ Hok Hnode) as (Hidx & Hrec & Hne).
  unfold VNM.UpdateNode. rewrite Hnet, Hnode. split; [|split].
  - intros -> ->. reflexivity.
  - intros e Ha He.
    rewrite (bool_decide_eq_false_2 (publicAddress = "")) by assumption.
    rewrite andb_false_r. now rewrite He.
  - intros Hcase _.
    assert (Hguard : bool_decide (nodeType = NodeTypePeer)
                     && bool_decide (publicAddress = "") = false).
    { destruct Hcase as [[Ht Ha] | [Ha _]].
      - now rewrite (bool_decide_eq_false_2 _ Ht).
      - rewrite (bool_decide_eq_false_2 _ Ha). apply andb_false_r. }
    rewrite Hguard.
    assert (Hval : exists u,
               (if bool_decide (publicAddress = "") then Ok tt
                else IsValidPublicAddress publicAddress) = Ok u).
    { destruct Hcase as [[_ Ha] | [Ha Hv]].
      - rewrite (bool_decide_eq_true_2 _ Ha). eauto.
      - rewrite (bool_decide_eq_false_2 _ Ha).
        destruct (IsValidPublicAddress publicAddress); [eauto | discriminate]. }
    destruct Hval as [u ->]. cbn zeta.
    set (node' := Node.mk _ _ _ _ _ _ _ _ _ _ _).
    set (db' := SM.mkDB (SM.networks (VNM.storage vnm))
                  (SM.networks_by_name (VNM.storage vnm))
                  (SM.servers (VNM.storage vnm))
                  (SM.servers_by_name (VNM.storage vnm))
                  (<[Node.ID node := node']> (SM.nodes (VNM.storage vnm)))
                  (SM.nodes_by_name (VNM.storage vnm))
                  (SM.configs (VNM.storage vnm))
                  (SM.configs_by_version (VNM.storage vnm))
                  (SM.ip_pools (VNM.storage vnm))).
    assert (Eu : SM.UpdateNode (VNM.storage vnm) (Node.ID node)
                   publicAddress port nodeType now = Ok db').
    { apply UpdateNode_Ok. exists node. repeat split; assumption. }
    rewrite Eu. cbn [VNM.setStorage VNM.storage].
    assert (Eg : SM.GetNodeByName db' (VirtualNetwork.ID network) nodeName
                 = Ok node').
    { unfold SM.GetNodeByName. cbn [db' SM.nodes_by_name SM.nodes].
      now rewrite Hidx, lookup_insert_eq. }
    rewrite Eg. eexists. split; [reflexivity|].
    split; [|repeat split].
    unfold VNM.GetNode. cbn [VNM.storage VNM.setStorage].
    assert (Hnet' : SM.GetNetworkByName db' networkName = Ok network)
      by exact Hnet.
    rewrite Hnet'. exact Eg.
Qed.

(** X13.  Deleting a node. In a manager whose database keeps its node
    records consistent, with the pool of the network loaded, for a node
    found under its name and stored with the network's ID: [DeleteNode]
    succeeds; the node's address is released when the pool holds it as
    allocated and it is not the hub's address, and a failed release does
    not stop the call; the pool's state after the release attempt is the
    state saved for the network; the node's record and its index entry are
    deleted and the name is not found any more. When the release succeeds
    the address joins the tail of the recycle queue, so with an empty
    queue it is the address the next allocation returns. *)
Theorem delete_node_releases_address (vnm : VNM.t)
    (networkName nodeName : string)
    (network : VirtualNetwork.t) (node : Node.t) (pool : IPPool) :
  nodes_ok (VNM.storage vnm) ->
  SM.GetNetworkByName (VNM.storage vnm) networkName = Ok network ->
  SM.GetNodeByName (VNM.storage vnm) (VirtualNetwork.ID network) nodeName
  = Ok node ->
  Node.NetworkID node = VirtualNetwork.ID network ->
  VirtualNetwork.ID network <> "" ->
  VNM.ipPools vnm !! VirtualNetwork.ID network = Some pool ->
  let pool' :=
    match ReleaseNodeIP pool (Node.VirtualIP node) with
    | Ok released => released
    | Err _ => pool
    end in
  exists vnm',
    VNM.DeleteNode vnm networkName nodeName = (vnm', Ok tt) /\
    VNM.ipPools vnm'
    = <[VirtualNetwork.ID network := pool']> (VNM.ipPools vnm) /\
    SM.ip_pools (VNM.storage vnm')
    = <[VirtualNetwork.ID network := GetState pool']>
        (SM.ip_pools (VNM.storage vnm)) /\
    SM.nodes (VNM.storage vnm')
    = delete (Node.ID node) (SM.nodes (VNM.storage vnm)) /\
    SM.nodes_by_name (VNM.storage vnm')
    = delete (SM.nameKey (VirtualNetwork.ID network) nodeName)
             (SM.nodes_by_name (VNM.storage vnm)) /\
    VNM.GetNode vnm' networkName nodeName = Err ErrNodeNotFound /\
    (is_allocated pool (Node.VirtualIP node) = true ->
     Node.VirtualIP node <> serverIP pool ->
     recycled pool' = recycled pool ++ [Node.VirtualIP node] /\
     is_allocated pool' (Node.VirtualIP node) = false /\
     nextIndex pool' = nextIndex pool /\
     (recycled pool = [] ->
      exists q, AllocateNodeIP pool' = Ok (Node.VirtualIP node, q))).
Proof.
  intros Hok Hnet Hnode Hnid Hid Hpool pool'.
  destruct (GetNodeByName_key _ _ _ _ Hok Hnode) as (Hidx & Hrec & Hne).
  unfold VNM.DeleteNode, VNM.ensureIPPool. rewrite Hnet, Hnode, Hpool.
  rewrite Hnid, Hpool.
  assert (Epools : VNM.ipPools
                     (match ReleaseNodeIP pool (Node.VirtualIP node) with
                      | Ok ipPool' =>
                          (VNM.setPool vnm (VirtualNetwork.ID network) ipPool',
                           ipPool')
                      | Err _ => (vnm, pool)
                      end).1
                   = <[VirtualNetwork.ID network := pool']> (VNM.ipPools vnm)).
  { subst pool'. destruct (ReleaseNodeIP pool (Node.VirtualIP node));
      cbn [fst VNM.setPool VNM.ipPools]; [reflexivity|].
    symmetry. now apply insert_id. }
  assert (Estore : VNM.storage
                     (match ReleaseNodeIP pool (Node.VirtualIP node) with
                      | Ok ipPool' =>
                          (VNM.setPool vnm (VirtualNetwork.ID network) ipPool',
                           ipPool')
                      | Err _ => (vnm, pool)
                      end).1
                   = VNM.storage vnm).
  { destruct (ReleaseNodeIP pool (Node.VirtualIP node)); reflexivity. }
  assert (Esnd : (match ReleaseNodeIP pool (Node.VirtualIP node) with
                  | Ok ipPool' =>
                      (VNM.setPool vnm (VirtualNetwork.ID network) ipPool',
                       ipPool')
                  | Err _ => (vnm, pool)
                  end).2 = pool').
  { subst pool'. destruct (ReleaseNodeIP pool (Node.VirtualIP node));
      reflexivity. }
  destruct (match ReleaseNodeIP pool (Node.VirtualIP node) with
            | Ok ipPool' =>
                (VNM.setPool vnm (VirtualNetwork.ID network) ipPool', ipPool')
            | Err _ => (vnm, pool)
            end) as [vnm1 pool1].
  cbn [fst snd] in Epools, Estore, Esnd. subst pool1.
  unfold SM.SaveIPPoolState, SM.Put. rewrite Estore.
  rewrite (bool_decide_eq_false_2 _ Hid). cbn.
  unfold SM.DeleteNode. cbn [SM.nodes_by_name]. rewrite Hidx.
  eexists. split; [reflexivity|].
  cbn [VNM.setStorage VNM.ipPools VNM.storage SM.ip_pools SM.nodes
       SM.nodes_by_name].
  split; [exact Epools|]. split; [reflexivity|]. split; [reflexivity|].
  split; [reflexivity|]. split.
  - unfold VNM.GetNode. cbn [VNM.storage].
    change (SM.GetNetworkByName _ networkName)
      with (SM.GetNetworkByName (VNM.storage vnm) networkName).
    rewrite Hnet. cbn. unfold SM.GetNodeByName. cbn [SM.nodes_by_name].
    now rewrite lookup_delete_eq.
  - intros Hal Hns. subst pool'. unfold ReleaseNodeIP.
    rewrite (bool_decide_eq_false_2 _ Hns), Hal. cbn.
    split; [reflexivity|]. split.
    + unfold is_allocated. cbn. now rewrite lookup_delete_eq.
    + split; [reflexivity|]. intros Er. unfold AllocateNodeIP. cbn.
      rewrite Er. cbn. eauto.
Qed.

End ManagerFacts.

(** ** Loading the pool of a network *)

Lemma markNodes_markAll (nodes : list Node.t) : forall p,
  VNM.markNodes p nodes = markAll p (map Node.VirtualIP nodes).
Proof.
  unfold VNM.markNodes, markAll.
  induction nodes as [|n nodes IH]; intros p; cbn [fold_left map];
    [reflexivity|].
  rewrite <- IH. f_equal. cbn [stepPool].
  destruct (MarkIPAllocated p (Node.VirtualIP n)); reflexivity.
Qed.

Lemma MarkInv_weaken ms ms' p0 p :
  (forall m, In m ms' -> In m ms) -> MarkInv ms p0 p -> MarkInv ms' p0 p.
Proof.
  intros Hsub [Hs Hb Hr]. constructor; [exact Hs | |]; eauto.
Qed.

Lemma MarkInv_allocate cidr ms p0 p ip p' :
  NewIPPool cidr = Ok p0 -> MarkInv ms p0 p ->
  AllocateNodeIP p = Ok (ip, p') -> ~ In ip ms.
Proof.
  intros Hnew [Hs Hb Hr] Ha Hin.
  apply AllocateNodeIP_inv in Ha
    as (_ & _ & [(rest & Er & _) | (_ & _ & Hlt & Eip & _)]).
  - apply (Hr ip Hin). rewrite Er. now left.
  - destruct (NewIPPool_Static _ _ Hnew) as [f Hs0].
    pose proof (Static_same _ _ _ Hs0 Hs) as Hsp.
    assert (0 <= nextIndex p).
    { destruct (Z.le_gt_cases 0 (nextIndex p)) as [|Hneg]; [assumption|].
      exfalso. unfold addrAt in Eip.
      replace (Z.to_nat (nextIndex p)) with (Z.to_nat 0) in Eip by lia.
      fold (addrAt p 0) in Eip.
      pose proof (st_total _ _ Hsp).
      specialize (Hb ip 0 Hin ltac:(lia) Eip). lia. }
    specialize (Hb ip (nextIndex p) Hin ltac:(lia) Eip). lia.
Qed.

(** X14.  Restart with a saved state. Let the state saved for a network be
    the state of a pool reached from a new pool by allocate, release,
    mark, resync and reload calls. A manager that has no pool loaded for
    the network loads it on [ensureIPPool] from the saved state, whatever
    block is passed in, without writing to the database: the loaded pool
    has the block, hub address, cursor and recycle queue of the saved pool
    and its allocated set with the hub address added, so its next
    allocation returns what the saved pool's would have returned. A second
    [ensureIPPool] changes nothing. *)
Theorem restart_restores_saved_pool (vnm : VNM.t)
    (networkID networkCIDR cidr : string) (p0 : IPPool) (ops : list poolOp) :
  NewIPPool cidr = Ok p0 ->
  VNM.ipPools vnm !! networkID = None ->
  SM.ip_pools (VNM.storage vnm) !! networkID
  = Some (GetState (runPool p0 ops)) ->
  exists p',
    VNM.ensureIPPool vnm networkID networkCIDR
    = (VNM.setPool vnm networkID p', Ok tt) /\
    VNM.ensureIPPool (VNM.setPool vnm networkID p') networkID networkCIDR
    = (VNM.setPool vnm networkID p', Ok tt) /\
    same_static (runPool p0 ops) p' /\
    recycled p' = recycled (runPool p0 ops) /\
    nextIndex p' = nextIndex (runPool p0 ops) /\
    allocated p'
    = <[serverIP (runPool p0 ops) := true]> (allocated (runPool p0 ops)) /\
    (forall ip q, AllocateNodeIP (runPool p0 ops) = Ok (ip, q) ->
                  exists q', AllocateNodeIP p' = Ok (ip, q')) /\
    (forall e, AllocateNodeIP (runPool p0 ops) = Err e ->
               AllocateNodeIP p' = Err e).
Proof.
  intros Hnew Hnone Hsaved.
  pose proof (runPool_HubInv cidr p0 ops Hnew p0 (HubInv_init _ _ Hnew))
    as [Hss _ _].
  assert (Hv : forall k v, allocated (runPool p0 ops) !! k = Some v -> v = true).
  { apply runPool_values_true. destruct (NewIPPool_fresh _ _ Hnew) as (_ & -> & _).
    intros k v H. rewrite lookup_empty in H. discriminate. }
  set (p := runPool p0 ops) in *.
  pose proof (RestoreIPPool_GetState cidr p0 p Hnew Hss Hv) as Hr.
  eexists. split.
  { unfold VNM.ensureIPPool, SM.GetIPPoolState. rewrite Hnone, Hsaved, Hr.
    reflexivity. }
  split.
  { unfold VNM.ensureIPPool. cbn [VNM.setPool VNM.ipPools].
    now rewrite lookup_insert_eq. }
  cbn. split; [repeat split|]. split; [reflexivity|]. split; [reflexivity|].
  split; [reflexivity|]. unfold AllocateNodeIP, addrAt. cbn. split.
  - intros ip q H. destruct (recycled p) as [|r rest].
    + destruct (totalUsable p <=? nextIndex p); [discriminate|].
      injection H as <- _. eauto.
    + injection H as <- _. eauto.
  - intros e H. destruct (recycled p) as [|r rest]; [|discriminate].
    destruct (totalUsable p <=? nextIndex p); [assumption | discriminate].
Qed.

Lemma MarkIPAllocated_fresh cidr p0 ip :
  NewIPPool cidr = Ok p0 -> ip <> "" ->
  MarkIPAllocated p0 ip = Ok (markAll p0 [ip]).
Proof.
  intros Hnew Hne. destruct (NewIPPool_fresh _ _ Hnew) as (_ & Ea & _).
  unfold markAll. cbn [fold_left stepPool]. unfold MarkIPAllocated, is_allocated.
  rewrite (bool_decide_eq_false_2 _ Hne), Ea, lookup_empty. reflexivity.
Qed.

(** X15.  Restart without a saved state. When a network has neither a
    loaded pool nor a saved state, [ensureIPPool] builds the pool from the
    records: a new pool for the block in which the server's address (if
    the network has a server) and the addresses of the network's nodes are
    marked, with the cursor resynced; it loads this pool and saves its
    state. Every non-empty node address is allocated in it, and no later
    allocation returns the address of one of these nodes as long as none
    of them is released. *)
Theorem restart_rebuilds_pool_from_records (vnm : VNM.t)
    (networkID networkCIDR : string) (p0 : IPPool) :
  VNM.ipPools vnm !! networkID = None ->
  SM.ip_pools (VNM.storage vnm) !! networkID = None ->
  NewIPPool networkCIDR = Ok p0 ->
  networkID <> "" ->
  (forall server,
      SM.GetServerByNetworkID (VNM.storage vnm) networkID = Ok server ->
      Server.VirtualIP server <> "") ->
  exists pool vnm',
    VNM.ensureIPPool vnm networkID networkCIDR = (vnm', Ok tt) /\
    VNM.ipPools vnm' = <[networkID := pool]> (VNM.ipPools vnm) /\
    SM.ip_pools (VNM.storage vnm')
    = <[networkID := GetState pool]> (SM.ip_pools (VNM.storage vnm)) /\
    SM.nodes (VNM.storage vnm') = SM.nodes (VNM.storage vnm) /\
    SM.servers (VNM.storage vnm') = SM.servers (VNM.storage vnm) /\
    same_static p0 pool /\ recycled pool = [] /\
    (forall node,
        In node (SM.ListNodesByNetworkID (VNM.storage vnm) networkID) ->
        Node.VirtualIP node <> "" ->
        is_allocated pool (Node.VirtualIP node) = true) /\
    (forall ops ip q,
        Forall allocRelease ops ->
        (forall node,
            In node (SM.ListNodesByNetworkID (VNM.storage vnm) networkID) ->
            ~ In (OpRelease (Node.VirtualIP node)) ops) ->
        AllocateNodeIP (runPool pool ops) = Ok (ip, q) ->
        forall node,
          In node (SM.ListNodesByNetworkID (VNM.storage vnm) networkID) ->
          Node.VirtualIP node <> ip).
Proof.
  intros Hnone Hnostate Hnew Hid Hsrv.
  set (nodes := SM.ListNodesByNetworkID (VNM.storage vnm) networkID).
  set (ms0 := match SM.GetServerByNetworkID (VNM.storage vnm) networkID with
              | Ok server => [Server.VirtualIP server]
              | Err _ => []
              end).
  set (ms := ms0 ++ map Node.VirtualIP nodes).
  set (pool := SyncNextIndex (markAll p0 ms)).
  assert (Hens : VNM.ensureIPPool vnm networkID networkCIDR
                 = (VNM.setStorage (VNM.setPool vnm networkID pool)
                      (SM.mkDB (SM.networks (VNM.storage vnm))
                         (SM.networks_by_name (VNM.storage vnm))
                         (SM.servers (VNM.storage vnm))
                         (SM.servers_by_name (VNM.storage vnm))
                         (SM.nodes (VNM.storage vnm))
                         (SM.nodes_by_name (VNM.storage vnm))
                         (SM.configs (VNM.storage vnm))
                         (SM.configs_by_version (VNM.storage vnm))
                         (<[networkID := GetState pool]>
                            (SM.ip_pools (VNM.storage vnm)))), Ok tt)).
  { unfold VNM.ensureIPPool, SM.GetIPPoolState. rewrite Hnone, Hnostate.
    unfold VNM.reconstructIPPool. rewrite Hnew.
    assert (Emark : match SM.GetServerByNetworkID (VNM.storage vnm) networkID
                    with
                    | Ok server =>
                        MarkIPAllocated p0 (Server.VirtualIP server)
                    | Err _ => Ok p0
                    end = Ok (markAll p0 ms0)).
    { subst ms0.
      destruct (SM.GetServerByNetworkID (VNM.storage vnm) networkID)
        as [server|] eqn:Es; [|reflexivity].
      apply (MarkIPAllocated_fresh networkCIDR); [exact Hnew | now apply Hsrv]. }
    rewrite Emark. fold nodes. rewrite markNodes_markAll.
    replace (markAll (markAll p0 ms0) (map Node.VirtualIP nodes))
      with (markAll p0 ms)
      by (unfold ms, markAll; now rewrite fold_left_app).
    fold pool. cbn [VNM.setPool VNM.storage].
    unfold SM.GetIPPoolState, SM.SaveIPPoolState, SM.Put.
    rewrite Hnostate, (bool_decide_eq_false_2 _ Hid). reflexivity. }
  exists pool. eexists. split; [exact Hens|].
  cbn [VNM.setStorage VNM.setPool VNM.ipPools VNM.storage SM.ip_pools
       SM.nodes SM.servers].
  repeat (split; [reflexivity|]).
  pose proof (resync_MarkInv networkCIDR p0 ms Hnew) as I.
  destruct (markAll_inv ms p0) as (S1 & R1 & _ & _ & M1).
  destruct (SyncNextIndex_inv (markAll p0 ms)) as (S2 & A2 & R2 & _).
  destruct (NewIPPool_fresh _ _ Hnew) as (_ & _ & Er0 & _).
  split; [exact (mark_static _ _ _ I)|].
  split; [unfold pool; now rewrite R2, R1|].
  assert (Hsub : forall node, In node nodes -> In (Node.VirtualIP node) ms).
  { intros node Hin. unfold ms. apply in_or_app. right. now apply in_map. }
  split.
  - intros node Hin Hne. unfold pool, is_allocated. rewrite A2.
    apply (M1 _ (Hsub _ Hin) Hne).
  - intros ops ip q Hops Hnot Ha node Hin Heq. subst ip.
    assert (I' : MarkInv (map Node.VirtualIP nodes) p0 pool).
    { apply (MarkInv_weaken ms); [|exact I].
      intros m Hm. unfold ms. apply in_or_app. now right. }
    pose proof (runPool_MarkInv _ p0 ops pool I' Hops) as I2.
    apply (MarkInv_allocate networkCIDR _ _ _ _ _ Hnew (I2 ltac:(
      intros m Hm; apply in_map_iff in Hm as (n & <- & Hn); now apply Hnot))
      Ha).
    now apply in_map.
Qed.

(** ** Version numbers and the history *)

Lemma fold_left_pointwise {A B : Type} (f g : A -> B -> A) (l : list B) :
  (forall a b, f a b = g a b) ->
  forall acc, fold_left f l acc = fold_left g l acc.
Proof.
  intros H. induction l as [|b l IH]; intros acc; cbn; [reflexivity|].
  now rewrite H, IH.
Qed.

Lemma nextStep_filter networkID (l : list (string * ConfigVersion.t)) :
  forall acc,
    fold_left (nextStep networkID) l acc
    = fold_left (nextStep networkID)
        (filter (fun kv : string * ConfigVersion.t =>
                   ConfigVersion.NetworkID kv.2 = networkID) l) acc.
Proof.
  induction l as [|kv l IH]; intros acc; cbn [fold_left]; [reflexivity|].
  rewrite filter_cons. destruct (decide _) as [Hd | Hd]; cbn [fold_left].
  - apply IH.
  - unfold nextStep at 2. rewrite (bool_decide_eq_false_2 _ Hd). apply IH.
Qed.

Lemma versionsOf_elem db networkID v :
  In v (versionsOf db networkID) <->
  exists key c, SM.configs db !! key = Some c /\
                ConfigVersion.NetworkID c = networkID /\
                ConfigVersion.Version c = v.
Proof.
  unfold versionsOf. rewrite in_map_iff. split.
  - intros ([key c] & <- & Hin). apply list_elem_of_In in Hin.
    apply list_elem_of_filter in Hin as [HP Hin].
    apply elem_of_bucket_items' in Hin. exists key, c. auto.
  - intros (key & c & Hl & Hn & <-). exists (key, c). split; [reflexivity|].
    apply list_elem_of_In, list_elem_of_filter. split; [exact Hn|].
    now apply elem_of_bucket_items'.
Qed.

Lemma numbered_range db networkID k key c :
  numbered db networkID k ->
  SM.configs db !! key = Some c -> ConfigVersion.NetworkID c = networkID ->
  1 <= ConfigVersion.Version c <= k.
Proof.
  intros [Hk Hp] Hl Hn.
  assert (Hin : In (ConfigVersion.Version c) (versionsOf db networkID))
    by (apply versionsOf_elem; eauto).
  apply list_elem_of_In in Hin. rewrite Hp in Hin.
  apply elem_of_seqZ in Hin. lia.
Qed.

Lemma numbered_present db networkID k v :
  numbered db networkID k -> 1 <= v <= k ->
  exists key c, SM.configs db !! key = Some c /\
                ConfigVersion.NetworkID c = networkID /\
                ConfigVersion.Version c = v.
Proof.
  intros [Hk Hp] Hv. apply versionsOf_elem, list_elem_of_In.
  rewrite Hp. apply elem_of_seqZ. lia.
Qed.

(** Under a numbering, a version number belongs to one record. *)
Lemma numbered_unique db networkID k key1 c1 key2 c2 :
  numbered db networkID k ->
  SM.configs db !! key1 = Some c1 -> ConfigVersion.NetworkID c1 = networkID ->
  SM.configs db !! key2 = Some c2 -> ConfigVersion.NetworkID c2 = networkID ->
  ConfigVersion.Version c1 = ConfigVersion.Version c2 ->
  key1 = key2.
Proof.
  intros [Hk Hp] H1 N1 H2 N2 Ev.
  assert (Hnd : NoDup (versionsOf db networkID))
    by (rewrite Hp; apply NoDup_seqZ).
  unfold versionsOf in Hnd.
  set (P := fun kv : string * ConfigVersion.t =>
              ConfigVersion.NetworkID kv.2 = networkID) in *.
  assert (Hin1 : (key1, c1) ∈ filter P (SM.bucket_items (SM.configs db))).
  { apply list_elem_of_filter. split; [exact N1|].
    now apply elem_of_bucket_items'. }
  assert (Hin2 : (key2, c2) ∈ filter P (SM.bucket_items (SM.configs db))).
  { apply list_elem_of_filter. split; [exact N2|].
    now apply elem_of_bucket_items'. }
  apply list_elem_of_lookup in Hin1 as [i1 Hi1], Hin2 as [i2 Hi2].
  assert (i1 = i2).
  { apply (NoDup_lookup _ i1 i2 (ConfigVersion.Version c1) Hnd).
    - change (map ?f ?l) with (f <$> l). rewrite list_lookup_fmap, Hi1.
      reflexivity.
    - change (map ?f ?l) with (f <$> l). rewrite list_lookup_fmap, Hi2.
      cbn. now rewrite Ev. }
  subst i2. congruence.
Qed.

Lemma nextVersion_numbered db networkID k :
  numbered db networkID k -> k < 2 ^ 63 - 2 ->
  SM.nextVersion db networkID = k + 1.
Proof.
  intros Hnum Hk. pose proof Hnum as [Hk0 Hp].
  change (SM.nextVersion db networkID)
    with (fold_left (nextStep networkID) (SM.bucket_items (SM.configs db)) 1).
  rewrite nextStep_filter.
  set (l := filter _ _).
  assert (Hl : forall key c, In (key, c) l ->
                 SM.configs db !! key = Some c /\
                 ConfigVersion.NetworkID c = networkID).
  { intros key c Hin. apply list_elem_of_In in Hin.
    apply list_elem_of_filter in Hin as [HP Hin].
    apply elem_of_bucket_items' in Hin. auto. }
  assert (Hb : forall key c, In (key, c) l ->
                 1 <= ConfigVersion.Version c < 2 ^ 63 - 1).
  { intros key c Hin. destruct (Hl _ _ Hin) as [H1 H2].
    pose proof (numbered_range _ _ _ _ _ Hnum H1 H2). lia. }
  destruct (next_fold networkID l Hb 1 ltac:(lia)) as (_ & Hlt & Hat).
  destruct (Z.eq_dec k 0) as [-> | Hk1].
  - destruct Hat as [E | (key & c & Hin & _ & E)]; [exact E|].
    destruct (Hl _ _ Hin) as [H1 H2].
    pose proof (numbered_range _ _ _ _ _ Hnum H1 H2). lia.
  - destruct (numbered_present db networkID k k Hnum ltac:(lia))
      as (key & c & H1 & H2 & H3).
    assert (Hin : In (key, c) l).
    { apply list_elem_of_In, list_elem_of_filter. split; [exact H2|].
      now apply elem_of_bucket_items'. }
    specialize (Hlt _ _ Hin H2).
    destruct Hat as [E | (key' & c' & Hin' & _ & E)]; [lia|].
    destruct (Hl _ _ Hin') as [H1' H2'].
    pose proof (numbered_range _ _ _ _ _ Hnum H1' H2'). lia.
Qed.

Lemma versionsOf_insert db networkID newID c :
  SM.configs db !! newID = None ->
  forall db',
    SM.configs db' = <[newID := c]> (SM.configs db) ->
    (ConfigVersion.NetworkID c = networkID ->
     versionsOf db' networkID
     ≡ₚ ConfigVersion.Version c :: versionsOf db networkID) /\
    (ConfigVersion.NetworkID c <> networkID ->
     versionsOf db' networkID = versionsOf db networkID).
Proof.
  intros Hnew db' E. unfold versionsOf. rewrite E. split; intros Hn.
  - change (?v :: map ?f ?l) with (map f ((newID, c) :: l)).
    apply Permutation_map.
    rewrite (bucket_items_insert _ _ _ Hnew), filter_cons.
    rewrite decide_True by exact Hn. reflexivity.
  - f_equal. apply filter_items_insert; [exact Hnew | exact Hn].
Qed.

Lemma seqZ_snoc (m k : Z) : 0 <= k -> seqZ m (k + 1) = seqZ m k ++ [m + k].
Proof.
  intros Hk. rewrite seqZ_app by lia. f_equal.
Qed.

(** X16.  Numbering of versions. When the versions stored for a network
    are numbered from 1 to [k], a [SaveConfigVersion] of the storage
    manager under a new, non-empty ID succeeds and stores the record with
    version number [k + 1], the hash, the documents and the time it was
    given; afterwards the network's versions are numbered from 1 to [k +
    1], the new record is the latest version, and the numbering of every
    other network is as before. A new database numbers every network from
    1 to 0. *)
Theorem versions_are_numbered_consecutively (db : SM.DB)
    (networkID contentHash : string) (cfgs : gmap string string)
    (newID : string) (now : Z) (k : Z) :
  (forall networkID', numbered SM.emptyDB networkID' 0) /\
  (numbered db networkID k -> k < 2 ^ 63 - 2 ->
   newID <> "" -> SM.configs db !! newID = None ->
   exists db',
     SM.SaveConfigVersion db networkID contentHash cfgs newID now
     = Ok (db', ConfigVersion.mk newID networkID (k + 1) contentHash cfgs now)
     /\ numbered db' networkID (k + 1) /\
     SM.GetLatestConfigVersion db' networkID
     = Ok (ConfigVersion.mk newID networkID (k + 1) contentHash cfgs now) /\
     (forall networkID' k',
         networkID' <> networkID ->
         numbered db networkID' k' -> numbered db' networkID' k')).
Proof.
  split.
  { intros networkID'. split; [lia|]. reflexivity. }
  intros Hnum Hk Hid Hnew.
  set (c := ConfigVersion.mk newID networkID (k + 1) contentHash cfgs now).
  set (db' := SM.mkDB (SM.networks db) (SM.networks_by_name db) (SM.servers db)
                (SM.servers_by_name db) (SM.nodes db) (SM.nodes_by_name db)
                (<[newID := c]> (SM.configs db)) (SM.configs_by_version db)
                (SM.ip_pools db)).
  exists db'. split.
  { apply SaveConfigVersion_Ok. split; [exact Hid|].
    rewrite (nextVersion_numbered db networkID k Hnum Hk). now split. }
  destruct (versionsOf_insert db networkID newID c Hnew db' eq_refl)
    as [Hadd _].
  split; [|split].
  - destruct Hnum as [Hk0 Hp]. split; [lia|].
    rewrite (Hadd eq_refl), Hp, seqZ_snoc by lia. cbn [ConfigVersion.Version c].
    replace (1 + k) with (k + 1) by lia. apply Permutation_cons_append.
  - apply (GetLatestConfigVersion_is_max db' networkID newID c);
      [apply lookup_insert_eq | reflexivity|].
    intros key' c' Hl' Hn'. cbn [db' SM.configs] in Hl'.
    destruct (decide (key' = newID)) as [-> | Hne].
    + rewrite lookup_insert_eq in Hl'. left. congruence.
    + rewrite lookup_insert_ne in Hl' by congruence. right.
      pose proof (numbered_range _ _ _ _ _ Hnum Hl' Hn'). cbn. lia.
  - intros networkID' k' Hne [Hk' Hp']. split; [exact Hk'|].
    destruct (versionsOf_insert db networkID' newID c Hnew db' eq_refl)
      as [_ Hsame].
    rewrite Hsame; [exact Hp' | cbn; congruence].
Qed.

Lemma version_le_total : Total SM.version_le.
Proof. intros a b. unfold SM.version_le. lia. Qed.

Lemma Sorted_seqZ (n : nat) : forall m, Sorted Z.le (seqZ m (Z.of_nat n)).
Proof.
  induction n as [|n IH]; intros m.
  - rewrite seqZ_nil by lia. constructor.
  - rewrite seqZ_cons by lia.
    replace (Z.pred (Z.of_nat (S n))) with (Z.of_nat n) by lia.
    constructor; [apply IH|].
    destruct n as [|n]; [rewrite seqZ_nil by lia; constructor|].
    rewrite seqZ_cons by lia. constructor. lia.
Qed.

Lemma ListConfigVersions_Permutation db networkID :
  SM.ListConfigVersions db networkID
  ≡ₚ map snd (filter (fun kv : string * ConfigVersion.t =>
                        ConfigVersion.NetworkID kv.2 = networkID)
                     (SM.bucket_items (SM.configs db))).
Proof.
  unfold SM.ListConfigVersions. rewrite merge_sort_Permutation.
  rewrite (fold_append_filter
             (fun kv : string * ConfigVersion.t =>
                ConfigVersion.NetworkID kv.2 = networkID) snd _ []).
  reflexivity.
Qed.

Lemma ListConfigVersions_elem db networkID c :
  In c (SM.ListConfigVersions db networkID) <->
  exists key, SM.configs db !! key = Some c /\
              ConfigVersion.NetworkID c = networkID.
Proof.
  rewrite <- list_elem_of_In, ListConfigVersions_Permutation, list_elem_of_In.
  rewrite in_map_iff. split.
  - intros ([key c'] & <- & Hin). apply list_elem_of_In in Hin.
    apply list_elem_of_filter in Hin as [HP Hin].
    apply elem_of_bucket_items' in Hin. exists key. auto.
  - intros (key & Hl & Hn). exists (key, c). split; [reflexivity|].
    apply list_elem_of_In, list_elem_of_filter. split; [exact Hn|].
    now apply elem_of_bucket_items'.
Qed.

Lemma ListConfigVersions_numbered db networkID k :
  numbered db networkID k ->
  map ConfigVersion.Version (SM.ListConfigVersions db networkID) = seqZ 1 k.
Proof.
  intros [Hk Hp].
  apply (Sorted_unique Z.le).
  - change (map ?f ?l) with (f <$> l).
    apply (Sorted_fmap _ SM.version_le); [auto|].
    apply Sorted_merge_sort, version_le_total.
  - rewrite <- (Z2Nat.id k Hk). apply Sorted_seqZ.
  - rewrite <- Hp. unfold versionsOf.
    change (map ?f ?l) with (f <$> l).
    rewrite ListConfigVersions_Permutation.
    change (map ?f ?l) with (f <$> l). rewrite <- list_fmap_compose.
    reflexivity.
Qed.

(** X17.  The history. [GetConfigHistory] passes on the error of the
    network lookup; for a network that is found it returns the records
    stored for the network, each stored record once, in ascending order of
    version numbers. When the network's versions are numbered from 1 to
    [k] the history lists the numbers 1, 2, ..., [k] in this order, and
    its last record is the one [GetLatestConfigVersion] returns. *)
Theorem history_is_in_version_order (db : SM.DB) (networkName : string)
    (network : VirtualNetwork.t) :
  (forall e, SM.GetNetworkByName db networkName = Err e ->
             WCG.GetConfigHistory db networkName = Err e) /\
  (SM.GetNetworkByName db networkName = Ok network ->
   WCG.GetConfigHistory db networkName
   = Ok (SM.ListConfigVersions db (VirtualNetwork.ID network)) /\
   Sorted SM.version_le (SM.ListConfigVersions db (VirtualNetwork.ID network))
   /\
   (forall c,
       In c (SM.ListConfigVersions db (VirtualNetwork.ID network)) <->
       exists key, SM.configs db !! key = Some c /\
                   ConfigVersion.NetworkID c = VirtualNetwork.ID network) /\
   (forall k,
       numbered db (VirtualNetwork.ID network) k ->
       map ConfigVersion.Version
           (SM.ListConfigVersions db (VirtualNetwork.ID network))
       = seqZ 1 k /\
       (0 < k ->
        exists c,
          last (SM.ListConfigVersions db (VirtualNetwork.ID network)) = Some c
          /\ ConfigVersion.Version c = k /\
          SM.GetLatestConfigVersion db (VirtualNetwork.ID network) = Ok c))).
Proof.
  unfold WCG.GetConfigHistory. split.
  - intros e ->. reflexivity.
  - intros ->. cbn. split; [reflexivity|].
    split; [apply Sorted_merge_sort, version_le_total|].
    split; [intros c; apply ListConfigVersions_elem|].
    intros k Hnum.
    pose proof (ListConfigVersions_numbered _ _ _ Hnum) as Hv.
    split; [exact Hv|]. intros Hk.
    set (h := SM.ListConfigVersions db (VirtualNetwork.ID network)) in *.
    assert (Hlast : last (map ConfigVersion.Version h) = Some k).
    { rewrite Hv. replace k with ((k - 1) + 1) at 1 by lia.
      rewrite seqZ_snoc by lia. rewrite last_snoc. f_equal. lia. }
    destruct (last h) as [c|] eqn:El.
    2:{ apply last_None in El. rewrite El in Hlast. discriminate. }
    exists c. split; [reflexivity|].
    assert (Evc : ConfigVersion.Version c = k).
    { apply last_Some in El as [h' ->].
      change (map ?f ?l) with (f <$> l) in Hlast.
      rewrite fmap_app in Hlast. cbn in Hlast.
      rewrite last_snoc in Hlast. congruence. }
    split; [exact Evc|].
    assert (Hin : In c h).
    { apply last_Some in El as [h' ->]. apply in_or_app. right. now left. }
    apply ListConfigVersions_elem in Hin as (key & Hl & Hn).
    apply (GetLatestConfigVersion_is_max db _ key c Hl Hn).
    intros key' c' Hl' Hn'.
    pose proof (numbered_range _ _ _ _ _ Hnum Hl' Hn') as Hr.
    destruct (Z.eq_dec (ConfigVersion.Version c') k) as [Ek | Hne];
      [|right; lia].
    left.
    assert (key' = key)
      by (apply (numbered_unique db _ k key' c' key c Hnum); congruence).
    congruence.
Qed.

(** ** Looking up one version *)

Lemma GetConfigVersion_fold db networkID version :
  SM.GetConfigVersion db networkID version
  = fold_left
      (fun found (kv : string * ConfigVersion.t) =>
         if bool_decide (ConfigVersion.NetworkID kv.2 = networkID /\
                         ConfigVersion.Version kv.2 = version)
         then Some kv.2 else found)
      (SM.bucket_items (SM.configs db)) None.
Proof.
  unfold SM.GetConfigVersion. apply fold_left_pointwise. intros found kv.
  destruct (decide (ConfigVersion.NetworkID kv.2 = networkID)) as [Hn | Hn];
    destruct (Z.eqb_spec (ConfigVersion.Version kv.2) version) as [Hv | Hv].
  - rewrite !bool_decide_eq_true_2 by auto. reflexivity.
  - rewrite (bool_decide_eq_true_2 _ Hn).
    rewrite bool_decide_eq_false_2 by tauto. reflexivity.
  - rewrite (bool_decide_eq_false_2 _ Hn).
    rewrite bool_decide_eq_false_2 by tauto. reflexivity.
  - rewrite (bool_decide_eq_false_2 _ Hn).
    rewrite bool_decide_eq_false_2 by tauto. reflexivity.
Qed.

Lemma GetConfigVersion_cases db networkID version :
  (SM.GetConfigVersion db networkID version = None /\
   forall key c, SM.configs db !! key = Some c ->
                 ConfigVersion.NetworkID c = networkID ->
                 ConfigVersion.Version c <> version) \/
  (exists key c, SM.configs db !! key = Some c /\
                 ConfigVersion.NetworkID c = networkID /\
                 ConfigVersion.Version c = version /\
                 SM.GetConfigVersion db networkID version = Some c).
Proof.
  rewrite GetConfigVersion_fold.
  pose proof (fold_last_match
                (fun kv : string * ConfigVersion.t =>
                   ConfigVersion.NetworkID kv.2 = networkID /\
                   ConfigVersion.Version kv.2 = version)
                (fun kv => Some kv.2) (SM.bucket_items (SM.configs db)) None)
    as H.
  cbn zeta in H. destruct H as [[E Hno] | ([key c] & Hin & [Hn Hv] & E)].
  - left. split; [exact E|]. intros key c Hl Hn Hv.
    apply (Hno (key, c)); [now apply elem_of_bucket_items | now split].
  - right. exists key, c. split; [now apply elem_of_bucket_items|].
    repeat split; assumption.
Qed.

Lemma GetConfigVersion_insert_other db db' networkID version newID c :
  SM.configs db' = <[newID := c]> (SM.configs db) ->
  SM.configs db !! newID = None ->
  ~ (ConfigVersion.NetworkID c = networkID /\
     ConfigVersion.Version c = version) ->
  SM.GetConfigVersion db' networkID version
  = SM.GetConfigVersion db networkID version.
Proof.
  intros E Hnew Hn. rewrite !GetConfigVersion_fold, E.
  rewrite !(fold_match_filter
              (fun kv : string * ConfigVersion.t =>
                 ConfigVersion.NetworkID kv.2 = networkID /\
                 ConfigVersion.Version kv.2 = version)
              (fun kv => Some kv.2)).
  rewrite (filter_items_insert _ _ _ _ Hnew); [reflexivity | exact Hn].
Qed.

(** X18.  Looking up a version. [GetConfig] passes on the error of the
    network lookup. For a network that is found and whose versions are
    numbered from 1 to [k]: every number from 1 to [k] leads to the one
    stored record of the network with that number, and
    [GetConfigHashByVersion] returns its hash; every other number is
    reported as not found. A version saved afterwards under a new ID is
    found under the number [k + 1], and the lookup of every other number
    gives what it gave before. *)
Theorem stored_versions_are_found (db : SM.DB) (networkName : string)
    (network : VirtualNetwork.t) (k : Z) :
  (forall e version, SM.GetNetworkByName db networkName = Err e ->
                     WCG.GetConfig db networkName version = Err e) /\
  (SM.GetNetworkByName db networkName = Ok network ->
   numbered db (VirtualNetwork.ID network) k ->
   (forall version, 1 <= version <= k ->
      exists key c,
        SM.configs db !! key = Some c /\
        ConfigVersion.NetworkID c = VirtualNetwork.ID network /\
        ConfigVersion.Version c = version /\
        WCG.GetConfig db networkName version = Ok (Some c) /\
        SM.GetConfigHashByVersion db (VirtualNetwork.ID network) version
        = Some (ConfigVersion.ContentHash c)) /\
   (forall version, ~ 1 <= version <= k ->
      WCG.GetConfig db networkName version = Ok None /\
      SM.GetConfigHashByVersion db (VirtualNetwork.ID network) version = None)
   /\
   (forall contentHash cfgs newID now db' c,
      SM.SaveConfigVersion db (VirtualNetwork.ID network) contentHash cfgs
        newID now = Ok (db', c) ->
      SM.configs db !! newID = None -> k < 2 ^ 63 - 2 ->
      WCG.GetConfig db' networkName (k + 1) = Ok (Some c) /\
      forall version, version <> k + 1 ->
        WCG.GetConfig db' networkName version
        = WCG.GetConfig db networkName version)).
Proof.
  unfold WCG.GetConfig. split.
  - intros e version ->. reflexivity.
  - intros Hnet Hnum. rewrite Hnet. cbn. split; [|split].
    + intros version Hv.
      destruct (GetConfigVersion_cases db (VirtualNetwork.ID network) version)
        as [[_ Hno] | (key & c & Hl & Hn & Hvc & E)].
      * exfalso.
        destruct (numbered_present _ _ _ version Hnum Hv)
          as (key & c & Hl & Hn & Hvc).
        exact (Hno _ _ Hl Hn Hvc).
      * exists key, c. unfold SM.GetConfigHashByVersion. rewrite E.
        repeat split; assumption.
    + intros version Hv.
      destruct (GetConfigVersion_cases db (VirtualNetwork.ID network) version)
        as [[E _] | (key & c & Hl & Hn & Hvc & _)].
      * unfold SM.GetConfigHashByVersion. rewrite E. now split.
      * exfalso. apply Hv. rewrite <- Hvc.
        exact (numbered_range _ _ _ _ _ Hnum Hl Hn).
    + intros contentHash cfgs newID now db' c E Hnew Hk.
      apply SaveConfigVersion_Ok in E as (Hid & -> & ->).
      rewrite (nextVersion_numbered _ _ _ Hnum Hk).
      set (c := ConfigVersion.mk newID (VirtualNetwork.ID network) (k + 1)
                  contentHash cfgs now).
      set (db' := SM.mkDB _ _ _ _ _ _ _ _ _).
      assert (Hnet' : SM.GetNetworkByName db' networkName = Ok network)
        by exact Hnet.
      rewrite Hnet'. cbn. split.
      * f_equal.
        destruct (GetConfigVersion_cases db' (VirtualNetwork.ID network)
                    (k + 1))
          as [[_ Hno] | (key & c' & Hl & Hn & Hvc & E)].
        -- exfalso. apply (Hno newID c); [apply lookup_insert_eq | |];
             reflexivity.
        -- rewrite E. f_equal. cbn [db' SM.configs] in Hl.
           destruct (decide (key = newID)) as [-> | Hne].
           ++ rewrite lookup_insert_eq in Hl. congruence.
           ++ rewrite lookup_insert_ne in Hl by congruence.
              pose proof (numbered_range _ _ _ _ _ Hnum Hl Hn). lia.
      * intros version Hne. f_equal.
        apply (GetConfigVersion_insert_other db db' _ _ newID c);
          [reflexivity | exact Hnew|].
        cbn. intros [_ Hv]. lia.
Qed.

(** ** The documents [GenerateConfigs] returns *)

Lemma fold_insert_other {A V : Type} (key : A -> string) (val : A -> V)
      (l : list A) : forall (b : gmap string V) k,
  (forall a, In a l -> key a <> k) ->
  fold_left (fun m a => <[key a := val a]> m) l b !! k = b !! k.
Proof.
  induction l as [|a l IH]; intros b k Hno; cbn [fold_left]; [reflexivity|].
  rewrite IH by (intros a' Hin; apply Hno; now right).
  apply lookup_insert_ne. apply Hno. now left.
Qed.

Lemma key_in_or_not {A : Type} (key : A -> string) (l : list A) k :
  (exists a, In a l /\ key a = k) \/ (forall a, In a l -> key a <> k).
Proof.
  induction l as [|a l [(a' & Hin & Ek) | Hno]].
  - right. intros a [].
  - left. exists a'. split; [now right | exact Ek].
  - destruct (decide (key a = k)) as [Ek | Hne].
    + left. exists a. split; [now left | exact Ek].
    + right. intros a' [<- | Hin]; auto.
Qed.

Lemma fold_insert_found {A V : Type} (key : A -> string) (val : A -> V)
      (l : list A) : forall (b : gmap string V) a0,
  In a0 l -> (forall a, In a l -> key a = key a0 -> val a = val a0) ->
  fold_left (fun m a => <[key a := val a]> m) l b !! key a0 = Some (val a0).
Proof.
  induction l as [|a l IH]; intros b a0 Hin Hu; [destruct Hin|].
  cbn [fold_left].
  destruct (key_in_or_not key l (key a0)) as [(a1 & Hin1 & Ek) | Hno].
  - rewrite <- Ek, (IH _ a1 Hin1).
    + f_equal. apply Hu; [now right | exact Ek].
    + intros a' Hin' Ek'.
      rewrite (Hu a') by (try (now right); congruence).
      symmetry. apply Hu; [now right | exact Ek].
  - rewrite fold_insert_other by exact Hno.
    destruct Hin as [-> | Hin].
    + apply lookup_insert_eq.
    + exfalso. exact (Hno a0 Hin eq_refl).
Qed.

Lemma fold_insert_is_Some {A V : Type} (key : A -> string) (val : A -> V)
      (l : list A) : forall (b : gmap string V) a0,
  In a0 l ->
  is_Some (fold_left (fun m a => <[key a := val a]> m) l b !! key a0).
Proof.
  induction l as [|a l IH]; intros b a0 Hin; [destruct Hin|].
  cbn [fold_left].
  destruct (key_in_or_not key l (key a0)) as [(a1 & Hin1 & Ek) | Hno].
  - rewrite <- Ek. now apply IH.
  - rewrite fold_insert_other by exact Hno.
    destruct Hin as [-> | Hin].
    + rewrite lookup_insert_eq. eauto.
    + exfalso. exact (Hno a0 Hin eq_refl).
Qed.

(** Copying a map entry by entry into another map. *)
Lemma fold_copy_lookup (m b : gmap string string) k :
  fold_left (fun (acc : gmap string string) (kv : string * string) =>
               <[kv.1 := kv.2]> acc) (map_to_list m) b !! k
  = match m !! k with
    | Some v => Some v
    | None => b !! k
    end.
Proof.
  destruct (m !! k) as [v|] eqn:El.
  - apply (fold_insert_found fst snd (map_to_list m) b (k, v)).
    + now apply list_elem_of_In, elem_of_map_to_list.
    + intros [k' v'] Hin Ek. cbn in *. subst k'.
      apply list_elem_of_In, elem_of_map_to_list in Hin. congruence.
  - apply (fold_insert_other fst snd). intros [k' v'] Hin Ek. cbn in Ek.
    subst k'. apply list_elem_of_In, elem_of_map_to_list in Hin. congruence.
Qed.

(** In a database that keeps its node records consistent, the nodes of a
    network have different names. *)
Lemma listed_nodes_names db networkID n1 n2 :
  nodes_ok db ->
  In n1 (SM.ListNodesByNetworkID db networkID) ->
  In n2 (SM.ListNodesByNetworkID db networkID) ->
  Node.Name n1 = Node.Name n2 -> n1 = n2.
Proof.
  intros Hok H1 H2 En.
  rewrite ListNodesByNetworkID_filter, in_map_iff in H1, H2.
  destruct H1 as ([k1 m1] & <- & H1), H2 as ([k2 m2] & <- & H2).
  apply list_elem_of_In, list_elem_of_filter in H1 as [N1 H1].
  apply list_elem_of_In, list_elem_of_filter in H2 as [N2 H2].
  apply elem_of_bucket_items' in H1, H2. cbn in *.
  destruct (Hok _ _ H1) as (_ & _ & I1), (Hok _ _ H2) as (_ & _ & I2).
  rewrite N1, En in I1. rewrite N2 in I2. congruence.
Qed.

Section GeneratedDocuments.
Context `{hasher : WCG.Sha256}.

(** X19.  The documents of a network. [GenerateConfigs] passes on the
    error of the network lookup and reports a network without a server;
    otherwise it succeeds. In a database that keeps its node records
    consistent, the result holds the document of every node of the network
    under the node's name and the server's document under the server's
    name, unless a node has that name, in which case the node's document
    stands there; it holds nothing under any other name; and the hash is
    the hash of the returned documents. *)
Theorem generated_documents_by_name (db : SM.DB) (networkName : string)
    (network : VirtualNetwork.t) :
  (forall e, SM.GetNetworkByName db networkName = Err e ->
             WCG.GenerateConfigs db networkName = Err e) /\
  (SM.GetNetworkByName db networkName = Ok network ->
   (forall e, SM.GetServerByNetworkID db (VirtualNetwork.ID network) = Err e ->
              WCG.GenerateConfigs db networkName = Err ErrNoServerInNetwork) /\
   (forall server,
      SM.GetServerByNetworkID db (VirtualNetwork.ID network) = Ok server ->
      exists configs,
        WCG.GenerateConfigs db networkName
        = Ok (configs, WCG.calculateConfigHash configs) /\
        (nodes_ok db ->
         forall node,
           In node (SM.ListNodesByNetworkID db (VirtualNetwork.ID network)) ->
           configs !! Node.Name node
           = Some (WCG.generateNodeConfig network server node
                     (SM.ListNodesByNetworkID db (VirtualNetwork.ID network))))
        /\
        ((forall node,
            In node (SM.ListNodesByNetworkID db (VirtualNetwork.ID network)) ->
            Node.Name node <> Server.Name server) ->
         configs !! Server.Name server
         = Some (WCG.generateServerConfig server
                   (SM.ListNodesByNetworkID db (VirtualNetwork.ID network))))
        /\
        (forall name,
            is_Some (configs !! name) <->
            name = Server.Name server \/
            exists node,
              In node (SM.ListNodesByNetworkID db (VirtualNetwork.ID network))
              /\ Node.Name node = name))).
Proof.
  unfold WCG.GenerateConfigs. split.
  - intros e ->. reflexivity.
  - intros ->. cbn. split.
    + intros e ->. reflexivity.
    + intros server ->.
      set (nodes := SM.ListNodesByNetworkID db (VirtualNetwork.ID network)).
      set (nodeConfigs :=
             fold_left
               (fun (m : gmap string string) node =>
                  <[Node.Name node
                    := WCG.generateNodeConfig network server node nodes]> m)
               nodes ∅).
      eexists. split; [reflexivity|].
      assert (Hnc_none : forall name,
                 (forall node, In node nodes -> Node.Name node <> name) ->
                 nodeConfigs !! name = None).
      { intros name Hno. unfold nodeConfigs.
        rewrite (fold_insert_other Node.Name
                   (fun node => WCG.generateNodeConfig network server node nodes))
          by exact Hno.
        apply lookup_empty. }
      assert (Hnc_some : forall name, is_Some (nodeConfigs !! name) ->
                 exists node, In node nodes /\ Node.Name node = name).
      { intros name Hs.
        destruct (key_in_or_not Node.Name nodes name) as [Hex | Hno];
          [exact Hex|].
        exfalso. rewrite (Hnc_none _ Hno) in Hs. now destruct Hs. }
      split; [|split].
      * intros Hok node Hin. rewrite fold_copy_lookup.
        unfold nodeConfigs.
        rewrite (fold_insert_found Node.Name
                   (fun node => WCG.generateNodeConfig network server node nodes)
                   nodes ∅ node Hin); [reflexivity|].
        intros node' Hin' En.
        now rewrite (listed_nodes_names db _ node' node Hok Hin' Hin En).
      * intros Hno. rewrite fold_copy_lookup, (Hnc_none _ Hno).
        apply lookup_insert_eq.
      * intros name. rewrite fold_copy_lookup. split.
        -- destruct (nodeConfigs !! name) as [v|] eqn:El.
           ++ intros _. right. apply Hnc_some. rewrite El. eauto.
           ++ intros [v Hv]. left.
              destruct (decide (name = Server.Name server)) as [-> | Hne];
                [reflexivity|].
              rewrite lookup_insert_ne, lookup_empty in Hv by congruence.
              discriminate.
        -- intros [-> | (node & Hin & <-)].
           ++ destruct (nodeConfigs !! Server.Name server); [eauto|].
              rewrite lookup_insert_eq. eauto.
           ++ pose proof (fold_insert_is_Some Node.Name
                            (fun node => WCG.generateNodeConfig network server
                                           node nodes) nodes ∅ node Hin)
                as [v Hv].
              fold nodeConfigs in Hv. rewrite Hv. eauto.
Qed.

End GeneratedDocuments.

(** ** Creating through the manager *)

Section ManagerCreation.
Context `{validator : IPValidator}.

(** X20. Creating a network. [CreateVirtualNetwork] checks, in this order,
    the name, the block, that a pool can be built for the block, and that
    the name is new; a failed check is reported and leaves the manager as
    it was. When all checks pass, the name and the new ID are not empty,
    and name, block and ID are valid UTF-8 and within [MaxKeySize], the
    network is stored and returned, it is found under its name, and the
    new pool of the block is loaded under the network's ID; no pool state
    is saved at this point. A second call with the same name is refused. *)
Theorem create_virtual_network_registers_pool (vnm : VNM.t)
    (name cidr newID : string) (now : Z) :
  (forall e, IsValidNetworkName name = Err e ->
             VNM.CreateVirtualNetwork vnm name cidr newID now = (vnm, Err e)) /\
  (forall e, is_ok (IsValidNetworkName name) = true ->
             IsValidCIDR cidr = Err e ->
             VNM.CreateVirtualNetwork vnm name cidr newID now = (vnm, Err e)) /\
  (forall e, is_ok (IsValidNetworkName name) = true ->
             is_ok (IsValidCIDR cidr) = true ->
             NewIPPool cidr = Err e ->
             VNM.CreateVirtualNetwork vnm name cidr newID now = (vnm, Err e)) /\
  (forall pool,
      is_ok (IsValidNetworkName name) = true ->
      is_ok (IsValidCIDR cidr) = true ->
      NewIPPool cidr = Ok pool ->
      (is_Some (SM.networks_by_name (VNM.storage vnm) !! name) ->
       VNM.CreateVirtualNetwork vnm name cidr newID now
       = (vnm, Err ErrNetworkNameExists)) /\
      (SM.networks_by_name (VNM.storage vnm) !! name = None ->
       newID <> "" -> name <> "" ->
       texts_ok [name; cidr; newID] = true ->
       exists vnm',
         VNM.CreateVirtualNetwork vnm name cidr newID now
         = (vnm', Ok (VirtualNetwork.mk newID name cidr now)) /\
         VNM.GetVirtualNetwork vnm' name
         = Ok (VirtualNetwork.mk newID name cidr now) /\
         VNM.ipPools vnm' = <[newID := pool]> (VNM.ipPools vnm) /\
         SM.ip_pools (VNM.storage vnm') = SM.ip_pools (VNM.storage vnm) /\
         forall cidr2 newID2 now2,
           is_ok (IsValidCIDR cidr2) = true ->
           is_ok (NewIPPool cidr2) = true ->
           VNM.CreateVirtualNetwork vnm' name cidr2 newID2 now2
           = (vnm', Err ErrNetworkNameExists))).
Proof.
  unfold VNM.CreateVirtualNetwork. split; [|split; [|split]].
  - intros e ->. reflexivity.
  - intros e Hn ->. destruct (IsValidNetworkName name); [reflexivity|].
    discriminate.
  - intros e Hn Hc ->. destruct (IsValidNetworkName name); [|discriminate].
    destruct (IsValidCIDR cidr); [reflexivity | discriminate].
  - intros pool Hn Hc Hp. rewrite Hp.
    destruct (IsValidNetworkName name) as [u1|]; [|discriminate].
    destruct (IsValidCIDR cidr) as [u2|]; [|discriminate]. split.
    + intros Hex. unfold SM.CreateNetwork.
      now rewrite bool_decide_eq_true_2.
    + intros Hfree Hid Hname _.
      set (network := VirtualNetwork.mk newID name cidr now).
      set (db' := SM.mkDB (<[newID := network]> (SM.networks (VNM.storage vnm)))
                    (<[name := newID]> (SM.networks_by_name (VNM.storage vnm)))
                    (SM.servers (VNM.storage vnm))
                    (SM.servers_by_name (VNM.storage vnm))
                    (SM.nodes (VNM.storage vnm))
                    (SM.nodes_by_name (VNM.storage vnm))
                    (SM.configs (VNM.storage vnm))
                    (SM.configs_by_version (VNM.storage vnm))
                    (SM.ip_pools (VNM.storage vnm))).
      assert (E : SM.CreateNetwork (VNM.storage vnm) name cidr newID now
                  = Ok (db', network)).
      { apply CreateNetwork_Ok. repeat split; assumption. }
      rewrite E. eexists. split; [reflexivity|].
      cbn [VNM.setPool VNM.setStorage VNM.storage VNM.ipPools
           VirtualNetwork.ID network].
      split; [|split; [reflexivity|split; [reflexivity|]]].
      * unfold VNM.GetVirtualNetwork, SM.GetNetworkByName.
        cbn [VNM.storage VNM.setPool VNM.setStorage].
        cbn [db' SM.networks_by_name SM.networks].
        now rewrite !lookup_insert_eq.
      * intros cidr2 newID2 now2 Hc2 Hp2.
        destruct (IsValidCIDR cidr2); [|discriminate].
        destruct (NewIPPool cidr2); [|discriminate].
        unfold SM.CreateNetwork.
        cbn [VNM.storage VNM.setPool VNM.setStorage].
        cbn [db' SM.networks_by_name].
        rewrite bool_decide_eq_true_2; [reflexivity|].
        rewrite lookup_insert_eq. eauto.
Qed.

(** X21. Creating the server. With the network found, the address accepted
    and the network's pool loaded, [CreateServer] passes on a failure of
    the key generation and changes nothing. With keys generated, the
    storage conditions for a new server met, and name, address, keys, ID
    and index key valid UTF-8 and within [MaxKeySize], it succeeds: the
    server gets the pool's hub address as its virtual address, the port
    given or 51820 when the port given is zero, and the generated keys;
    the state of the pool is saved for the network; the pool itself is
    unchanged; and any further [CreateServer] for the network is refused. *)
Theorem create_server_gets_hub_address (vnm : VNM.t)
    (networkName serverName publicAddress : string) (port : Z)
    (newID : string) (now : Z)
    (network : VirtualNetwork.t) (pool : IPPool) :
  SM.GetNetworkByName (VNM.storage vnm) networkName = Ok network ->
  is_ok (IsValidPublicAddress publicAddress) = true ->
  VNM.ipPools vnm !! VirtualNetwork.ID network = Some pool ->
  (forall e,
      VNM.CreateServer vnm networkName serverName publicAddress port (Err e)
        newID now = (vnm, Err e)) /\
  (forall keys,
      is_Some (SM.networks (VNM.storage vnm) !! VirtualNetwork.ID network) ->
      SM.serverExistsFor (VNM.storage vnm) (VirtualNetwork.ID network) = false ->
      SM.servers_by_name (VNM.storage vnm)
        !! SM.nameKey (VirtualNetwork.ID network) serverName = None ->
      newID <> "" -> VirtualNetwork.ID network <> "" ->
      texts_ok [serverName; publicAddress; PrivateKey keys; PublicKey keys;
                newID] = true ->
      key_ok (SM.nameKey (VirtualNetwork.ID network) serverName) = true ->
      let server :=
        Server.mk newID (VirtualNetwork.ID network) serverName publicAddress
          (if port =? 0 then 51820 else port) (GetServerIP pool)
          (PrivateKey keys) (PublicKey keys) now now in
      exists vnm',
        VNM.CreateServer vnm networkName serverName publicAddress port
          (Ok keys) newID now = (vnm', Ok server) /\
        VNM.GetServer vnm' networkName = Ok server /\
        VNM.ipPools vnm' = VNM.ipPools vnm /\
        SM.ip_pools (VNM.storage vnm')
        = <[VirtualNetwork.ID network := GetState pool]>
            (SM.ip_pools (VNM.storage vnm)) /\
        forall serverName2 publicAddress2 port2 keys2 newID2 now2,
          is_ok (IsValidPublicAddress publicAddress2) = true ->
          VNM.CreateServer vnm' networkName serverName2 publicAddress2 port2
            (Ok keys2) newID2 now2 = (vnm', Err ErrServerAlreadyExists)).
Proof.
  intros Hnet Hv Hpool.
  assert (Hens : VNM.ensureIPPool vnm (VirtualNetwork.ID network)
                   (VirtualNetwork.CIDR network) = (vnm, Ok tt)).
  { unfold VNM.ensureIPPool. now rewrite Hpool. }
  split.
  - intros e. unfold VNM.CreateServer. rewrite Hnet.
    destruct (IsValidPublicAddress publicAddress); [|discriminate].
    rewrite Hens. unfold VNM.poolOf. now rewrite Hpool.
  - intros keys Hexists Hnoserver Hfree Hid Hnid _ _ server.
    set (db1 := SM.mkDB (SM.networks (VNM.storage vnm))
                  (SM.networks_by_name (VNM.storage vnm))
                  (<[newID := server]> (SM.servers (VNM.storage vnm)))
                  (<[SM.nameKey (VirtualNetwork.ID network) serverName := newID]>
                     (SM.servers_by_name (VNM.storage vnm)))
                  (SM.nodes (VNM.storage vnm))
                  (SM.nodes_by_name (VNM.storage vnm))
                  (SM.configs (VNM.storage vnm))
                  (SM.configs_by_version (VNM.storage vnm))
                  (SM.ip_pools (VNM.storage vnm))).
    assert (E1 : SM.CreateServer (VNM.storage vnm) (VirtualNetwork.ID network)
                   serverName publicAddress (if port =? 0 then 51820 else port)
                   (GetServerIP pool) (PrivateKey keys) (PublicKey keys)
                   newID now = Ok (db1, server)).
    { apply CreateServer_Ok. repeat split; assumption. }
    set (db2 := SM.mkDB (SM.networks db1) (SM.networks_by_name db1)
                  (SM.servers db1) (SM.servers_by_name db1) (SM.nodes db1)
                  (SM.nodes_by_name db1) (SM.configs db1)
                  (SM.configs_by_version db1)
                  (<[VirtualNetwork.ID network := GetState pool]>
                     (SM.ip_pools db1))).
    assert (E2 : SM.SaveIPPoolState db1 (VirtualNetwork.ID network)
                   (GetState pool) = Ok db2).
    { apply SaveIPPoolState_Ok. now split. }
    assert (Ecall : VNM.CreateServer vnm networkName serverName publicAddress
                      port (Ok keys) newID now
                    = (VNM.setStorage vnm db2, Ok server)).
    { unfold VNM.CreateServer. rewrite Hnet.
      destruct (IsValidPublicAddress publicAddress); [|discriminate].
      rewrite Hens. unfold VNM.poolOf. rewrite Hpool.
      cbn zeta. rewrite E1. cbn [VNM.setStorage VNM.storage].
      now rewrite E2. }
    exists (VNM.setStorage vnm db2). split; [exact Ecall|].
    assert (Hnet2 : SM.GetNetworkByName db2 networkName = Ok network)
      by exact Hnet.
    assert (Hsrv2 : SM.GetServerByNetworkID db2 (VirtualNetwork.ID network)
                    = Ok server).
    { apply (GetServerByNetworkID_unique db2 _ newID);
        [apply lookup_insert_eq | reflexivity|].
      intros k' s' Hl' Hn'. cbn [db2 db1 SM.servers] in Hl'.
      destruct (decide (k' = newID)) as [-> | Hne].
      - rewrite lookup_insert_eq in Hl'. congruence.
      - rewrite lookup_insert_ne in Hl' by congruence. exfalso.
        assert (SM.serverExistsFor (VNM.storage vnm) (VirtualNetwork.ID network)
                = true) by (apply serverExistsFor_spec; eauto).
        congruence. }
    split.
    { unfold VNM.GetServer. cbn [VNM.setStorage VNM.storage].
      rewrite Hnet2. exact Hsrv2. }
    split; [reflexivity|]. split; [reflexivity|].
    intros serverName2 publicAddress2 port2 keys2 newID2 now2 Hv2.
    unfold VNM.CreateServer. cbn [VNM.setStorage VNM.storage].
    rewrite Hnet2.
    destruct (IsValidPublicAddress publicAddress2); [|discriminate].
    unfold VNM.ensureIPPool. cbn [VNM.ipPools VNM.setStorage]. rewrite Hpool.
    unfold VNM.poolOf. cbn [VNM.ipPools VNM.setStorage]. rewrite Hpool.
    cbn zeta.
    unfold SM.CreateServer. cbn [VNM.storage VNM.setStorage].
    destruct Hexists as [n Hn].
    rewrite bool_decide_eq_false_2
      by (cbn [db2 db1 SM.networks]; rewrite Hn; discriminate).
    assert (Hex : SM.serverExistsFor db2 (VirtualNetwork.ID network) = true).
    { apply serverExistsFor_spec. exists newID, server.
      split; [apply lookup_insert_eq | reflexivity]. }
    now rewrite Hex.
Qed.

(** X22. Creating a node. With the network found, the address accepted (or
    left empty for a type other than peer) and the network's pool loaded:
    when the pool has no address left, [CreateNode] reports it and changes
    nothing. Otherwise the node gets the address [AllocateNodeIP] returns.
    With keys generated, the storage conditions for a new node met, and
    name, address, type, keys, ID and index key valid UTF-8 and within
    [MaxKeySize], the call succeeds: the node is stored with this address,
    the port given or 51820 when it is zero, the type given or peer when
    it is empty, and the generated keys; the pool after the allocation is
    the loaded pool and its state is the state saved for the network. When
    the name is taken, or the key generation fails, the error is reported,
    the database is unchanged, and the address is released again: it is no
    longer allocated and sits at the tail of the recycle queue of the
    loaded pool. *)
Theorem create_node_takes_next_address (vnm : VNM.t)
    (networkName nodeName publicAddress : string) (port : Z)
    (nodeType : NodeType) (newID : string) (now : Z)
    (network : VirtualNetwork.t) (pool : IPPool) :
  SM.GetNetworkByName (VNM.storage vnm) networkName = Ok network ->
  (publicAddress = "" /\ nodeType <> NodeTypePeer) \/
  (publicAddress <> "" /\ is_ok (IsValidPublicAddress publicAddress) = true) ->
  VNM.ipPools vnm !! VirtualNetwork.ID network = Some pool ->
  (forall e keys,
      AllocateNodeIP pool = Err e ->
      VNM.CreateNode vnm networkName nodeName publicAddress port nodeType keys
        newID now = (vnm, Err e)) /\
  (forall ip pool1,
      AllocateNodeIP pool = Ok (ip, pool1) ->
      (forall keys,
          is_Some (SM.networks (VNM.storage vnm) !! VirtualNetwork.ID network) ->
          SM.nodes_by_name (VNM.storage vnm)
            !! SM.nameKey (VirtualNetwork.ID network) nodeName = None ->
          newID <> "" -> VirtualNetwork.ID network <> "" ->
          texts_ok [nodeName; publicAddress; nodeType; PrivateKey keys;
                    PublicKey keys; newID] = true ->
          key_ok (SM.nameKey (VirtualNetwork.ID network) nodeName) = true ->
          let node :=
            Node.mk newID (VirtualNetwork.ID network) nodeName publicAddress
              (if port =? 0 then 51820 else port) ip
              (if bool_decide (nodeType = "") then NodeTypePeer else nodeType)
              (PrivateKey keys) (PublicKey keys) now now in
          exists vnm',
            VNM.CreateNode vnm networkName nodeName publicAddress port nodeType
              (Ok keys) newID now = (vnm', Ok node) /\
            VNM.GetNode vnm' networkName nodeName = Ok node /\
            VNM.ipPools vnm'
            = <[VirtualNetwork.ID network := pool1]> (VNM.ipPools vnm) /\
            SM.ip_pools (VNM.storage vnm')
            = <[VirtualNetwork.ID network := GetState pool1]>
                (SM.ip_pools (VNM.storage vnm))) /\
      (ip <> serverIP pool ->
       exists pool2,
         ReleaseNodeIP pool1 ip = Ok pool2 /\
         recycled pool2 = recycled pool1 ++ [ip] /\
         is_allocated pool2 ip = false /\
         (forall e,
             VNM.CreateNode vnm networkName nodeName publicAddress port
               nodeType (Err e) newID now
             = (VNM.setPool vnm (VirtualNetwork.ID network) pool2, Err e)) /\
         (forall keys,
             is_Some (SM.networks (VNM.storage vnm)
                        !! VirtualNetwork.ID network) ->
             is_Some (SM.nodes_by_name (VNM.storage vnm)
                        !! SM.nameKey (VirtualNetwork.ID network) nodeName) ->
             VNM.CreateNode vnm networkName nodeName publicAddress port
               nodeType (Ok keys) newID now
             = (VNM.setPool vnm (VirtualNetwork.ID network) pool2,
                Err ErrNodeNameExists)))).
Proof.
  intros Hnet Haddr Hpool.
  assert (Hens : VNM.ensureIPPool vnm (VirtualNetwork.ID network)
                   (VirtualNetwork.CIDR network) = (vnm, Ok tt)).
  { unfold VNM.ensureIPPool. now rewrite Hpool. }
  assert (Hguard : bool_decide (nodeType = NodeTypePeer)
                   && bool_decide (publicAddress = "") = false).
  { destruct Haddr as [[Ha Ht] | [Ha _]].
    - now rewrite (bool_decide_eq_false_2 _ Ht).
    - rewrite (bool_decide_eq_false_2 _ Ha). apply andb_false_r. }
  assert (Hval : exists u,
             (if bool_decide (publicAddress = "") then Ok tt
              else IsValidPublicAddress publicAddress) = Ok u).
  { destruct Haddr as [[Ha _] | [Ha Hv]].
    - rewrite (bool_decide_eq_true_2 _ Ha). eauto.
    - rewrite (bool_decide_eq_false_2 _ Ha).
      destruct (IsValidPublicAddress publicAddress); [eauto | discriminate]. }
  destruct Hval as [u Hval].
  assert (Hhead : forall keys,
             VNM.CreateNode vnm networkName nodeName publicAddress port
               nodeType keys newID now
             = match AllocateNodeIP pool with
               | Err e => (vnm, Err e)
               | Ok (nodeIP, pool1) =>
                   let vnm1 := VNM.setPool vnm (VirtualNetwork.ID network)
                                 pool1 in
                   match keys with
                   | Err e =>
                       (VNM.releaseQuietly vnm1 (VirtualNetwork.ID network)
                          pool1 nodeIP, Err e)
                   | Ok keys =>
                       match SM.CreateNode (VNM.storage vnm1)
                               (VirtualNetwork.ID network) nodeName
                               publicAddress
                               (if port =? 0 then 51820 else port) nodeIP
                               (if bool_decide (nodeType = "")
                                then NodeTypePeer else nodeType)
                               (PrivateKey keys) (PublicKey keys) newID now
                       with
                       | Err e =>
                           (VNM.releaseQuietly vnm1 (VirtualNetwork.ID network)
                              pool1 nodeIP, Err e)
                       | Ok (db, node) =>
                           match SM.SaveIPPoolState db
                                   (VirtualNetwork.ID network) (GetState pool1)
                           with
                           | Err e => (VNM.setStorage vnm1 db, Err e)
                           | Ok db' =>
                               (VNM.setStorage (VNM.setStorage vnm1 db) db',
                                Ok node)
                           end
                       end
                   end
               end).
  { intros keys. unfold VNM.CreateNode. rewrite Hnet, Hguard, Hval, Hens.
    unfold VNM.poolOf. rewrite Hpool.
    destruct (AllocateNodeIP pool) as [[nodeIP pool1]|]; reflexivity. }
  split.
  - intros e keys Ea. now rewrite Hhead, Ea.
  - intros ip pool1 Ea. split.
    + intros keys Hexists Hfree Hid Hnid _ _ node.
      rewrite Hhead, Ea. cbn zeta. cbn [VNM.setPool VNM.storage].
      set (db1 := SM.mkDB (SM.networks (VNM.storage vnm))
                    (SM.networks_by_name (VNM.storage vnm))
                    (SM.servers (VNM.storage vnm))
                    (SM.servers_by_name (VNM.storage vnm))
                    (<[newID := node]> (SM.nodes (VNM.storage vnm)))
                    (<[SM.nameKey (VirtualNetwork.ID network) nodeName := newID]>
                       (SM.nodes_by_name (VNM.storage vnm)))
                    (SM.configs (VNM.storage vnm))
                    (SM.configs_by_version (VNM.storage vnm))
                    (SM.ip_pools (VNM.storage vnm))).
      assert (E1 : SM.CreateNode (VNM.storage vnm) (VirtualNetwork.ID network)
                     nodeName publicAddress (if port =? 0 then 51820 else port)
                     ip (if bool_decide (nodeType = "") then NodeTypePeer
                         else nodeType)
                     (PrivateKey keys) (PublicKey keys) newID now
                   = Ok (db1, node)).
      { apply CreateNode_Ok. repeat split; assumption. }
      rewrite E1. unfold SM.SaveIPPoolState, SM.Put.
      rewrite (bool_decide_eq_false_2 _ Hnid). cbn.
      eexists. split; [reflexivity|]. split; [|split; reflexivity].
      unfold VNM.GetNode. cbn [VNM.storage].
      change (SM.GetNetworkByName _ networkName)
        with (SM.GetNetworkByName (VNM.storage vnm) networkName).
      rewrite Hnet. cbn. unfold SM.GetNodeByName.
      cbn [SM.nodes_by_name SM.nodes]. now rewrite !lookup_insert_eq.
    + intros Hns.
      pose proof (AllocateNodeIP_inv _ _ _ Ea) as ((_ & Es & _) & Eal & _).
      assert (Hal : is_allocated pool1 ip = true).
      { unfold is_allocated. now rewrite Eal, lookup_insert_eq. }
      eexists. split.
      { unfold ReleaseNodeIP.
        rewrite bool_decide_eq_false_2 by congruence.
        rewrite Hal. reflexivity. }
      cbn [recycled]. split; [reflexivity|]. split.
      { unfold is_allocated. cbn [allocated]. now rewrite lookup_delete_eq. }
      assert (Hrel : VNM.releaseQuietly
                       (VNM.setPool vnm (VirtualNetwork.ID network) pool1)
                       (VirtualNetwork.ID network) pool1 ip
                     = VNM.setPool vnm (VirtualNetwork.ID network)
                         {| networkCIDR := networkCIDR pool1;
                            serverIP := serverIP pool1;
                            allocated := delete ip (allocated pool1);
                            recycled := recycled pool1 ++ [ip];
                            nextIndex := nextIndex pool1;
                            firstUsable := firstUsable pool1;
                            lastUsable := lastUsable pool1;
                            totalUsable := totalUsable pool1 |}).
      { unfold VNM.releaseQuietly, ReleaseNodeIP.
        rewrite bool_decide_eq_false_2 by congruence.
        rewrite Hal. cbn [negb]. unfold VNM.setPool.
        cbn [VNM.storage VNM.ipPools]. now rewrite insert_insert_eq. }
      split.
      * intros e. rewrite Hhead, Ea. cbn zeta. now rewrite Hrel.
      * intros keys [n Hn] Htaken. rewrite Hhead, Ea. cbn zeta.
        unfold SM.CreateNode. cbn [VNM.setPool VNM.storage].
        rewrite bool_decide_eq_false_2 by (rewrite Hn; discriminate).
        rewrite bool_decide_eq_true_2 by exact Htaken.
        change (VNM.mkVNM (VNM.storage vnm)
                  (<[VirtualNetwork.ID network := pool1]> (VNM.ipPools vnm)))
          with (VNM.setPool vnm (VirtualNetwork.ID network) pool1).
        now rewrite Hrel.
Qed.

End ManagerCreation.

(** ** Deleting a network *)

(** A scan that deletes the entries satisfying [P] from a bucket and, for
    each of them, a key from a second bucket. *)
Lemma fold_delete_both {V W : Type} (P : string * V -> Prop)
      `{forall kv, Decision (P kv)}
      (g : string * V -> gmap string W -> gmap string W)
      (l : list (string * V)) : forall (m1 : gmap string V) (m2 : gmap string W),
  let r := fold_left
             (fun (b : gmap string V * gmap string W) kv =>
                if bool_decide (P kv) then (delete kv.1 b.1, g kv b.2) else b)
             l (m1, m2) in
  (forall k, m1 !! k = None -> r.1 !! k = None) /\
  (forall k v, In (k, v) l -> P (k, v) -> r.1 !! k = None) /\
  (forall k, (forall v, In (k, v) l -> ~ P (k, v)) -> r.1 !! k = m1 !! k).
Proof.
  induction l as [|[k0 v0] l IH]; intros m1 m2; cbn [fold_left].
  - split; [tauto|]. split; [intros k v []|reflexivity].
  - case_bool_decide as Hd; cbn [fst snd].
    + destruct (IH (delete k0 m1) (g (k0, v0) m2)) as (IH0 & IH1 & IH2).
      split; [|split].
      * intros k Hk. apply IH0.
        destruct (decide (k = k0)) as [-> | Hne];
          [apply lookup_delete_eq | now rewrite lookup_delete_ne by congruence].
      * intros k v [[= <- <-] | Hin] HP; [|eauto].
        apply IH0, lookup_delete_eq.
      * intros k Hno. rewrite IH2 by (intros v Hin; apply Hno; now right).
        apply lookup_delete_ne. intros <-. apply (Hno v0); [now left | exact Hd].
    + destruct (IH m1 m2) as (IH0 & IH1 & IH2). split; [exact IH0|]. split.
      * intros k v [[= <- <-] | Hin] HP; [contradiction | eauto].
      * intros k Hno. apply IH2. intros v Hin. apply Hno. now right.
Qed.

Lemma fold_delete_index {V W : Type} (P : string * V -> Prop)
      `{forall kv, Decision (P kv)} (key2 : string * V -> string)
      (l : list (string * V)) : forall (m1 : gmap string V) (m2 : gmap string W),
  let r := fold_left
             (fun (b : gmap string V * gmap string W) kv =>
                if bool_decide (P kv)
                then (delete kv.1 b.1, delete (key2 kv) b.2) else b)
             l (m1, m2) in
  (forall key, m2 !! key = None -> r.2 !! key = None) /\
  (forall kv, In kv l -> P kv -> r.2 !! key2 kv = None) /\
  (forall key, (forall kv, In kv l -> P kv -> key2 kv <> key) ->
               r.2 !! key = m2 !! key).
Proof.
  induction l as [|kv0 l IH]; intros m1 m2; cbn [fold_left].
  - split; [tauto|]. split; [intros kv []|reflexivity].
  - case_bool_decide as Hd; cbn [fst snd].
    + destruct (IH (delete kv0.1 m1) (delete (key2 kv0) m2))
        as (IH0 & IH1 & IH2).
      split; [|split].
      * intros key Hk. apply IH0.
        destruct (decide (key = key2 kv0)) as [-> | Hne];
          [apply lookup_delete_eq | now rewrite lookup_delete_ne by congruence].
      * intros kv [<- | Hin] HP; [|eauto]. apply IH0, lookup_delete_eq.
      * intros key Hno.
        rewrite IH2 by (intros kv Hin HP; apply Hno; [now right | exact HP]).
        apply lookup_delete_ne. apply Hno; [now left | exact Hd].
    + destruct (IH m1 m2) as (IH0 & IH1 & IH2). split; [exact IH0|]. split.
      * intros kv [<- | Hin] HP; [contradiction | eauto].
      * intros key Hno. apply IH2. intros kv Hin HP.
        apply Hno; [now right | exact HP].
Qed.

(** What the three scans of [DeleteNetwork] leave. *)
Lemma scan_bucket {V W : Type} (P : string * V -> Prop)
      `{forall kv, Decision (P kv)}
      (g : string * V -> gmap string W -> gmap string W)
      (b : gmap string V) (m2 : gmap string W) k v :
  (fold_left
     (fun (acc : gmap string V * gmap string W) kv =>
        if bool_decide (P kv) then (delete kv.1 acc.1, g kv acc.2) else acc)
     (SM.bucket_items b) (b, m2)).1 !! k = Some v
  <-> b !! k = Some v /\ ~ P (k, v).
Proof.
  destruct (fold_delete_both P g (SM.bucket_items b) b m2) as (H0 & H1 & H2).
  cbn zeta in *. split.
  - intros Hr. destruct (b !! k) as [v'|] eqn:El.
    2:{ rewrite (H0 _ El) in Hr. discriminate. }
    destruct (decide (P (k, v'))) as [HP | HnP].
    + rewrite (H1 k v') in Hr;
        [discriminate | now apply elem_of_bucket_items | exact HP].
    + rewrite H2 in Hr.
      * rewrite El in Hr. injection Hr as <-. now split.
      * intros v'' Hin. apply elem_of_bucket_items in Hin.
        assert (v'' = v') as -> by congruence. exact HnP.
  - intros [El HnP]. rewrite H2; [exact El|].
    intros v' Hin. apply elem_of_bucket_items in Hin.
    assert (v' = v) as -> by congruence. exact HnP.
Qed.

Lemma DeleteNetwork_Ok db name db' :
  SM.DeleteNetwork db name = Ok db' <->
  exists idStr,
    SM.networks_by_name db !! name = Some idStr /\
    db' = SM.mkDB (delete idStr (SM.networks db))
            (delete name (SM.networks_by_name db))
            (fold_left (SM.deleteServersOf idStr) (SM.bucket_items (SM.servers db))
               (SM.servers db, SM.servers_by_name db)).1
            (fold_left (SM.deleteServersOf idStr) (SM.bucket_items (SM.servers db))
               (SM.servers db, SM.servers_by_name db)).2
            (fold_left (SM.deleteNodesOf idStr) (SM.bucket_items (SM.nodes db))
               (SM.nodes db, SM.nodes_by_name db)).1
            (fold_left (SM.deleteNodesOf idStr) (SM.bucket_items (SM.nodes db))
               (SM.nodes db, SM.nodes_by_name db)).2
            (fold_left (SM.deleteConfigsOf idStr)
               (SM.bucket_items (SM.configs db))
               (SM.configs db, SM.configs_by_version db)).1
            (fold_left (SM.deleteConfigsOf idStr)
               (SM.bucket_items (SM.configs db))
               (SM.configs db, SM.configs_by_version db)).2
            (delete idStr (SM.ip_pools db)).
Proof.
  unfold SM.DeleteNetwork.
  destruct (SM.networks_by_name db !! name) as [idStr|].
  - destruct (fold_left (SM.deleteServersOf idStr) _ _) as [s1 s2] eqn:Es.
    destruct (fold_left (SM.deleteNodesOf idStr) _ _) as [n1 n2] eqn:En.
    destruct (fold_left (SM.deleteConfigsOf idStr) _ _) as [c1 c2] eqn:Ec.
    split.
    + intros [= <-]. exists idStr. now rewrite Es, En, Ec.
    + intros (id' & [= <-] & ->). now rewrite Es, En, Ec.
  - split; [discriminate | intros (? & ? & _); discriminate].
Qed.

(** X23.  Deleting a network. [DeleteNetwork] fails with the not-found
    error exactly when the name is not in the name index. After a success,
    with [id] the ID the name led to: the name and the ID are not found
    any more; exactly the server, node and version records of other
    networks remain, unchanged; the network has no server, no nodes and no
    latest version; the index entries built from the deleted server and
    node records are gone and no other entry of these indices has changed;
    the saved pool state of the network is gone; and the name can be given
    to a new network. [DeleteVirtualNetwork] of a manager on this
    database, for a name that is found, also drops the loaded pool. *)
Theorem delete_network_removes_its_records (db db' : SM.DB) (name : string) :
  (SM.DeleteNetwork db name = Err ErrNetworkNotFound <->
   SM.networks_by_name db !! name = None) /\
  (SM.DeleteNetwork db name = Ok db' ->
   exists id,
     SM.networks_by_name db !! name = Some id /\
     SM.GetNetworkByName db' name = Err ErrNetworkNotFound /\
     SM.GetNetworkByID db' id = Err ErrNetworkNotFound /\
     SM.networks db' = delete id (SM.networks db) /\
     SM.networks_by_name db' = delete name (SM.networks_by_name db) /\
     SM.ip_pools db' = delete id (SM.ip_pools db) /\
     (forall k s, SM.servers db' !! k = Some s <->
                  SM.servers db !! k = Some s /\ Server.NetworkID s <> id) /\
     (forall k n, SM.nodes db' !! k = Some n <->
                  SM.nodes db !! k = Some n /\ Node.NetworkID n <> id) /\
     (forall k c, SM.configs db' !! k = Some c <->
                  SM.configs db !! k = Some c /\ ConfigVersion.NetworkID c <> id)
     /\
     SM.GetServerByNetworkID db' id = Err ErrNoServerForNetwork /\
     SM.ListNodesByNetworkID db' id = [] /\
     SM.GetLatestConfigVersion db' id = Err ErrNoConfigVersion /\
     (forall k s, SM.servers db !! k = Some s -> Server.NetworkID s = id ->
                  SM.servers_by_name db' !! SM.nameKey id (Server.Name s) = None)
     /\
     (forall k n, SM.nodes db !! k = Some n -> Node.NetworkID n = id ->
                  SM.nodes_by_name db' !! SM.nameKey id (Node.Name n) = None) /\
     (forall key,
         (forall k s, SM.servers db !! k = Some s -> Server.NetworkID s = id ->
                      SM.nameKey id (Server.Name s) <> key) ->
         SM.servers_by_name db' !! key = SM.servers_by_name db !! key) /\
     (forall key,
         (forall k n, SM.nodes db !! k = Some n -> Node.NetworkID n = id ->
                      SM.nameKey id (Node.Name n) <> key) ->
         SM.nodes_by_name db' !! key = SM.nodes_by_name db !! key) /\
     (forall cidr newID now,
         newID <> "" -> name <> "" ->
         is_ok (SM.CreateNetwork db' name cidr newID now) = true) /\
     (forall vnm network,
         VNM.storage vnm = db ->
         SM.GetNetworkByName db name = Ok network ->
         VNM.DeleteVirtualNetwork vnm name
         = (VNM.mkVNM db' (delete (VirtualNetwork.ID network) (VNM.ipPools vnm)),
            Ok tt))).
Proof.
  split.
  - unfold SM.DeleteNetwork.
    destruct (SM.networks_by_name db !! name) as [idStr|]; [|tauto].
    destruct (fold_left (SM.deleteServersOf idStr) _ _) as [s1 s2].
    destruct (fold_left (SM.deleteNodesOf idStr) _ _) as [n1 n2].
    destruct (fold_left (SM.deleteConfigsOf idStr) _ _) as [c1 c2].
    split; discriminate.
  - intros E. pose proof E as E0.
    apply DeleteNetwork_Ok in E as (id & Hidx & Hdb). exists id.
    set (Ps := fun kv : string * Server.t => Server.NetworkID kv.2 = id).
    set (Pn := fun kv : string * Node.t => Node.NetworkID kv.2 = id).
    set (Pc := fun kv : string * ConfigVersion.t =>
                 ConfigVersion.NetworkID kv.2 = id).
    assert (Hs : forall k s,
               SM.servers db' !! k = Some s
               <-> SM.servers db !! k = Some s /\ Server.NetworkID s <> id).
    { intros k s. rewrite Hdb. cbn [SM.servers].
      exact (scan_bucket Ps
               (fun kv m => delete (SM.nameKey id (Server.Name kv.2)) m)
               (SM.servers db) (SM.servers_by_name db) k s). }
    assert (Hn : forall k n,
               SM.nodes db' !! k = Some n
               <-> SM.nodes db !! k = Some n /\ Node.NetworkID n <> id).
    { intros k n. rewrite Hdb. cbn [SM.nodes].
      exact (scan_bucket Pn
               (fun kv m => delete (SM.nameKey id (Node.Name kv.2)) m)
               (SM.nodes db) (SM.nodes_by_name db) k n). }
    assert (Hc : forall k c,
               SM.configs db' !! k = Some c
               <-> SM.configs db !! k = Some c /\
                   ConfigVersion.NetworkID c <> id).
    { intros k c. rewrite Hdb. cbn [SM.configs].
      exact (scan_bucket Pc (fun _ m => SM.deleteVersionIndexOf id m)
               (SM.configs db) (SM.configs_by_version db) k c). }
    destruct (fold_delete_index Ps
                (fun kv => SM.nameKey id (Server.Name kv.2))
                (SM.bucket_items (SM.servers db)) (SM.servers db)
                (SM.servers_by_name db)) as (_ & Hsi1 & Hsi2).
    destruct (fold_delete_index Pn
                (fun kv => SM.nameKey id (Node.Name kv.2))
                (SM.bucket_items (SM.nodes db)) (SM.nodes db)
                (SM.nodes_by_name db)) as (_ & Hni1 & Hni2).
    cbn zeta in Hsi1, Hsi2, Hni1, Hni2.
    assert (Hbn : SM.networks_by_name db' = delete name (SM.networks_by_name db))
      by now rewrite Hdb.
    assert (Hnw : SM.networks db' = delete id (SM.networks db))
      by now rewrite Hdb.
    assert (Hsb : SM.servers_by_name db'
                  = (fold_left (SM.deleteServersOf id)
                       (SM.bucket_items (SM.servers db))
                       (SM.servers db, SM.servers_by_name db)).2)
      by now rewrite Hdb.
    assert (Hnb : SM.nodes_by_name db'
                  = (fold_left (SM.deleteNodesOf id)
                       (SM.bucket_items (SM.nodes db))
                       (SM.nodes db, SM.nodes_by_name db)).2)
      by now rewrite Hdb.
    split; [exact Hidx|].
    split. { unfold SM.GetNetworkByName. rewrite Hbn.
             now rewrite lookup_delete_eq. }
    split. { unfold SM.GetNetworkByID. rewrite Hnw.
             now rewrite lookup_delete_eq. }
    split; [exact Hnw|]. split; [exact Hbn|].
    split; [now rewrite Hdb|].
    split; [exact Hs|]. split; [exact Hn|]. split; [exact Hc|].
    split.
    { destruct (GetServerByNetworkID_cases db' id)
        as [[Eg _] | (k & s & Hl & Hnid & _)]; [exact Eg|].
      apply Hs in Hl as [_ Hl]. contradiction. }
    split.
    { rewrite ListNodesByNetworkID_filter.
      destruct (filter _ _) as [|[k n] rest] eqn:Ef; [reflexivity|].
      exfalso.
      assert (Hin : (k, n) ∈ filter
                      (fun kv : string * Node.t => Node.NetworkID kv.2 = id)
                      (SM.bucket_items (SM.nodes db')))
        by (rewrite Ef; left).
      apply list_elem_of_filter in Hin as [HP Hin].
      apply elem_of_bucket_items' in Hin. cbn in Hin, HP.
      apply Hn in Hin as [_ Hin]. contradiction. }
    split.
    { rewrite GetLatestConfigVersion_fold.
      destruct (latest_fold id (SM.bucket_items (SM.configs db'))
                  None ltac:(discriminate)) as (_ & _ & H3).
      cbn zeta in H3.
      destruct (fold_left (latestStep id) _ None) as [c|]; [|reflexivity].
      exfalso. destruct (H3 c eq_refl) as [Hnid [? | [k Hin]]]; [discriminate|].
      apply elem_of_bucket_items in Hin. apply Hc in Hin as [_ Hin].
      contradiction. }
    split.
    { intros k s Hl Hnid. rewrite Hsb.
      apply (Hsi1 (k, s)); [now apply elem_of_bucket_items | exact Hnid]. }
    split.
    { intros k n Hl Hnid. rewrite Hnb.
      apply (Hni1 (k, n)); [now apply elem_of_bucket_items | exact Hnid]. }
    split.
    { intros key Hno. rewrite Hsb. apply Hsi2. intros [k s] Hin HP.
      apply elem_of_bucket_items in Hin. exact (Hno k s Hin HP). }
    split.
    { intros key Hno. rewrite Hnb. apply Hni2. intros [k n] Hin HP.
      apply elem_of_bucket_items in Hin. exact (Hno k n Hin HP). }
    split.
    { intros cidr newID now Hid Hname.
      destruct (SM.CreateNetwork db' name cidr newID now) as [[d n]|e] eqn:Ec;
        [reflexivity|]. exfalso.
      assert (Hfree : SM.networks_by_name db' !! name = None)
        by (rewrite Hbn; apply lookup_delete_eq).
      pose proof (proj2 (CreateNetwork_Ok db' name cidr newID now _ _)
                    (conj Hfree (conj Hid (conj Hname (conj eq_refl eq_refl)))))
        as Ec'.
      congruence. }
    intros vnm network Hst Hnet. unfold VNM.DeleteVirtualNetwork.
    rewrite Hst, Hnet. cbn [VNM.storage]. now rewrite E0.
Qed.

(** ** Closed examples *)

Lemma demo_member_ok : servers_ok demo_db_member /\ nodes_ok demo_db_member.
Proof.
  replace demo_db_member with (runStorage SM.emptyDB demo_member_ops)
    by (vm_compute; reflexivity).
  apply runStorage_ok; apply emptyDB_ok.
Qed.

Lemma demo_vnm_member_ok :
  servers_ok (VNM.storage demo_vnm_member) /\
  nodes_ok (VNM.storage demo_vnm_member).
Proof.
  replace (VNM.storage demo_vnm_member)
    with (runStorage SM.emptyDB demo_vnm_member_ops)
    by (vm_compute; reflexivity).
  apply runStorage_ok; apply emptyDB_ok.
Qed.

Lemma restore_of_saved_state_witness :
  NewIPPool "10.0.0.0/24" = Ok pool24 /\
  exists p',
    RestoreIPPool
      (GetState (runPool pool24 [OpAllocate; OpAllocate; OpRelease "10.0.0.2"]))
    = Ok p' /\
    recycled p' = ["10.0.0.2"] /\ nextIndex p' = 3 /\
    exists q', AllocateNodeIP p' = Ok ("10.0.0.2", q').
Proof.
  split; [vm_compute; reflexivity|].
  destruct (restore_of_saved_state "10.0.0.0/24" pool24
              [OpAllocate; OpAllocate; OpRelease "10.0.0.2"])
    as (p' & Hr & _ & Hq & Hn & _ & Hnext & _); [vm_compute; reflexivity|].
  exists p'. split; [exact Hr|].
  split; [rewrite Hq; vm_compute; reflexivity|].
  split; [rewrite Hn; vm_compute; reflexivity|].
  apply (Hnext "10.0.0.2"
           (runPool pool24 [OpAllocate; OpAllocate; OpRelease "10.0.0.2";
                            OpAllocate])).
  vm_compute. reflexivity.
Defined.

Lemma pool_accounting_witness :
  NewIPPool "10.0.0.0/24" = Ok pool24 /\
  Forall allocRelease [OpAllocate; OpAllocate; OpRelease "10.0.0.2"] /\
  Z.of_nat (size (allocated
     (runPool pool24 [OpAllocate; OpAllocate; OpRelease "10.0.0.2"])))
  + Z.of_nat (length (recycled
     (runPool pool24 [OpAllocate; OpAllocate; OpRelease "10.0.0.2"])))
  = nextIndex (runPool pool24 [OpAllocate; OpAllocate; OpRelease "10.0.0.2"])
    - 1.
Proof.
  split; [vm_compute; reflexivity|]. split; [repeat constructor|].
  apply (pool_accounting "10.0.0.0/24" pool24
           [OpAllocate; OpAllocate; OpRelease "10.0.0.2"]).
  - vm_compute. reflexivity.
  - repeat constructor.
Defined.

Lemma allocated_inside_block_witness :
  ParseCIDR "10.0.0.0/24" = Some net24 /\
  NewIPPool "10.0.0.0/24" = Ok pool24 /\
  Forall allocRelease [OpAllocate] /\
  AllocateNodeIP (runPool pool24 [OpAllocate])
  = Ok ("10.0.0.3", runPool pool24 [OpAllocate; OpAllocate]) /\
  exists i, 2 <= i <= 2 ^ (32 - maskOnes net24) - 2 /\
            "10.0.0.3" = IPString (bytesOf (ipVal (netIP net24) + i)).
Proof.
  split; [vm_compute; reflexivity|]. split; [vm_compute; reflexivity|].
  split; [repeat constructor|]. split; [vm_compute; reflexivity|].
  apply (allocated_inside_block "10.0.0.0/24" net24 pool24 [OpAllocate]
           "10.0.0.3" (runPool pool24 [OpAllocate; OpAllocate])).
  - vm_compute. reflexivity.
  - vm_compute. reflexivity.
  - repeat constructor.
  - vm_compute. reflexivity.
Defined.

Lemma created_network_is_found_witness :
  texts_ok ["net1"; "10.0.0.0/24"; "N1"] = true /\
  SM.CreateNetwork SM.emptyDB "net1" "10.0.0.0/24" "N1" 0
  = Ok (demo_db_net, demo_net) /\
  SM.GetNetworkByName demo_db_net "net1" = Ok demo_net /\
  SM.GetNetworkByID demo_db_net "N1" = Ok demo_net.
Proof.
  assert (Ht : texts_ok ["net1"; "10.0.0.0/24"; "N1"] = true)
    by (vm_compute; reflexivity).
  assert (Hc : SM.CreateNetwork SM.emptyDB "net1" "10.0.0.0/24" "N1" 0
               = Ok (demo_db_net, demo_net)) by (vm_compute; reflexivity).
  split; [exact Ht|]. split; [exact Hc|].
  destruct (proj2 (created_network_is_found SM.emptyDB demo_db_net "net1"
                     "10.0.0.0/24" "N1" 0 demo_net Ht) Hc)
    as (_ & Hname & Hid & _).
  split; [exact Hname | exact Hid].
Defined.

Lemma networks_are_listed_witness :
  SM.CreateNetwork SM.emptyDB "net1" "10.0.0.0/24" "N1" 0
  = Ok (demo_db_net, demo_net) /\
  SM.networks SM.emptyDB !! "N1" = None /\
  SM.ListNetworks demo_db_net ≡ₚ demo_net :: SM.ListNetworks SM.emptyDB.
Proof.
  split; [vm_compute; reflexivity|]. split; [reflexivity|].
  apply (proj2 (proj2 (networks_are_listed SM.emptyDB))
           "net1" "10.0.0.0/24" "N1" 0).
  - vm_compute. reflexivity.
  - reflexivity.
Defined.

Lemma one_server_per_network_witness :
  texts_ok ["N1"; "srv"; "vpn.example.com"; "10.0.0.1"; "hubpriv"; "hubpub";
            "S1"] = true /\
  SM.CreateServer demo_db_net "N1" "srv" "vpn.example.com" 51820 "10.0.0.1"
    "hubpriv" "hubpub" "S1" 1 = Ok (demo_db_hub, demo_srv) /\
  SM.GetServerByNetworkID demo_db_net "N1" = Err ErrNoServerForNetwork /\
  SM.GetServerByNetworkID demo_db_hub "N1" = Ok demo_srv /\
  SM.CreateServer demo_db_hub "N1" "other" "vpn2.example.com" 51821
    "10.0.0.1" "priv2" "pub2" "S2" 2 = Err ErrServerAlreadyExists.
Proof.
  assert (Ht : texts_ok ["N1"; "srv"; "vpn.example.com"; "10.0.0.1";
                         "hubpriv"; "hubpub"; "S1"] = true)
    by (vm_compute; reflexivity).
  assert (Hc : SM.CreateServer demo_db_net "N1" "srv" "vpn.example.com" 51820
                 "10.0.0.1" "hubpriv" "hubpub" "S1" 1
               = Ok (demo_db_hub, demo_srv)) by (vm_compute; reflexivity).
  split; [exact Ht|]. split; [exact Hc|].
  destruct (one_server_per_network demo_db_net demo_db_hub "N1" "srv"
              "vpn.example.com" 51820 "10.0.0.1" "hubpriv" "hubpub" "S1" 1
              demo_srv Ht Hc) as (_ & Hbefore & Hafter & _ & Hsecond & _).
  split; [exact Hbefore|]. split; [exact Hafter|]. apply Hsecond.
Defined.

Lemma node_names_are_per_network_witness :
  texts_ok ["N1"; "P1"; "p1.example.com"; "10.0.0.2"; NodeTypePeer; "privP1";
            "pubP1"; "M1"] = true /\
  SM.CreateNode demo_db_hub "N1" "P1" "p1.example.com" 51821 "10.0.0.2"
    NodeTypePeer "privP1" "pubP1" "M1" 2 = Ok (demo_db_member, demo_P1) /\
  SM.GetNodeByName demo_db_member "N1" "P1" = Ok demo_P1 /\
  SM.CreateNode demo_db_member "N1" "P1" "" 51820 "10.0.0.3" NodeTypeRoute
    "priv2" "pub2" "M2" 3 = Err ErrNodeNameExists.
Proof.
  assert (Ht : texts_ok ["N1"; "P1"; "p1.example.com"; "10.0.0.2";
                         NodeTypePeer; "privP1"; "pubP1"; "M1"] = true)
    by (vm_compute; reflexivity).
  assert (Hc : SM.CreateNode demo_db_hub "N1" "P1" "p1.example.com" 51821
                 "10.0.0.2" NodeTypePeer "privP1" "pubP1" "M1" 2
               = Ok (demo_db_member, demo_P1)) by (vm_compute; reflexivity).
  split; [exact Ht|]. split; [exact Hc|].
  destruct (node_names_are_per_network demo_db_hub demo_db_member "N1" "P1"
              "p1.example.com" 51821 "10.0.0.2" NodeTypePeer "privP1" "pubP1"
              "M1" 2 demo_P1 Ht Hc) as (_ & Hfound & Htaken & _).
  split; [exact Hfound | apply Htaken].
Defined.

Lemma deleted_node_frees_its_name_witness :
  SM.DeleteNode demo_db_member "N1" "P1" = Ok demo_db_hub /\
  SM.GetNodeByName demo_db_hub "N1" "P1" = Err ErrNodeNotFound /\
  SM.DeleteNode demo_db_hub "N1" "P1" = Err ErrNodeNotFound.
Proof.
  assert (Hd : SM.DeleteNode demo_db_member "N1" "P1" = Ok demo_db_hub)
    by (vm_compute; reflexivity).
  split; [exact Hd|].
  destruct (proj2 (deleted_node_frees_its_name demo_db_member demo_db_hub
                     "N1" "P1") Hd) as (Hgone & Hagain & _).
  split; [exact Hgone | exact Hagain].
Defined.

Lemma nodes_are_listed_witness :
  texts_ok ["N1"; "P1"; "p1.example.com"; "10.0.0.2"; NodeTypePeer; "privP1";
            "pubP1"; "M1"] = true /\
  SM.CreateNode demo_db_hub "N1" "P1" "p1.example.com" 51821 "10.0.0.2"
    NodeTypePeer "privP1" "pubP1" "M1" 2 = Ok (demo_db_member, demo_P1) /\
  SM.nodes demo_db_hub !! "M1" = None /\
  SM.ListNodesByNetworkID demo_db_member "N1"
  ≡ₚ demo_P1 :: SM.ListNodesByNetworkID demo_db_hub "N1".
Proof.
  split; [vm_compute; reflexivity|].
  split; [vm_compute; reflexivity|]. split; [vm_compute; reflexivity|].
  apply (proj2 (proj2 (nodes_are_listed demo_db_hub "N1"))
           "P1" "p1.example.com" 51821 "10.0.0.2" NodeTypePeer "privP1"
           "pubP1" "M1" 2 demo_db_member demo_P1).
  - vm_compute. reflexivity.
  - vm_compute. reflexivity.
  - vm_compute. reflexivity.
Defined.

Lemma storage_keeps_records_consistent_witness :
  Forall (fun o => op_ok o = true) demo_member_ops /\
  SM.servers (runStorage SM.emptyDB demo_member_ops) !! "S1" = Some demo_srv /\
  SM.nodes (runStorage SM.emptyDB demo_member_ops) !! "M1" = Some demo_P1 /\
  SM.nodes_by_name (runStorage SM.emptyDB demo_member_ops)
    !! SM.nameKey "N1" "P1" = Some "M1" /\
  servers_ok (runStorage SM.emptyDB demo_member_ops) /\
  nodes_ok (runStorage SM.emptyDB demo_member_ops).
Proof.
  assert (Hops : Forall (fun o => op_ok o = true) demo_member_ops).
  { constructor; [vm_compute; reflexivity|].
    constructor; [vm_compute; reflexivity|].
    constructor; [vm_compute; reflexivity|]. constructor. }
  assert (Hsrv : SM.servers (runStorage SM.emptyDB demo_member_ops) !! "S1"
                 = Some demo_srv) by (vm_compute; reflexivity).
  assert (Hnode : SM.nodes (runStorage SM.emptyDB demo_member_ops) !! "M1"
                  = Some demo_P1) by (vm_compute; reflexivity).
  destruct (storage_keeps_records_consistent demo_member_ops Hops)
    as (Hs & Hn & _).
  split; [exact Hops|]. split; [exact Hsrv|]. split; [exact Hnode|].
  split; [|split; [exact Hs | exact Hn]].
  destruct (Hn "M1" demo_P1 Hnode) as (_ & _ & Hidx). exact Hidx.
Defined.

Lemma update_server_changes_endpoint_only_witness :
  servers_ok (VNM.storage demo_vnm_member) /\
  SM.GetNetworkByName (VNM.storage demo_vnm_member) "testnet"
  = Ok demo_testnet /\
  SM.GetServerByNetworkID (VNM.storage demo_vnm_member) "N1"
  = Ok demo_server1 /\
  SM.servers_by_name (VNM.storage demo_vnm_member)
    !! SM.nameKey "N1" "server1" = Some "S1" /\
  is_ok (IsValidPublicAddress "192.168.1.9") = true /\
  text_ok "192.168.1.9" = true /\
  exists vnm',
    VNM.UpdateServer demo_vnm_member "testnet" "192.168.1.9" 51999 7
    = (vnm', Ok (Server.mk "S1" "N1" "server1" "192.168.1.9" 51999
                   "10.0.0.1" "hubpriv" "hubpub" 1 7)) /\
    VNM.GetServer vnm' "testnet"
    = Ok (Server.mk "S1" "N1" "server1" "192.168.1.9" 51999
            "10.0.0.1" "hubpriv" "hubpub" 1 7).
Proof.
  split; [apply demo_vnm_member_ok|].
  split; [vm_compute; reflexivity|]. split; [vm_compute; reflexivity|].
  split; [vm_compute; reflexivity|]. split; [vm_compute; reflexivity|].
  split; [vm_compute; reflexivity|].
  destruct (update_server_changes_endpoint_only demo_vnm_member "testnet"
              "192.168.1.9" 51999 7 demo_testnet demo_server1)
    as [_ Hok].
  - apply demo_vnm_member_ok.
  - vm_compute. reflexivity.
  - vm_compute. reflexivity.
  - vm_compute. reflexivity.
  - destruct Hok as (vnm' & Hu & Hg & _);
      [vm_compute; reflexivity | vm_compute; reflexivity|].
    exists vnm'. split; [exact Hu | exact Hg].
Defined.

Lemma update_node_keeps_identity_witness :
  nodes_ok (VNM.storage demo_vnm_member) /\
  SM.GetNetworkByName (VNM.storage demo_vnm_member) "testnet"
  = Ok demo_testnet /\
  SM.GetNodeByName (VNM.storage demo_vnm_member) "N1" "node1"
  = Ok demo_node /\
  VNM.UpdateNode demo_vnm_member "testnet" "node1" "" 51820 NodeTypePeer 7
  = (demo_vnm_member, Err ErrPeerNeedsAddress) /\
  texts_ok [""; NodeTypeRoute] = true /\
  exists vnm',
    VNM.UpdateNode demo_vnm_member "testnet" "node1" "" 51999 NodeTypeRoute 7
    = (vnm', Ok (Node.mk "M1" "N1" "node1" "" 51999 "10.0.0.2" NodeTypeRoute
                   "priv" "pub" 2 7)) /\
    VNM.GetNode vnm' "testnet" "node1"
    = Ok (Node.mk "M1" "N1" "node1" "" 51999 "10.0.0.2" NodeTypeRoute
            "priv" "pub" 2 7).
Proof.
  split; [apply demo_vnm_member_ok|].
  split; [vm_compute; reflexivity|]. split; [vm_compute; reflexivity|].
  split.
  - destruct (update_node_keeps_identity demo_vnm_member "testnet" "node1" ""
                51820 NodeTypePeer 7 demo_testnet demo_node)
      as (Hpeer & _).
    + apply demo_vnm_member_ok.
    + vm_compute. reflexivity.
    + vm_compute. reflexivity.
    + apply Hpeer; reflexivity.
  - split; [vm_compute; reflexivity|].
    destruct (update_node_keeps_identity demo_vnm_member "testnet" "node1" ""
                51999 NodeTypeRoute 7 demo_testnet demo_node)
      as (_ & _ & Hok).
    + apply demo_vnm_member_ok.
    + vm_compute. reflexivity.
    + vm_compute. reflexivity.
    + destruct Hok as (vnm' & Hu & Hg & _).
      * left. split; [discriminate | reflexivity].
      * vm_compute. reflexivity.
      * exists vnm'. split; [exact Hu | exact Hg].
Defined.

Lemma delete_node_releases_address_witness :
  nodes_ok (VNM.storage demo_vnm_member) /\
  SM.GetNetworkByName (VNM.storage demo_vnm_member) "testnet"
  = Ok demo_testnet /\
  SM.GetNodeByName (VNM.storage demo_vnm_member) "N1" "node1"
  = Ok demo_node /\
  VNM.ipPools demo_vnm_member !! "N1" = Some (runPool pool24 [OpAllocate]) /\
  exists vnm',
    VNM.DeleteNode demo_vnm_member "testnet" "node1" = (vnm', Ok tt) /\
    VNM.GetNode vnm' "testnet" "node1" = Err ErrNodeNotFound /\
    VNM.ipPools vnm' !! "N1"
    = Some (runPool pool24 [OpAllocate; OpRelease "10.0.0.2"]).
Proof.
  split; [apply demo_vnm_member_ok|].
  split; [vm_compute; reflexivity|]. split; [vm_compute; reflexivity|].
  split; [vm_compute; reflexivity|].
  destruct (delete_node_releases_address demo_vnm_member "testnet" "node1"
              demo_testnet demo_node (runPool pool24 [OpAllocate]))
    as (vnm' & Hd & Hp & _ & _ & _ & Hg & _).
  - apply demo_vnm_member_ok.
  - vm_compute. reflexivity.
  - vm_compute. reflexivity.
  - reflexivity.
  - discriminate.
  - vm_compute. reflexivity.
  - exists vnm'. split; [exact Hd|]. split; [exact Hg|].
    rewrite Hp. vm_compute. reflexivity.
Defined.

Lemma restart_restores_saved_pool_witness :
  NewIPPool "10.0.0.0/24" = Ok pool24 /\
  VNM.ipPools (VNM.NewVirtualNetworkManager demo_db_pool_saved) !! "N1" = None
  /\
  SM.ip_pools demo_db_pool_saved !! "N1"
  = Some (GetState (runPool pool24 [OpAllocate])) /\
  exists p',
    VNM.ensureIPPool (VNM.NewVirtualNetworkManager demo_db_pool_saved)
      "N1" "10.0.0.0/24"
    = (VNM.setPool (VNM.NewVirtualNetworkManager demo_db_pool_saved) "N1" p',
       Ok tt) /\
    nextIndex p' = 2 /\
    exists q', AllocateNodeIP p' = Ok ("10.0.0.3", q').
Proof.
  split; [vm_compute; reflexivity|]. split; [reflexivity|].
  split; [vm_compute; reflexivity|].
  destruct (restart_restores_saved_pool
              (VNM.NewVirtualNetworkManager demo_db_pool_saved)
              "N1" "10.0.0.0/24" "10.0.0.0/24" pool24 [OpAllocate])
    as (p' & He & _ & _ & _ & Hn & _ & Hnext & _).
  - vm_compute. reflexivity.
  - reflexivity.
  - vm_compute. reflexivity.
  - exists p'. split; [exact He|].
    split; [rewrite Hn; vm_compute; reflexivity|].
    apply (Hnext "10.0.0.3" (runPool pool24 [OpAllocate; OpAllocate])).
    vm_compute. reflexivity.
Defined.

Lemma restart_rebuilds_pool_from_records_witness :
  VNM.ipPools (VNM.NewVirtualNetworkManager demo_db_member) !! "N1" = None /\
  SM.ip_pools demo_db_member !! "N1" = None /\
  NewIPPool "10.0.0.0/24" = Ok pool24 /\
  In demo_P1 (SM.ListNodesByNetworkID demo_db_member "N1") /\
  exists pool vnm',
    VNM.ensureIPPool (VNM.NewVirtualNetworkManager demo_db_member)
      "N1" "10.0.0.0/24" = (vnm', Ok tt) /\
    VNM.ipPools vnm' = <["N1" := pool]> ∅ /\
    is_allocated pool "10.0.0.2" = true.
Proof.
  split; [reflexivity|]. split; [reflexivity|].
  split; [vm_compute; reflexivity|].
  assert (Hin : In demo_P1 (SM.ListNodesByNetworkID demo_db_member "N1"))
    by (vm_compute; left; reflexivity).
  split; [exact Hin|].
  destruct (restart_rebuilds_pool_from_records
              (VNM.NewVirtualNetworkManager demo_db_member)
              "N1" "10.0.0.0/24" pool24)
    as (pool & vnm' & He & Hp & _ & _ & _ & _ & _ & Hmarked & _).
  - reflexivity.
  - reflexivity.
  - vm_compute. reflexivity.
  - discriminate.
  - intros server H. vm_compute in H. injection H as <-. discriminate.
  - exists pool, vnm'. split; [exact He|]. split; [exact Hp|].
    apply (Hmarked demo_P1 Hin). discriminate.
Defined.

Lemma numbered_demo_member : numbered demo_db_member "N1" 0.
Proof. split; [lia | vm_compute; constructor]. Qed.

Lemma numbered_demo_saved : numbered demo_db_saved "N1" 1.
Proof. split; [lia | vm_compute; reflexivity]. Qed.

Lemma versions_are_numbered_consecutively_witness :
  numbered demo_db_member "N1" 0 /\
  SM.configs demo_db_member !! "C1" = None /\
  exists db',
    SM.SaveConfigVersion demo_db_member "N1" "digest" ∅ "C1" 3
    = Ok (db', ConfigVersion.mk "C1" "N1" (0 + 1) "digest" ∅ 3) /\
    numbered db' "N1" (0 + 1).
Proof.
  split; [apply numbered_demo_member|]. split; [reflexivity|].
  destruct (proj2 (versions_are_numbered_consecutively demo_db_member "N1"
                     "digest" ∅ "C1" 3 0))
    as (db' & Hs & Hn & _).
  - apply numbered_demo_member.
  - lia.
  - discriminate.
  - reflexivity.
  - exists db'. split; [exact Hs | exact Hn].
Defined.

Lemma history_is_in_version_order_witness :
  SM.GetNetworkByName demo_db_saved "net1" = Ok demo_net /\
  numbered demo_db_saved "N1" 1 /\
  WCG.GetConfigHistory demo_db_saved "net1"
  = Ok (SM.ListConfigVersions demo_db_saved "N1") /\
  map ConfigVersion.Version (SM.ListConfigVersions demo_db_saved "N1")
  = seqZ 1 1.
Proof.
  assert (Hnet : SM.GetNetworkByName demo_db_saved "net1" = Ok demo_net)
    by (vm_compute; reflexivity).
  split; [exact Hnet|]. split; [apply numbered_demo_saved|].
  destruct (proj2 (history_is_in_version_order demo_db_saved "net1" demo_net)
              Hnet) as (Hh & _ & _ & Hk).
  split; [exact Hh|]. apply (Hk 1 numbered_demo_saved).
Defined.

Lemma stored_versions_are_found_witness :
  SM.GetNetworkByName demo_db_saved "net1" = Ok demo_net /\
  numbered demo_db_saved "N1" 1 /\
  (exists key c,
      SM.configs demo_db_saved !! key = Some c /\
      WCG.GetConfig demo_db_saved "net1" 1 = Ok (Some c)) /\
  WCG.GetConfig demo_db_saved "net1" 2 = Ok None.
Proof.
  assert (Hnet : SM.GetNetworkByName demo_db_saved "net1" = Ok demo_net)
    by (vm_compute; reflexivity).
  split; [exact Hnet|]. split; [apply numbered_demo_saved|].
  destruct (proj2 (stored_versions_are_found demo_db_saved "net1" demo_net 1)
              Hnet numbered_demo_saved) as (Hin & Hout & _).
  split.
  - destruct (Hin 1 ltac:(lia)) as (key & c & Hl & _ & _ & Hg & _).
    exists key, c. split; [exact Hl | exact Hg].
  - apply Hout. lia.
Defined.

Lemma generated_documents_by_name_witness :
  SM.GetNetworkByName demo_db_member "net1" = Ok demo_net /\
  SM.GetServerByNetworkID demo_db_member "N1" = Ok demo_srv /\
  nodes_ok demo_db_member /\
  In demo_P1 (SM.ListNodesByNetworkID demo_db_member "N1") /\
  exists configs,
    WCG.GenerateConfigs (hasher := textDigest) demo_db_member "net1"
    = Ok (configs, WCG.calculateConfigHash (hasher := textDigest) configs) /\
    configs !! "P1"
    = Some (WCG.generateNodeConfig demo_net demo_srv demo_P1
              (SM.ListNodesByNetworkID demo_db_member "N1")) /\
    is_Some (configs !! "srv").
Proof.
  assert (Hnet : SM.GetNetworkByName demo_db_member "net1" = Ok demo_net)
    by (vm_compute; reflexivity).
  assert (Hsrv : SM.GetServerByNetworkID demo_db_member "N1" = Ok demo_srv)
    by (vm_compute; reflexivity).
  assert (Hin : In demo_P1 (SM.ListNodesByNetworkID demo_db_member "N1"))
    by (vm_compute; left; reflexivity).
  split; [exact Hnet|]. split; [exact Hsrv|].
  split; [apply demo_member_ok|]. split; [exact Hin|].
  destruct (proj2 (generated_documents_by_name (hasher := textDigest)
                     demo_db_member "net1" demo_net) Hnet) as [_ Hgen].
  destruct (Hgen demo_srv Hsrv) as (configs & Hg & Hnode & _ & Hkeys).
  exists configs. split; [exact Hg|]. split.
  - apply (Hnode (proj2 demo_member_ok) demo_P1 Hin).
  - apply Hkeys. left. reflexivity.
Defined.

Lemma create_virtual_network_registers_pool_witness :
  is_ok (IsValidNetworkName "testnet") = true /\
  is_ok (IsValidCIDR "10.0.0.0/24") = true /\
  NewIPPool "10.0.0.0/24" = Ok pool24 /\
  texts_ok ["testnet"; "10.0.0.0/24"; "N1"] = true /\
  exists vnm',
    VNM.CreateVirtualNetwork (VNM.NewVirtualNetworkManager SM.emptyDB)
      "testnet" "10.0.0.0/24" "N1" 0 = (vnm', Ok demo_testnet) /\
    VNM.GetVirtualNetwork vnm' "testnet" = Ok demo_testnet /\
    VNM.ipPools vnm' = <["N1" := pool24]> ∅.
Proof.
  split; [vm_compute; reflexivity|]. split; [vm_compute; reflexivity|].
  split; [vm_compute; reflexivity|]. split; [vm_compute; reflexivity|].
  destruct (create_virtual_network_registers_pool
              (VNM.NewVirtualNetworkManager SM.emptyDB)
              "testnet" "10.0.0.0/24" "N1" 0) as (_ & _ & _ & Hok).
  destruct (Hok pool24) as [_ Hnew].
  - vm_compute. reflexivity.
  - vm_compute. reflexivity.
  - vm_compute. reflexivity.
  - destruct Hnew as (vnm' & Hc & Hg & Hp & _).
    + reflexivity.
    + discriminate.
    + discriminate.
    + vm_compute. reflexivity.
    + exists vnm'. split; [exact Hc|]. split; [exact Hg | exact Hp].
Defined.

Lemma create_server_gets_hub_address_witness :
  SM.GetNetworkByName (VNM.storage demo_vnm_net) "testnet" = Ok demo_testnet /\
  is_ok (IsValidPublicAddress "192.168.1.1") = true /\
  VNM.ipPools demo_vnm_net !! "N1" = Some pool24 /\
  texts_ok ["server1"; "192.168.1.1"; "hubpriv"; "hubpub"; "S1"] = true /\
  key_ok (SM.nameKey "N1" "server1") = true /\
  exists vnm',
    VNM.CreateServer demo_vnm_net "testnet" "server1" "192.168.1.1" 0
      (Ok (mkKeys "hubpriv" "hubpub")) "S1" 1 = (vnm', Ok demo_server1) /\
    VNM.GetServer vnm' "testnet" = Ok demo_server1 /\
    Server.VirtualIP demo_server1 = GetServerIP pool24.
Proof.
  split; [vm_compute; reflexivity|]. split; [vm_compute; reflexivity|].
  split; [vm_compute; reflexivity|]. split; [vm_compute; reflexivity|].
  split; [vm_compute; reflexivity|].
  destruct (create_server_gets_hub_address demo_vnm_net "testnet" "server1"
              "192.168.1.1" 0 "S1" 1 demo_testnet pool24) as [_ Hok].
  - vm_compute. reflexivity.
  - vm_compute. reflexivity.
  - vm_compute. reflexivity.
  - destruct (Hok (mkKeys "hubpriv" "hubpub")) as (vnm' & Hc & Hg & _).
    + eexists. vm_compute. reflexivity.
    + vm_compute. reflexivity.
    + vm_compute. reflexivity.
    + discriminate.
    + discriminate.
    + vm_compute. reflexivity.
    + vm_compute. reflexivity.
    + exists vnm'. split; [exact Hc|]. split; [exact Hg | reflexivity].
Defined.

Lemma create_node_takes_next_address_witness :
  SM.GetNetworkByName (VNM.storage demo_vnm_hub) "testnet" = Ok demo_testnet /\
  VNM.ipPools demo_vnm_hub !! "N1" = Some pool24 /\
  AllocateNodeIP pool24 = Ok ("10.0.0.2", runPool pool24 [OpAllocate]) /\
  texts_ok ["node1"; ""; ""; "priv"; "pub"; "M1"] = true /\
  key_ok (SM.nameKey "N1" "node1") = true /\
  exists vnm',
    VNM.CreateNode demo_vnm_hub "testnet" "node1" "" 0 ""
      (Ok (mkKeys "priv" "pub")) "M1" 2 = (vnm', Ok demo_node) /\
    VNM.GetNode vnm' "testnet" "node1" = Ok demo_node /\
    VNM.ipPools vnm'
    = <["N1" := runPool pool24 [OpAllocate]]> (VNM.ipPools demo_vnm_hub).
Proof.
  split; [vm_compute; reflexivity|]. split; [vm_compute; reflexivity|].
  split; [vm_compute; reflexivity|]. split; [vm_compute; reflexivity|].
  split; [vm_compute; reflexivity|].
  destruct (create_node_takes_next_address demo_vnm_hub "testnet" "node1" ""
              0 "" "M1" 2 demo_testnet pool24) as [_ Hok].
  - vm_compute. reflexivity.
  - left. split; [reflexivity | discriminate].
  - vm_compute. reflexivity.
  - destruct (Hok "10.0.0.2" (runPool pool24 [OpAllocate])) as [Hnew _];
      [vm_compute; reflexivity|].
    destruct (Hnew (mkKeys "priv" "pub")) as (vnm' & Hc & Hg & Hp & _).
    + eexists. vm_compute. reflexivity.
    + vm_compute. reflexivity.
    + discriminate.
    + discriminate.
    + vm_compute. reflexivity.
    + vm_compute. reflexivity.
    + exists vnm'. split; [exact Hc|]. split; [exact Hg | exact Hp].
Defined.

Lemma delete_network_removes_its_records_witness :
  SM.DeleteNetwork demo_db_grown "net1" = Ok SM.emptyDB /\
  exists id,
    SM.networks_by_name demo_db_grown !! "net1" = Some id /\
    SM.GetNetworkByName SM.emptyDB "net1" = Err ErrNetworkNotFound /\
    SM.ListNodesByNetworkID SM.emptyDB id = [] /\
    SM.GetServerByNetworkID SM.emptyDB id = Err ErrNoServerForNetwork.
Proof.
  assert (Hd : SM.DeleteNetwork demo_db_grown "net1" = Ok SM.emptyDB)
    by (vm_compute; reflexivity).
  split; [exact Hd|].
  destruct (proj2 (delete_network_removes_its_records demo_db_grown
                     SM.emptyDB "net1") Hd)
    as (id & Hidx & Hgone & _ & _ & _ & _ & _ & _ & _ & Hsrv & Hnodes & _).
  exists id. split; [exact Hidx|]. split; [exact Hgone|].
  split; [exact Hnodes | exact Hsrv].
Defined.
